(** * Wishbone flash test benches: bus transactor, flash command sequencer,
      scenario driver

    A shallow embedding of [bench/cpp/wbflash_tb.h], [spixpress_tb.cpp],
    [dualflexpress_tb.cpp] and [qspiflash_tb.cpp].

    The C++ test bench is single threaded and advances a Verilator model
    clock tick by clock tick.  It is embedded as state-passing code in a
    small monad whose state is the test bench object: the signals of
    [m_core], the latched fault flags, and the history of everything the
    run did that can be seen from outside (clock ticks, lines printed,
    configuration port calls).  A failed [assert] and [exit] are results
    of their own; loops with no bound in the source take fuel. *)

From Stdlib Require Import ZArith List Bool String Lia.
Import ListNotations.
Set Warnings "-notation-for-abbreviation".
Local Open Scope string_scope.
Local Open Scope list_scope.
Local Open Scope Z_scope.

(** ** Machine integers *)

(** [unsigned]: 32 bits, arithmetic modulo 2^32. *)
Definition wrap32 (z : Z) : Z := z mod 4294967296.

(** [int]: 32 bits, two's complement.  Signed overflow, which C++ leaves
    undefined, wraps around here as it does on the targets of the bench. *)
Definition swrap32 (z : Z) : Z := (z + 2147483648) mod 4294967296 - 2147483648.

Definition INT_MAX : Z := 2147483647.

(** ** Signals of the device under test *)

(** Wishbone request signals, written by the test bench only. *)
Record WbIn : Type := mkWbIn {
  i_wb_cyc : bool;
  i_wb_data_stb : bool;
  i_wb_ctrl_stb : bool;
  i_wb_we : bool;
  i_wb_addr : Z;
  i_wb_data : Z
}.

(** Wishbone response signals, written by the device only. *)
Record WbOut : Type := mkWbOut {
  o_wb_stall : bool;
  o_wb_ack : bool;
  o_wb_data : Z
}.

(** What a run leaves behind, newest event first in the state. *)
Inductive Event : Type :=
| EvTick (i : WbIn) (o : WbOut)      (* one clock: inputs held, outputs seen after *)
| EvPrintf (fmt : string) (args : list Z)  (* a printf, its newline dropped *)
| EvCfgWrite (v : Z)                 (* cfg_write(v) called *)
| EvCfgRead (r : Z).                 (* cfg_read() returned r *)

Definition is_tick (e : Event) : bool :=
  match e with EvTick _ _ => true | _ => false end.

Definition is_cfg (e : Event) : bool :=
  match e with EvCfgWrite _ | EvCfgRead _ => true | _ => false end.

Definition BOMBCOUNT : Z := 2048.

Section Bench.

(** The Verilated design together with the flash simulator wired to its SPI
    pins: its hidden state and one clock of it.  [TESTB<VA>::tick()]
    (testb.h) and the simulators are not part of the sources; the flash
    specific [tick()] overrides feed the simulator's answer to the design
    and then call the parent's tick, which is what [TESTB_tick] stands for.
    The design never writes its own inputs. *)
Context {Env : Type}.
Variable TESTB_tick : Env -> WbIn -> Env * WbOut.

(** Fuel for the loops the source does not bound. *)
Variable fuel : nat.

(** The test bench object.  [m_bomb] is the public member of [WBFLASH_TB];
    [sub_m_bomb] is the private [m_bomb] the flash specific subclasses
    declare again. *)
Record TB : Type := mkTB {
  m_in : WbIn;
  m_out : WbOut;
  m_env : Env;
  m_bomb : bool;
  m_ack_expected : bool;
  sub_m_bomb : bool;
  events : list Event
}.

(** ** Results and the monad *)

Inductive Res (A : Type) : Type :=
| Ok (a : A) (s : TB)          (* returned *)
| AssertFail (s : TB)          (* an assert failed: the process aborts *)
| Exited (code : Z) (s : TB)   (* exit(code) *)
| OutOfFuel.                   (* still running when the fuel ran out *)

Arguments Ok {A} a s.
Arguments AssertFail {A} s.
Arguments Exited {A} code s.
Arguments OutOfFuel {A}.

Definition M (A : Type) : Type := TB -> Res A.

Definition ret {A} (a : A) : M A := fun s => Ok a s.

Definition bind {A B} (m : M A) (k : A -> M B) : M B :=
  fun s =>
    match m s with
    | Ok a s' => k a s'
    | AssertFail s' => AssertFail s'
    | Exited c s' => Exited c s'
    | OutOfFuel => OutOfFuel
    end.

Notation "x <- c1 ;; c2" := (bind c1 (fun x => c2))
  (at level 61, c1 at next level, right associativity).
Notation "c1 ;; c2" := (bind c1 (fun _ => c2))
  (at level 61, right associativity).

Definition gets {A} (f : TB -> A) : M A := fun s => Ok (f s) s.

Definition assert (b : bool) : M unit :=
  fun s => if b then Ok tt s else AssertFail s.

Definition exit {A} (code : Z) : M A := fun s => Exited code s.

Definition emit (e : Event) : M unit :=
  fun s => Ok tt (mkTB (m_in s) (m_out s) (m_env s) (m_bomb s)
                       (m_ack_expected s) (sub_m_bomb s) (e :: events s)).

Definition printf (fmt : string) (args : list Z) : M unit :=
  emit (EvPrintf fmt args).

(** The state a result carries, if any. *)
Definition state_of {A} (r : Res A) : option TB :=
  match r with
  | Ok _ s | AssertFail s | Exited _ s => Some s
  | OutOfFuel => None
  end.

(** [while (cond) body], the locals of the loop in [l].  The condition may
    change locals (as [errcount++] does) but not the bench. *)
Fixpoint while_ {L : Type} (n : nat) (cond : L -> TB -> bool * L)
    (body : L -> M L) (l : L) : M L :=
  fun s =>
    let (c, l1) := cond l s in
    if c then
      match n with
      | O => OutOfFuel
      | S n' =>
          match body l1 s with
          | Ok l2 s' => while_ n' cond body l2 s'
          | AssertFail s' => AssertFail s'
          | Exited c' s' => Exited c' s'
          | OutOfFuel => OutOfFuel
          end
      end
    else Ok l1 s.

(** [do body while (cond)]. *)
Definition do_while {L : Type} (n : nat) (body : L -> M L)
    (cond : L -> TB -> bool * L) (l : L) : M L :=
  l1 <- body l ;; while_ n cond body l1.

(** ** Writing the request signals *)

Definition upd_in (f : WbIn -> WbIn) : M unit :=
  fun s => Ok tt (mkTB (f (m_in s)) (m_out s) (m_env s) (m_bomb s)
                       (m_ack_expected s) (sub_m_bomb s) (events s)).

Definition set_cyc (b : bool) : M unit :=
  upd_in (fun i => mkWbIn b (i_wb_data_stb i) (i_wb_ctrl_stb i) (i_wb_we i)
                          (i_wb_addr i) (i_wb_data i)).
Definition set_data_stb (b : bool) : M unit :=
  upd_in (fun i => mkWbIn (i_wb_cyc i) b (i_wb_ctrl_stb i) (i_wb_we i)
                          (i_wb_addr i) (i_wb_data i)).
Definition set_ctrl_stb (b : bool) : M unit :=
  upd_in (fun i => mkWbIn (i_wb_cyc i) (i_wb_data_stb i) b (i_wb_we i)
                          (i_wb_addr i) (i_wb_data i)).
Definition set_we (b : bool) : M unit :=
  upd_in (fun i => mkWbIn (i_wb_cyc i) (i_wb_data_stb i) (i_wb_ctrl_stb i) b
                          (i_wb_addr i) (i_wb_data i)).
Definition set_addr (a : Z) : M unit :=
  upd_in (fun i => mkWbIn (i_wb_cyc i) (i_wb_data_stb i) (i_wb_ctrl_stb i)
                          (i_wb_we i) a (i_wb_data i)).
Definition set_data (v : Z) : M unit :=
  upd_in (fun i => mkWbIn (i_wb_cyc i) (i_wb_data_stb i) (i_wb_ctrl_stb i)
                          (i_wb_we i) (i_wb_addr i) v).

Definition set_bomb (b : bool) : M unit :=
  fun s => Ok tt (mkTB (m_in s) (m_out s) (m_env s) b
                       (m_ack_expected s) (sub_m_bomb s) (events s)).
Definition set_ack_expected (b : bool) : M unit :=
  fun s => Ok tt (mkTB (m_in s) (m_out s) (m_env s) (m_bomb s)
                       b (sub_m_bomb s) (events s)).

(** A change of the simulated flash, made from outside the bus. *)
Definition upd_env (f : Env -> Env) : M unit :=
  fun s => Ok tt (mkTB (m_in s) (m_out s) (f (m_env s)) (m_bomb s)
                       (m_ack_expected s) (sub_m_bomb s) (events s)).

Definition stall (s : TB) : bool := o_wb_stall (m_out s).
Definition ack (s : TB) : bool := o_wb_ack (m_out s).
Definition cyc (s : TB) : bool := i_wb_cyc (m_in s).

(** ** WBFLASH_TB *)

(** The constructor.  What the members it does not assign hold is not
    determined by the program: the response signals, the address, data and
    write enable inputs, and the subclass's own [m_bomb], which no flash
    specific constructor initialises either. *)
Definition WBFLASH_TB_new (e : Env) (o : WbOut) (we0 : bool) (addr0 data0 : Z)
    (sub_bomb0 : bool) : TB :=
  mkTB (mkWbIn false false false we0 addr0 data0) o e false false sub_bomb0 [].

(** [tick()]: one clock of the design, then
    [assert(i_wb_cyc || !o_wb_ack)]. *)
Definition TESTB_step (s : TB) : TB :=
  let (e', o) := TESTB_tick (m_env s) (m_in s) in
  mkTB (m_in s) o e' (m_bomb s) (m_ack_expected s) (sub_m_bomb s)
       (EvTick (m_in s) o :: events s).

Definition tick : M unit :=
  fun s =>
    let s' := TESTB_step s in
    assert (i_wb_cyc (m_in s') || negb (o_wb_ack (m_out s'))) s'.

(** [while ((errcount++ < BOMBCOUNT) && (o_wb_stall)) TICK();] *)
Definition wait_stall (errcount : Z) : M Z :=
  while_ fuel (fun e s => ((e <? BOMBCOUNT) && stall s, e + 1))
         (fun e => tick ;; ret e) errcount.

(** [while ((errcount++ < BOMBCOUNT) && (!o_wb_ack)) TICK();] *)
Definition wait_ack (errcount : Z) : M Z :=
  while_ fuel (fun e s => ((e <? BOMBCOUNT) && negb (ack s), e + 1))
         (fun e => tick ;; ret e) errcount.

(** [while (o_wb_stall) TICK();] *)
Definition drain_stall : M unit :=
  while_ fuel (fun l s => (stall s, l)) (fun l => tick ;; ret l) tt.

(** The request phase shared by both single word reads: returns
    [errcount] as it stands when the bus is released. *)
Definition read_handshake (data_stb ctrl_stb : bool) (a : Z) : M Z :=
  set_cyc true ;;
  set_data_stb data_stb ;;
  set_ctrl_stb ctrl_stb ;;
  set_we false ;;
  set_addr (Z.shiftr a 2) ;;
  stalled <- gets stall ;;
  errcount <- (if stalled then wait_stall 0 else ret 0) ;;
  tick ;;
  set_data_stb false ;;
  set_ctrl_stb false ;;
  wait_ack errcount.

(** Release of the bus and the end of a single word read. *)
Definition read_release (errcount : Z) : M Z :=
  result <- gets (fun s => o_wb_data (m_out s)) ;;
  set_ack_expected false ;;
  set_cyc false ;;
  set_data_stb false ;;
  set_ctrl_stb false ;;
  (if BOMBCOUNT <=? errcount then
     printf "WB/SR-BOMB: NO RESPONSE AFTER %d CLOCKS" [errcount] ;;
     set_bomb true
   else
     acked <- gets ack ;;
     if negb acked then
       printf "WB/SR-BOMB: NO ACK, NO TIMEOUT" [] ;;
       set_bomb true
     else ret tt) ;;
  tick ;;
  acked <- gets ack ;;
  assert (negb acked) ;;
  drain_stall ;;
  ret result.

Definition wb_ctrl_read (a : Z) : M Z :=
  errcount <- read_handshake false true a ;;
  read_release errcount.

Definition wb_read (a : Z) : M Z :=
  errcount <- read_handshake true false a ;;
  read_release errcount.

(** *** Burst read *)

(** The locals of the burst read and the caller's buffer. *)
Record RdLocals : Type := mkRd {
  rd_errcount : Z;
  rd_cnt : Z;
  rd_rdidx : Z;
  rd_buf : list Z
}.

(** [buf[i] = v], the list being the caller's array.  [rdidx] is bounded
    by nothing in the source, and a store at or past the length of the
    array is undefined in C++.  The index only ever grows by one from zero,
    so the first such store is at the length: there the list takes the word
    at its end, only so that the run goes on.  What is stated of the
    content of a buffer is stated of runs whose stores all fall inside the
    array. *)
Definition buf_store (i : Z) (v : Z) (buf : list Z) : list Z :=
  firstn (Z.to_nat i) buf ++ v :: skipn (S (Z.to_nat i)) buf.

(** [if (o_wb_ack) buf[rdidx++] = o_wb_data;] *)
Definition capture (l : RdLocals) : M RdLocals :=
  fun s =>
    if ack s then
      Ok (mkRd (rd_errcount l) (rd_cnt l) (rd_rdidx l + 1)
               (buf_store (rd_rdidx l) (o_wb_data (m_out s)) (rd_buf l))) s
    else Ok l s.

(** The body of the [do ... while] that posts the requests. *)
Definition rd_post_body (inc : Z) (l : RdLocals) : M RdLocals :=
  s <- gets (fun st => if stall st then 1 else 0) ;;
  tick ;;
  upd_in (fun i => mkWbIn (i_wb_cyc i) (i_wb_data_stb i) (i_wb_ctrl_stb i)
            (i_wb_we i) (wrap32 (i_wb_addr i + Z.land inc (Z.lxor s 1)))
            (i_wb_data i)) ;;
  capture (mkRd (rd_errcount l) (rd_cnt l + Z.lxor s 1) (rd_rdidx l) (rd_buf l)).

(** [(cnt < len) && (errcount++ < THISBOMBCOUNT)] *)
Definition rd_post_cond (len THISBOMBCOUNT : Z) (l : RdLocals) (s : TB)
    : bool * RdLocals :=
  if rd_cnt l <? len then
    (rd_errcount l <? THISBOMBCOUNT,
     mkRd (rd_errcount l + 1) (rd_cnt l) (rd_rdidx l) (rd_buf l))
  else (false, l).

(** [(rdidx < len) && (errcount++ < THISBOMBCOUNT)] *)
Definition rd_collect_cond (len THISBOMBCOUNT : Z) (l : RdLocals) (s : TB)
    : bool * RdLocals :=
  if rd_rdidx l <? len then
    (rd_errcount l <? THISBOMBCOUNT,
     mkRd (rd_errcount l + 1) (rd_cnt l) (rd_rdidx l) (rd_buf l))
  else (false, l).

(** The transfer proper, from the moment cycle is raised to the moment
    it is dropped: the locals at the release of the bus. *)
Definition rd_transfer (a len inc : Z) (buf : list Z) : M RdLocals :=
  let THISBOMBCOUNT := swrap32 (BOMBCOUNT * len) in
  set_cyc true ;;
  set_data_stb true ;;
  set_ctrl_stb false ;;
  set_we false ;;
  set_addr (Z.shiftr a 2) ;;
  l <- do_while fuel (rd_post_body inc) (rd_post_cond len THISBOMBCOUNT)
         (mkRd 0 0 0 buf) ;;
  set_data_stb false ;;
  set_ctrl_stb false ;;
  while_ fuel (rd_collect_cond len THISBOMBCOUNT)
         (fun l => tick ;; capture l) l.

(** The wait, cycle low and strobe high, for the device to stop stalling
    before the transfer: [errcount] at its end. *)
Definition rd_idle_wait (a len : Z) : M Z :=
  printf "WB-READM(%08x, %d)" [a; len] ;;
  set_cyc false ;;
  set_data_stb true ;;
  set_ctrl_stb false ;;
  wait_stall 0.

(** [wb_read(a, len, buf, inc)]: returns the buffer as the call leaves it. *)
Definition wb_read_burst (a len : Z) (buf : list Z) (inc : Z) : M (list Z) :=
  let THISBOMBCOUNT := swrap32 (BOMBCOUNT * len) in
  errcount <- rd_idle_wait a len ;;
  if BOMBCOUNT <=? errcount then
    printf "WB-READ(%d): Setting bomb to true (errcount = %d)" [189; errcount] ;;
    set_bomb true ;;
    ret buf
  else
    l <- rd_transfer a len inc buf ;;
    set_cyc false ;;
    set_ack_expected false ;;
    (if THISBOMBCOUNT <=? rd_errcount l then
       printf "WB/PR-BOMB: NO RESPONSE AFTER %d CLOCKS" [rd_errcount l] ;;
       set_bomb true
     else
       acked <- gets ack ;;
       if negb acked then
         printf "WB/PR-BOMB: NO ACK, NO TIMEOUT" [] ;;
         set_bomb true
       else ret tt) ;;
    tick ;;
    acked <- gets ack ;;
    assert (negb acked) ;;
    ret (rd_buf l).

(** *** Single word writes *)

(** [while ((errcount++ < BOMBCOUNT) && (o_wb_stall)) { printf(...); TICK(); }] *)
Definition wait_stall_verbose (errcount : Z) : M Z :=
  while_ fuel (fun e s => ((e <? BOMBCOUNT) && stall s, e + 1))
         (fun e => printf "Stalled, so waiting, errcount=%d" [e] ;; tick ;; ret e)
         errcount.

(** The request phase shared by both single word writes. *)
Definition write_handshake (data_stb ctrl_stb : bool) (a v : Z) : M Z :=
  printf "WB-WRITEM(%08x) <= %08x" [a; v] ;;
  set_cyc true ;;
  set_data_stb data_stb ;;
  set_ctrl_stb ctrl_stb ;;
  set_we true ;;
  set_addr (Z.shiftr a 2) ;;
  set_data v ;;
  stalled <- gets stall ;;
  errcount <- (if stalled then wait_stall_verbose 0 else ret 0) ;;
  tick ;;
  set_data_stb false ;;
  set_ctrl_stb false ;;
  errcount <- wait_ack errcount ;;
  tick ;;
  ret errcount.

(** Release of the bus and the end of a single word write; [line] is the
    source line the time-out message reports. *)
Definition write_release (line errcount : Z) : M unit :=
  set_cyc false ;;
  set_ctrl_stb false ;;
  set_data_stb false ;;
  set_ack_expected false ;;
  (if BOMBCOUNT <=? errcount then
     printf "WB/SW-BOMB: NO RESPONSE AFTER %d CLOCKS (LINE=%d)" [errcount; line] ;;
     set_bomb true
   else ret tt) ;;
  tick ;;
  acked <- gets ack ;;
  assert (negb acked) ;;
  drain_stall.

Definition wb_ctrl_write (a v : Z) : M unit :=
  errcount <- write_handshake false true a v ;;
  write_release 270 errcount.

Definition wb_write (a v : Z) : M unit :=
  errcount <- write_handshake true false a v ;;
  write_release 313 errcount ;;
  stalled <- gets stall ;;
  assert (negb stalled).

(** *** Burst write *)

(** [for (i = from; i < from + n; i++) body]: the body of the [for] loops
    modelled here never writes its index. *)
Fixpoint for_ {L : Type} (n : nat) (body : Z -> L -> M L) (i : Z) (l : L)
    : M L :=
  match n with
  | O => ret l
  | S n' => l1 <- body i l ;; for_ n' body (i + 1) l1
  end.

(** [for (i = from; ...; i += step) body], [n] turns. *)
Fixpoint for_by {L : Type} (n : nat) (step : Z) (body : Z -> L -> M L)
    (i : Z) (l : L) : M L :=
  match n with
  | O => ret l
  | S n' => l1 <- body i l ;; for_by n' step body (i + step) l1
  end.

(** [if (o_wb_ack) nacks++;] *)
Definition count_ack (nacks : Z) : M Z :=
  acked <- gets ack ;; ret (if acked then nacks + 1 else nacks).

(** One turn of the loop that posts the words; a read past the end of
    [buf] (undefined in C++) reads zero. *)
Definition wr_post_body (buf : list Z) (inc : Z) (stbcnt : Z) (nacks : Z)
    : M Z :=
  set_data (nth (Z.to_nat stbcnt) buf 0) ;;
  r <- while_ fuel
         (fun (l : Z * Z) s =>
            ((fst l <? BOMBCOUNT) && stall s, (fst l + 1, snd l)))
         (fun l => tick ;; n <- count_ack (snd l) ;; ret (fst l, n))
         (0, nacks) ;;
  tick ;;
  nacks <- count_ack (snd r) ;;
  upd_in (fun i => mkWbIn (i_wb_cyc i) (i_wb_data_stb i) (i_wb_ctrl_stb i)
            (i_wb_we i) (wrap32 (i_wb_addr i + inc)) (i_wb_data i)) ;;
  ret nacks.

(** Raising the bus and posting [ln] words: the acknowledgements counted
    so far. *)
Definition wr_post (a ln : Z) (buf : list Z) (inc : Z) : M Z :=
  printf "WB-WRITEM(%08x, %d, ...)" [a; ln] ;;
  set_cyc true ;;
  set_data_stb true ;;
  set_ctrl_stb false ;;
  set_we true ;;
  set_addr (Z.shiftr a 2) ;;
  for_ (Z.to_nat ln) (wr_post_body buf inc) 0 0.

(** The wait for the acknowledgements still missing: [(errcount, nacks)]
    at the release of the bus. *)
Definition wr_drain (ln nacks : Z) : M (Z * Z) :=
  set_data_stb true ;;
  set_ctrl_stb false ;;
  while_ fuel
    (fun (l : Z * Z) s =>
       if snd l <? ln then (fst l <? BOMBCOUNT, (fst l + 1, snd l))
       else (false, l))
    (fun l => tick ;; acked <- gets ack ;;
              ret (if acked then (0, snd l + 1) else l))
    (0, nacks).

(** [wb_write(a, ln, buf, inc)] *)
Definition wb_write_burst (a ln : Z) (buf : list Z) (inc : Z) : M unit :=
  nacks <- wr_post a ln buf inc ;;
  l <- wr_drain ln nacks ;;
  set_cyc false ;;
  set_data_stb false ;;
  set_ctrl_stb false ;;
  set_ack_expected false ;;
  (if BOMBCOUNT <=? fst l then
     printf "WB/PW-BOMB: NO RESPONSE AFTER %d CLOCKS (LINE=%d)" [fst l; 371] ;;
     set_bomb true
   else ret tt) ;;
  tick ;;
  acked <- gets ack ;;
  assert (negb acked) ;;
  drain_stall.

(** [bombed()] as [WBFLASH_TB] declares it, and as each flash specific
    subclass declares it again over its own [m_bomb]; the scenario drivers
    hold a pointer to the subclass and so call the second. *)
Definition WBFLASH_TB_bombed (s : TB) : bool := m_bomb s.
Definition bombed (s : TB) : bool := sub_m_bomb s.

End Bench.


Arguments Ok {Env A} a s.
Arguments AssertFail {Env A} s.
Arguments Exited {Env A} code s.
Arguments OutOfFuel {Env A}.

(** ** Devices to run the bench against *)

Definition idle_out : WbOut := mkWbOut false false 0.

(** A device that plays back a waveform, one entry per clock, whatever it
    is asked; idle once the waveform is over. *)
Definition scripted (env : list WbOut) (i : WbIn) : list WbOut * WbOut :=
  match env with
  | o :: rest => (rest, o)
  | [] => ([], idle_out)
  end.

(** A well behaved slave with a fixed latency: it accepts a request when
    strobed and not busy, stalls while busy, and acknowledges [lat] clocks
    after accepting with the address as data (an echo memory). *)
Definition echo_slave (lat : nat) (env : option (nat * Z)) (i : WbIn)
    : option (nat * Z) * WbOut :=
  match env with
  | Some (O, d) => (None, mkWbOut false true d)
  | Some (S k, d) => (Some (k, d), mkWbOut true false 0)
  | None =>
      if i_wb_cyc i && (i_wb_data_stb i || i_wb_ctrl_stb i) then
        match lat with
        | O => (None, mkWbOut false true (i_wb_addr i))
        | S k => (Some (k, i_wb_addr i), mkWbOut true false 0)
        end
      else (None, idle_out)
  end.

(** A pipelined slave that never stalls: it acknowledges every request it
    is strobed, as many clocks later as its queue is long, with the
    address as data. *)
Definition pipe_slave (env : list (option Z)) (i : WbIn)
    : list (option Z) * WbOut :=
  let request :=
    if i_wb_cyc i && (i_wb_data_stb i || i_wb_ctrl_stb i)
    then Some (i_wb_addr i) else None in
  match env ++ [request] with
  | Some d :: rest => (rest, mkWbOut false true d)
  | None :: rest => (rest, idle_out)
  | [] => ([], idle_out)
  end.

(** A device that never answers. *)
Definition quiet_dut (env : unit) (i : WbIn) : unit * WbOut := (tt, idle_out).

(** ** A run of the bus transactor *)

(** The calls a scenario driver can make into [WBFLASH_TB]. *)
Inductive BusOp : Type :=
| OpTick
| OpRead (a : Z)
| OpCtrlRead (a : Z)
| OpReadBurst (a len : Z) (buf : list Z) (inc : Z)
| OpWrite (a v : Z)
| OpCtrlWrite (a v : Z)
| OpWriteBurst (a ln : Z) (buf : list Z) (inc : Z).

Section Runs.

Context {Env : Type}.
Variable TESTB_tick : Env -> WbIn -> Env * WbOut.
Variable fuel : nat.

Notation "x <- c1 ;; c2" := (bind c1 (fun x => c2))
  (at level 61, c1 at next level, right associativity).
Notation "c1 ;; c2" := (bind c1 (fun _ => c2))
  (at level 61, right associativity).

Definition run_op (op : BusOp) : @M Env unit :=
  match op with
  | OpTick => tick TESTB_tick
  | OpRead a => wb_read TESTB_tick fuel a ;; ret tt
  | OpCtrlRead a => wb_ctrl_read TESTB_tick fuel a ;; ret tt
  | OpReadBurst a len buf inc =>
      wb_read_burst TESTB_tick fuel a len buf inc ;; ret tt
  | OpWrite a v => wb_write TESTB_tick fuel a v
  | OpCtrlWrite a v => wb_ctrl_write TESTB_tick fuel a v
  | OpWriteBurst a ln buf inc => wb_write_burst TESTB_tick fuel a ln buf inc
  end.

Fixpoint run_ops (ops : list BusOp) : @M Env unit :=
  match ops with
  | [] => ret tt
  | op :: rest => run_op op ;; run_ops rest
  end.

End Runs.


(** ** The flash command sequencers *)

(** [cfg_write] and [cfg_read], which both flash command sequencers call,
    are members of a [WBFLASH_TB] whose header is not the one in the
    sources.  What they do to the bench is left open ([cfg_write_port],
    [cfg_read_port]); the model records each call and each value read. *)

(** The line [flpage_program] prints on entry, in both sequencers. *)
Definition page_program_fmt : string := "Page program, address = %06x, ln = %d".

(** *** spixpress_tb.cpp *)

Module Spixpress.

Definition SZPAGEB : Z := 256.
Definition PGLENB : Z := SZPAGEB.
Definition NPAGES : Z := 256.
Definition SZPAGEW : Z := Z.shiftr SZPAGEB 2.
Definition SECTORSZW : Z := NPAGES * SZPAGEW.
Definition SECTORSZB : Z := NPAGES * SZPAGEB.
Definition RDBUFSZ : Z := NPAGES * SZPAGEW.

(** [PAGEOF(A)]: [(A)&(-1<<8)] on [int]. *)
Definition PAGEOF (A : Z) : Z := Z.land A (Z.shiftl (-1) 8).

Definition CFG_USERMODE : Z := 0x1000.
Definition CFG_USER_CS_n : Z := 0x0100.

Definition F_RESET : Z := Z.lor CFG_USERMODE 0x0ff.
Definition F_EMPTY : Z := Z.lor CFG_USERMODE 0x000.
Definition F_WRR : Z := Z.lor CFG_USERMODE 0x001.
Definition F_PP : Z := Z.lor CFG_USERMODE 0x002.
Definition F_QPP : Z := Z.lor CFG_USERMODE 0x032.
Definition F_READ : Z := Z.lor CFG_USERMODE 0x003.
Definition F_WRDI : Z := Z.lor CFG_USERMODE 0x004.
Definition F_RDSR1 : Z := Z.lor CFG_USERMODE 0x005.
Definition F_WREN : Z := Z.lor CFG_USERMODE 0x006.
Definition F_MFRID : Z := Z.lor CFG_USERMODE 0x09f.
Definition F_SE : Z := Z.lor CFG_USERMODE 0x0d8.
Definition F_END : Z := Z.lor CFG_USERMODE CFG_USER_CS_n.
Definition F_READID : Z := F_MFRID.
Definition F_RDSR : Z := F_RDSR1.

Section Sequencer.

Context {Env : Type}.
Variable TESTB_tick : Env -> WbIn -> Env * WbOut.
Variable fuel : nat.
Variable cfg_write_port : Z -> @M Env unit.
Variable cfg_read_port : @M Env Z.

Notation "x <- c1 ;; c2" := (bind c1 (fun x => c2))
  (at level 61, c1 at next level, right associativity).
Notation "c1 ;; c2" := (bind c1 (fun _ => c2))
  (at level 61, right associativity).

Definition cfg_write (v : Z) : M unit :=
  emit (EvCfgWrite v) ;; cfg_write_port v.

Definition cfg_read : M Z :=
  r <- cfg_read_port ;; emit (EvCfgRead r) ;; ret r.

Definition flreadid : M Z :=
  cfg_write F_READID ;;
  cfg_write 0 ;; v <- cfg_read ;; let r := Z.land v 0x0ff in
  cfg_write 0 ;; v <- cfg_read ;;
  let r := Z.lor (wrap32 (Z.shiftl r 8)) (Z.land v 0x0ff) in
  cfg_write 0 ;; v <- cfg_read ;;
  let r := Z.lor (wrap32 (Z.shiftl r 8)) (Z.land v 0x0ff) in
  cfg_write 0 ;; v <- cfg_read ;;
  let r := Z.lor (wrap32 (Z.shiftl r 8)) (Z.land v 0x0ff) in
  cfg_write F_END ;;
  ret r.

Definition flstatus : M Z :=
  cfg_write F_RDSR ;;
  cfg_write 0 ;;
  cfg_write F_END ;;
  v <- cfg_read ;;
  ret (Z.land v 0x0ff).

Definition flwait : M unit :=
  printf "Waiting for the erase/program cycle to complete" [] ;;
  cfg_write F_RDSR ;;
  do_while fuel (fun _ : Z => cfg_write 0 ;; cfg_read)
           (fun r _ => (negb (Z.land r 1 =? 0), r)) 0 ;;
  cfg_write F_END ;;
  printf " ... Completed!" [].

Definition flerase (sectoraddr : Z) : M unit :=
  cfg_write F_END ;;
  cfg_write F_WREN ;;
  cfg_write F_END ;;
  cfg_write F_SE ;;
  cfg_write (Z.land (Z.shiftr sectoraddr 16) 0x0ff) ;;
  cfg_write (Z.land (Z.shiftr sectoraddr 8) 0x0ff) ;;
  cfg_write (Z.land sectoraddr 0x0ff) ;;
  cfg_write F_END ;;
  flwait.

Definition flpage_program (addr ln : Z) (buf : list Z) : M unit :=
  flwait ;;
  printf page_program_fmt [addr; ln] ;;
  tick TESTB_tick ;;
  cfg_write F_END ;;
  cfg_write F_WREN ;;
  cfg_write F_END ;;
  tick TESTB_tick ;;
  cfg_write F_PP ;;
  cfg_write (Z.land (Z.shiftr addr 16) 0x0ff) ;;
  cfg_write (Z.land (Z.shiftr addr 8) 0x0ff) ;;
  cfg_write (Z.land addr 0x0ff) ;;
  for_ (Z.to_nat ln)
       (fun i _ => cfg_write (Z.land (nth (Z.to_nat i) buf 0) 0x0ff)) 0 tt ;;
  cfg_write F_END ;;
  tick TESTB_tick ;;
  flwait ;;
  tick TESTB_tick.

(** The length of the next chunk of [flprogram]. *)
Definition chunk_len (addr ln start : Z) : Z :=
  if PAGEOF (swrap32 (swrap32 (addr + ln) - 1)) =? PAGEOF start
  then swrap32 (swrap32 (addr + ln) - start)
  else swrap32 (PAGEOF (swrap32 (start + PGLENB)) - start).

Definition flprogram (addr ln : Z) (buf : list Z) : M unit :=
  printf "PROGRAM-REQUEST!!" [] ;;
  while_ fuel
    (fun start _ => (start <? swrap32 (addr + ln), start))
    (fun start =>
       flpage_program start (chunk_len addr ln start)
                      (skipn (Z.to_nat (start - addr)) buf) ;;
       ret (PAGEOF (swrap32 (start + PGLENB))))
    addr ;;
  flwait.

(** The calls a scenario driver can make into the sequencer. *)
Inductive FlashOp : Type :=
| FlReadId
| FlStatus
| FlWait
| FlErase (sectoraddr : Z)
| FlPageProgram (addr ln : Z) (buf : list Z)
| FlProgram (addr ln : Z) (buf : list Z).

Definition run_flash (op : FlashOp) : M unit :=
  match op with
  | FlReadId => flreadid ;; ret tt
  | FlStatus => flstatus ;; ret tt
  | FlWait => flwait
  | FlErase a => flerase a
  | FlPageProgram a ln buf => flpage_program a ln buf
  | FlProgram a ln buf => flprogram a ln buf
  end.

End Sequencer.

(** The scenario driver, [main].  The flash simulator's content is part of
    the hidden state; [flash_word] is the bench's [operator[]], [flash_set] is
    [set]/[setflash], [flash_load] is [load(0, "/dev/urandom")].  [DEVID],
    [byteswap] and [byteswapbuf] are declared but not defined in the
    sources; [fread_words] is what [fread] delivers, as many words as it
    could read. *)
Section Scenario.

Context {Env : Type}.
Variable TESTB_tick : Env -> WbIn -> Env * WbOut.
Variable fuel : nat.
Variable cfg_write_port : Z -> @M Env unit.
Variable cfg_read_port : @M Env Z.
Variable flash_word : Env -> Z -> Z.
Variable flash_set : Z -> Z -> Env -> Env.
Variable flash_load : Env -> Env.
Variable DEVID : Z.
Variable byteswap : Z -> Z.
Variable byteswapbuf : Z -> list Z -> list Z.
Variable fread_words : list Z.

Notation "x <- c1 ;; c2" := (bind c1 (fun x => c2))
  (at level 61, c1 at next level, right associativity).
Notation "c1 ;; c2" := (bind c1 (fun _ => c2))
  (at level 61, right associativity).

Definition EXIT_SUCCESS : Z := 0.
Definition EXIT_FAILURE : Z := 1.

(** The bytes of a buffer of words as a pointer to [const char] sees them on the
    little endian host the bench is built for. *)
Definition bytes_of_words (ws : list Z) : list Z :=
  flat_map (fun w => [Z.land w 255; Z.land (Z.shiftr w 8) 255;
                      Z.land (Z.shiftr w 16) 255; Z.land (Z.shiftr w 24) 255])
           ws.

(** The label [test_failure]. *)
Definition test_failure {A} : M A :=
  printf "FAIL-HERE" [] ;;
  for_ 8%nat (fun _ _ => tick TESTB_tick) 0 tt ;;
  printf "TEST FAILED" [] ;;
  exit EXIT_FAILURE.

Definition flash_at (index : Z) : M Z :=
  gets (fun s => flash_word (m_env s) index).

(** The single word reads of the first thousand words. *)
Definition single_read_test : M unit :=
  while_ 1000%nat
    (fun i s => ((i <? 1000) && negb (bombed s), i))
    (fun i =>
       tblv <- flash_at i ;;
       rdv <- wb_read TESTB_tick fuel (Z.shiftl i 2) ;;
       (if negb (tblv =? rdv) then
          printf "BOMB(INITIAL/SINGLE-READ): READ[%08x] %08x, EXPECTED %08x"
                 [Z.shiftl i 2; rdv; tblv] ;;
          test_failure
        else printf "MATCH: %08x == %08x" [rdv; tblv]) ;;
       ret (i + 1))
    0 ;;
  printf "SINGLE-READ TEST PASSES" [].

(** The burst read of the next thousand words. *)
Definition vector_read_test (rdbuf : list Z) : M (list Z) :=
  let rdbuf := repeat 0xffffffff 1000%nat ++ skipn 1000%nat rdbuf in
  rdbuf <- wb_read_burst TESTB_tick fuel (Z.shiftl 1000 2) 1000 rdbuf 1 ;;
  b <- gets bombed ;;
  (if b then test_failure else ret tt) ;;
  for_ 1000%nat
    (fun i _ =>
       w <- flash_at (i + 1000) ;;
       if negb (w =? nth (Z.to_nat i) rdbuf 0) then
         printf "BOMB: READ.1[%08x] %08x, EXPECTED %08x"
                [1000 + i; nth (Z.to_nat i) rdbuf 0; w] ;;
         test_failure
       else ret tt) 0 tt ;;
  b <- gets bombed ;;
  (if b then test_failure else ret tt) ;;
  printf "VECTOR TEST PASSES!" [] ;;
  ret rdbuf.

(** The status and identification registers, checked by [assert]. *)
Definition register_test : M unit :=
  rdv <- flstatus cfg_write_port cfg_read_port ;;
  printf "Status Register = 0x%02x" [rdv] ;;
  assert (rdv =? 0x1c) ;;
  rdv <- flreadid cfg_write_port cfg_read_port ;;
  printf "ID     Register = 0x%08x" [rdv] ;;
  assert (rdv =? DEVID).

(** The erase of sector one and the checks that follow it. *)
Definition erase_test : M unit :=
  w <- flash_at (SECTORSZW - 1) ;;
  (if w =? 0xffffffff then upd_env (flash_set (SECTORSZW - 1) 0) else ret tt) ;;
  w <- flash_at (2 * SECTORSZW) ;;
  (if w =? 0xffffffff then upd_env (flash_set (2 * SECTORSZW) 0) else ret tt) ;;
  printf "Attempting to erase subsector 1" [] ;;
  flerase fuel cfg_write_port cfg_read_port SECTORSZB ;;
  printf "Checking that the erase was successful" [] ;;
  for_by (Z.to_nat SECTORSZW) 4
    (fun i _ =>
       w <- flash_at (Z.shiftr i 2) ;;
       if negb (w =? 0xffffffff) then
         w' <- flash_at i ;;
         printf "BOMB: Erase of [%08x] was unsuccessful, FLASH[%08x] = %08x"
                [i; i; w'] ;;
         test_failure
       else ret tt) SECTORSZB tt ;;
  w <- flash_at (SECTORSZW - 1) ;;
  (if w =? 0xffffffff then
     printf "BOMB: Post write check #2, the prior address changed" [] ;;
     test_failure
   else ret tt) ;;
  w <- flash_at (2 * SECTORSZB) ;;
  (if w =? 0xffffffff then
     printf "BOMB: Post write check #2, the next address changed" [] ;;
     test_failure
   else ret tt) ;;
  rdv <- wb_read TESTB_tick fuel (SECTORSZB - 4) ;;
  w <- flash_at (SECTORSZW - 1) ;;
  (if negb (rdv =? w) then
     printf "BOMB: Post write check #2, the prior address changed" [] ;;
     test_failure
   else ret tt) ;;
  rdv <- wb_read TESTB_tick fuel (2 * SECTORSZB) ;;
  w <- flash_at (2 * SECTORSZW) ;;
  (if negb (rdv =? w) then
     printf "BOMB: Post write check #2, the next address changed" [] ;;
     test_failure
   else ret tt).

(** The program of four bytes at the start of sector one. *)
Definition single_write_test (buf4 : Z) : M unit :=
  printf "Test: Trying a single word write" [] ;;
  flprogram TESTB_tick fuel cfg_write_port cfg_read_port SECTORSZB 4
            [0x12; 0x34; 0x56; 0x78; buf4] ;;
  rdv <- wb_read TESTB_tick fuel SECTORSZB ;;
  if negb (rdv =? 0x12345678) then
    rdv' <- wb_read TESTB_tick fuel SECTORSZB ;;
    printf "BOMB: Single (not page) write result incorrect: %08x != 0x12345678"
           [rdv'] ;;
    test_failure
  else ret tt.

(** [rdbuf[i] = v] and the [n] words of [rdbuf] from word [from] on. *)
Definition words_from (from n : Z) (rdbuf : list Z) : list Z :=
  firstn (Z.to_nat n) (skipn (Z.to_nat from) rdbuf).

Definition splice (from : Z) (ws rdbuf : list Z) : list Z :=
  firstn (Z.to_nat from) rdbuf ++ ws ++
  skipn (Z.to_nat from + List.length ws)%nat rdbuf.

(** The program of sector one, page by page, from random data. *)
Definition sector_write_test : M unit :=
  assert (RDBUFSZ =? Z.of_nat (List.length fread_words)) ;;
  let rdbuf := splice 0 [byteswap 0x12345678] fread_words in
  for_ (Z.to_nat NPAGES)
    (fun p rdbuf =>
       printf "Writing page %d" [p] ;;
       flprogram TESTB_tick fuel cfg_write_port cfg_read_port
                 (SECTORSZB + p * SZPAGEB) SZPAGEB
                 (bytes_of_words (skipn (Z.to_nat (p * SZPAGEW)) rdbuf)) ;;
       let rdbuf :=
         splice (p * SZPAGEW)
                (byteswapbuf SZPAGEW (words_from (p * SZPAGEW) SZPAGEW rdbuf))
                rdbuf in
       printf "Checking page %d" [p] ;;
       for_ (Z.to_nat SZPAGEW)
         (fun i _ =>
            w <- flash_at (SECTORSZW + p * SZPAGEW + i) ;;
            if negb (nth (Z.to_nat (p * SZPAGEW + i)) rdbuf 0 =? w) then
              printf "BOMB: Write check, Addr[%08x], read %08x expected %08x"
                     [SECTORSZB + p * SZPAGEB + Z.shiftl i 2;
                      nth (Z.to_nat (p * SZPAGEW + i)) rdbuf 0; w] ;;
              test_failure
            else ret tt) 0 tt ;;
       ret rdbuf)
    0 rdbuf ;;
  ret tt.

(** The tests of [main], from the bench object as the constructor left
    it: all of [main] before its last two statements.  [rdbuf0] is what
    the fresh [rdbuf] holds and [buf4] what [buf[4]] holds: both are left
    unassigned by the source. *)
Definition scenario (rdbuf0 : list Z) (buf4 : Z) : M unit :=
  upd_env flash_load ;;
  upd_env (flash_set 0 0) ;;
  tick TESTB_tick ;;
  rdv <- wb_read TESTB_tick fuel 0 ;;
  printf "READ[0] = %04x" [rdv] ;;
  (if negb (rdv =? 0) then test_failure else ret tt) ;;
  tick TESTB_tick ;;
  b <- gets bombed ;;
  (if b then test_failure else ret tt) ;;
  single_read_test ;;
  vector_read_test rdbuf0 ;;
  register_test ;;
  erase_test ;;
  single_write_test buf4 ;;
  sector_write_test.

(** [main]: the tests, then the line and the [exit] that only a run through
    all of them reaches; the label [test_failure] comes after these in the
    source and is entered by [goto] alone. *)
Definition main (rdbuf0 : list Z) (buf4 : Z) : M unit :=
  scenario rdbuf0 buf4 ;;
  printf "SUCCESS!!" [] ;;
  exit EXIT_SUCCESS.

End Scenario.

End Spixpress.

(** *** dualflexpress_tb.cpp *)

Module Dualflexpress.

Definition SZPAGEB : Z := 256.
Definition PGLENB : Z := SZPAGEB.
Definition NPAGES : Z := 256.
Definition SZPAGEW : Z := Z.shiftr SZPAGEB 2.
Definition SECTORSZW : Z := NPAGES * SZPAGEW.
Definition SECTORSZB : Z := NPAGES * SZPAGEB.
Definition RDBUFSZ : Z := NPAGES * SZPAGEW.

Definition PAGEOF (A : Z) : Z := Z.land A (Z.shiftl (-1) 8).

Definition CFG_USERMODE : Z := 0x1000.
Definition CFG_DSPEED : Z := 0x0400.
Definition CFG_WEDIR : Z := 0x0200.
Definition CFG_USER_CS_n : Z := 0x0100.

Definition F_RESET : Z := Z.lor CFG_USERMODE 0x0ff.
Definition F_EMPTY : Z := Z.lor CFG_USERMODE 0x000.
Definition F_WRR : Z := Z.lor CFG_USERMODE 0x001.
Definition F_PP : Z := Z.lor CFG_USERMODE 0x002.
Definition F_QPP : Z := Z.lor CFG_USERMODE 0x032.
Definition F_READ : Z := Z.lor CFG_USERMODE 0x003.
Definition F_WRDI : Z := Z.lor CFG_USERMODE 0x004.
Definition F_RDSR1 : Z := Z.lor CFG_USERMODE 0x005.
Definition F_WREN : Z := Z.lor CFG_USERMODE 0x006.
Definition F_MFRID : Z := Z.lor CFG_USERMODE 0x09f.
Definition F_SE : Z := Z.lor CFG_USERMODE 0x0d8.
Definition F_END : Z := Z.lor CFG_USERMODE CFG_USER_CS_n.
Definition F_READID : Z := F_MFRID.
Definition F_RDSR : Z := F_RDSR1.

Definition DUAL_IO_READ : Z := Z.lor CFG_USERMODE 0xbb.

Section Sequencer.

Context {Env : Type}.
Variable TESTB_tick : Env -> WbIn -> Env * WbOut.
Variable fuel : nat.
Variable cfg_write_port : Z -> @M Env unit.
Variable cfg_read_port : @M Env Z.

Notation "x <- c1 ;; c2" := (bind c1 (fun x => c2))
  (at level 61, c1 at next level, right associativity).
Notation "c1 ;; c2" := (bind c1 (fun _ => c2))
  (at level 61, right associativity).

Definition cfg_write (v : Z) : M unit :=
  emit (EvCfgWrite v) ;; cfg_write_port v.

Definition cfg_read : M Z :=
  r <- cfg_read_port ;; emit (EvCfgRead r) ;; ret r.

Definition take_offline : M unit :=
  cfg_write F_END ;;
  cfg_write F_RESET ;;
  cfg_write F_RESET ;;
  cfg_write F_END.

Definition place_online : M unit :=
  cfg_write DUAL_IO_READ ;;
  cfg_write (Z.lor (Z.lor CFG_USERMODE CFG_DSPEED) CFG_WEDIR) ;;
  cfg_write (Z.lor (Z.lor CFG_USERMODE CFG_DSPEED) CFG_WEDIR) ;;
  cfg_write (Z.lor (Z.lor CFG_USERMODE CFG_DSPEED) CFG_WEDIR) ;;
  cfg_write (Z.lor (Z.lor (Z.lor CFG_USERMODE CFG_DSPEED) CFG_WEDIR) 0xa0) ;;
  cfg_write (Z.lor CFG_USERMODE CFG_DSPEED) ;;
  cfg_write 0.

Definition flreadid : M Z :=
  cfg_write F_READID ;;
  cfg_write CFG_USERMODE ;; v <- cfg_read ;; let r := Z.land v 0x0ff in
  cfg_write CFG_USERMODE ;; v <- cfg_read ;;
  let r := Z.lor (wrap32 (Z.shiftl r 8)) (Z.land v 0x0ff) in
  cfg_write CFG_USERMODE ;; v <- cfg_read ;;
  let r := Z.lor (wrap32 (Z.shiftl r 8)) (Z.land v 0x0ff) in
  cfg_write CFG_USERMODE ;; v <- cfg_read ;;
  let r := Z.lor (wrap32 (Z.shiftl r 8)) (Z.land v 0x0ff) in
  cfg_write F_END ;;
  ret r.

Definition flstatus : M Z :=
  cfg_write F_RDSR ;;
  cfg_write CFG_USERMODE ;;
  v <- cfg_read ;;
  cfg_write F_END ;;
  ret (Z.land v 0x0ff).

Definition flwait : M unit :=
  printf "Waiting for the erase/program cycle to complete" [] ;;
  cfg_write F_RDSR ;;
  do_while fuel (fun _ : Z => cfg_write CFG_USERMODE ;; cfg_read)
           (fun r _ => (negb (Z.land r 1 =? 0), r)) 0 ;;
  cfg_write F_END ;;
  printf " ... Completed!" [].

Definition flerase (sectoraddr : Z) : M unit :=
  take_offline ;;
  cfg_write F_END ;;
  cfg_write F_WREN ;;
  cfg_write F_END ;;
  cfg_write F_SE ;;
  cfg_write (Z.lor CFG_USERMODE (Z.land (Z.shiftr sectoraddr 16) 0x0ff)) ;;
  cfg_write (Z.lor CFG_USERMODE (Z.land (Z.shiftr sectoraddr 8) 0x0ff)) ;;
  cfg_write (Z.lor CFG_USERMODE (Z.land sectoraddr 0x0ff)) ;;
  cfg_write F_END ;;
  flwait ;;
  place_online.

Definition flpage_program (addr ln : Z) (buf : list Z) : M unit :=
  flwait ;;
  printf page_program_fmt [addr; ln] ;;
  tick TESTB_tick ;;
  cfg_write F_END ;;
  cfg_write F_WREN ;;
  cfg_write F_END ;;
  tick TESTB_tick ;;
  cfg_write F_PP ;;
  cfg_write (Z.lor CFG_USERMODE (Z.land (Z.shiftr addr 16) 0x0ff)) ;;
  cfg_write (Z.lor CFG_USERMODE (Z.land (Z.shiftr addr 8) 0x0ff)) ;;
  cfg_write (Z.lor CFG_USERMODE (Z.land addr 0x0ff)) ;;
  for_ (Z.to_nat ln)
       (fun i _ => cfg_write (Z.lor CFG_USERMODE
                                (Z.land (nth (Z.to_nat i) buf 0) 0x0ff))) 0 tt ;;
  cfg_write F_END ;;
  tick TESTB_tick ;;
  flwait ;;
  tick TESTB_tick.

Definition chunk_len (addr ln start : Z) : Z :=
  if PAGEOF (swrap32 (swrap32 (addr + ln) - 1)) =? PAGEOF start
  then swrap32 (swrap32 (addr + ln) - start)
  else swrap32 (PAGEOF (swrap32 (start + PGLENB)) - start).

Definition flprogram (addr ln : Z) (buf : list Z) : M unit :=
  take_offline ;;
  printf "PROGRAM-REQUEST!!" [] ;;
  while_ fuel
    (fun start _ => (start <? swrap32 (addr + ln), start))
    (fun start =>
       flpage_program start (chunk_len addr ln start)
                      (skipn (Z.to_nat (start - addr)) buf) ;;
       ret (PAGEOF (swrap32 (start + PGLENB))))
    addr ;;
  flwait ;;
  place_online.

(** The calls a scenario driver can make into the sequencer. *)
Inductive FlashOp : Type :=
| TakeOffline
| PlaceOnline
| FlReadId
| FlStatus
| FlWait
| FlErase (sectoraddr : Z)
| FlPageProgram (addr ln : Z) (buf : list Z)
| FlProgram (addr ln : Z) (buf : list Z).

Definition run_flash (op : FlashOp) : M unit :=
  match op with
  | TakeOffline => take_offline
  | PlaceOnline => place_online
  | FlReadId => flreadid ;; ret tt
  | FlStatus => flstatus ;; ret tt
  | FlWait => flwait
  | FlErase a => flerase a
  | FlPageProgram a ln buf => flpage_program a ln buf
  | FlProgram a ln buf => flprogram a ln buf
  end.

End Sequencer.

(** The scenario driver, [main], with the parameters of the driver of
    spixpress_tb.cpp. *)
Section Scenario.

Context {Env : Type}.
Variable TESTB_tick : Env -> WbIn -> Env * WbOut.
Variable fuel : nat.
Variable cfg_write_port : Z -> @M Env unit.
Variable cfg_read_port : @M Env Z.
Variable flash_word : Env -> Z -> Z.
Variable flash_set : Z -> Z -> Env -> Env.
Variable flash_load : Env -> Env.
Variable DEVID : Z.
Variable byteswap : Z -> Z.
Variable byteswapbuf : Z -> list Z -> list Z.
Variable fread_words : list Z.

Notation "x <- c1 ;; c2" := (bind c1 (fun x => c2))
  (at level 61, c1 at next level, right associativity).
Notation "c1 ;; c2" := (bind c1 (fun _ => c2))
  (at level 61, right associativity).

Definition EXIT_SUCCESS : Z := 0.
Definition EXIT_FAILURE : Z := 1.

(** The bytes of a buffer of words as a pointer to [const char] sees them on the
    little endian host the bench is built for. *)
Definition bytes_of_words (ws : list Z) : list Z :=
  flat_map (fun w => [Z.land w 255; Z.land (Z.shiftr w 8) 255;
                      Z.land (Z.shiftr w 16) 255; Z.land (Z.shiftr w 24) 255])
           ws.

(** The label [test_failure]. *)
Definition test_failure {A} : M A :=
  printf "FAIL-HERE" [] ;;
  for_ 8%nat (fun _ _ => tick TESTB_tick) 0 tt ;;
  printf "TEST FAILED" [] ;;
  exit EXIT_FAILURE.

Definition flash_at (index : Z) : M Z :=
  gets (fun s => flash_word (m_env s) index).

(** The single word reads of the first thousand words. *)
Definition single_read_test : M unit :=
  while_ 1000%nat
    (fun i s => ((i <? 1000) && negb (bombed s), i))
    (fun i =>
       tblv <- flash_at i ;;
       rdv <- wb_read TESTB_tick fuel (Z.shiftl i 2) ;;
       (if negb (tblv =? rdv) then
          printf "BOMB(INITIAL/SINGLE-READ): READ[%08x] %08x, EXPECTED %08x"
                 [Z.shiftl i 2; rdv; tblv] ;;
          test_failure
        else printf "MATCH: %08x == %08x" [rdv; tblv]) ;;
       ret (i + 1))
    0 ;;
  printf "SINGLE-READ TEST PASSES" [].

(** The burst read of the next thousand words. *)
Definition vector_read_test (rdbuf : list Z) : M (list Z) :=
  let rdbuf := repeat 0xffffffff 1000%nat ++ skipn 1000%nat rdbuf in
  rdbuf <- wb_read_burst TESTB_tick fuel (Z.shiftl 1000 2) 1000 rdbuf 1 ;;
  b <- gets bombed ;;
  (if b then test_failure else ret tt) ;;
  for_ 1000%nat
    (fun i _ =>
       w <- flash_at (i + 1000) ;;
       if negb (w =? nth (Z.to_nat i) rdbuf 0) then
         printf "BOMB: READ.1[%08x] %08x, EXPECTED %08x"
                [1000 + i; nth (Z.to_nat i) rdbuf 0; w] ;;
         test_failure
       else ret tt) 0 tt ;;
  b <- gets bombed ;;
  (if b then test_failure else ret tt) ;;
  printf "VECTOR TEST PASSES!" [] ;;
  ret rdbuf.

(** The status and identification registers, checked by [assert]. *)
Definition register_test : M unit :=
  rdv <- flstatus cfg_write_port cfg_read_port ;;
  printf "Status Register = 0x%02x" [rdv] ;;
  assert (rdv =? 0x1c) ;;
  rdv <- flreadid cfg_write_port cfg_read_port ;;
  printf "ID     Register = 0x%08x" [rdv] ;;
  assert (rdv =? DEVID).

(** The erase of sector one and the checks that follow it. *)
Definition erase_test : M unit :=
  w <- flash_at (SECTORSZW - 1) ;;
  (if w =? 0xffffffff then upd_env (flash_set (SECTORSZW - 1) 0) else ret tt) ;;
  w <- flash_at (2 * SECTORSZW) ;;
  (if w =? 0xffffffff then upd_env (flash_set (2 * SECTORSZW) 0) else ret tt) ;;
  printf "Attempting to erase subsector 1" [] ;;
  flerase fuel cfg_write_port cfg_read_port SECTORSZB ;;
  printf "Checking that the erase was successful" [] ;;
  for_by (Z.to_nat SECTORSZW) 4
    (fun i _ =>
       w <- flash_at (Z.shiftr i 2) ;;
       if negb (w =? 0xffffffff) then
         w' <- flash_at i ;;
         printf "BOMB: Erase of [%08x] was unsuccessful, FLASH[%08x] = %08x"
                [i; i; w'] ;;
         test_failure
       else ret tt) SECTORSZB tt ;;
  w <- flash_at (SECTORSZW - 1) ;;
  (if w =? 0xffffffff then
     printf "BOMB: Post write check #2, the prior address changed" [] ;;
     test_failure
   else ret tt) ;;
  w <- flash_at (2 * SECTORSZB) ;;
  (if w =? 0xffffffff then
     printf "BOMB: Post write check #2, the next address changed" [] ;;
     test_failure
   else ret tt) ;;
  rdv <- wb_read TESTB_tick fuel (SECTORSZB - 4) ;;
  w <- flash_at (SECTORSZW - 1) ;;
  (if negb (rdv =? w) then
     printf "BOMB: Post write check #2, the prior address changed" [] ;;
     test_failure
   else ret tt) ;;
  rdv <- wb_read TESTB_tick fuel (2 * SECTORSZB) ;;
  w <- flash_at (2 * SECTORSZW) ;;
  (if negb (rdv =? w) then
     printf "BOMB: Post write check #2, the next address changed" [] ;;
     test_failure
   else ret tt).

(** The program of four bytes at the start of sector one. *)
Definition single_write_test (buf4 : Z) : M unit :=
  printf "Test: Trying a single word write" [] ;;
  flprogram TESTB_tick fuel cfg_write_port cfg_read_port SECTORSZB 4
            [0x12; 0x34; 0x56; 0x78; buf4] ;;
  rdv <- wb_read TESTB_tick fuel SECTORSZB ;;
  if negb (rdv =? 0x12345678) then
    rdv' <- wb_read TESTB_tick fuel SECTORSZB ;;
    printf "BOMB: Single (not page) write result incorrect: %08x != 0x12345678"
           [rdv'] ;;
    test_failure
  else ret tt.

(** [rdbuf[i] = v] and the [n] words of [rdbuf] from word [from] on. *)
Definition words_from (from n : Z) (rdbuf : list Z) : list Z :=
  firstn (Z.to_nat n) (skipn (Z.to_nat from) rdbuf).

Definition splice (from : Z) (ws rdbuf : list Z) : list Z :=
  firstn (Z.to_nat from) rdbuf ++ ws ++
  skipn (Z.to_nat from + List.length ws)%nat rdbuf.

(** The program of sector one, page by page, from random data. *)
Definition sector_write_test : M unit :=
  assert (RDBUFSZ =? Z.of_nat (List.length fread_words)) ;;
  let rdbuf := splice 0 [byteswap 0x12345678] fread_words in
  for_ (Z.to_nat NPAGES)
    (fun p rdbuf =>
       printf "Writing page %d" [p] ;;
       flprogram TESTB_tick fuel cfg_write_port cfg_read_port
                 (SECTORSZB + p * SZPAGEB) SZPAGEB
                 (bytes_of_words (skipn (Z.to_nat (p * SZPAGEW)) rdbuf)) ;;
       let rdbuf :=
         splice (p * SZPAGEW)
                (byteswapbuf SZPAGEW (words_from (p * SZPAGEW) SZPAGEW rdbuf))
                rdbuf in
       printf "Checking page %d" [p] ;;
       for_ (Z.to_nat SZPAGEW)
         (fun i _ =>
            w <- flash_at (SECTORSZW + p * SZPAGEW + i) ;;
            if negb (nth (Z.to_nat (p * SZPAGEW + i)) rdbuf 0 =? w) then
              printf "BOMB: Write check, Addr[%08x], read %08x expected %08x"
                     [SECTORSZB + p * SZPAGEB + Z.shiftl i 2;
                      nth (Z.to_nat (p * SZPAGEW + i)) rdbuf 0; w] ;;
              test_failure
            else ret tt) 0 tt ;;
       ret rdbuf)
    0 rdbuf ;;
  ret tt.

(** The tests of [main], from the bench object as the constructor left
    it: all of [main] before its last two statements.  [rdbuf0] is what
    the fresh [rdbuf] holds and [buf4] what [buf[4]] holds: both are left
    unassigned by the source. *)
Definition scenario (rdbuf0 : list Z) (buf4 : Z) : M unit :=
  upd_env flash_load ;;
  upd_env (flash_set 0 0) ;;
  tick TESTB_tick ;;
  drain_stall TESTB_tick fuel ;;
  printf "Startup completed, stall line has gone low" [] ;;
  rdv <- wb_read TESTB_tick fuel 0 ;;
  printf "READ[0] = %04x" [rdv] ;;
  (if negb (rdv =? 0) then test_failure else ret tt) ;;
  tick TESTB_tick ;;
  b <- gets bombed ;;
  (if b then test_failure else ret tt) ;;
  single_read_test ;;
  vector_read_test rdbuf0 ;;
  take_offline cfg_write_port ;;
  register_test ;;
  erase_test ;;
  single_write_test buf4 ;;
  sector_write_test.

(** [main]: the tests, then the line and the [exit] that only a run through
    all of them reaches; the label [test_failure] comes after these in the
    source and is entered by [goto] alone. *)
Definition main (rdbuf0 : list Z) (buf4 : Z) : M unit :=
  scenario rdbuf0 buf4 ;;
  printf "SUCCESS!!" [] ;;
  exit EXIT_SUCCESS.

End Scenario.

End Dualflexpress.

(** *** qspiflash_tb.cpp *)

Module Qspiflash.

Definition QSPIFLASH : Z := 0x0400000.
Definition ERASEFLAG : Z := 0x80000000.
Definition DISABLEWP : Z := 0x10000000.
Definition ENABLEWP : Z := 0x00000000.
Definition NPAGES : Z := 256.
Definition SZPAGEB : Z := 256.
Definition SZPAGEW : Z := Z.shiftr SZPAGEB 2.
Definition SECTORSZW : Z := NPAGES * SZPAGEW.
Definition SECTORSZB : Z := NPAGES * SZPAGEB.
Definition RDBUFSZ : Z := NPAGES * SZPAGEW.

Section Scenario.

Context {Env : Type}.
Variable TESTB_tick : Env -> WbIn -> Env * WbOut.
Variable fuel : nat.
Variable flash_word : Env -> Z -> Z.
Variable flash_set : Z -> Z -> Env -> Env.
Variable flash_load : Env -> Env.
Variable fread_words : list Z.

Notation "x <- c1 ;; c2" := (bind c1 (fun x => c2))
  (at level 61, c1 at next level, right associativity).
Notation "c1 ;; c2" := (bind c1 (fun _ => c2))
  (at level 61, right associativity).

Definition EXIT_SUCCESS : Z := 0.
Definition EXIT_FAILURE : Z := 1.

Definition test_failure {A} : M A :=
  printf "FAIL-HERE" [] ;;
  for_ 8%nat (fun _ _ => tick TESTB_tick) 0 tt ;;
  printf "TEST FAILED" [] ;;
  exit EXIT_FAILURE.

Definition flash_at (index : Z) : M Z :=
  gets (fun s => flash_word (m_env s) index).

(** One pass of single word reads over the first thousand words;
    [report] prints the mismatch.  Returns [rdv] as the loop leaves it. *)
Definition single_reads (report : Z -> Z -> Z -> M unit) (rdv : Z) : M Z :=
  l <- while_ 1000%nat
    (fun (l : Z * Z) s => ((fst l <? 1000) && negb (bombed s), l))
    (fun l =>
       let i := fst l in
       tblv <- flash_at (Z.shiftl i 2) ;;
       rdv <- wb_read TESTB_tick fuel (Z.shiftl i 2) ;;
       (if negb (tblv =? rdv) then report i rdv tblv ;; test_failure
        else printf "MATCH: %08x == %08x" [rdv; tblv]) ;;
       ret (i + 1, rdv))
    (0, rdv) ;;
  ret (snd l).

(** One burst read of a thousand words and its comparison. *)
Definition vector_reads (report : Z -> Z -> M unit) (rdbuf : list Z)
    : M (list Z) :=
  rdbuf <- wb_read_burst TESTB_tick fuel 1000 1000 rdbuf 1 ;;
  b <- gets bombed ;;
  (if b then test_failure else ret tt) ;;
  for_ 1000%nat
    (fun i _ =>
       w <- flash_at (Z.shiftl i 2 + 1000) ;;
       if negb (w =? nth (Z.to_nat i) rdbuf 0) then
         w' <- flash_at (i + 1000) ;;
         report i w' ;;
         test_failure
       else ret tt) 0 tt ;;
  ret rdbuf.

(** [while (tb->wb_ctrl_read(0)&ERASEFLAG) ;] *)
Definition wait_erase : M unit :=
  do_while fuel (fun _ : Z => wb_ctrl_read TESTB_tick fuel 0)
           (fun r _ => (negb (Z.land r ERASEFLAG =? 0), r)) 0 ;;
  ret tt.

Definition splice (from : Z) (ws rdbuf : list Z) : list Z :=
  firstn (Z.to_nat from) rdbuf ++ ws ++
  skipn (Z.to_nat from + List.length ws)%nat rdbuf.

(** The reads in the three modes, up to the erase. *)
Definition read_tests (rdbuf0 : list Z) : M unit :=
  rdv <- single_reads
    (fun i rdv tblv =>
       printf "BOMB(INITIAL/SINGLE-READ): READ[%08x] %08x, EXPECTED %08x"
              [Z.shiftl i 2; rdv; tblv]) 0 ;;
  printf "SINGLE-READ TEST PASSES" [] ;;
  let rdbuf := repeat 0xffffffff 1000%nat ++ skipn 1000%nat rdbuf0 in
  rdbuf <- vector_reads
    (fun i w' => printf "BOMB: V-READ[%08x] %08x, EXPECTED %08x"
                        [1000 + i; rdv; w']) rdbuf ;;
  b <- gets bombed ;;
  (if b then test_failure else ret tt) ;;
  printf "VECTOR TEST PASSES!" [] ;;
  printf "Attempting to switch in Quad mode" [] ;;
  rdv <- single_reads
    (fun i rdv tblv =>
       printf "BOMB: Q-READ/SINGLE %08x, EXPECTED %08x" [rdv; tblv]) rdv ;;
  rdbuf <- vector_reads
    (fun i w' => printf "BOMB: Q-READ/VECTOR %08x, EXPECTED %08x" [rdv; w'])
    rdbuf ;;
  printf "VECTOR TEST PASSES! (QUAD)" [] ;;
  printf "Attempting to switch to Quad mode with XIP" [] ;;
  v <- wb_read TESTB_tick fuel 3 ;;
  wb_write TESTB_tick fuel 3 (Z.lor v 0x08) ;;
  printf "Attempting to read in Quad mode, using XIP mode" [] ;;
  rdv <- single_reads
    (fun i rdv tblv =>
       printf "BOMB: Q-READ/XIP %08x, EXPECTED %08x" [rdv; tblv]) rdv ;;
  rdbuf <- vector_reads
    (fun i w' => printf "BOMB: Q-READ/XIP/VECTOR %08x, EXPECTED %08x" [rdv; w'])
    rdbuf ;;
  printf "VECTOR TEST PASSES! (QUAD+XIP)" [] ;;
  wb_read TESTB_tick fuel 1023 ;;
  wb_read TESTB_tick fuel 2048 ;;
  ret tt.

(** The erase of sector one through the control register. *)
Definition erase_test : M unit :=
  w <- flash_at (SECTORSZW - 1) ;;
  (if w =? 0xffffffff then upd_env (flash_set SECTORSZW 0) else ret tt) ;;
  w <- flash_at (2 * SECTORSZW) ;;
  (if w =? 0xffffffff then upd_env (flash_set (2 * SECTORSZW) 0) else ret tt) ;;
  printf "Turning off write-protect, calling WEL" [] ;;
  wb_ctrl_write TESTB_tick fuel 0 DISABLEWP ;;
  printf "Attempting to erase subsector 1" [] ;;
  wb_ctrl_write TESTB_tick fuel 0 (Z.lor ERASEFLAG (1 * SECTORSZW)) ;;
  wait_erase ;;
  printf "Checking that the erase was successful" [] ;;
  for_by (Z.to_nat SECTORSZW) 4
    (fun i _ =>
       w <- flash_at i ;;
       if negb (w =? 0xffffffff) then
         printf "BOMB: Erase of [%08x] was unsuccessful, FLASH[%08x] = %08x"
                [i; i; w] ;;
         test_failure
       else ret tt) SECTORSZB tt ;;
  w <- flash_at (SECTORSZB - 4) ;;
  (if w =? 0xffffffff then
     printf "BOMB: Post write check #2, the prior address changed" [] ;;
     test_failure
   else ret tt) ;;
  w <- flash_at (2 * SECTORSZB) ;;
  (if w =? 0xffffffff then
     printf "BOMB: Post write check #2, the next address changed" [] ;;
     test_failure
   else ret tt) ;;
  rdv <- wb_read TESTB_tick fuel (SECTORSZB - 4) ;;
  w <- flash_at (SECTORSZB - 4) ;;
  (if negb (rdv =? w) then
     printf "BOMB: Post write check #2, the prior address changed" [] ;;
     test_failure
   else ret tt) ;;
  rdv <- wb_read TESTB_tick fuel (2 * SECTORSZB) ;;
  w <- flash_at (2 * SECTORSZB) ;;
  (if negb (rdv =? w) then
     printf "BOMB: Post write check #2, the next address changed" [] ;;
     test_failure
   else ret tt).

(** The write of one word through the data port. *)
Definition single_write_test : M unit :=
  printf "Test: Trying a single word write" [] ;;
  wb_ctrl_write TESTB_tick fuel 0 DISABLEWP ;;
  wb_write TESTB_tick fuel SECTORSZB 0x12345678 ;;
  wait_erase ;;
  rdv <- wb_read TESTB_tick fuel SECTORSZB ;;
  if negb (rdv =? 0x12345678) then
    rdv' <- wb_read TESTB_tick fuel SECTORSZB ;;
    printf "BOMB: Single (not page) write result incorrect: %08x != 0x12345678"
           [rdv'] ;;
    test_failure
  else ret tt.

(** The write of sector one, page by page, by burst writes. *)
Definition sector_write_test : M unit :=
  assert (RDBUFSZ =? Z.of_nat (List.length fread_words)) ;;
  let rdbuf := splice 0 [0x12345678] fread_words in
  for_ (Z.to_nat NPAGES)
    (fun p _ =>
       printf "Writing page %d" [p] ;;
       wb_ctrl_write TESTB_tick fuel 0 DISABLEWP ;;
       wb_write_burst TESTB_tick fuel (SECTORSZB + p * SZPAGEB) SZPAGEW
                      (skipn (Z.to_nat (p * SZPAGEW)) rdbuf) 1 ;;
       wait_erase ;;
       printf "Checking page %d" [p] ;;
       for_ (Z.to_nat SZPAGEW)
         (fun i _ =>
            w <- flash_at (SECTORSZB + p * SZPAGEB + Z.shiftl i 2) ;;
            if negb (nth (Z.to_nat (p * SZPAGEW + i)) rdbuf 0 =? w) then
              printf "BOMB: Write check, Addr[%08x]"
                     [SECTORSZB + p * SZPAGEB + Z.shiftl i 2] ;;
              test_failure
            else ret tt) 0 tt)
    0 tt.

(** The tests of [main], from the bench object as the constructor left
    it: all of [main] before its last two statements.  [rdbuf0] is what
    the fresh [rdbuf] holds. *)
Definition scenario (rdbuf0 : list Z) : M unit :=
  upd_env flash_load ;;
  upd_env (flash_set 0 0) ;;
  tick TESTB_tick ;;
  rdv <- wb_read TESTB_tick fuel 0 ;;
  printf "READ[0] = %04x" [rdv] ;;
  (if negb (rdv =? 0) then test_failure else ret tt) ;;
  tick TESTB_tick ;;
  b <- gets bombed ;;
  (if b then test_failure else ret tt) ;;
  read_tests rdbuf0 ;;
  erase_test ;;
  single_write_test ;;
  sector_write_test.

(** [main]: the tests, then the line and the [exit] that only a run through
    all of them reaches; the label [test_failure] comes after these in the
    source and is entered by [goto] alone. *)
Definition main (rdbuf0 : list Z) : M unit :=
  scenario rdbuf0 ;;
  printf "SUCCESS!!" [] ;;
  exit EXIT_SUCCESS.

End Scenario.

End Qspiflash.

(** ** Ports to run the sequencers on *)

Section Ports.

Context {Env : Type}.
Variable TESTB_tick : Env -> WbIn -> Env * WbOut.
Variable fuel : nat.

(** The configuration port driven by the control port primitives of the
    header in the sources, at address 0. *)
Definition ctrl_write_port (v : Z) : @M Env unit :=
  wb_ctrl_write TESTB_tick fuel 0 v.

Definition ctrl_read_port : @M Env Z :=
  wb_ctrl_read TESTB_tick fuel 0.

(** A port that takes every write at once and always reads [r]. *)
Definition null_write_port (v : Z) : @M Env unit := ret tt.

Definition null_read_port (r : Z) : @M Env Z := ret r.

End Ports.

(** A read port fed from a queue of words that the bench keeps in the place
    of the device; it reads 0 once the queue is empty. *)
Definition fifo_read_port : @M (list Z) Z :=
  bind (gets m_env) (fun q => bind (upd_env (@tl Z)) (fun _ => ret (hd 0 q))).

(** * Properties *)

(** ** Reasoning about monadic code *)

Section Logic.

Context {Env : Type}.
Notation TB := (@TB Env).
Notation M := (@M Env).

Lemma bind_Ok_inv {A B} (m : M A) (k : A -> M B) s b s' :
  bind m k s = Ok b s' ->
  exists a s1, m s = Ok a s1 /\ k a s1 = Ok b s'.
Proof.
  unfold bind. destruct (m s) as [a s1| | |]; try discriminate.
  intros H. exists a, s1. split; [reflexivity | exact H].
Qed.

Lemma bind_state_inv {A B} (m : M A) (k : A -> M B) s s' :
  state_of (bind m k s) = Some s' ->
  (exists a s1, m s = Ok a s1 /\ state_of (k a s1) = Some s') \/
  ((forall a s1, m s <> Ok a s1) /\ state_of (m s) = Some s').
Proof.
  unfold bind. destruct (m s) as [a s1|s1|c s1|] eqn:E; simpl; intros H.
  - left. exists a, s1. split; [reflexivity | exact H].
  - right. split; [discriminate | exact H].
  - right. split; [discriminate | exact H].
  - discriminate.
Qed.

(** [respects R m]: whenever [m] stops with a state, by returning, by a
    failed assertion or by [exit], the states before and after are related
    by [R]. *)
Definition respects (R : TB -> TB -> Prop) {A} (m : M A) : Prop :=
  forall s s', state_of (m s) = Some s' -> R s s'.

(** [returns R m]: the same for the runs of [m] that return. *)
Definition returns (R : TB -> TB -> Prop) {A} (m : M A) : Prop :=
  forall s a s', m s = Ok a s' -> R s s'.

Lemma respects_returns R {A} (m : M A) : respects R m -> returns R m.
Proof. intros H s a s' E. apply H. rewrite E. reflexivity. Qed.

Section Preorder.

Variable R : TB -> TB -> Prop.
Hypothesis R_refl : forall s, R s s.
Hypothesis R_trans : forall s1 s2 s3, R s1 s2 -> R s2 s3 -> R s1 s3.

Lemma respects_ret {A} (a : A) : respects R (ret a).
Proof. intros s s' H. inversion H. subst. apply R_refl. Qed.

Lemma respects_gets {A} (f : TB -> A) : respects R (gets f).
Proof. intros s s' H. inversion H. subst. apply R_refl. Qed.

Lemma respects_assert b : respects R (assert b).
Proof. intros s s' H. unfold assert in H. destruct b; inversion H; subst; apply R_refl. Qed.

Lemma respects_exit {A} c : respects R (@exit Env A c).
Proof. intros s s' H. inversion H. subst. apply R_refl. Qed.

Lemma respects_bind {A B} (m : M A) (k : A -> M B) :
  respects R m -> (forall a, respects R (k a)) -> respects R (bind m k).
Proof.
  intros Hm Hk s s' H. apply bind_state_inv in H.
  destruct H as [(a & s1 & E & H) | (_ & H)].
  - apply R_trans with s1.
    + apply Hm. rewrite E. reflexivity.
    + apply (Hk a). exact H.
  - apply Hm. exact H.
Qed.

Lemma respects_if {A} (b : bool) (m1 m2 : M A) :
  respects R m1 -> respects R m2 -> respects R (if b then m1 else m2).
Proof. destruct b; auto. Qed.

Lemma respects_while {L} n (cond : L -> TB -> bool * L) (body : L -> M L) :
  (forall l, respects R (body l)) -> forall l, respects R (while_ n cond body l).
Proof.
  intros Hb. induction n as [|n IH]; intros l s s'; simpl;
    destruct (cond l s) as [c l1]; destruct c; simpl; intros H;
    try discriminate; try (inversion H; subst; apply R_refl).
  destruct (body l1 s) as [l2 s2|s2|c s2|] eqn:E; simpl in H; try discriminate.
  - apply R_trans with s2.
    + apply (Hb l1). rewrite E. reflexivity.
    + apply (IH l2). exact H.
  - inversion H; subst. apply (Hb l1). rewrite E. reflexivity.
  - inversion H; subst. apply (Hb l1). rewrite E. reflexivity.
Qed.

Lemma respects_do_while {L} n (body : L -> M L) (cond : L -> TB -> bool * L) :
  (forall l, respects R (body l)) -> forall l, respects R (do_while n body cond l).
Proof.
  intros Hb l. unfold do_while. apply respects_bind; [apply Hb|].
  intros l1. apply respects_while. exact Hb.
Qed.

Lemma respects_for {L} n (body : Z -> L -> M L) :
  (forall i l, respects R (body i l)) -> forall i l, respects R (for_ n body i l).
Proof.
  intros Hb. induction n as [|n IH]; intros i l; simpl.
  - apply respects_ret.
  - apply respects_bind; [apply Hb | intros l1; apply IH].
Qed.

Lemma returns_ret {A} (a : A) : returns R (ret a).
Proof. intros s a' s' H. inversion H. subst. apply R_refl. Qed.

Lemma returns_gets {A} (f : TB -> A) : returns R (gets f).
Proof. intros s a' s' H. inversion H. subst. apply R_refl. Qed.

Lemma returns_assert b : returns R (assert b).
Proof. intros s a' s' H. unfold assert in H. destruct b; inversion H; subst; apply R_refl. Qed.

Lemma returns_exit {A} c : returns R (@exit Env A c).
Proof. intros s a' s' H. inversion H. Qed.

Lemma returns_bind {A B} (m : M A) (k : A -> M B) :
  returns R m -> (forall a, returns R (k a)) -> returns R (bind m k).
Proof.
  intros Hm Hk s b s' H. apply bind_Ok_inv in H.
  destruct H as (a & s1 & E & H).
  apply R_trans with s1; [apply (Hm _ _ _ E) | apply (Hk _ _ _ _ H)].
Qed.

Lemma returns_if {A} (b : bool) (m1 m2 : M A) :
  returns R m1 -> returns R m2 -> returns R (if b then m1 else m2).
Proof. destruct b; auto. Qed.

Lemma returns_while {L} n (cond : L -> TB -> bool * L) (body : L -> M L) :
  (forall l, returns R (body l)) -> forall l, returns R (while_ n cond body l).
Proof.
  intros Hb. induction n as [|n IH]; intros l s a s'; simpl;
    destruct (cond l s) as [c l1]; destruct c; simpl; intros H;
    try discriminate; try (inversion H; subst; apply R_refl).
  destruct (body l1 s) as [l2 s2|s2|c s2|] eqn:E; simpl in H; try discriminate.
  apply R_trans with s2; [apply (Hb _ _ _ _ E) | apply (IH _ _ _ _ H)].
Qed.

Lemma returns_do_while {L} n (body : L -> M L) (cond : L -> TB -> bool * L) :
  (forall l, returns R (body l)) -> forall l, returns R (do_while n body cond l).
Proof.
  intros Hb l. unfold do_while. apply returns_bind; [apply Hb|].
  intros l1. apply returns_while. exact Hb.
Qed.

Lemma returns_for {L} n (body : Z -> L -> M L) :
  (forall i l, returns R (body i l)) -> forall i l, returns R (for_ n body i l).
Proof.
  intros Hb. induction n as [|n IH]; intros i l; simpl.
  - apply returns_ret.
  - apply returns_bind; [apply Hb | intros l1; apply IH].
Qed.

End Preorder.

End Logic.

(** Unfolds one layer of monadic structure of a [respects] goal; [Hr] and
    [Ht] are reflexivity and transitivity of the relation, [atom] closes
    the goals about the primitive state changes. *)
Ltac respects_steps Hr Ht atom :=
  repeat first
    [ apply (respects_bind _ Ht); [ | intro ]
    | apply (respects_ret _ Hr)
    | apply (respects_gets _ Hr)
    | apply (respects_assert _ Hr)
    | apply (respects_exit _ Hr)
    | apply (respects_while _ Hr Ht); intro
    | apply (respects_do_while _ Hr Ht); intro
    | apply (respects_for _ Hr Ht); intros ? ?
    | apply respects_if
    | atom ].

Ltac returns_steps Hr Ht atom :=
  repeat first
    [ apply (returns_bind _ Ht); [ | intro ]
    | apply (returns_ret _ Hr)
    | apply (returns_gets _ Hr)
    | apply (returns_assert _ Hr)
    | apply returns_exit
    | apply (returns_while _ Hr Ht); intro
    | apply (returns_do_while _ Hr Ht); intro
    | apply (returns_for _ Hr Ht); intros ? ?
    | apply returns_if
    | atom ].

(** ** The bus transactor *)

Section TransactorFacts.

Context {Env : Type}.
Variable TESTB_tick : Env -> WbIn -> Env * WbOut.
Variable fuel : nat.
Notation TB := (@TB Env).
Notation M := (@M Env).

(** *** What a clock tick changes *)

Lemma TESTB_step_in (s : TB) : m_in (TESTB_step TESTB_tick s) = m_in s.
Proof. unfold TESTB_step. destruct (TESTB_tick (m_env s) (m_in s)). reflexivity. Qed.

Lemma TESTB_step_bomb (s : TB) : m_bomb (TESTB_step TESTB_tick s) = m_bomb s.
Proof. unfold TESTB_step. destruct (TESTB_tick (m_env s) (m_in s)). reflexivity. Qed.

Lemma TESTB_step_sub_bomb (s : TB) :
  sub_m_bomb (TESTB_step TESTB_tick s) = sub_m_bomb s.
Proof. unfold TESTB_step. destruct (TESTB_tick (m_env s) (m_in s)). reflexivity. Qed.

Lemma TESTB_step_events (s : TB) :
  events (TESTB_step TESTB_tick s) =
  EvTick (m_in s) (m_out (TESTB_step TESTB_tick s)) :: events s.
Proof. unfold TESTB_step. destruct (TESTB_tick (m_env s) (m_in s)). reflexivity. Qed.

Lemma tick_state (s s' : TB) :
  state_of (tick TESTB_tick s) = Some s' -> s' = TESTB_step TESTB_tick s.
Proof.
  unfold tick, assert.
  destruct (i_wb_cyc _ || negb _); simpl; intros H; inversion H; reflexivity.
Qed.

Lemma tick_Ok (s s' : TB) u :
  tick TESTB_tick s = Ok u s' ->
  s' = TESTB_step TESTB_tick s /\ (ack s' = true -> cyc s' = true).
Proof.
  unfold tick, assert, ack, cyc.
  destruct (i_wb_cyc _ || negb _) eqn:E; intros H; inversion H; subst.
  split; [reflexivity|]. intros Ha. rewrite Ha in E. simpl in E.
  rewrite orb_false_r in E. exact E.
Qed.

(** *** Relations between the states before and after *)

(** A member keeps its value. *)
Definition keeps {X} (f : TB -> X) (s s' : TB) : Prop := f s' = f s.

Lemma keeps_refl {X} (f : TB -> X) s : keeps f s s.
Proof. reflexivity. Qed.

Lemma keeps_trans {X} (f : TB -> X) s1 s2 s3 :
  keeps f s1 s2 -> keeps f s2 s3 -> keeps f s1 s3.
Proof. unfold keeps. congruence. Qed.

(** The fault flag, once set, stays set. *)
Definition latched (s s' : TB) : Prop := m_bomb s = true -> m_bomb s' = true.

Lemma latched_refl s : latched s s.
Proof. intros H. exact H. Qed.

Lemma latched_trans s1 s2 s3 : latched s1 s2 -> latched s2 s3 -> latched s1 s3.
Proof. unfold latched. auto. Qed.

(** The history grows, by events that all satisfy [P]. *)
Definition extends (P : Event -> Prop) (s s' : TB) : Prop :=
  exists new, events s' = new ++ events s /\ Forall P new.

Lemma extends_refl P s : extends P s s.
Proof. exists []. split; [reflexivity | constructor]. Qed.

Lemma extends_trans P s1 s2 s3 :
  extends P s1 s2 -> extends P s2 s3 -> extends P s1 s3.
Proof.
  intros (n1 & E1 & F1) (n2 & E2 & F2). exists (n2 ++ n1). split.
  - rewrite E2, E1. apply app_assoc.
  - apply Forall_app. split; assumption.
Qed.

Lemma extends_same (P : Event -> Prop) (s s' : TB) :
  events s' = events s -> extends P s s'.
Proof. intros E. exists []. split; [exact E | constructor]. Qed.

Lemma extends_one (P : Event -> Prop) e (s s' : TB) :
  events s' = e :: events s -> P e -> extends P s s'.
Proof. intros E H. exists [e]. split; [exact E | constructor; [exact H | constructor]]. Qed.

(** *** Every bus primitive respects what its atoms respect *)

Lemma capture_Ok (l : RdLocals) (s : TB) :
  exists l', capture l s = Ok l' s.
Proof. unfold capture. destruct (ack s); eexists; reflexivity. Qed.

Section Atoms.

Variable R : TB -> TB -> Prop.
Hypothesis R_refl : forall s, R s s.
Hypothesis R_trans : forall s1 s2 s3, R s1 s2 -> R s2 s3 -> R s1 s3.

Lemma respects_capture l : respects R (capture l).
Proof.
  intros s s' H. destruct (capture_Ok l s) as [l' E]. rewrite E in H.
  inversion H. subst. apply R_refl.
Qed.

Lemma returns_capture l : returns R (capture l).
Proof. apply respects_returns, respects_capture. Qed.

Section AllOutcomes.

Hypothesis R_upd_in : forall f, respects R (upd_in f).
Hypothesis R_set_bomb : respects R (set_bomb true).
Hypothesis R_set_ack_expected : forall b, respects R (set_ack_expected b).
Hypothesis R_printf : forall fmt args, respects R (printf fmt args).
Hypothesis R_tick : respects R (tick TESTB_tick).

Ltac atoms :=
  first [ apply R_upd_in | apply R_set_bomb | apply R_set_ack_expected
        | apply R_printf | apply R_tick | apply respects_capture ].

Lemma respects_run_op op : respects R (run_op TESTB_tick fuel op).
Proof.
  destruct op; simpl;
    unfold wb_read, wb_ctrl_read, wb_read_burst, wb_write, wb_ctrl_write,
      wb_write_burst, read_handshake, read_release, write_handshake,
      write_release, rd_idle_wait, rd_transfer, rd_post_body, wr_post, wr_post_body,
      wr_drain, wait_stall, wait_stall_verbose, wait_ack, drain_stall,
      count_ack, set_cyc, set_data_stb, set_ctrl_stb, set_we, set_addr,
      set_data;
    respects_steps R_refl R_trans ltac:(atoms).
Qed.

Lemma respects_run_ops ops : respects R (run_ops TESTB_tick fuel ops).
Proof.
  induction ops as [|op ops IH]; simpl.
  - apply (respects_ret _ R_refl).
  - apply (respects_bind _ R_trans); [apply respects_run_op | intro; exact IH].
Qed.

End AllOutcomes.

Section Returning.

Hypothesis R_upd_in : forall f, returns R (upd_in f).
Hypothesis R_set_bomb : returns R (set_bomb true).
Hypothesis R_set_ack_expected : forall b, returns R (set_ack_expected b).
Hypothesis R_printf : forall fmt args, returns R (printf fmt args).
Hypothesis R_tick : returns R (tick TESTB_tick).

Ltac atoms :=
  first [ apply R_upd_in | apply R_set_bomb | apply R_set_ack_expected
        | apply R_printf | apply R_tick | apply returns_capture ].

Lemma returns_run_op op : returns R (run_op TESTB_tick fuel op).
Proof.
  destruct op; simpl;
    unfold wb_read, wb_ctrl_read, wb_read_burst, wb_write, wb_ctrl_write,
      wb_write_burst, read_handshake, read_release, write_handshake,
      write_release, rd_idle_wait, rd_transfer, rd_post_body, wr_post, wr_post_body,
      wr_drain, wait_stall, wait_stall_verbose, wait_ack, drain_stall,
      count_ack, set_cyc, set_data_stb, set_ctrl_stb, set_we, set_addr,
      set_data;
    returns_steps R_refl R_trans ltac:(atoms).
Qed.

Lemma returns_run_ops ops : returns R (run_ops TESTB_tick fuel ops).
Proof.
  induction ops as [|op ops IH]; simpl.
  - apply (returns_ret _ R_refl).
  - apply (returns_bind _ R_trans); [apply returns_run_op | intro; exact IH].
Qed.

End Returning.

End Atoms.

(** *** The atoms and the three relations *)

Lemma keeps_sub_bomb_run_ops ops :
  respects (keeps sub_m_bomb) (run_ops TESTB_tick fuel ops).
Proof.
  apply respects_run_ops;
    try solve [intros; intros s s' H; inversion H; reflexivity].
  - apply keeps_refl.
  - apply keeps_trans.
  - intros s s' H. apply tick_state in H. subst. apply TESTB_step_sub_bomb.
Qed.

Lemma latched_run_op op : respects latched (run_op TESTB_tick fuel op).
Proof.
  apply respects_run_op;
    try solve [intros; intros s s' H; inversion H; intros Hb; simpl; auto].
  - apply latched_refl.
  - apply latched_trans.
  - intros s s' H. apply tick_state in H. subst. intros Hb.
    rewrite TESTB_step_bomb. exact Hb.
Qed.

Lemma latched_run_ops ops : respects latched (run_ops TESTB_tick fuel ops).
Proof.
  apply respects_run_ops;
    try solve [intros; intros s s' H; inversion H; intros Hb; simpl; auto].
  - apply latched_refl.
  - apply latched_trans.
  - intros s s' H. apply tick_state in H. subst. intros Hb.
    rewrite TESTB_step_bomb. exact Hb.
Qed.

(** A recorded clock on which acknowledge implies cycle. *)
Definition tick_ok (e : Event) : Prop :=
  match e with
  | EvTick i o => o_wb_ack o = true -> i_wb_cyc i = true
  | _ => True
  end.

Lemma tick_ok_run_ops ops :
  returns (extends tick_ok) (run_ops TESTB_tick fuel ops).
Proof.
  apply returns_run_ops.
  - apply extends_refl.
  - apply extends_trans.
  - intros f s a s' H. inversion H. apply extends_same. reflexivity.
  - intros s a s' H. inversion H. apply extends_same. reflexivity.
  - intros b s a s' H. inversion H. apply extends_same. reflexivity.
  - intros fmt args s a s' H. inversion H.
    eapply extends_one; [reflexivity | exact I].
  - intros s a s' H. apply tick_Ok in H. destruct H as [E Hc]. subst s'.
    eapply extends_one; [apply TESTB_step_events|].
    simpl. unfold ack, cyc in Hc. rewrite TESTB_step_in in Hc. exact Hc.
Qed.

End TransactorFacts.

(** ** Acknowledge needs cycle *)

Section TickAssertion.

Context {Env : Type}.
Variable TESTB_tick : Env -> WbIn -> Env * WbOut.
Variable fuel : nat.

(** C1.  One [tick()] clocks the design once and then either returns, and
    then acknowledge implies cycle, or finds acknowledge up with cycle
    down and fails its assertion, after which nothing that was to follow
    runs.  So on every clock of every run of bus primitives that returns,
    acknowledge implies cycle. *)
Theorem tick_ack_requires_cyc (s : @TB Env) :
  match tick TESTB_tick s with
  | Ok _ s' =>
      s' = TESTB_step TESTB_tick s /\ (ack s' = true -> cyc s' = true)
  | AssertFail s' =>
      s' = TESTB_step TESTB_tick s /\ ack s' = true /\ cyc s' = false /\
      forall (B : Type) (k : unit -> M B),
        bind (tick TESTB_tick) k s = AssertFail s'
  | Exited _ _ | OutOfFuel => False
  end /\
  forall ops s',
    run_ops TESTB_tick fuel ops s = Ok tt s' -> extends tick_ok s s'.
Proof.
  split.
  - unfold tick at 1, assert, ack, cyc.
    destruct (i_wb_cyc (m_in (TESTB_step TESTB_tick s)) ||
              negb (o_wb_ack (m_out (TESTB_step TESTB_tick s)))) eqn:E.
    + split; [reflexivity|]. intros Ha. rewrite Ha in E.
      rewrite orb_false_r in E. exact E.
    + apply orb_false_elim in E. destruct E as [Ec Ea].
      apply negb_false_iff in Ea.
      repeat split; try assumption.
      intros B k. unfold bind, tick, assert. rewrite Ec, Ea. reflexivity.
  - intros ops s' H. exact (tick_ok_run_ops TESTB_tick fuel ops s tt s' H).
Qed.

End TickAssertion.

(** ** Loops *)

Section LoopFacts.

Context {Env : Type}.
Notation TB := (@TB Env).
Notation M := (@M Env).

(** The rule for [while]: an invariant of the turns holds at the exit,
    where the condition is false. *)
Lemma while_Ok_inv {L} (I : L -> TB -> Prop) n
    (cond : L -> TB -> bool * L) (body : L -> M L) :
  (forall l s l1 l2 s',
      I l s -> cond l s = (true, l1) -> body l1 s = Ok l2 s' -> I l2 s') ->
  forall l s l' s',
    I l s -> while_ n cond body l s = Ok l' s' ->
    exists l0, I l0 s' /\ cond l0 s' = (false, l').
Proof.
  intros Hstep. induction n as [|n IH]; intros l s l' s' HI H; simpl in H;
    destruct (cond l s) as [c l1] eqn:Ec; destruct c; try discriminate.
  - inversion H; subst. exists l. split; assumption.
  - destruct (body l1 s) as [l2 s2| | |] eqn:Eb; try discriminate.
    apply (IH l2 s2); [|exact H]. eapply Hstep; eassumption.
  - inversion H; subst. exists l. split; assumption.
Qed.

(** With enough fuel a loop whose turns return and whose measure drops
    returns. *)
Lemma while_terminates {L} (I : L -> TB -> Prop) (mu : L -> TB -> nat)
    (cond : L -> TB -> bool * L) (body : L -> M L) :
  (forall l s l1, I l s -> cond l s = (true, l1) ->
     exists l2 s', body l1 s = Ok l2 s' /\ I l2 s' /\ (mu l2 s' < mu l s)%nat) ->
  forall n l s, I l s -> (mu l s <= n)%nat ->
    exists l' s', while_ n cond body l s = Ok l' s'.
Proof.
  intros Hstep. induction n as [|n IH]; intros l s HI Hmu; simpl;
    destruct (cond l s) as [c l1] eqn:Ec; destruct c;
    try (eexists; eexists; reflexivity).
  - destruct (Hstep l s l1 HI Ec) as (l2 & s2 & _ & _ & Hlt). lia.
  - destruct (Hstep l s l1 HI Ec) as (l2 & s2 & Eb & HI2 & Hlt).
    rewrite Eb. apply IH; [exact HI2 | lia].
Qed.

(** [total m Q]: [m] returns from every state, with a value in [Q]. *)
Definition total {A} (m : M A) (Q : A -> Prop) : Prop :=
  forall s, exists a s', m s = Ok a s' /\ Q a.

Lemma total_ret {A} (a : A) (Q : A -> Prop) : Q a -> total (ret a) Q.
Proof. intros H s. exists a, s. split; [reflexivity | exact H]. Qed.

Lemma total_emit e : total (emit e) (fun _ => True).
Proof. intros s. eexists. eexists. split; [reflexivity | exact I]. Qed.

Lemma total_bind {A B} (m : M A) (k : A -> M B) Q R :
  total m Q -> (forall a, Q a -> total (k a) R) -> total (bind m k) R.
Proof.
  intros Hm Hk s. destruct (Hm s) as (a & s1 & E & Ha).
  destruct (Hk a Ha s1) as (b & s2 & E2 & Hb).
  exists b, s2. split; [|exact Hb]. unfold bind. rewrite E. exact E2.
Qed.

Lemma total_weaken {A} (m : M A) (Q R : A -> Prop) :
  total m Q -> (forall a, Q a -> R a) -> total m R.
Proof.
  intros Hm HQR s. destruct (Hm s) as (a & s1 & E & Ha).
  exists a, s1. split; [exact E | apply HQR; exact Ha].
Qed.

Lemma total_for {L} n (body : Z -> L -> M L) :
  (forall i l, total (body i l) (fun _ => True)) ->
  forall i l, total (for_ n body i l) (fun _ => True).
Proof.
  intros Hb. induction n as [|n IH]; intros i l; simpl.
  - apply total_ret. exact I.
  - eapply total_bind; [apply Hb | intros l1 _; apply IH].
Qed.

End LoopFacts.

(** ** Running the head of a monadic term *)

Section MonadLaws.

Context {Env : Type}.
Notation TB := (@TB Env).
Notation M := (@M Env).

Lemma bind_assoc {A B C} (m : M A) (k1 : A -> M B) (k2 : B -> M C) s :
  bind (bind m k1) k2 s = bind m (fun a => bind (k1 a) k2) s.
Proof. unfold bind. destruct (m s); reflexivity. Qed.

Lemma bind_Ok_eq {A B} (m : M A) (k : A -> M B) s a s1 :
  m s = Ok a s1 -> bind m k s = k a s1.
Proof. intros E. unfold bind. rewrite E. reflexivity. Qed.

Lemma bind_AssertFail_eq {A B} (m : M A) (k : A -> M B) s s1 :
  m s = AssertFail s1 -> bind m k s = AssertFail s1.
Proof. intros E. unfold bind. rewrite E. reflexivity. Qed.

Lemma bind_Exited_eq {A B} (m : M A) (k : A -> M B) s c s1 :
  m s = Exited c s1 -> bind m k s = Exited c s1.
Proof. intros E. unfold bind. rewrite E. reflexivity. Qed.

Lemma bind_ret_l {A B} (a : A) (k : A -> M B) s : bind (ret a) k s = k a s.
Proof. reflexivity. Qed.

Lemma bind_gets {A B} (f : TB -> A) (k : A -> M B) s :
  bind (gets f) k s = k (f s) s.
Proof. reflexivity. Qed.

Lemma bind_upd_in {B} f (k : unit -> M B) s :
  bind (upd_in f) k s =
  k tt (mkTB (f (m_in s)) (m_out s) (m_env s) (m_bomb s)
             (m_ack_expected s) (sub_m_bomb s) (events s)).
Proof. reflexivity. Qed.

Lemma bind_upd_env {B} f (k : unit -> M B) s :
  bind (upd_env f) k s =
  k tt (mkTB (m_in s) (m_out s) (f (m_env s)) (m_bomb s)
             (m_ack_expected s) (sub_m_bomb s) (events s)).
Proof. reflexivity. Qed.

Lemma bind_set_bomb {B} b (k : unit -> M B) s :
  bind (set_bomb b) k s =
  k tt (mkTB (m_in s) (m_out s) (m_env s) b
             (m_ack_expected s) (sub_m_bomb s) (events s)).
Proof. reflexivity. Qed.

Lemma bind_set_ack_expected {B} b (k : unit -> M B) s :
  bind (set_ack_expected b) k s =
  k tt (mkTB (m_in s) (m_out s) (m_env s) (m_bomb s)
             b (sub_m_bomb s) (events s)).
Proof. reflexivity. Qed.

Lemma bind_emit {B} e (k : unit -> M B) s :
  bind (emit e) k s =
  k tt (mkTB (m_in s) (m_out s) (m_env s) (m_bomb s)
             (m_ack_expected s) (sub_m_bomb s) (e :: events s)).
Proof. reflexivity. Qed.

Lemma bind_assert_true {B} (k : unit -> M B) s :
  bind (assert true) k s = k tt s.
Proof. reflexivity. Qed.

Lemma bind_assert_false {B} (k : unit -> M B) s :
  bind (assert false) k s = AssertFail s.
Proof. reflexivity. Qed.

Lemma bind_exit {A B} c (k : A -> M B) s :
  bind (exit c) k s = Exited c s.
Proof. reflexivity. Qed.

End MonadLaws.

(** Runs the assignments, prints and reads at the head of the monadic term
    of [H : m s = r], one at a time, leaving what follows as it is. *)
Ltac mstep H :=
  lazymatch type of H with
  | bind (bind ?m1 ?k1) ?k ?s = ?r =>
      rewrite (bind_assoc m1 k1 k s) in H
  | bind (if ?b then ?m1 else ?m2) ?k ?s = ?r =>
      let b' := eval cbv beta iota delta [negb] in b in
      lazymatch b' with
      | true => change (bind m1 k s = r) in H
      | false => change (bind m2 k s = r) in H
      end
  | bind ?m ?k ?s = ?r =>
      let v := eval cbv beta iota delta
                 [ret gets upd_in upd_env set_cyc set_data_stb set_ctrl_stb
                  set_we set_addr set_data set_bomb set_ack_expected printf
                  emit assert exit negb]
               in (m s) in
      let v := eval cbn [m_in m_out m_env m_bomb m_ack_expected sub_m_bomb
                         events i_wb_cyc i_wb_data_stb i_wb_ctrl_stb i_wb_we
                         i_wb_addr i_wb_data o_wb_stall o_wb_ack o_wb_data]
               in v in
      lazymatch v with
      | Ok ?a ?s1 =>
          rewrite (bind_Ok_eq m k s a s1 (eq_refl v)) in H; cbv beta in H
      | AssertFail ?s1 =>
          rewrite (bind_AssertFail_eq m k s s1 (eq_refl v)) in H
      | Exited ?c ?s1 =>
          rewrite (bind_Exited_eq m k s c s1 (eq_refl v)) in H
      end
  end.

Ltac msimpl_in H :=
  repeat mstep H;
  cbn [m_in m_out m_env m_bomb m_ack_expected sub_m_bomb events
       i_wb_cyc i_wb_data_stb i_wb_ctrl_stb i_wb_we i_wb_addr
       i_wb_data o_wb_stall o_wb_ack o_wb_data negb fst snd] in H.

(** ** The fault flag of the bus transactor *)

Section BombFlag.

Context {Env : Type}.
Variable TESTB_tick : Env -> WbIn -> Env * WbOut.
Variable fuel : nat.
Notation TB := (@TB Env).
Notation M := (@M Env).

Lemma tick_Ok_step (s s' : TB) u :
  tick TESTB_tick s = Ok u s' -> s' = TESTB_step TESTB_tick s.
Proof. intros H. apply tick_Ok in H. tauto. Qed.

Lemma tick_keeps_bomb : returns (keeps m_bomb) (tick TESTB_tick).
Proof.
  intros s u s' H. apply tick_Ok_step in H. subst. apply TESTB_step_bomb.
Qed.

Lemma tick_keeps_in : returns (keeps m_in) (tick TESTB_tick).
Proof.
  intros s u s' H. apply tick_Ok_step in H. subst. apply TESTB_step_in.
Qed.

Ltac bomb_atoms :=
  first [ apply tick_keeps_bomb
        | intros ? ? ? H; inversion H; reflexivity ].

Lemma wait_stall_keeps_bomb e : returns (keeps m_bomb) (wait_stall TESTB_tick fuel e).
Proof.
  unfold wait_stall.
  returns_steps (@keeps_refl Env _ m_bomb) (@keeps_trans Env _ m_bomb) ltac:(bomb_atoms).
Qed.

Lemma drain_stall_keeps_bomb : returns (keeps m_bomb) (drain_stall TESTB_tick fuel).
Proof.
  unfold drain_stall.
  returns_steps (@keeps_refl Env _ m_bomb) (@keeps_trans Env _ m_bomb) ltac:(bomb_atoms).
Qed.

(** The wait for the acknowledgement leaves the flag alone, and when it
    ends with the counter below the budget the acknowledgement is there. *)
Lemma wait_ack_exit e0 (s : TB) e s' :
  wait_ack TESTB_tick fuel e0 s = Ok e s' ->
  m_bomb s' = m_bomb s /\ (e < BOMBCOUNT -> ack s' = true).
Proof.
  unfold wait_ack. intros H.
  apply (while_Ok_inv (fun _ s0 => m_bomb s0 = m_bomb s)) in H.
  - destruct H as (l0 & Hb & Hc). split; [exact Hb|].
    inversion Hc as [[Hf He]]. intros Hlt.
    destruct (l0 <? BOMBCOUNT) eqn:El.
    + simpl in Hf. apply negb_false_iff in Hf. exact Hf.
    + apply Z.ltb_ge in El. lia.
  - intros l s0 l1 l2 s1 HI _ Hb.
    apply bind_Ok_inv in Hb. destruct Hb as (u & s2 & Ht & Hr).
    inversion Hr; subst. apply tick_keeps_bomb in Ht. unfold keeps in Ht.
    congruence.
  - reflexivity.
Qed.

Lemma read_handshake_exit d c a (s : TB) e s' :
  read_handshake TESTB_tick fuel d c a s = Ok e s' ->
  m_bomb s' = m_bomb s /\ (e < BOMBCOUNT -> ack s' = true).
Proof.
  unfold read_handshake. intros H. msimpl_in H.
  set (s0 := mkTB _ _ _ _ _ _ _) in H.
  assert (Hs0 : m_bomb s0 = m_bomb s) by reflexivity.
  destruct (stall s0).
  - apply bind_Ok_inv in H. destruct H as (e1 & s1 & Hw & H).
    apply wait_stall_keeps_bomb in Hw.
    apply bind_Ok_inv in H. destruct H as (u & s2 & Ht & H).
    apply tick_keeps_bomb in Ht. msimpl_in H.
    apply wait_ack_exit in H. unfold keeps in *. simpl in H.
    destruct H as [Hb Ha]. split; [congruence | exact Ha].
  - msimpl_in H.
    apply bind_Ok_inv in H. destruct H as (u & s2 & Ht & H).
    apply tick_keeps_bomb in Ht. msimpl_in H.
    apply wait_ack_exit in H. unfold keeps in *. simpl in H.
    destruct H as [Hb Ha]. split; [congruence | exact Ha].
Qed.

(** At the release of a single word read the flag is set exactly when the
    counter has reached the budget: the branch for "no acknowledgement, no
    time-out" cannot be taken after [read_handshake]. *)
Lemma read_release_bomb e (s : TB) r s' :
  (e < BOMBCOUNT -> ack s = true) ->
  read_release TESTB_tick fuel e s = Ok r s' ->
  m_bomb s' = m_bomb s || (BOMBCOUNT <=? e).
Proof.
  intros Ha H. unfold read_release, ack in *. msimpl_in H.
  destruct (BOMBCOUNT <=? e) eqn:Ee; msimpl_in H.
  - apply bind_Ok_inv in H. destruct H as (u & s2 & Ht & H).
    apply tick_keeps_bomb in Ht. msimpl_in H.
    destruct (o_wb_ack (m_out s2)); msimpl_in H; try discriminate.
    apply bind_Ok_inv in H. destruct H as (u' & s3 & Hd & H).
    apply drain_stall_keeps_bomb in Hd. inversion H; subst.
    unfold keeps in *. simpl in Ht. rewrite orb_true_r. congruence.
  - apply Z.leb_gt in Ee. specialize (Ha Ee).
    rewrite Ha in H. msimpl_in H.
    apply bind_Ok_inv in H. destruct H as (u & s2 & Ht & H).
    apply tick_keeps_bomb in Ht. msimpl_in H.
    destruct (o_wb_ack (m_out s2)); msimpl_in H; try discriminate.
    apply bind_Ok_inv in H. destruct H as (u' & s3 & Hd & H).
    apply drain_stall_keeps_bomb in Hd. inversion H; subst.
    unfold keeps in *. simpl in Ht. rewrite orb_false_r. congruence.
Qed.

Ltac keeps_bomb :=
  returns_steps (@keeps_refl Env _ m_bomb) (@keeps_trans Env _ m_bomb)
    ltac:(first [ apply (returns_capture _ (@keeps_refl Env _ m_bomb))
                | bomb_atoms ]).

Lemma write_handshake_keeps_bomb d c a v :
  returns (keeps m_bomb) (write_handshake TESTB_tick fuel d c a v).
Proof.
  unfold write_handshake, wait_stall_verbose, wait_ack, set_cyc, set_data_stb,
    set_ctrl_stb, set_we, set_addr, set_data.
  keeps_bomb.
Qed.

Lemma wr_post_keeps_bomb a ln buf inc :
  returns (keeps m_bomb) (wr_post TESTB_tick fuel a ln buf inc).
Proof.
  unfold wr_post, wr_post_body, count_ack, set_cyc, set_data_stb,
    set_ctrl_stb, set_we, set_addr, set_data.
  keeps_bomb.
Qed.

Lemma wr_drain_keeps_bomb ln n :
  returns (keeps m_bomb) (wr_drain TESTB_tick fuel ln n).
Proof.
  unfold wr_drain, set_data_stb, set_ctrl_stb. keeps_bomb.
Qed.

Lemma rd_transfer_keeps_bomb a len inc buf :
  returns (keeps m_bomb) (rd_transfer TESTB_tick fuel a len inc buf).
Proof.
  unfold rd_transfer, rd_post_body, set_cyc, set_data_stb,
    set_ctrl_stb, set_we, set_addr. cbv zeta.
  keeps_bomb.
Qed.

(** What the end of every primitive but the single word reads does to the
    flag: set when [timed_out], else left alone. *)
Lemma release_tail_bomb {A} (timed_out : bool) (report : M unit)
    (rest : M A) (s : TB) a s' b0 :
  returns (keeps m_bomb) report ->
  returns (keeps m_bomb) rest ->
  m_bomb s = b0 ->
  bind (if timed_out then bind report (fun _ => set_bomb true) else ret tt)
       (fun _ => bind (tick TESTB_tick) (fun _ => rest)) s = Ok a s' ->
  m_bomb s' = b0 || timed_out.
Proof.
  intros Hrep Hrest Hb H. destruct timed_out.
  - rewrite bind_assoc in H. apply bind_Ok_inv in H.
    destruct H as (u & s1 & H1 & H). apply Hrep in H1. msimpl_in H.
    apply bind_Ok_inv in H. destruct H as (u' & s2 & Ht & H).
    apply tick_keeps_bomb in Ht. apply Hrest in H.
    unfold keeps in *. simpl in Ht. rewrite orb_true_r. congruence.
  - msimpl_in H. apply bind_Ok_inv in H. destruct H as (u' & s2 & Ht & H).
    apply tick_keeps_bomb in Ht. apply Hrest in H.
    unfold keeps in *. rewrite orb_false_r. congruence.
Qed.

Lemma tail_keeps_bomb :
  returns (keeps m_bomb)
    (bind (gets ack) (fun acked =>
       bind (assert (negb acked)) (fun _ => drain_stall TESTB_tick fuel))).
Proof. unfold drain_stall. keeps_bomb. Qed.

Lemma write_release_bomb line e (s : TB) u s' :
  write_release TESTB_tick fuel line e s = Ok u s' ->
  m_bomb s' = m_bomb s || (BOMBCOUNT <=? e).
Proof.
  intros H. unfold write_release in H. msimpl_in H.
  eapply release_tail_bomb in H; [exact H | | apply tail_keeps_bomb | reflexivity].
  intros s0 a s1 H0. inversion H0. reflexivity.
Qed.

End BombFlag.

Section BombTheorem.

Context {Env : Type}.
Variable TESTB_tick : Env -> WbIn -> Env * WbOut.
Variable fuel : nat.
Notation TB := (@TB Env).

Lemma rd_idle_wait_keeps_bomb a len :
  returns (keeps m_bomb) (rd_idle_wait TESTB_tick fuel a len).
Proof.
  unfold rd_idle_wait, set_cyc, set_data_stb, set_ctrl_stb.
  apply (returns_bind _ (@keeps_trans Env _ m_bomb));
    [intros ? ? ? H; inversion H; reflexivity | intro].
  repeat (apply (returns_bind _ (@keeps_trans Env _ m_bomb));
    [intros ? ? ? H; inversion H; reflexivity | intro]).
  apply wait_stall_keeps_bomb.
Qed.

Lemma wb_write_burst_bomb a ln buf inc (s : TB) s' :
  wb_write_burst TESTB_tick fuel a ln buf inc s = Ok tt s' ->
  exists n s1 l s2,
    wr_post TESTB_tick fuel a ln buf inc s = Ok n s1 /\
    wr_drain TESTB_tick fuel ln n s1 = Ok l s2 /\
    m_bomb s' = m_bomb s || (BOMBCOUNT <=? fst l).
Proof.
  intros H. unfold wb_write_burst in H.
  apply bind_Ok_inv in H. destruct H as (n & s1 & Hp & H).
  apply bind_Ok_inv in H. destruct H as (l & s2 & Hd & H).
  exists n, s1, l, s2. split; [exact Hp|]. split; [exact Hd|].
  apply wr_post_keeps_bomb in Hp. apply wr_drain_keeps_bomb in Hd.
  msimpl_in H.
  eapply release_tail_bomb in H;
    [exact H | | apply tail_keeps_bomb | unfold keeps in *; simpl; congruence].
  intros s0 u s3 H0. inversion H0. reflexivity.
Qed.

Lemma wb_read_burst_bomb a len buf inc (s : TB) buf' s' :
  wb_read_burst TESTB_tick fuel a len buf inc s = Ok buf' s' ->
  exists e s0,
    rd_idle_wait TESTB_tick fuel a len s = Ok e s0 /\
    if BOMBCOUNT <=? e then m_bomb s' = true
    else exists l s2,
      rd_transfer TESTB_tick fuel a len inc buf s0 = Ok l s2 /\
      m_bomb s' =
      m_bomb s || (swrap32 (BOMBCOUNT * len) <=? rd_errcount l) || negb (ack s2).
Proof.
  intros H. unfold wb_read_burst in H. cbv zeta in H.
  apply bind_Ok_inv in H. destruct H as (e & s0 & Hw & H).
  exists e, s0. split; [exact Hw|].
  apply rd_idle_wait_keeps_bomb in Hw.
  destruct (BOMBCOUNT <=? e).
  - msimpl_in H. inversion H. reflexivity.
  - apply bind_Ok_inv in H. destruct H as (l & s2 & Ht & H).
    exists l, s2. split; [exact Ht|].
    apply rd_transfer_keeps_bomb in Ht.
    assert (Hb : m_bomb s2 = m_bomb s) by (unfold keeps in *; congruence).
    clear Ht Hw. msimpl_in H. unfold ack in *.
    destruct (swrap32 (BOMBCOUNT * len) <=? rd_errcount l); msimpl_in H.
    + apply bind_Ok_inv in H. destruct H as (u & s3 & Ht & H).
      apply tick_keeps_bomb in Ht. msimpl_in H.
      destruct (o_wb_ack (m_out s3)); msimpl_in H; inversion H; subst.
      unfold keeps in Ht. simpl in Ht. rewrite Ht.
      rewrite orb_true_r. reflexivity.
    + destruct (o_wb_ack (m_out s2)); msimpl_in H;
        apply bind_Ok_inv in H; destruct H as (u & s3 & Ht & H);
        apply tick_keeps_bomb in Ht; msimpl_in H;
        (destruct (o_wb_ack (m_out s3)); msimpl_in H; inversion H; subst);
        unfold keeps in Ht; simpl in Ht; rewrite Ht;
        rewrite ?orb_false_r, ?orb_true_r; congruence.
Qed.

(** C2, as the code has it.  The flag is false after construction and no
    run of bus primitives clears it.  A single word read or write sets it
    when, and only when, its counter stands at the budget or above as the
    bus is released; a burst write when the counter of its last wait for
    acknowledgements does (its waits on stall have a budget too, which
    sets nothing); a burst read when the wait before the transfer used up
    its budget, when the counter of the transfer reached
    BOMBCOUNT*len, and also when the transfer ends within budget
    with acknowledge low. *)
Theorem bomb_flag_latched :
  (forall e o we a d b, m_bomb (WBFLASH_TB_new (Env:=Env) e o we a d b) = false) /\
  (forall ops (s s' : TB),
     state_of (run_ops TESTB_tick fuel ops s) = Some s' ->
     m_bomb s = true -> m_bomb s' = true) /\
  (forall d c a (s : TB) e s1 r s',
     read_handshake TESTB_tick fuel d c a s = Ok e s1 ->
     read_release TESTB_tick fuel e s1 = Ok r s' ->
     m_bomb s' = m_bomb s || (BOMBCOUNT <=? e)) /\
  (forall d c a v line (s : TB) e s1 s',
     write_handshake TESTB_tick fuel d c a v s = Ok e s1 ->
     write_release TESTB_tick fuel line e s1 = Ok tt s' ->
     m_bomb s' = m_bomb s || (BOMBCOUNT <=? e)) /\
  (forall a ln buf inc (s s' : TB),
     wb_write_burst TESTB_tick fuel a ln buf inc s = Ok tt s' ->
     exists n s1 l s2,
       wr_post TESTB_tick fuel a ln buf inc s = Ok n s1 /\
       wr_drain TESTB_tick fuel ln n s1 = Ok l s2 /\
       m_bomb s' = m_bomb s || (BOMBCOUNT <=? fst l)) /\
  (forall a len buf inc (s : TB) buf' s',
     wb_read_burst TESTB_tick fuel a len buf inc s = Ok buf' s' ->
     exists e s0,
       rd_idle_wait TESTB_tick fuel a len s = Ok e s0 /\
       if BOMBCOUNT <=? e then m_bomb s' = true
       else exists l s2,
         rd_transfer TESTB_tick fuel a len inc buf s0 = Ok l s2 /\
         m_bomb s' =
         m_bomb s || (swrap32 (BOMBCOUNT * len) <=? rd_errcount l)
                  || negb (ack s2)).
Proof.
  split; [reflexivity|].
  split; [intros ops s s' H; exact (latched_run_ops TESTB_tick fuel ops s s' H)|].
  split.
  { intros d c a s e s1 r s' Hh Hr.
    apply read_handshake_exit in Hh. destruct Hh as [Hb Ha].
    apply (read_release_bomb _ _ _ _ _ _ Ha) in Hr. congruence. }
  split.
  { intros d c a v line s e s1 s' Hh Hr.
    apply write_handshake_keeps_bomb in Hh. apply write_release_bomb in Hr.
    unfold keeps in Hh. congruence. }
  split.
  { intros. apply wb_write_burst_bomb. assumption. }
  intros. eapply wb_read_burst_bomb. eassumption.
Qed.

End BombTheorem.

(** ** Concrete runs *)

(** The number of clocks in a history. *)
Definition ticks_in (evs : list Event) : Z :=
  Z.of_nat (List.length (filter is_tick evs)).

(** A fresh bench on device state [e], the response signals idle. *)
Definition bench_on {Env} (e : Env) : @TB Env :=
  WBFLASH_TB_new e idle_out false 0 0 false.

(** A fresh bench that sees the device stalling from the start. *)
Definition bench_stalled {Env} (e : Env) : @TB Env :=
  WBFLASH_TB_new e (mkWbOut true false 0) false 0 0 false.

(** A device that acknowledges twice although it took one request only,
    the first time while it stalls. *)
Definition early_acks : list WbOut :=
  [mkWbOut true true 7; mkWbOut false true 8].

(** A device that stalls for 3000 clocks, then takes the request and
    acknowledges it. *)
Definition slow_start : list WbOut :=
  repeat (mkWbOut true false 0) 3000 ++ [mkWbOut false true 0].

(** C2, against the claim: a burst read of two words that spends four
    clocks of its budget of 4096 and returns with the flag set, because
    acknowledge was low at the release; and a burst write of one word that
    waits 2048 clocks on stall, the whole budget of that wait, goes on, and
    returns after 3002 clocks with the flag clear. *)
Lemma bomb_flag_not_exactly_on_budget :
  (exists buf' s',
     wb_read_burst scripted 4096 0 2 [0; 0] 1 (bench_on early_acks)
       = Ok buf' s' /\
     m_bomb (bench_on early_acks) = false /\ m_bomb s' = true /\
     ticks_in (events s') = 4 /\ 4 < BOMBCOUNT * 2 /\
     In (EvPrintf "WB/PR-BOMB: NO ACK, NO TIMEOUT" []) (events s')) /\
  (exists s',
     wb_write_burst scripted 4096 0 1 [5] 1 (bench_stalled slow_start)
       = Ok tt s' /\
     m_bomb s' = false /\ ticks_in (events s') = 3002 /\
     BOMBCOUNT < 3002).
Proof.
  split.
  - eexists. eexists. split; [vm_compute; reflexivity|].
    repeat split; try reflexivity. simpl. tauto.
  - eexists. split; [vm_compute; reflexivity|].
    repeat split; vm_compute; reflexivity.
Qed.

(** ** The subclass's own fault flag *)

Section SubclassBomb.

Context {Env : Type}.
Variable TESTB_tick : Env -> WbIn -> Env * WbOut.
Variable fuel : nat.
Variable cfg_write_port : Z -> @M Env unit.
Variable cfg_read_port : @M Env Z.
Notation TB := (@TB Env).

(** [cfg_write] and [cfg_read] are members of the parent class: the
    subclass's private member is out of their reach. *)
Hypothesis cfg_write_port_private :
  forall v, respects (keeps sub_m_bomb) (cfg_write_port v).
Hypothesis cfg_read_port_private :
  respects (keeps sub_m_bomb) cfg_read_port.

Lemma tick_keeps_sub_bomb : respects (keeps sub_m_bomb) (tick TESTB_tick).
Proof.
  intros s s' H. apply tick_state in H. subst. apply TESTB_step_sub_bomb.
Qed.

Ltac sub_atoms :=
  first [ apply cfg_write_port_private
        | apply cfg_read_port_private
        | apply tick_keeps_sub_bomb
        | intros ? ? H; inversion H; reflexivity ].

Ltac keeps_sub :=
  respects_steps (@keeps_refl Env _ sub_m_bomb) (@keeps_trans Env _ sub_m_bomb)
    ltac:(sub_atoms).

Lemma spixpress_keeps_sub_bomb op :
  respects (keeps sub_m_bomb)
    (Spixpress.run_flash TESTB_tick fuel cfg_write_port cfg_read_port op).
Proof.
  destruct op; simpl;
    unfold Spixpress.flprogram, Spixpress.flpage_program, Spixpress.flerase,
      Spixpress.flwait, Spixpress.flstatus, Spixpress.flreadid,
      Spixpress.cfg_write, Spixpress.cfg_read, printf;
    keeps_sub.
Qed.

Lemma dualflexpress_keeps_sub_bomb op :
  respects (keeps sub_m_bomb)
    (Dualflexpress.run_flash TESTB_tick fuel cfg_write_port cfg_read_port op).
Proof.
  destruct op; simpl;
    unfold Dualflexpress.flprogram, Dualflexpress.flpage_program,
      Dualflexpress.flerase, Dualflexpress.flwait, Dualflexpress.flstatus,
      Dualflexpress.flreadid, Dualflexpress.take_offline,
      Dualflexpress.place_online, Dualflexpress.cfg_write,
      Dualflexpress.cfg_read, printf;
    keeps_sub.
Qed.

(** C3.  [bombed()], as the scenario drivers reach it, reads the
    subclass's own member.  The constructors leave that member as they
    find it; no bus primitive and no flash operation writes it, however
    the call ends; so what [bombed()] answers never changes, whatever the
    parent's flag has latched.  The last part is a single word read that
    times out on a device that never answers. *)
Theorem subclass_bombed_is_blind :
  (forall e o we a d b,
     bombed (WBFLASH_TB_new (Env:=Env) e o we a d b) = b /\
     WBFLASH_TB_bombed (WBFLASH_TB_new (Env:=Env) e o we a d b) = false) /\
  (forall ops (s s' : TB),
     state_of (run_ops TESTB_tick fuel ops s) = Some s' ->
     bombed s' = bombed s) /\
  (forall op (s s' : TB),
     state_of (Spixpress.run_flash TESTB_tick fuel cfg_write_port
                 cfg_read_port op s) = Some s' ->
     bombed s' = bombed s) /\
  (forall op (s s' : TB),
     state_of (Dualflexpress.run_flash TESTB_tick fuel cfg_write_port
                 cfg_read_port op s) = Some s' ->
     bombed s' = bombed s) /\
  (exists r s',
     wb_read scripted 4096 0 (bench_on []) = Ok r s' /\
     WBFLASH_TB_bombed s' = true /\ bombed s' = false).
Proof.
  split; [intros; split; reflexivity|].
  split; [intros ops s s' H;
          exact (keeps_sub_bomb_run_ops TESTB_tick fuel ops s s' H)|].
  split; [intros op s s' H; exact (spixpress_keeps_sub_bomb op s s' H)|].
  split; [intros op s s' H; exact (dualflexpress_keeps_sub_bomb op s s' H)|].
  eexists. eexists. split; [vm_compute; reflexivity|].
  split; reflexivity.
Qed.

End SubclassBomb.

(** ** The end of a single word read *)

Definition ev_out (e : Event) : WbOut :=
  match e with EvTick _ o => o | _ => idle_out end.

(** A clock with the bus released and no acknowledgement after it. *)
Definition released_tick (e : Event) : Prop :=
  match e with
  | EvTick i o =>
      i_wb_cyc i = false /\ i_wb_data_stb i = false /\
      i_wb_ctrl_stb i = false /\ o_wb_ack o = false
  | _ => False
  end.

Definition is_printf (e : Event) : Prop :=
  match e with EvPrintf _ _ => True | _ => False end.

(** Clocks, newest first, each of which but the newest left the device
    stalling, and the newest of which did not: what ticking until the
    stall is gone leaves behind. *)
Definition stall_drained (ticks : list Event) : Prop :=
  match ticks with
  | [] => False
  | newest :: older =>
      o_wb_stall (ev_out newest) = false /\
      Forall (fun e => o_wb_stall (ev_out e) = true) older
  end.

Section ReadRelease.

Context {Env : Type}.
Variable TESTB_tick : Env -> WbIn -> Env * WbOut.
Variable fuel : nat.
Notation TB := (@TB Env).

(** Ticking until the stall is gone, from a state reached by a clock
    [rel] with the bus released. *)
Lemma drain_stall_released (s2 s' : TB) rel rest :
  events s2 = rel :: rest ->
  ev_out rel = m_out s2 ->
  i_wb_cyc (m_in s2) = false ->
  i_wb_data_stb (m_in s2) = false ->
  i_wb_ctrl_stb (m_in s2) = false ->
  drain_stall TESTB_tick fuel s2 = Ok tt s' ->
  exists drained,
    events s' = drained ++ rel :: rest /\
    Forall released_tick drained /\
    stall_drained (drained ++ [rel]) /\
    ev_out (hd rel (drained ++ [rel])) = m_out s' /\
    m_in s' = m_in s2 /\ m_bomb s' = m_bomb s2.
Proof.
  intros Hev Hout Hc Hd Hk H. unfold drain_stall in H.
  apply (while_Ok_inv (fun _ s0 =>
           m_in s0 = m_in s2 /\ m_bomb s0 = m_bomb s2 /\
           exists drained,
             events s0 = drained ++ rel :: rest /\
             Forall released_tick drained /\
             Forall (fun e => o_wb_stall (ev_out e) = true)
                    (tl (drained ++ [rel])) /\
             ev_out (hd rel (drained ++ [rel])) = m_out s0)) in H.
  - destruct H as (l0 & (Hin & Hb & drained & He & Hr & Hs & Hh) & Hcond).
    injection Hcond as Hst Hl.
    exists drained. repeat split; try assumption.
    unfold stall_drained. destruct (drained ++ [rel]) as [|n o] eqn:E.
    + destruct drained; discriminate.
    + simpl in Hh, Hs. split; [|exact Hs]. rewrite Hh. exact Hst.
  - intros l s0 l1 l2 s1 (Hin & Hb & drained & He & Hr & Hs & Hh) Hcond Hbody.
    injection Hcond as Hst Hl.
    apply bind_Ok_inv in Hbody. destruct Hbody as (u & s3 & Ht & Hret).
    inversion Hret; subst s3 l2. clear Hret.
    apply tick_Ok in Ht. destruct Ht as [Es1 Hack].
    assert (Hin1 : m_in s1 = m_in s2)
      by (rewrite Es1, TESTB_step_in; exact Hin).
    split; [exact Hin1|].
    split; [rewrite Es1, TESTB_step_bomb; exact Hb|].
    exists (EvTick (m_in s0) (m_out s1) :: drained).
    split; [rewrite Es1 at 1; rewrite TESTB_step_events, He, <- Es1; reflexivity|].
    split.
    { constructor; [|exact Hr]. simpl. rewrite Hin, Hc, Hd, Hk.
      repeat split.
      destruct (o_wb_ack (m_out s1)) eqn:Ea; [|reflexivity].
      unfold ack, cyc in Hack. specialize (Hack Ea). rewrite Hin1 in Hack.
      congruence. }
    split; [|reflexivity].
    simpl. destruct (drained ++ [rel]) as [|n o] eqn:E.
    + destruct drained; discriminate.
    + simpl in Hh, Hs. constructor; [|exact Hs]. rewrite Hh. exact Hst.
  - split; [reflexivity|]. split; [reflexivity|].
    exists []. simpl. repeat split; try assumption; constructor.
Qed.

(** The end of a single word read, for both ports. *)
Lemma read_release_sequence e (s1 : TB) r s' :
  read_release TESTB_tick fuel e s1 = Ok r s' ->
  r = o_wb_data (m_out s1) /\
  exists drained rel msgs,
    events s' = drained ++ rel :: msgs ++ events s1 /\
    Forall is_printf msgs /\
    released_tick rel /\
    Forall released_tick drained /\
    stall_drained (drained ++ [rel]) /\
    stall s' = false /\ ack s' = false /\ cyc s' = false.
Proof.
  intros H. unfold read_release in H. msimpl_in H.
  set (s_rel := mkTB _ _ _ _ _ _ _) in H.
  assert (Hmsgs : exists msgs b,
    bind (tick TESTB_tick) (fun _ =>
      bind (gets ack) (fun acked =>
        bind (assert (negb acked)) (fun _ =>
          bind (drain_stall TESTB_tick fuel) (fun _ =>
            ret (o_wb_data (m_out s1))))))
      (mkTB (m_in s_rel) (m_out s1) (m_env s1) b false (sub_m_bomb s1)
            (msgs ++ events s1)) = Ok r s' /\ Forall is_printf msgs).
  { destruct (BOMBCOUNT <=? e); msimpl_in H.
    - eexists [_]. eexists. split; [exact H|]. repeat constructor.
    - destruct (ack s_rel); msimpl_in H.
      + exists [], (m_bomb s1). split; [exact H | constructor].
      + eexists [_]. eexists. split; [exact H|]. repeat constructor. }
  clear H. destruct Hmsgs as (msgs & b & H & Hm).
  set (s_pre := mkTB _ _ _ _ _ _ _) in H.
  apply bind_Ok_inv in H. destruct H as (u & s2 & Ht & H).
  apply tick_Ok in Ht. destruct Ht as [Es2 Hack]. msimpl_in H.
  destruct (ack s2) eqn:Ea; msimpl_in H; [discriminate|].
  apply bind_Ok_inv in H. destruct H as (u' & s3 & Hd & H).
  inversion H; subst s3 r. clear H. destruct u'.
  assert (Hin2 : m_in s2 = m_in s_rel)
    by (rewrite Es2, TESTB_step_in; reflexivity).
  assert (Hev2 : events s2 = EvTick (m_in s_rel) (m_out s2) :: msgs ++ events s1)
    by (rewrite Es2 at 1; rewrite TESTB_step_events, <- Es2; reflexivity).
  eapply drain_stall_released in Hd;
    [ | exact Hev2 | reflexivity | rewrite Hin2; reflexivity
      | rewrite Hin2; reflexivity | rewrite Hin2; reflexivity ].
  destruct Hd as (drained & He & Hr & Hs & Hh & Hin & Hb).
  assert (Hrel : released_tick (EvTick (m_in s_rel) (m_out s2)))
    by (simpl; repeat split; exact Ea).
  split; [reflexivity|].
  exists drained, (EvTick (m_in s_rel) (m_out s2)), msgs.
  split; [exact He|]. split; [exact Hm|]. split; [exact Hrel|].
  split; [exact Hr|]. split; [exact Hs|].
  unfold stall, ack, cyc. rewrite <- Hh, Hin, Hin2.
  destruct drained as [|d ds]; simpl in Hs |- *.
  - repeat split; [apply Hs | exact Ea].
  - inversion Hr as [|? ? Hd0 _]; subst.
    destruct d; simpl in Hd0; try contradiction.
    simpl. repeat split; [apply Hs | apply Hd0].
Qed.

(** C7.  A single word read that returns has released the bus with
    the data it returns already captured: cycle and both strobes are low
    on the next clock, [rel], and acknowledge is low after it; the
    clocks that follow, [drained], are spent with the bus released while
    the device stalls, and the call returns with stall, acknowledge and
    cycle all low.  What is printed in between is the time-out message,
    if any. *)
Theorem wb_read_release_sequence a (s : TB) r s' :
  wb_read TESTB_tick fuel a s = Ok r s' ->
  exists e s1 drained rel msgs,
    read_handshake TESTB_tick fuel true false a s = Ok e s1 /\
    r = o_wb_data (m_out s1) /\
    events s' = drained ++ rel :: msgs ++ events s1 /\
    Forall is_printf msgs /\
    released_tick rel /\
    Forall released_tick drained /\
    stall_drained (drained ++ [rel]) /\
    stall s' = false /\ ack s' = false /\ cyc s' = false.
Proof.
  intros H. unfold wb_read in H.
  apply bind_Ok_inv in H. destruct H as (e & s1 & Hh & H).
  apply read_release_sequence in H.
  destruct H as (Hr & drained & rel & msgs & H).
  exists e, s1, drained, rel, msgs. split; [exact Hh|]. split; [exact Hr|].
  exact H.
Qed.

End ReadRelease.

(** ** The burst write while it waits for acknowledgements *)

(** A clock on which a write is strobed on the data port. *)
Definition strobed_tick (e : Event) : Prop :=
  match e with
  | EvTick i o =>
      i_wb_cyc i = true /\ i_wb_data_stb i = true /\ i_wb_we i = true
  | _ => False
  end.

(** A strobed clock that the device, not stalling before it, took as a
    request; [before] is what the device showed before the clock. *)
Definition accepted (before : WbOut) (e : Event) : bool :=
  match e with
  | EvTick i o => i_wb_cyc i && i_wb_data_stb i && negb (o_wb_stall before)
  | _ => false
  end.

(** The requests a device took during a history (oldest event first),
    having shown [before] at its start. *)
Fixpoint requests_taken (before : WbOut) (history : list Event) : Z :=
  match history with
  | [] => 0
  | e :: rest =>
      (if accepted before e then 1 else 0) +
      requests_taken (match e with EvTick _ o => o | _ => before end) rest
  end.

Section BurstWriteDrain.

Context {Env : Type}.
Variable TESTB_tick : Env -> WbIn -> Env * WbOut.
Variable fuel : nat.
Notation TB := (@TB Env).

(** Cycle and write enable stay up. *)
Definition bus_held (s s' : TB) : Prop :=
  i_wb_cyc (m_in s) = true /\ i_wb_we (m_in s) = true ->
  i_wb_cyc (m_in s') = true /\ i_wb_we (m_in s') = true.

Lemma bus_held_refl s : bus_held s s.
Proof. intros H. exact H. Qed.

Lemma bus_held_trans s1 s2 s3 : bus_held s1 s2 -> bus_held s2 s3 -> bus_held s1 s3.
Proof. unfold bus_held. auto. Qed.

Lemma wr_post_body_bus_held buf inc i n :
  returns bus_held (wr_post_body TESTB_tick fuel buf inc i n).
Proof.
  unfold wr_post_body, count_ack, set_data.
  returns_steps bus_held_refl bus_held_trans
    ltac:(first
      [ intros s0 u s1 Ht; apply tick_Ok in Ht; destruct Ht as [Es _];
        subst s1; unfold bus_held; rewrite TESTB_step_in; tauto
      | intros s0 u s1 Hu; inversion Hu; unfold bus_held; simpl; tauto ]).
Qed.

Lemma wr_post_raises_bus a ln buf inc (s : TB) n s1 :
  wr_post TESTB_tick fuel a ln buf inc s = Ok n s1 ->
  i_wb_cyc (m_in s1) = true /\ i_wb_we (m_in s1) = true.
Proof.
  intros H. unfold wr_post in H. msimpl_in H.
  apply (returns_for _ bus_held_refl bus_held_trans) in H.
  - apply H. simpl. tauto.
  - intros. apply wr_post_body_bus_held.
Qed.

(** The wait for the missing acknowledgements: every clock of it is a
    strobed write, and there is one at least when acknowledgements are
    missing. *)
Lemma wr_drain_strobes ln nacks (s1 : TB) l s2 :
  i_wb_cyc (m_in s1) = true -> i_wb_we (m_in s1) = true ->
  wr_drain TESTB_tick fuel ln nacks s1 = Ok l s2 ->
  exists drain,
    events s2 = drain ++ events s1 /\
    Forall strobed_tick drain /\
    (nacks < ln -> drain <> []) /\
    i_wb_data_stb (m_in s2) = true /\ i_wb_cyc (m_in s2) = true.
Proof.
  intros Hc Hw H. unfold wr_drain in H. msimpl_in H.
  set (s_d := mkTB _ _ _ _ _ _ _) in H.
  apply (while_Ok_inv (fun l0 s0 =>
           m_in s0 = m_in s_d /\
           exists drain,
             events s0 = drain ++ events s1 /\
             Forall strobed_tick drain /\
             (drain = [] -> l0 = (0, nacks)))) in H.
  - destruct H as (l0 & (Hin & drain & He & Hs & Hl) & Hcond).
    exists drain. split; [exact He|]. split; [exact Hs|].
    split; [|rewrite Hin; simpl; split; [reflexivity | exact Hc]].
    intros Hlt Hd. specialize (Hl Hd). subst l0. simpl in Hcond.
    apply Z.ltb_lt in Hlt. rewrite Hlt in Hcond. discriminate.
  - intros l0 s0 l1 l2 s3 (Hin & drain & He & Hs & Hl) _ Hbody.
    apply bind_Ok_inv in Hbody. destruct Hbody as (u & s4 & Ht & Hr).
    msimpl_in Hr. inversion Hr; subst s4. clear Hr.
    apply tick_Ok in Ht. destruct Ht as [Es3 _].
    split; [rewrite Es3, TESTB_step_in; exact Hin|].
    exists (EvTick (m_in s0) (m_out s3) :: drain).
    split; [rewrite Es3 at 1; rewrite TESTB_step_events, He, <- Es3; reflexivity|].
    split; [|discriminate].
    constructor; [|exact Hs]. simpl. rewrite Hin. simpl. tauto.
  - split; [reflexivity|]. exists []. simpl. repeat split. constructor.
Qed.

(** C10.  In a burst write that returns, every clock from the last
    posted word to the release of the bus is a clock with cycle, data
    strobe and write enable up; there is one such clock at least whenever
    acknowledgements are still missing after the last word is posted.  A
    device that does not stall during that wait is thus handed further
    write requests: the pipelined slave takes four requests from a burst
    of two words, and its acknowledgement of the third, arriving after
    the release of the bus, fails the assertion of [tick]. *)
Theorem wb_write_burst_strobes_while_draining :
  (forall a ln buf inc (s s' : TB),
     wb_write_burst TESTB_tick fuel a ln buf inc s = Ok tt s' ->
     exists nacks s1 l s2 drain,
       wr_post TESTB_tick fuel a ln buf inc s = Ok nacks s1 /\
       wr_drain TESTB_tick fuel ln nacks s1 = Ok l s2 /\
       events s2 = drain ++ events s1 /\
       Forall strobed_tick drain /\
       (nacks < ln -> drain <> []) /\
       i_wb_data_stb (m_in s2) = true /\ i_wb_cyc (m_in s2) = true) /\
  (exists s',
     wb_write_burst pipe_slave 4096 0 2 [5; 6] 1 (bench_on [None; None])
       = AssertFail s' /\
     requests_taken idle_out (rev (events s')) = 4).
Proof.
  split.
  - intros a ln buf inc s s' H. unfold wb_write_burst in H.
    apply bind_Ok_inv in H. destruct H as (n & s1 & Hp & H).
    apply bind_Ok_inv in H. destruct H as (l & s2 & Hd & H).
    destruct (wr_post_raises_bus _ _ _ _ _ _ _ Hp) as [Hc Hw].
    destruct (wr_drain_strobes _ _ _ _ _ Hc Hw Hd) as (drain & Hx).
    exists n, s1, l, s2, drain. split; [exact Hp|]. split; [exact Hd|].
    exact Hx.
  - eexists. split; vm_compute; reflexivity.
Qed.

End BurstWriteDrain.

(** ** The address of a burst read *)

(** The addresses strobed on the data port during a history (oldest
    event first). *)
Definition addresses_strobed (history : list Event) : list Z :=
  flat_map (fun e => match e with
                     | EvTick i _ =>
                         if i_wb_cyc i && i_wb_data_stb i
                         then [i_wb_addr i] else []
                     | _ => []
                     end) history.

Section BurstReadAddress.

Context {Env : Type}.
Variable TESTB_tick : Env -> WbIn -> Env * WbOut.
Notation TB := (@TB Env).

Lemma rd_post_body_address inc l (s : TB) l' s' :
  rd_post_body TESTB_tick inc l s = Ok l' s' ->
  i_wb_addr (m_in s') =
  wrap32 (i_wb_addr (m_in s) + (if stall s then 0 else Z.land inc 1)) /\
  rd_cnt l' = rd_cnt l + (if stall s then 0 else 1).
Proof.
  intros H. unfold rd_post_body in H. msimpl_in H.
  apply bind_Ok_inv in H. destruct H as (u & s1 & Ht & H).
  apply tick_Ok in Ht. destruct Ht as [Es1 _]. msimpl_in H.
  destruct (capture_Ok (mkRd (rd_errcount l)
              (rd_cnt l + Z.lxor (if stall s then 1 else 0) 1)
              (rd_rdidx l) (rd_buf l))
            (mkTB (mkWbIn (i_wb_cyc (m_in s1)) (i_wb_data_stb (m_in s1))
                     (i_wb_ctrl_stb (m_in s1)) (i_wb_we (m_in s1))
                     (wrap32 (i_wb_addr (m_in s1) +
                        Z.land inc (Z.lxor (if stall s then 1 else 0) 1)))
                     (i_wb_data (m_in s1)))
                  (m_out s1) (m_env s1) (m_bomb s1) (m_ack_expected s1)
                  (sub_m_bomb s1) (events s1))) as [l2 Hc].
  assert (Hl : rd_cnt l2 = rd_cnt l + Z.lxor (if stall s then 1 else 0) 1).
  { unfold capture in Hc. destruct (ack _); inversion Hc; reflexivity. }
  rewrite Hc in H. inversion H; subst l' s'. clear H Hc. simpl.
  rewrite Es1, TESTB_step_in, Hl. destruct (stall s); simpl.
  - rewrite Z.land_0_r. split; reflexivity.
  - split; reflexivity.
Qed.

(** C5, the address.  On each clock of the posting loop of a burst read
    the address moves, when the device was not stalling, by [inc & 1], not
    by [inc]: the source adds [inc&(s^1)], and [s^1] is one.  With the
    default [inc] of one this is a step of one; with [inc] two the address
    never moves, and a burst of three words from address 0 strobes address
    0 three times where the burst write, which adds [inc], strobes 0, 2
    and 4. *)
Theorem burst_read_address_step :
  (forall inc l (s : TB) l' s',
     rd_post_body TESTB_tick inc l s = Ok l' s' ->
     i_wb_addr (m_in s') =
     wrap32 (i_wb_addr (m_in s) + (if stall s then 0 else Z.land inc 1))) /\
  (exists buf s',
     wb_read_burst pipe_slave 4096 0 3 [9; 9; 9] 2 (bench_on []) = Ok buf s' /\
     addresses_strobed (rev (events s')) = [0; 0; 0] /\ buf = [0; 0; 0]) /\
  (exists buf s',
     wb_read_burst pipe_slave 4096 0 3 [9; 9; 9] 1 (bench_on []) = Ok buf s' /\
     addresses_strobed (rev (events s')) = [0; 1; 2] /\ buf = [0; 1; 2]) /\
  (exists s',
     wb_write_burst (echo_slave 0) 4096 0 3 [9; 9; 9] 2 (bench_on None)
       = Ok tt s' /\
     addresses_strobed (rev (events s')) = [0; 2; 4]).
Proof.
  split.
  - intros inc l s l' s' H. apply rd_post_body_address in H. tauto.
  - split; [|split].
    + eexists. eexists. split; [vm_compute; reflexivity|].
      split; vm_compute; reflexivity.
    + eexists. eexists. split; [vm_compute; reflexivity|].
      split; vm_compute; reflexivity.
    + eexists. split; vm_compute; reflexivity.
Qed.

End BurstReadAddress.

(** ** What a run shows of itself *)

(** The calls on the configuration port in a history. *)
Definition cfg_view (e : Event) : list Event :=
  if is_cfg e then [e] else [].

(** The calls of [flpage_program] in a history, as the line each prints on
    entry reports them: address and length. *)
Definition page_view (e : Event) : list (Z * Z) :=
  match e with
  | EvPrintf fmt [a; l] =>
      if String.eqb fmt page_program_fmt then [(a, l)] else []
  | _ => []
  end.

(** What [cfg_write] and [cfg_read] may leave in the history themselves:
    clocks, and lines other than the one of [flpage_program]. *)
Definition port_event (e : Event) : Prop :=
  match e with
  | EvTick _ _ => True
  | EvPrintf fmt _ => fmt <> page_program_fmt
  | EvCfgWrite _ | EvCfgRead _ => False
  end.

Section Views.

Context {Env : Type}.
Notation TB := (@TB Env).
Notation M := (@M Env).

(** [view f t s s']: from [s] to [s'] the history grew, and what [f]
    shows of the growth, oldest first, is [t]. *)
Definition view {X} (f : Event -> list X) (t : list X) (s s' : TB) : Prop :=
  exists new, events s' = new ++ events s /\ flat_map f (rev new) = t.

Lemma view_refl {X} (f : Event -> list X) s : view f [] s s.
Proof. exists []. split; reflexivity. Qed.

Lemma view_trans {X} (f : Event -> list X) t1 t2 s1 s2 s3 :
  view f t1 s1 s2 -> view f t2 s2 s3 -> view f (t1 ++ t2) s1 s3.
Proof.
  intros (n1 & E1 & F1) (n2 & E2 & F2). exists (n2 ++ n1). split.
  - rewrite E2, E1. apply app_assoc.
  - rewrite rev_app_distr, flat_map_app, F1, F2. reflexivity.
Qed.

Lemma view_emit {X} (f : Event -> list X) e (s : TB) u s' :
  emit e s = Ok u s' -> view f (f e) s s'.
Proof.
  intros H. inversion H. exists [e]. split; [reflexivity|].
  simpl. apply app_nil_r.
Qed.

Lemma view_same {X} (f : Event -> list X) (s s' : TB) :
  events s' = events s -> view f [] s s'.
Proof. intros E. exists []. split; [exact E | reflexivity]. Qed.

Lemma view_extends {X} (f : Event -> list X) (P : Event -> Prop) (s s' : TB) :
  (forall e, P e -> f e = []) -> extends P s s' -> view f [] s s'.
Proof.
  intros Hf (new & E & F). exists new. split; [exact E|].
  apply Forall_rev in F. induction F as [|e l He _ IH]; simpl.
  - reflexivity.
  - rewrite (Hf e He), IH. reflexivity.
Qed.

Lemma port_event_cfg_view e : port_event e -> cfg_view e = [].
Proof. destruct e; simpl; intros H; try reflexivity; contradiction. Qed.

Lemma port_event_page_view e : port_event e -> page_view e = [].
Proof.
  destruct e as [| fmt args | |]; simpl; intros H; try reflexivity.
  destruct args as [|a [|l [|]]]; try reflexivity.
  destruct (String.eqb_spec fmt page_program_fmt); [contradiction | reflexivity].
Qed.

Lemma view_tick {X} (f : Event -> list X) TESTB_tick (s : TB) u s' :
  (forall i o, f (EvTick i o) = []) ->
  tick TESTB_tick s = Ok u s' -> view f [] s s'.
Proof.
  intros Hf H. apply tick_Ok in H. destruct H as [E _]. subst s'.
  exists [EvTick (m_in s) (m_out (TESTB_step TESTB_tick s))].
  split; [apply TESTB_step_events|]. simpl. rewrite Hf. reflexivity.
Qed.

End Views.

(** Splits the first call off [H : bind m k s = Ok b s'], turns it into a
    view with [conv] and appends that to the view [Hacc] of the run so
    far. *)
Ltac view_step Hacc H conv :=
  let a := fresh "a" in
  let sj := fresh "s" in
  let Hs := fresh "Hs" in
  let Hn := fresh "Hn" in
  apply bind_Ok_inv in H; destruct H as (a & sj & Hs & H);
  conv Hs;
  pose proof (view_trans _ _ _ _ _ _ Hacc Hs) as Hn;
  clear Hacc Hs; rename Hn into Hacc;
  cbv beta zeta in H.

Ltac view_last Hacc H conv :=
  let Hn := fresh "Hn" in
  conv H;
  pose proof (view_trans _ _ _ _ _ _ Hacc H) as Hn;
  clear Hacc H; rename Hn into Hacc.

(** ** Bytes and pages *)

(** The low bytes of four words packed into one word, the first the most
    significant. *)
Definition id_word (b0 b1 b2 b3 : Z) : Z :=
  Z.land b0 255 * 16777216 + Z.land b1 255 * 65536 +
  Z.land b2 255 * 256 + Z.land b3 255.

Lemma land_255_range v : 0 <= Z.land v 255 < 256.
Proof.
  change 255 with (Z.ones 8). rewrite Z.land_ones by lia.
  apply Z.mod_pos_bound. reflexivity.
Qed.

Lemma lor_shifted_byte x y :
  0 <= x -> 0 <= y < 256 -> Z.lor (x * 256) y = x * 256 + y.
Proof.
  intros Hx Hy.
  rewrite <- Z.lxor_lor, <- Z.add_nocarry_lxor; try reflexivity.
  all: apply Z.bits_inj'; intros n Hn; rewrite Z.land_spec, Z.bits_0;
    destruct (Z.ltb_spec n 8).
  all: try (change 256 with (2 ^ 8);
            rewrite Z.mul_pow2_bits_low by lia; reflexivity).
  all: replace y with (y mod 2 ^ 8) by (apply Z.mod_small; simpl; lia);
    rewrite Z.mod_pow2_bits_high by lia; apply andb_false_r.
Qed.

(** One more byte shifted into an [unsigned] that holds three at most. *)
Lemma shift_in_byte x v :
  0 <= x < 16777216 ->
  Z.lor (wrap32 (Z.shiftl x 8)) (Z.land v 255) = x * 256 + Z.land v 255.
Proof.
  intros Hx. rewrite Z.shiftl_mul_pow2 by lia. change (2 ^ 8) with 256.
  unfold wrap32. rewrite Z.mod_small by lia.
  apply lor_shifted_byte; [lia | apply land_255_range].
Qed.

Lemma id_word_packed v0 v1 v2 v3 :
  Z.lor (wrap32 (Z.shiftl
    (Z.lor (wrap32 (Z.shiftl
      (Z.lor (wrap32 (Z.shiftl (Z.land v0 255) 8)) (Z.land v1 255)) 8))
      (Z.land v2 255)) 8)) (Z.land v3 255)
  = id_word v0 v1 v2 v3.
Proof.
  pose proof (land_255_range v0). pose proof (land_255_range v1).
  pose proof (land_255_range v2). pose proof (land_255_range v3).
  rewrite (shift_in_byte (Z.land v0 255)) by lia.
  rewrite (shift_in_byte (Z.land v0 255 * 256 + Z.land v1 255)) by lia.
  rewrite shift_in_byte by lia. unfold id_word. ring.
Qed.

Lemma id_word_range v0 v1 v2 v3 : 0 <= id_word v0 v1 v2 v3 < 4294967296.
Proof.
  pose proof (land_255_range v0). pose proof (land_255_range v1).
  pose proof (land_255_range v2). pose proof (land_255_range v3).
  unfold id_word. lia.
Qed.

(** [PAGEOF]: the start of the page of an address. *)
Lemma land_page_mask A : Z.land A (Z.shiftl (-1) 8) = 256 * (A / 256).
Proof.
  change (Z.shiftl (-1) 8) with (Z.lnot (Z.ones 8)).
  rewrite <- Z.ldiff_land, Z.ldiff_ones_r by lia.
  rewrite Z.shiftl_mul_pow2, Z.shiftr_div_pow2 by lia.
  change (2 ^ 8) with 256. lia.
Qed.

Lemma swrap32_small z : -2147483648 <= z <= 2147483647 -> swrap32 z = z.
Proof. intros H. unfold swrap32. rewrite Z.mod_small; lia. Qed.

(** [tiles a calls b]: the chunks [calls], each a start and a length, lie
    end to end from [a] to [b], none is empty and none leaves the 256 byte
    page it starts in. *)
Fixpoint tiles (a : Z) (calls : list (Z * Z)) (b : Z) : Prop :=
  match calls with
  | [] => a = b
  | (start, len) :: rest =>
      start = a /\ 0 < len /\ start / 256 = (start + len - 1) / 256 /\
      tiles (start + len) rest b
  end.

Lemma tiles_app a calls m start len :
  tiles a calls m -> start = m -> 0 < len ->
  start / 256 = (start + len - 1) / 256 ->
  tiles a (calls ++ [(start, len)]) (start + len).
Proof.
  revert a. induction calls as [|[st l] rest IH]; simpl; intros a H E Hl Hp.
  - subst. repeat split; auto.
  - destruct H as (E1 & Hl1 & Hp1 & Ht). repeat split; try assumption.
    apply IH; assumption.
Qed.

Lemma tiles_single a start len rest b :
  tiles a ((start, len) :: rest) b -> List.length rest = 0%nat ->
  start = a /\ start + len = b.
Proof.
  destruct rest; [|discriminate]. simpl. intros (E & _ & _ & Eb) _.
  split; assumption.
Qed.

(** The starts of chunks that tile a range ascend. *)
Lemma tiles_ascending a calls b :
  tiles a calls b ->
  a <= b /\ Forall (fun c => a <= fst c /\ fst c + snd c <= b) calls.
Proof.
  revert a. induction calls as [|[st l] rest IH]; simpl; intros a H.
  - split; [lia | constructor].
  - destruct H as (E & Hl & Hp & Ht). apply IH in Ht. destruct Ht as [Hle Hf].
    subst st. split; [lia|]. constructor; [simpl; lia|].
    eapply Forall_impl; [|exact Hf]. simpl. intros c Hc. lia.
Qed.

(** One turn of the loop of [flprogram], in numbers: [cl] is the length
    of the chunk and [next] the start of the page after. *)
Lemma chunk_step addr ln start :
  0 <= addr -> 1 <= ln -> addr + ln <= 2147483392 ->
  addr <= start < addr + ln ->
  let last := addr + ln - 1 in
  let next := 256 * ((start + 256) / 256) in
  let cl := if 256 * (last / 256) =? 256 * (start / 256)
            then addr + ln - start else next - start in
  0 < cl /\ start / 256 = (start + cl - 1) / 256 /\
  start + cl = Z.min next (addr + ln) /\
  next / 256 = start / 256 + 1 /\ next mod 256 = 0 /\
  next <= 256 * (last / 256 + 1) /\ start < next.
Proof.
  intros Ha Hl Hb Hs last next cl. subst last next cl.
  destruct (Z.eqb_spec (256 * ((addr + ln - 1) / 256)) (256 * (start / 256)));
    repeat split; Z.div_mod_to_equations; lia.
Qed.

Lemma chunk_count addr ln start :
  0 <= addr -> 1 <= ln -> addr + ln <= start ->
  start = addr \/ start mod 256 = 0 ->
  start <= 256 * ((addr + ln - 1) / 256 + 1) ->
  start / 256 - addr / 256 = (addr + ln - 1) / 256 - addr / 256 + 1.
Proof. intros. Z.div_mod_to_equations. lia. Qed.

(** What the loop of [flprogram] keeps true: the calls made so far tile
    the request up to [start], one call per page. *)
Definition pages_so_far (addr ln start : Z) (calls : list (Z * Z)) : Prop :=
  tiles addr calls (Z.min start (addr + ln)) /\
  Z.of_nat (List.length calls) = start / 256 - addr / 256 /\
  addr <= start /\ (start = addr \/ start mod 256 = 0) /\
  start <= 256 * ((addr + ln - 1) / 256 + 1).

Lemma pages_so_far_start addr ln :
  0 <= addr -> 1 <= ln -> pages_so_far addr ln addr [].
Proof.
  intros Ha Hl. unfold pages_so_far. cbn [tiles List.length].
  repeat split; try lia. Z.div_mod_to_equations. lia.
Qed.

Lemma pages_so_far_step addr ln start calls :
  0 <= addr -> 1 <= ln -> addr + ln <= 2147483392 ->
  start < addr + ln ->
  pages_so_far addr ln start calls ->
  let next := 256 * ((start + 256) / 256) in
  let cl := if 256 * ((addr + ln - 1) / 256) =? 256 * (start / 256)
            then addr + ln - start else next - start in
  pages_so_far addr ln next (calls ++ [(start, cl)]).
Proof.
  intros Ha Hl Hb Hlt (Ht & Hn & Hle & Hal & Hub) next cl.
  destruct (chunk_step addr ln start Ha Hl Hb (conj Hle Hlt))
    as (Hcl & Hpg & Hend & Hnx & Hmod & Hnub & Hsn).
  fold next in Hend, Hnx, Hmod, Hnub, Hsn. fold cl in Hcl, Hpg, Hend.
  rewrite Z.min_l in Ht by lia.
  unfold pages_so_far. rewrite <- Hend. split.
  - apply tiles_app with (m := start); auto.
  - rewrite length_app, Nat2Z.inj_add. cbn [List.length].
    repeat split; lia.
Qed.

Lemma pages_so_far_end addr ln start calls :
  0 <= addr -> 1 <= ln -> addr + ln <= start ->
  pages_so_far addr ln start calls ->
  tiles addr calls (addr + ln) /\
  Z.of_nat (List.length calls) = (addr + ln - 1) / 256 - addr / 256 + 1.
Proof.
  intros Ha Hl Hge (Ht & Hn & Hle & Hal & Hub).
  rewrite Z.min_r in Ht by lia. split; [exact Ht|].
  rewrite Hn. apply chunk_count; assumption.
Qed.

(** The polls of the status register by [flwait]: a dummy write and a
    read, once per value read. *)
Definition poll_trace (dummy : Z) (rs : list Z) : list Event :=
  flat_map (fun r => [EvCfgWrite dummy; EvCfgRead r]) rs.

(** The busy bit of a status value. *)
Definition busy (r : Z) : Prop := Z.land r 1 <> 0.

Lemma poll_trace_app dummy rs1 rs2 :
  poll_trace dummy (rs1 ++ rs2) = poll_trace dummy rs1 ++ poll_trace dummy rs2.
Proof. apply flat_map_app. Qed.

(** ** The frames of the page program *)

(** The status values a wait reads: busy ones, then one that is not. *)
Definition polled (rs : list Z) : Prop :=
  exists rs0 r, rs = rs0 ++ [r] /\ Forall busy rs0 /\ Z.land r 1 = 0.

(** The frame of [flwait]: the status opcode, a dummy write and a read
    for every value of [rs], the de-select.  Opcode and de-select are the
    same words in both benches, the dummy is not. *)
Definition wait_frame (dummy : Z) (rs : list Z) : list Event :=
  EvCfgWrite Spixpress.F_RDSR :: poll_trace dummy rs ++
  [EvCfgWrite Spixpress.F_END].

(** The words that follow the page program opcode: the three bytes of
    the address, most significant first, and [ln] bytes of [buf] from
    index [from] on.  [mode] is what each byte is or-ed with: nothing in
    the single SPI bench, [CFG_USERMODE] in the dual I/O bench. *)
Definition page_data (mode : Z) (from : nat) (ln : Z) (buf : list Z)
    : list Z :=
  map (fun k => Z.lor mode (Z.land (nth k buf 0) 255))
      (seq from (Z.to_nat ln)).

Definition page_payload (mode addr : Z) (from : nat) (ln : Z) (buf : list Z)
    : list Z :=
  [Z.lor mode (Z.land (Z.shiftr addr 16) 255);
   Z.lor mode (Z.land (Z.shiftr addr 8) 255);
   Z.lor mode (Z.land addr 255)] ++ page_data mode from ln buf.

(** The frame of one page: write enable between de-selects, the page
    program opcode, address and data, the de-select. *)
Definition page_frame (mode addr : Z) (from : nat) (ln : Z) (buf : list Z)
    : list Event :=
  [EvCfgWrite Spixpress.F_END; EvCfgWrite Spixpress.F_WREN;
   EvCfgWrite Spixpress.F_END; EvCfgWrite Spixpress.F_PP] ++
  map EvCfgWrite (page_payload mode addr from ln buf) ++
  [EvCfgWrite Spixpress.F_END].

(** Reading the configuration port as the flash is addressed: the words
    written after each page program opcode, up to the de-select that
    follows it.  [open] holds, newest first, the words of a frame that is
    not closed yet. *)
Fixpoint pp_scan (open : option (list Z)) (t : list Event)
    : list (list Z) * option (list Z) :=
  match t with
  | [] => ([], open)
  | EvCfgWrite v :: rest =>
      match open with
      | None =>
          pp_scan (if v =? Spixpress.F_PP then Some [] else None) rest
      | Some acc =>
          if v =? Spixpress.F_END
          then let (frames, st) := pp_scan None rest in (rev acc :: frames, st)
          else pp_scan (Some (v :: acc)) rest
      end
  | _ :: rest => pp_scan open rest
  end.

Definition pp_payloads (t : list Event) : list (list Z) :=
  fst (pp_scan None t).

Lemma pp_scan_app open t1 t2 :
  pp_scan open (t1 ++ t2) =
  (fst (pp_scan open t1) ++ fst (pp_scan (snd (pp_scan open t1)) t2),
   snd (pp_scan (snd (pp_scan open t1)) t2)).
Proof.
  revert open. induction t1 as [|e t1 IH]; intros open; cbn [app pp_scan].
  - cbn [fst snd app]. destruct (pp_scan open t2). reflexivity.
  - destruct e as [i o|fmt args|v|r]; try apply IH.
    destruct open as [acc|].
    + destruct (v =? Spixpress.F_END).
      * rewrite (IH None). destruct (pp_scan None t1) as [f1 s1].
        cbn [fst snd]. reflexivity.
      * apply IH.
    + apply IH.
Qed.

(** A history that leaves no frame open and shows [frames]. *)
Definition pp_closed (t : list Event) (frames : list (list Z)) : Prop :=
  pp_scan None t = (frames, None).

Lemma pp_closed_app t1 t2 f1 f2 :
  pp_closed t1 f1 -> pp_closed t2 f2 -> pp_closed (t1 ++ t2) (f1 ++ f2).
Proof.
  unfold pp_closed. intros H1 H2. rewrite pp_scan_app, H1. cbn [fst snd].
  rewrite H2. reflexivity.
Qed.

Lemma pp_closed_wait dummy rs :
  dummy <> Spixpress.F_PP -> pp_closed (wait_frame dummy rs) [].
Proof.
  intros Hd. unfold pp_closed, wait_frame. cbn [pp_scan].
  change (Spixpress.F_RDSR =? Spixpress.F_PP) with false. cbv iota.
  induction rs as [|r rs IH]; cbn [poll_trace flat_map app pp_scan].
  - reflexivity.
  - apply Z.eqb_neq in Hd. rewrite Hd. exact IH.
Qed.

Lemma pp_scan_data acc ds rest :
  Forall (fun v => v <> Spixpress.F_END) ds ->
  pp_scan (Some acc) (map EvCfgWrite ds ++ EvCfgWrite Spixpress.F_END :: rest) =
  ((rev acc ++ ds) :: fst (pp_scan None rest), snd (pp_scan None rest)).
Proof.
  revert acc. induction ds as [|d ds IH]; intros acc H; cbn [map app pp_scan].
  - rewrite Z.eqb_refl. destruct (pp_scan None rest). rewrite app_nil_r.
    reflexivity.
  - inversion H as [|x l Hd Hds]; subst. apply Z.eqb_neq in Hd. rewrite Hd.
    rewrite (IH _ Hds). cbn [rev]. rewrite <- app_assoc. reflexivity.
Qed.

Lemma user_byte_not_end mode v :
  mode = 0 \/ mode = Spixpress.CFG_USERMODE ->
  Z.lor mode (Z.land v 255) <> Spixpress.F_END.
Proof.
  intros Hm E.
  assert (Hb : Z.testbit (Z.lor mode (Z.land v 255)) 8 = true)
    by (rewrite E; reflexivity).
  rewrite Z.lor_spec, Z.land_spec in Hb.
  change (Z.testbit 255 8) with false in Hb. rewrite andb_false_r in Hb.
  destruct Hm; subst mode; discriminate.
Qed.

Lemma pp_closed_page mode addr from ln buf :
  mode = 0 \/ mode = Spixpress.CFG_USERMODE ->
  pp_closed (page_frame mode addr from ln buf)
            [page_payload mode addr from ln buf].
Proof.
  intros Hm. unfold pp_closed, page_frame. cbn [app pp_scan].
  change (Spixpress.F_END =? Spixpress.F_PP) with false.
  change (Spixpress.F_WREN =? Spixpress.F_PP) with false.
  change (Spixpress.F_PP =? Spixpress.F_PP) with true. cbv iota.
  rewrite pp_scan_data; [reflexivity|].
  unfold page_payload, page_data. apply Forall_app. split.
  - repeat constructor; apply user_byte_not_end; exact Hm.
  - apply Forall_map, Forall_forall. intros k _.
    apply user_byte_not_end. exact Hm.
Qed.

(** The data of the pages that tile a request are the bytes of the
    buffer, each once and in order. *)
Lemma tiles_data mode addr buf calls :
  forall a b, tiles a calls b -> addr <= a ->
    flat_map (fun c => page_data mode (Z.to_nat (fst c - addr)) (snd c) buf)
             calls =
    map (fun k => Z.lor mode (Z.land (nth k buf 0) 255))
        (seq (Z.to_nat (a - addr)) (Z.to_nat (b - a))).
Proof.
  induction calls as [|[st l] rest IH]; cbn [tiles flat_map fst snd];
    intros a b H Ha.
  - subst b. rewrite Z.sub_diag. reflexivity.
  - destruct H as (E & Hl & _ & Ht). subst st.
    pose proof (tiles_ascending _ _ _ Ht) as [Hle _].
    rewrite (IH _ _ Ht) by lia. unfold page_data. rewrite <- map_app.
    f_equal.
    replace (Z.to_nat (b - a)) with (Z.to_nat l + Z.to_nat (b - (a + l)))%nat
      by lia.
    rewrite seq_app. f_equal. f_equal. lia.
Qed.

Lemma page_data_skipn mode n ln buf :
  page_data mode 0 ln (skipn n buf) = page_data mode n ln buf.
Proof.
  unfold page_data.
  assert (H : forall m k,
    map (fun j => Z.lor mode (Z.land (nth j (skipn n buf) 0) 255)) (seq k m) =
    map (fun j => Z.lor mode (Z.land (nth j buf 0) 255)) (seq (n + k) m)).
  { induction m as [|m IH]; intros k; cbn [seq map]; [reflexivity|].
    rewrite nth_skipn, (IH (S k)). f_equal.
    replace (n + S k)%nat with (S (n + k)) by lia. reflexivity. }
  rewrite H, Nat.add_0_r. reflexivity.
Qed.

Lemma page_payload_skipn mode addr n ln buf :
  page_payload mode addr 0 ln (skipn n buf) = page_payload mode addr n ln buf.
Proof. unfold page_payload. rewrite page_data_skipn. reflexivity. Qed.

(** ** The sequencer of spixpress_tb.cpp *)

Section SpixpressFacts.

Context {Env : Type}.
Variable TESTB_tick : Env -> WbIn -> Env * WbOut.
Variable fuel : nat.
Variable cfg_write_port : Z -> @M Env unit.
Variable cfg_read_port : @M Env Z.
Notation TB := (@TB Env).

Hypothesis cfg_write_port_quiet :
  forall v, returns (extends port_event) (cfg_write_port v).
Hypothesis cfg_read_port_quiet :
  returns (extends port_event) cfg_read_port.

Notation cfg_write := (Spixpress.cfg_write cfg_write_port).
Notation cfg_read := (Spixpress.cfg_read cfg_read_port).

Section AnyView.

Context {X : Type}.
Variable f : Event -> list X.
Hypothesis f_port : forall e, port_event e -> f e = [].

Lemma spi_cfg_write_view v (s : TB) u s' :
  cfg_write v s = Ok u s' -> view f (f (EvCfgWrite v)) s s'.
Proof.
  intros H. unfold Spixpress.cfg_write in H.
  apply bind_Ok_inv in H. destruct H as (u0 & s1 & He & H).
  apply (view_emit f) in He. apply cfg_write_port_quiet in H.
  apply (view_extends f _ _ _ f_port) in H.
  pose proof (view_trans _ _ _ _ _ _ He H) as Hv.
  rewrite app_nil_r in Hv. exact Hv.
Qed.

Lemma spi_cfg_read_view (s : TB) r s' :
  cfg_read s = Ok r s' -> view f (f (EvCfgRead r)) s s'.
Proof.
  intros H. unfold Spixpress.cfg_read in H.
  apply bind_Ok_inv in H. destruct H as (r0 & s1 & Hp & H).
  apply cfg_read_port_quiet in Hp.
  apply (view_extends f _ _ _ f_port) in Hp.
  apply bind_Ok_inv in H. destruct H as (u & s2 & He & H).
  apply (view_emit f) in He. inversion H; subst r0 s2.
  exact (view_trans _ _ _ _ _ _ Hp He).
Qed.

End AnyView.

Lemma spi_cfg_write_cfg v (s : TB) u s' :
  cfg_write v s = Ok u s' -> view cfg_view [EvCfgWrite v] s s'.
Proof. apply (spi_cfg_write_view cfg_view port_event_cfg_view). Qed.

Lemma spi_cfg_read_cfg (s : TB) r s' :
  cfg_read s = Ok r s' -> view cfg_view [EvCfgRead r] s s'.
Proof. apply (spi_cfg_read_view cfg_view port_event_cfg_view). Qed.

Lemma spi_cfg_write_page v (s : TB) u s' :
  cfg_write v s = Ok u s' -> view page_view [] s s'.
Proof. apply (spi_cfg_write_view page_view port_event_page_view). Qed.

Lemma spi_cfg_read_page (s : TB) r s' :
  cfg_read s = Ok r s' -> view page_view [] s s'.
Proof. apply (spi_cfg_read_view page_view port_event_page_view). Qed.

Ltac spi_cfg Hs :=
  first [ apply spi_cfg_write_cfg in Hs
        | apply spi_cfg_read_cfg in Hs
        | apply (view_tick cfg_view) in Hs; [|reflexivity]
        | apply (view_emit cfg_view) in Hs; simpl in Hs
        | apply (view_same cfg_view) in Hs
        | (inversion Hs; subst; clear Hs) ].


(** [flreadid]: the opcode, four times a dummy write and a read, the
    de-select; the word returned packs the four bytes read, first byte
    first. *)
Lemma spi_flreadid_trace (s : TB) r s' :
  Spixpress.flreadid cfg_write_port cfg_read_port s = Ok r s' ->
  exists v0 v1 v2 v3,
    view cfg_view
      [EvCfgWrite Spixpress.F_READID;
       EvCfgWrite 0; EvCfgRead v0; EvCfgWrite 0; EvCfgRead v1;
       EvCfgWrite 0; EvCfgRead v2; EvCfgWrite 0; EvCfgRead v3;
       EvCfgWrite Spixpress.F_END] s s' /\
    r = id_word v0 v1 v2 v3.
Proof.
  intros H. unfold Spixpress.flreadid in H.
  pose proof (view_refl cfg_view s) as Hacc.
  do 10 view_step Hacc H spi_cfg.
  inversion H; subst. simpl in Hacc.
  eexists _, _, _, _. split; [exact Hacc|]. apply id_word_packed.
Qed.

(** [flwait]: the opcode, polls while the busy bit is set, the
    de-select. *)
Lemma spi_flwait_trace (s : TB) u s' :
  Spixpress.flwait fuel cfg_write_port cfg_read_port s = Ok u s' ->
  exists rs r,
    view cfg_view
      (EvCfgWrite Spixpress.F_RDSR :: poll_trace 0 (rs ++ [r]) ++
       [EvCfgWrite Spixpress.F_END]) s s' /\
    Forall busy rs /\ Z.land r 1 = 0.
Proof.
  intros H. unfold Spixpress.flwait in H.
  pose proof (view_refl cfg_view s) as Hacc.
  do 2 view_step Hacc H spi_cfg.
  apply bind_Ok_inv in H. destruct H as (r & s2 & Hl & H).
  unfold do_while in Hl.
  apply bind_Ok_inv in Hl. destruct Hl as (r1 & s3 & Hb & Hl).
  view_step Hacc Hb spi_cfg. view_last Hacc Hb spi_cfg.
  simpl in Hacc.
  apply (while_Ok_inv (fun r0 s0 =>
           exists rs,
             view cfg_view
               (EvCfgWrite Spixpress.F_RDSR :: poll_trace 0 (rs ++ [r0])) s s0 /\
             Forall busy rs)) in Hl.
  - destruct Hl as (r0 & (rs & Hv & Hbusy) & Hcond).
    injection Hcond as Hc Hr. subst r0.
    apply negb_false_iff, Z.eqb_eq in Hc.
    view_step Hv H spi_cfg. view_last Hv H spi_cfg.
    exists rs, r. split; [|split; assumption].
    rewrite app_nil_r in Hv. exact Hv.
  - intros r0 st r0' rn st' (rs & Hv & Hbusy) Hcond Hbody.
    injection Hcond as Hc Hr. subst r0'.
    apply negb_true_iff, Z.eqb_neq in Hc.
    view_step Hv Hbody spi_cfg. view_last Hv Hbody spi_cfg.
    exists (rs ++ [r0]). split.
    + rewrite poll_trace_app. simpl.
      rewrite <- !app_assoc in Hv. simpl in Hv. exact Hv.
    + apply Forall_app. split; [exact Hbusy | constructor; [exact Hc | constructor]].
  - exists []. split; [exact Hacc | constructor].
Qed.

(** [flerase] of the single SPI bench: write enable between de-selects,
    the sector erase opcode and the three address bytes, most significant
    first, the de-select, the wait. *)
Lemma spi_flerase_trace sectoraddr (s : TB) u s' :
  Spixpress.flerase fuel cfg_write_port cfg_read_port sectoraddr s = Ok u s' ->
  exists rs r,
    view cfg_view
      ([EvCfgWrite Spixpress.F_END; EvCfgWrite Spixpress.F_WREN;
        EvCfgWrite Spixpress.F_END;
        EvCfgWrite Spixpress.F_SE;
        EvCfgWrite (Z.land (Z.shiftr sectoraddr 16) 255);
        EvCfgWrite (Z.land (Z.shiftr sectoraddr 8) 255);
        EvCfgWrite (Z.land sectoraddr 255);
        EvCfgWrite Spixpress.F_END] ++
       EvCfgWrite Spixpress.F_RDSR :: poll_trace 0 (rs ++ [r]) ++
       [EvCfgWrite Spixpress.F_END]) s s' /\
    Forall busy rs /\ Z.land r 1 = 0.
Proof.
  intros H. unfold Spixpress.flerase in H.
  pose proof (view_refl cfg_view s) as Hacc.
  do 8 view_step Hacc H spi_cfg.
  apply spi_flwait_trace in H. destruct H as (rs & r & Hw & Hb & Hr).
  exists rs, r. split; [|split; assumption].
  exact (view_trans _ _ _ _ _ _ Hacc Hw).
Qed.

(** *** The pages of [flprogram] *)

Lemma unseen_trans {X} (f : Event -> list X) (s1 s2 s3 : TB) :
  view f [] s1 s2 -> view f [] s2 s3 -> view f [] s1 s3.
Proof. intros H1 H2. exact (view_trans f [] [] s1 s2 s3 H1 H2). Qed.

Ltac spi_unseen :=
  returns_steps (@view_refl Env _ page_view) (@unseen_trans _ page_view)
    ltac:(first
      [ intros ? ? ? Hu; apply spi_cfg_write_page in Hu; exact Hu
      | intros ? ? ? Hu; apply spi_cfg_read_page in Hu; exact Hu
      | intros ? ? ? Hu; apply (view_tick page_view) in Hu;
          [exact Hu | reflexivity]
      | intros ? ? ? Hu; apply (view_emit page_view) in Hu; exact Hu
      | intros ? ? ? Hu; apply cfg_write_port_quiet in Hu;
          apply (view_extends page_view _ _ _ port_event_page_view) in Hu;
          exact Hu
      | intros ? ? ? Hu; apply cfg_read_port_quiet in Hu;
          apply (view_extends page_view _ _ _ port_event_page_view) in Hu;
          exact Hu ]).

Lemma spi_flwait_unseen :
  returns (view page_view [])
    (Spixpress.flwait fuel cfg_write_port cfg_read_port).
Proof. unfold Spixpress.flwait, printf. spi_unseen. Qed.

Lemma spi_flpage_program_page addr ln buf (s : TB) u s' :
  Spixpress.flpage_program TESTB_tick fuel cfg_write_port cfg_read_port
    addr ln buf s = Ok u s' ->
  view page_view [(addr, ln)] s s'.
Proof.
  intros H. unfold Spixpress.flpage_program in H.
  apply bind_Ok_inv in H. destruct H as (u0 & s1 & Hw & H).
  apply spi_flwait_unseen in Hw.
  apply bind_Ok_inv in H. destruct H as (u1 & s2 & Hp & H).
  apply (view_emit page_view) in Hp.
  assert (Hrest : view page_view [] s2 s').
  { revert H.
    match goal with
    | |- ?m s2 = Ok u s' -> _ =>
        assert (Hr : returns (view page_view []) m);
          [ | intros H; exact (Hr _ _ _ H) ]
    end.
    spi_unseen. }
  pose proof (view_trans _ _ _ _ _ _ (view_trans _ _ _ _ _ _ Hw Hp) Hrest) as Hv.
  simpl in Hv. exact Hv.
Qed.

Lemma spi_chunk_len addr ln start :
  0 <= addr -> 1 <= ln -> addr + ln <= 2147483392 ->
  addr <= start < addr + ln ->
  Spixpress.chunk_len addr ln start =
    (if 256 * ((addr + ln - 1) / 256) =? 256 * (start / 256)
     then addr + ln - start else 256 * ((start + 256) / 256) - start) /\
  Spixpress.PAGEOF (swrap32 (start + Spixpress.PGLENB)) =
    256 * ((start + 256) / 256).
Proof.
  intros Ha Hl Hb Hs.
  unfold Spixpress.chunk_len, Spixpress.PAGEOF, Spixpress.PGLENB,
    Spixpress.SZPAGEB.
  rewrite (swrap32_small (addr + ln)) by lia.
  rewrite (swrap32_small (addr + ln - 1)) by lia.
  rewrite (swrap32_small (start + 256)) by lia.
  rewrite !land_page_mask.
  assert (256 * ((start + 256) / 256) <= start + 256)
    by (Z.div_mod_to_equations; lia).
  assert (start < 256 * ((start + 256) / 256))
    by (Z.div_mod_to_equations; lia).
  rewrite (swrap32_small (addr + ln - start)) by lia.
  rewrite (swrap32_small (256 * ((start + 256) / 256) - start)) by lia.
  split; reflexivity.
Qed.

(** [flprogram], when it returns and no sum overflows an [int]: one call
    of [flpage_program] per page of the request, in ascending order, end
    to end from [addr] to [addr+ln]. *)
Lemma spi_flprogram_pages addr ln buf (s : TB) u s' :
  0 <= addr -> 1 <= ln -> addr + ln <= 2147483392 ->
  Spixpress.flprogram TESTB_tick fuel cfg_write_port cfg_read_port
    addr ln buf s = Ok u s' ->
  exists calls,
    view page_view calls s s' /\ tiles addr calls (addr + ln) /\
    Z.of_nat (List.length calls) = (addr + ln - 1) / 256 - addr / 256 + 1.
Proof.
  intros Ha Hl Hb H. unfold Spixpress.flprogram in H.
  apply bind_Ok_inv in H. destruct H as (u0 & s1 & Hp & H).
  apply (view_emit page_view) in Hp. simpl in Hp.
  apply bind_Ok_inv in H. destruct H as (st & s2 & Hloop & H).
  apply spi_flwait_unseen in H.
  rewrite (swrap32_small (addr + ln)) in Hloop by lia.
  apply (while_Ok_inv (fun start s0 =>
           exists calls, view page_view calls s s0 /\
                         pages_so_far addr ln start calls)) in Hloop.
  - destruct Hloop as (start & (calls & Hv & Hpg) & Hcond).
    injection Hcond as Hc Hst. apply Z.ltb_ge in Hc.
    destruct (pages_so_far_end addr ln start calls Ha Hl Hc Hpg) as [Ht Hn].
    exists calls. split; [|split; assumption].
    pose proof (view_trans _ _ _ _ _ _ Hv H) as Hv'.
    rewrite app_nil_r in Hv'. exact Hv'.
  - intros start sa start' nxt sb (calls & Hv & Hpg) Hcond Hbody.
    injection Hcond as Hc Hst. subst start'. apply Z.ltb_lt in Hc.
    apply bind_Ok_inv in Hbody. destruct Hbody as (u1 & sc & Hpp & Hr).
    inversion Hr; subst nxt sc. clear Hr.
    apply spi_flpage_program_page in Hpp.
    assert (Hle : addr <= start) by (destruct Hpg as (_ & _ & Hle & _); exact Hle).
    destruct (spi_chunk_len addr ln start Ha Hl Hb (conj Hle Hc)) as [Ecl Enx].
    rewrite Ecl in Hpp. rewrite Enx.
    exists (calls ++ [(start,
              if 256 * ((addr + ln - 1) / 256) =? 256 * (start / 256)
              then addr + ln - start
              else 256 * ((start + 256) / 256) - start)]).
    split; [exact (view_trans _ _ _ _ _ _ Hv Hpp)|].
    apply pages_so_far_step; assumption.
  - exists []. split; [exact Hp | apply pages_so_far_start; assumption].
Qed.

(** *** The frames of [flpage_program] and [flprogram] *)

Lemma spi_flwait_frame (s : TB) u s' :
  Spixpress.flwait fuel cfg_write_port cfg_read_port s = Ok u s' ->
  exists rs, view cfg_view (wait_frame 0 rs) s s' /\ polled rs.
Proof.
  intros H. apply spi_flwait_trace in H. destruct H as (rs & r & Hv & Hb & Hr).
  exists (rs ++ [r]). split; [exact Hv|]. exists rs, r.
  split; [reflexivity | split; assumption].
Qed.

(** The loop over the bytes of the page. *)
Lemma spi_page_bytes buf :
  forall n k (s : TB) u s',
    for_ n (fun i _ => cfg_write (Z.land (nth (Z.to_nat i) buf 0) 255))
         (Z.of_nat k) tt s = Ok u s' ->
    view cfg_view
      (map EvCfgWrite
         (map (fun j => Z.lor 0 (Z.land (nth j buf 0) 255)) (seq k n))) s s'.
Proof.
  induction n as [|n IH]; intros k s u s' H; cbn [for_ seq map] in *.
  - inversion H; subst. apply view_refl.
  - apply bind_Ok_inv in H. destruct H as (u1 & s1 & Hw & H).
    rewrite Nat2Z.id in Hw. apply spi_cfg_write_cfg in Hw.
    replace (Z.of_nat k + 1) with (Z.of_nat (S k)) in H by lia.
    destruct u1. apply IH in H. exact (view_trans _ _ _ _ _ _ Hw H).
Qed.

(** [flpage_program]: a wait, the frame of the page, a wait. *)
Lemma spi_flpage_program_trace addr ln buf (s : TB) u s' :
  Spixpress.flpage_program TESTB_tick fuel cfg_write_port cfg_read_port
    addr ln buf s = Ok u s' ->
  exists rs1 rs2,
    view cfg_view
      (wait_frame 0 rs1 ++ page_frame 0 addr 0 ln buf ++ wait_frame 0 rs2)
      s s' /\
    polled rs1 /\ polled rs2.
Proof.
  intros H. unfold Spixpress.flpage_program in H.
  apply bind_Ok_inv in H. destruct H as (u0 & sa & Hw1 & H).
  apply spi_flwait_frame in Hw1. destruct Hw1 as (rs1 & Hacc & Hp1).
  do 10 view_step Hacc H spi_cfg.
  apply bind_Ok_inv in H. destruct H as (u1 & sb & Hd & H).
  apply (spi_page_bytes buf (Z.to_nat ln) 0%nat) in Hd.
  pose proof (view_trans _ _ _ _ _ _ Hacc Hd) as Hacc2. clear Hacc Hd.
  do 2 view_step Hacc2 H spi_cfg.
  apply bind_Ok_inv in H. destruct H as (u2 & sc & Hw2 & H).
  apply spi_flwait_frame in Hw2. destruct Hw2 as (rs2 & Hv2 & Hp2).
  pose proof (view_trans _ _ _ _ _ _ Hacc2 Hv2) as Hacc3. clear Hacc2 Hv2.
  view_last Hacc3 H spi_cfg.
  exists rs1, rs2. split; [|split; assumption].
  unfold page_frame, page_payload, page_data.
  repeat rewrite <- app_assoc in Hacc3. cbn [app] in Hacc3.
  repeat rewrite <- app_assoc. cbn [app map].
  rewrite app_nil_r in Hacc3. exact Hacc3.
Qed.

(** What the page program frames of a history carry. *)
Lemma spi_flpage_program_payload addr ln buf (s : TB) u s' :
  Spixpress.flpage_program TESTB_tick fuel cfg_write_port cfg_read_port
    addr ln buf s = Ok u s' ->
  exists t, view cfg_view t s s' /\
            pp_closed t [page_payload 0 addr 0 ln buf].
Proof.
  intros H. apply spi_flpage_program_trace in H.
  destruct H as (rs1 & rs2 & Hv & _). eexists. split; [exact Hv|].
  apply (pp_closed_app _ _ [] [_]); [apply pp_closed_wait; discriminate|].
  apply (pp_closed_app _ _ [_] []); [|apply pp_closed_wait; discriminate].
  apply pp_closed_page. left. reflexivity.
Qed.

(** [flprogram], when no sum overflows an [int]: the page program frames
    of its history are those of the chunks that tile the request, each
    with the bytes of the buffer that belong to it. *)
Lemma spi_flprogram_payloads addr ln buf (s : TB) u s' :
  0 <= addr -> 1 <= ln -> addr + ln <= 2147483392 ->
  Spixpress.flprogram TESTB_tick fuel cfg_write_port cfg_read_port
    addr ln buf s = Ok u s' ->
  exists calls t,
    view cfg_view t s s' /\ tiles addr calls (addr + ln) /\
    Z.of_nat (List.length calls) = (addr + ln - 1) / 256 - addr / 256 + 1 /\
    pp_closed t
      (map (fun c => page_payload 0 (fst c) (Z.to_nat (fst c - addr))
                                  (snd c) buf) calls).
Proof.
  intros Ha Hl Hb H. unfold Spixpress.flprogram in H.
  apply bind_Ok_inv in H. destruct H as (u0 & s1 & Hp & H).
  apply (view_emit cfg_view) in Hp. cbn [cfg_view is_cfg] in Hp.
  apply bind_Ok_inv in H. destruct H as (st & s2 & Hloop & H).
  apply spi_flwait_frame in H. destruct H as (rsw & Hw & _).
  rewrite (swrap32_small (addr + ln)) in Hloop by lia.
  apply (while_Ok_inv (fun start s0 =>
           exists calls t, view cfg_view t s s0 /\
             pages_so_far addr ln start calls /\
             pp_closed t
               (map (fun c => page_payload 0 (fst c) (Z.to_nat (fst c - addr))
                                           (snd c) buf) calls))) in Hloop.
  - destruct Hloop as (start & (calls & t & Hv & Hpg & Hc) & Hcond).
    injection Hcond as Hlt Hst. apply Z.ltb_ge in Hlt.
    destruct (pages_so_far_end addr ln start calls Ha Hl Hlt Hpg) as [Ht Hn].
    exists calls, (t ++ wait_frame 0 rsw).
    split; [exact (view_trans _ _ _ _ _ _ Hv Hw)|]. split; [exact Ht|].
    split; [exact Hn|].
    rewrite <- (app_nil_r (map _ calls)).
    apply pp_closed_app; [exact Hc | apply pp_closed_wait; discriminate].
  - intros start sa start' nxt sb (calls & t & Hv & Hpg & Hc) Hcond Hbody.
    injection Hcond as Hlt Hst. subst start'. apply Z.ltb_lt in Hlt.
    apply bind_Ok_inv in Hbody. destruct Hbody as (u1 & sc & Hpp & Hr).
    inversion Hr; subst nxt sc. clear Hr.
    apply spi_flpage_program_payload in Hpp. destruct Hpp as (t1 & Hv1 & Hc1).
    assert (Hle : addr <= start) by (destruct Hpg as (_ & _ & Hle & _); exact Hle).
    destruct (spi_chunk_len addr ln start Ha Hl Hb (conj Hle Hlt)) as [Ecl Enx].
    rewrite Ecl in Hc1. rewrite Enx.
    exists (calls ++ [(start,
              if 256 * ((addr + ln - 1) / 256) =? 256 * (start / 256)
              then addr + ln - start
              else 256 * ((start + 256) / 256) - start)]), (t ++ t1).
    split; [exact (view_trans _ _ _ _ _ _ Hv Hv1)|].
    split; [apply pages_so_far_step; assumption|].
    rewrite map_app. apply pp_closed_app; [exact Hc|].
    cbn [map fst snd]. rewrite <- page_payload_skipn. exact Hc1.
  - exists [], []. split; [exact Hp|].
    split; [apply pages_so_far_start; assumption | reflexivity].
Qed.

(** A request of no byte, or less: no page is programmed, only the wait
    is made. *)
Lemma spi_flprogram_nothing addr ln buf (s : TB) u s' :
  ln <= 0 -> -2147483648 <= addr + ln -> addr <= 2147483647 ->
  Spixpress.flprogram TESTB_tick fuel cfg_write_port cfg_read_port
    addr ln buf s = Ok u s' ->
  view page_view [] s s' /\
  exists rs, view cfg_view (wait_frame 0 rs) s s' /\ polled rs.
Proof.
  intros Hl Hlo Hhi H. unfold Spixpress.flprogram in H.
  apply bind_Ok_inv in H. destruct H as (u0 & s1 & Hp & H).
  apply bind_Ok_inv in H. destruct H as (st & s2 & Hloop & H).
  rewrite (swrap32_small (addr + ln)) in Hloop by lia.
  assert (E : s2 = s1).
  { destruct fuel; cbn [while_] in Hloop;
      (destruct (addr <? addr + ln) eqn:El;
        [apply Z.ltb_lt in El; lia | inversion Hloop; reflexivity]). }
  subst s2. split.
  - apply (view_emit page_view) in Hp. apply spi_flwait_unseen in H.
    exact (view_trans _ _ _ _ _ _ Hp H).
  - apply (view_emit cfg_view) in Hp. apply spi_flwait_frame in H.
    destruct H as (rs & Hv & Hpl). exists rs. split; [|exact Hpl].
    exact (view_trans _ _ _ _ _ _ Hp Hv).
Qed.

(** *** A device that is never busy *)

Section SpixpressReady.

Hypothesis cfg_write_port_returns :
  forall v, total (cfg_write_port v) (fun _ => True).
Hypothesis cfg_read_port_ready :
  total cfg_read_port (fun r => Z.land r 1 = 0).
Hypothesis tick_returns : total (tick TESTB_tick) (fun _ => True).

Lemma spi_cfg_write_total v : total (cfg_write v) (fun _ => True).
Proof.
  unfold Spixpress.cfg_write.
  eapply total_bind; [apply total_emit | intros _ _; apply cfg_write_port_returns].
Qed.

Lemma spi_cfg_read_total : total cfg_read (fun r => Z.land r 1 = 0).
Proof.
  unfold Spixpress.cfg_read.
  eapply total_bind; [apply cfg_read_port_ready | intros r Hr].
  eapply total_bind; [apply total_emit | intros _ _].
  apply total_ret. exact Hr.
Qed.

Lemma spi_flwait_total :
  total (Spixpress.flwait fuel cfg_write_port cfg_read_port) (fun _ => True).
Proof.
  unfold Spixpress.flwait, printf.
  eapply total_bind; [apply total_emit | intros _ _].
  eapply total_bind; [apply spi_cfg_write_total | intros _ _].
  eapply total_bind with (Q := fun _ => True).
  - unfold do_while.
    eapply total_bind with (Q := fun r => Z.land r 1 = 0).
    + eapply total_bind; [apply spi_cfg_write_total | intros _ _].
      apply spi_cfg_read_total.
    + intros r Hr s. exists r, s. split; [|exact I].
      destruct fuel; simpl; rewrite Hr; reflexivity.
  - intros _ _.
    eapply total_bind; [apply spi_cfg_write_total | intros _ _].
    apply total_emit.
Qed.

Lemma spi_flpage_program_total addr ln buf :
  total (Spixpress.flpage_program TESTB_tick fuel cfg_write_port
           cfg_read_port addr ln buf) (fun _ => True).
Proof.
  unfold Spixpress.flpage_program, printf.
  repeat first
    [ apply tick_returns
    | eapply total_bind;
        [ first [ apply spi_flwait_total | apply total_emit | apply tick_returns
                | apply spi_cfg_write_total
                | apply total_for; intros; apply spi_cfg_write_total ]
        | intros _ _ ] ].
Qed.

(** With fuel for one turn per page, [flprogram] returns. *)
Lemma spi_flprogram_total addr ln buf :
  0 <= addr -> 1 <= ln -> addr + ln <= 2147483392 ->
  ((addr + ln - 1) / 256 - addr / 256 + 1 <= Z.of_nat fuel) ->
  total (Spixpress.flprogram TESTB_tick fuel cfg_write_port cfg_read_port
           addr ln buf) (fun _ => True).
Proof.
  intros Ha Hl Hb Hfuel. unfold Spixpress.flprogram, printf.
  eapply total_bind; [apply total_emit | intros _ _].
  eapply total_bind with (Q := fun _ => True); [|intros _ _; apply spi_flwait_total].
  intros s. rewrite (swrap32_small (addr + ln)) by lia.
  destruct (while_terminates
    (fun start (_ : TB) =>
       addr <= start /\ (start = addr \/ start mod 256 = 0) /\
       start <= 256 * ((addr + ln - 1) / 256 + 1))
    (fun start _ => Z.to_nat ((addr + ln - 1) / 256 + 1 - start / 256))
    (fun start (_ : TB) => (start <? addr + ln, start))
    (fun start =>
       bind (Spixpress.flpage_program TESTB_tick fuel cfg_write_port
               cfg_read_port start (Spixpress.chunk_len addr ln start)
               (skipn (Z.to_nat (start - addr)) buf))
            (fun _ => ret (Spixpress.PAGEOF (swrap32 (start + Spixpress.PGLENB)))))
    ) with (n := fuel) (l := addr) (s := s) as (l' & s' & E).
  - intros start s0 start' (Hle & Hal & Hub) Hcond.
    injection Hcond as Hc Hst. subst start'. apply Z.ltb_lt in Hc.
    destruct (spi_flpage_program_total start (Spixpress.chunk_len addr ln start)
                (skipn (Z.to_nat (start - addr)) buf) s0) as (u & s1 & E & _).
    destruct (spi_chunk_len addr ln start Ha Hl Hb (conj Hle Hc)) as [_ Enx].
    destruct (chunk_step addr ln start Ha Hl Hb (conj Hle Hc))
      as (_ & _ & _ & Hnx & Hmod & Hnub & Hsn).
    eexists. exists s1. split.
    + unfold bind. rewrite E. reflexivity.
    + rewrite Enx. split; [split; [lia | split; [right; exact Hmod | exact Hnub]]|].
      rewrite Hnx.
      assert (start / 256 <= (addr + ln - 1) / 256)
        by (Z.div_mod_to_equations; lia).
      lia.
  - split; [lia | split; [left; reflexivity | Z.div_mod_to_equations; lia]].
  - lia.
  - exists l', s'. split; [exact E | exact I].
Qed.

End SpixpressReady.

End SpixpressFacts.

(** ** The sequencer of dualflexpress_tb.cpp *)

(** The frames of [take_offline] and [place_online]. *)
Definition take_offline_trace : list Event :=
  [EvCfgWrite Dualflexpress.F_END; EvCfgWrite Dualflexpress.F_RESET;
   EvCfgWrite Dualflexpress.F_RESET; EvCfgWrite Dualflexpress.F_END].

Definition place_online_trace : list Event :=
  let dual_write :=
    Z.lor (Z.lor Dualflexpress.CFG_USERMODE Dualflexpress.CFG_DSPEED)
          Dualflexpress.CFG_WEDIR in
  [EvCfgWrite Dualflexpress.DUAL_IO_READ;
   EvCfgWrite dual_write; EvCfgWrite dual_write; EvCfgWrite dual_write;
   EvCfgWrite (Z.lor dual_write 0xa0);
   EvCfgWrite (Z.lor Dualflexpress.CFG_USERMODE Dualflexpress.CFG_DSPEED);
   EvCfgWrite 0].


Section DualflexpressFacts.

Context {Env : Type}.
Variable TESTB_tick : Env -> WbIn -> Env * WbOut.
Variable fuel : nat.
Variable cfg_write_port : Z -> @M Env unit.
Variable cfg_read_port : @M Env Z.
Notation TB := (@TB Env).

Hypothesis cfg_write_port_quiet :
  forall v, returns (extends port_event) (cfg_write_port v).
Hypothesis cfg_read_port_quiet :
  returns (extends port_event) cfg_read_port.

Notation cfg_write := (Dualflexpress.cfg_write cfg_write_port).
Notation cfg_read := (Dualflexpress.cfg_read cfg_read_port).

Section AnyView.

Context {X : Type}.
Variable f : Event -> list X.
Hypothesis f_port : forall e, port_event e -> f e = [].

Lemma dual_cfg_write_view v (s : TB) u s' :
  cfg_write v s = Ok u s' -> view f (f (EvCfgWrite v)) s s'.
Proof.
  intros H. unfold Dualflexpress.cfg_write in H.
  apply bind_Ok_inv in H. destruct H as (u0 & s1 & He & H).
  apply (view_emit f) in He. apply cfg_write_port_quiet in H.
  apply (view_extends f _ _ _ f_port) in H.
  pose proof (view_trans _ _ _ _ _ _ He H) as Hv.
  rewrite app_nil_r in Hv. exact Hv.
Qed.

Lemma dual_cfg_read_view (s : TB) r s' :
  cfg_read s = Ok r s' -> view f (f (EvCfgRead r)) s s'.
Proof.
  intros H. unfold Dualflexpress.cfg_read in H.
  apply bind_Ok_inv in H. destruct H as (r0 & s1 & Hp & H).
  apply cfg_read_port_quiet in Hp.
  apply (view_extends f _ _ _ f_port) in Hp.
  apply bind_Ok_inv in H. destruct H as (u & s2 & He & H).
  apply (view_emit f) in He. inversion H; subst r0 s2.
  exact (view_trans _ _ _ _ _ _ Hp He).
Qed.

End AnyView.

Lemma dual_cfg_write_cfg v (s : TB) u s' :
  cfg_write v s = Ok u s' -> view cfg_view [EvCfgWrite v] s s'.
Proof. apply (dual_cfg_write_view cfg_view port_event_cfg_view). Qed.

Lemma dual_cfg_read_cfg (s : TB) r s' :
  cfg_read s = Ok r s' -> view cfg_view [EvCfgRead r] s s'.
Proof. apply (dual_cfg_read_view cfg_view port_event_cfg_view). Qed.

Lemma dual_cfg_write_page v (s : TB) u s' :
  cfg_write v s = Ok u s' -> view page_view [] s s'.
Proof. apply (dual_cfg_write_view page_view port_event_page_view). Qed.

Lemma dual_cfg_read_page (s : TB) r s' :
  cfg_read s = Ok r s' -> view page_view [] s s'.
Proof. apply (dual_cfg_read_view page_view port_event_page_view). Qed.

Ltac dual_cfg Hs :=
  first [ apply dual_cfg_write_cfg in Hs
        | apply dual_cfg_read_cfg in Hs
        | apply (view_tick cfg_view) in Hs; [|reflexivity]
        | apply (view_emit cfg_view) in Hs; simpl in Hs
        | apply (view_same cfg_view) in Hs
        | (inversion Hs; subst; clear Hs) ].


(** [flreadid]: the opcode, four times a dummy write and a read, the
    de-select; the word returned packs the four bytes read, first byte
    first. *)
Lemma dual_flreadid_trace (s : TB) r s' :
  Dualflexpress.flreadid cfg_write_port cfg_read_port s = Ok r s' ->
  exists v0 v1 v2 v3,
    view cfg_view
      [EvCfgWrite Dualflexpress.F_READID;
       EvCfgWrite Dualflexpress.CFG_USERMODE; EvCfgRead v0;
       EvCfgWrite Dualflexpress.CFG_USERMODE; EvCfgRead v1;
       EvCfgWrite Dualflexpress.CFG_USERMODE; EvCfgRead v2;
       EvCfgWrite Dualflexpress.CFG_USERMODE; EvCfgRead v3;
       EvCfgWrite Dualflexpress.F_END] s s' /\
    r = id_word v0 v1 v2 v3.
Proof.
  intros H. unfold Dualflexpress.flreadid in H.
  pose proof (view_refl cfg_view s) as Hacc.
  do 10 view_step Hacc H dual_cfg.
  inversion H; subst. simpl in Hacc.
  eexists _, _, _, _. split; [exact Hacc|]. apply id_word_packed.
Qed.

(** [flwait]: the opcode, polls while the busy bit is set, the
    de-select. *)
Lemma dual_flwait_trace (s : TB) u s' :
  Dualflexpress.flwait fuel cfg_write_port cfg_read_port s = Ok u s' ->
  exists rs r,
    view cfg_view
      (EvCfgWrite Dualflexpress.F_RDSR :: poll_trace Dualflexpress.CFG_USERMODE (rs ++ [r]) ++
       [EvCfgWrite Dualflexpress.F_END]) s s' /\
    Forall busy rs /\ Z.land r 1 = 0.
Proof.
  intros H. unfold Dualflexpress.flwait in H.
  pose proof (view_refl cfg_view s) as Hacc.
  do 2 view_step Hacc H dual_cfg.
  apply bind_Ok_inv in H. destruct H as (r & s2 & Hl & H).
  unfold do_while in Hl.
  apply bind_Ok_inv in Hl. destruct Hl as (r1 & s3 & Hb & Hl).
  view_step Hacc Hb dual_cfg. view_last Hacc Hb dual_cfg.
  simpl in Hacc.
  apply (while_Ok_inv (fun r0 s0 =>
           exists rs,
             view cfg_view
               (EvCfgWrite Dualflexpress.F_RDSR :: poll_trace Dualflexpress.CFG_USERMODE (rs ++ [r0])) s s0 /\
             Forall busy rs)) in Hl.
  - destruct Hl as (r0 & (rs & Hv & Hbusy) & Hcond).
    injection Hcond as Hc Hr. subst r0.
    apply negb_false_iff, Z.eqb_eq in Hc.
    view_step Hv H dual_cfg. view_last Hv H dual_cfg.
    exists rs, r. split; [|split; assumption].
    rewrite app_nil_r in Hv. exact Hv.
  - intros r0 st r0' rn st' (rs & Hv & Hbusy) Hcond Hbody.
    injection Hcond as Hc Hr. subst r0'.
    apply negb_true_iff, Z.eqb_neq in Hc.
    view_step Hv Hbody dual_cfg. view_last Hv Hbody dual_cfg.
    exists (rs ++ [r0]). split.
    + rewrite poll_trace_app. simpl.
      rewrite <- !app_assoc in Hv. simpl in Hv. exact Hv.
    + apply Forall_app. split; [exact Hbusy | constructor; [exact Hc | constructor]].
  - exists []. split; [exact Hacc | constructor].
Qed.

Lemma dual_take_offline_trace (s : TB) u s' :
  Dualflexpress.take_offline cfg_write_port s = Ok u s' ->
  view cfg_view take_offline_trace s s'.
Proof.
  intros H. unfold Dualflexpress.take_offline in H.
  pose proof (view_refl cfg_view s) as Hacc.
  do 3 view_step Hacc H dual_cfg. view_last Hacc H dual_cfg.
  exact Hacc.
Qed.

Lemma dual_place_online_trace (s : TB) u s' :
  Dualflexpress.place_online cfg_write_port s = Ok u s' ->
  view cfg_view place_online_trace s s'.
Proof.
  intros H. unfold Dualflexpress.place_online in H.
  pose proof (view_refl cfg_view s) as Hacc.
  do 6 view_step Hacc H dual_cfg. view_last Hacc H dual_cfg.
  exact Hacc.
Qed.

(** [flerase] of the dual I/O bench: [take_offline], write enable between
    de-selects, the sector erase opcode and the three address bytes, most
    significant first and each in a user mode word, the de-select, the
    wait, [place_online]. *)
Lemma dual_flerase_trace sectoraddr (s : TB) u s' :
  Dualflexpress.flerase fuel cfg_write_port cfg_read_port sectoraddr s = Ok u s' ->
  exists rs r,
    view cfg_view
      (take_offline_trace ++
       [EvCfgWrite Dualflexpress.F_END; EvCfgWrite Dualflexpress.F_WREN;
        EvCfgWrite Dualflexpress.F_END;
        EvCfgWrite Dualflexpress.F_SE;
        EvCfgWrite (Z.lor Dualflexpress.CFG_USERMODE
                      (Z.land (Z.shiftr sectoraddr 16) 255));
        EvCfgWrite (Z.lor Dualflexpress.CFG_USERMODE
                      (Z.land (Z.shiftr sectoraddr 8) 255));
        EvCfgWrite (Z.lor Dualflexpress.CFG_USERMODE
                      (Z.land sectoraddr 255));
        EvCfgWrite Dualflexpress.F_END] ++
       (EvCfgWrite Dualflexpress.F_RDSR ::
        poll_trace Dualflexpress.CFG_USERMODE (rs ++ [r]) ++
        [EvCfgWrite Dualflexpress.F_END]) ++
       place_online_trace) s s' /\
    Forall busy rs /\ Z.land r 1 = 0.
Proof.
  intros H. unfold Dualflexpress.flerase in H.
  apply bind_Ok_inv in H. destruct H as (u0 & s1 & Hoff & H).
  apply dual_take_offline_trace in Hoff. rename Hoff into Hacc.
  do 8 view_step Hacc H dual_cfg.
  apply bind_Ok_inv in H. destruct H as (uw & sw & Hw & H).
  apply dual_flwait_trace in Hw. destruct Hw as (rs & r & Hw & Hb & Hr).
  apply dual_place_online_trace in H.
  exists rs, r. split; [|split; assumption].
  pose proof (view_trans _ _ _ _ _ _ (view_trans _ _ _ _ _ _ Hacc Hw) H) as Hv.
  rewrite <- !app_assoc in Hv. exact Hv.
Qed.

(** *** The pages of [flprogram] *)

Lemma dual_unseen_trans {X} (f : Event -> list X) (s1 s2 s3 : TB) :
  view f [] s1 s2 -> view f [] s2 s3 -> view f [] s1 s3.
Proof. intros H1 H2. exact (view_trans f [] [] s1 s2 s3 H1 H2). Qed.

Ltac dual_unseen :=
  returns_steps (@view_refl Env _ page_view) (@dual_unseen_trans _ page_view)
    ltac:(first
      [ intros ? ? ? Hu; apply dual_cfg_write_page in Hu; exact Hu
      | intros ? ? ? Hu; apply dual_cfg_read_page in Hu; exact Hu
      | intros ? ? ? Hu; apply (view_tick page_view) in Hu;
          [exact Hu | reflexivity]
      | intros ? ? ? Hu; apply (view_emit page_view) in Hu; exact Hu
      | intros ? ? ? Hu; apply cfg_write_port_quiet in Hu;
          apply (view_extends page_view _ _ _ port_event_page_view) in Hu;
          exact Hu
      | intros ? ? ? Hu; apply cfg_read_port_quiet in Hu;
          apply (view_extends page_view _ _ _ port_event_page_view) in Hu;
          exact Hu ]).

Lemma dual_flwait_unseen :
  returns (view page_view [])
    (Dualflexpress.flwait fuel cfg_write_port cfg_read_port).
Proof. unfold Dualflexpress.flwait, printf. dual_unseen. Qed.

Lemma dual_take_offline_unseen :
  returns (view page_view []) (Dualflexpress.take_offline cfg_write_port).
Proof. unfold Dualflexpress.take_offline. dual_unseen. Qed.

Lemma dual_place_online_unseen :
  returns (view page_view []) (Dualflexpress.place_online cfg_write_port).
Proof. unfold Dualflexpress.place_online. dual_unseen. Qed.

Lemma dual_flpage_program_page addr ln buf (s : TB) u s' :
  Dualflexpress.flpage_program TESTB_tick fuel cfg_write_port cfg_read_port
    addr ln buf s = Ok u s' ->
  view page_view [(addr, ln)] s s'.
Proof.
  intros H. unfold Dualflexpress.flpage_program in H.
  apply bind_Ok_inv in H. destruct H as (u0 & s1 & Hw & H).
  apply dual_flwait_unseen in Hw.
  apply bind_Ok_inv in H. destruct H as (u1 & s2 & Hp & H).
  apply (view_emit page_view) in Hp.
  assert (Hrest : view page_view [] s2 s').
  { revert H.
    match goal with
    | |- ?m s2 = Ok u s' -> _ =>
        assert (Hr : returns (view page_view []) m);
          [ | intros H; exact (Hr _ _ _ H) ]
    end.
    dual_unseen. }
  pose proof (view_trans _ _ _ _ _ _ (view_trans _ _ _ _ _ _ Hw Hp) Hrest) as Hv.
  simpl in Hv. exact Hv.
Qed.

Lemma dual_chunk_len addr ln start :
  0 <= addr -> 1 <= ln -> addr + ln <= 2147483392 ->
  addr <= start < addr + ln ->
  Dualflexpress.chunk_len addr ln start =
    (if 256 * ((addr + ln - 1) / 256) =? 256 * (start / 256)
     then addr + ln - start else 256 * ((start + 256) / 256) - start) /\
  Dualflexpress.PAGEOF (swrap32 (start + Dualflexpress.PGLENB)) =
    256 * ((start + 256) / 256).
Proof.
  intros Ha Hl Hb Hs.
  unfold Dualflexpress.chunk_len, Dualflexpress.PAGEOF, Dualflexpress.PGLENB,
    Dualflexpress.SZPAGEB.
  rewrite (swrap32_small (addr + ln)) by lia.
  rewrite (swrap32_small (addr + ln - 1)) by lia.
  rewrite (swrap32_small (start + 256)) by lia.
  rewrite !land_page_mask.
  assert (256 * ((start + 256) / 256) <= start + 256)
    by (Z.div_mod_to_equations; lia).
  assert (start < 256 * ((start + 256) / 256))
    by (Z.div_mod_to_equations; lia).
  rewrite (swrap32_small (addr + ln - start)) by lia.
  rewrite (swrap32_small (256 * ((start + 256) / 256) - start)) by lia.
  split; reflexivity.
Qed.

(** [flprogram], when it returns and no sum overflows an [int]: one call
    of [flpage_program] per page of the request, in ascending order, end
    to end from [addr] to [addr+ln]. *)
Lemma dual_flprogram_pages addr ln buf (s : TB) u s' :
  0 <= addr -> 1 <= ln -> addr + ln <= 2147483392 ->
  Dualflexpress.flprogram TESTB_tick fuel cfg_write_port cfg_read_port
    addr ln buf s = Ok u s' ->
  exists calls,
    view page_view calls s s' /\ tiles addr calls (addr + ln) /\
    Z.of_nat (List.length calls) = (addr + ln - 1) / 256 - addr / 256 + 1.
Proof.
  intros Ha Hl Hb H. unfold Dualflexpress.flprogram in H.
  apply bind_Ok_inv in H. destruct H as (u9 & s9 & Hoff & H).
  apply dual_take_offline_unseen in Hoff.
  apply bind_Ok_inv in H. destruct H as (u0 & s1 & Hp & H).
  apply (view_emit page_view) in Hp. simpl in Hp.
  apply (dual_unseen_trans _ _ _ _ Hoff) in Hp. clear Hoff.
  apply bind_Ok_inv in H. destruct H as (st & s2 & Hloop & H).
  apply bind_Ok_inv in H. destruct H as (u8 & s8 & Hw & H).
  apply dual_flwait_unseen in Hw. apply dual_place_online_unseen in H.
  apply (dual_unseen_trans _ _ _ _ Hw) in H. clear Hw.
  rewrite (swrap32_small (addr + ln)) in Hloop by lia.
  apply (while_Ok_inv (fun start s0 =>
           exists calls, view page_view calls s s0 /\
                         pages_so_far addr ln start calls)) in Hloop.
  - destruct Hloop as (start & (calls & Hv & Hpg) & Hcond).
    injection Hcond as Hc Hst. apply Z.ltb_ge in Hc.
    destruct (pages_so_far_end addr ln start calls Ha Hl Hc Hpg) as [Ht Hn].
    exists calls. split; [|split; assumption].
    pose proof (view_trans _ _ _ _ _ _ Hv H) as Hv'.
    rewrite app_nil_r in Hv'. exact Hv'.
  - intros start sa start' nxt sb (calls & Hv & Hpg) Hcond Hbody.
    injection Hcond as Hc Hst. subst start'. apply Z.ltb_lt in Hc.
    apply bind_Ok_inv in Hbody. destruct Hbody as (u1 & sc & Hpp & Hr).
    inversion Hr; subst nxt sc. clear Hr.
    apply dual_flpage_program_page in Hpp.
    assert (Hle : addr <= start) by (destruct Hpg as (_ & _ & Hle & _); exact Hle).
    destruct (dual_chunk_len addr ln start Ha Hl Hb (conj Hle Hc)) as [Ecl Enx].
    rewrite Ecl in Hpp. rewrite Enx.
    exists (calls ++ [(start,
              if 256 * ((addr + ln - 1) / 256) =? 256 * (start / 256)
              then addr + ln - start
              else 256 * ((start + 256) / 256) - start)]).
    split; [exact (view_trans _ _ _ _ _ _ Hv Hpp)|].
    apply pages_so_far_step; assumption.
  - exists []. split; [exact Hp | apply pages_so_far_start; assumption].
Qed.

(** *** The frames of [flpage_program] and [flprogram] *)

Lemma dual_flwait_frame (s : TB) u s' :
  Dualflexpress.flwait fuel cfg_write_port cfg_read_port s = Ok u s' ->
  exists rs, view cfg_view (wait_frame Dualflexpress.CFG_USERMODE rs) s s' /\ polled rs.
Proof.
  intros H. apply dual_flwait_trace in H. destruct H as (rs & r & Hv & Hb & Hr).
  exists (rs ++ [r]). split; [exact Hv|]. exists rs, r.
  split; [reflexivity | split; assumption].
Qed.

(** The loop over the bytes of the page. *)
Lemma dual_page_bytes buf :
  forall n k (s : TB) u s',
    for_ n (fun i _ => cfg_write (Z.lor Dualflexpress.CFG_USERMODE
                                   (Z.land (nth (Z.to_nat i) buf 0) 255)))
         (Z.of_nat k) tt s = Ok u s' ->
    view cfg_view
      (map EvCfgWrite
         (map (fun j => Z.lor Dualflexpress.CFG_USERMODE
                               (Z.land (nth j buf 0) 255)) (seq k n))) s s'.
Proof.
  induction n as [|n IH]; intros k s u s' H; cbn [for_ seq map] in *.
  - inversion H; subst. apply view_refl.
  - apply bind_Ok_inv in H. destruct H as (u1 & s1 & Hw & H).
    rewrite Nat2Z.id in Hw. apply dual_cfg_write_cfg in Hw.
    replace (Z.of_nat k + 1) with (Z.of_nat (S k)) in H by lia.
    destruct u1. apply IH in H. exact (view_trans _ _ _ _ _ _ Hw H).
Qed.

(** [flpage_program]: a wait, the frame of the page, a wait. *)
Lemma dual_flpage_program_trace addr ln buf (s : TB) u s' :
  Dualflexpress.flpage_program TESTB_tick fuel cfg_write_port cfg_read_port
    addr ln buf s = Ok u s' ->
  exists rs1 rs2,
    view cfg_view
      (wait_frame Dualflexpress.CFG_USERMODE rs1 ++ page_frame Dualflexpress.CFG_USERMODE addr 0 ln buf ++ wait_frame Dualflexpress.CFG_USERMODE rs2)
      s s' /\
    polled rs1 /\ polled rs2.
Proof.
  intros H. unfold Dualflexpress.flpage_program in H.
  apply bind_Ok_inv in H. destruct H as (u0 & sa & Hw1 & H).
  apply dual_flwait_frame in Hw1. destruct Hw1 as (rs1 & Hacc & Hp1).
  do 10 view_step Hacc H dual_cfg.
  apply bind_Ok_inv in H. destruct H as (u1 & sb & Hd & H).
  apply (dual_page_bytes buf (Z.to_nat ln) 0%nat) in Hd.
  pose proof (view_trans _ _ _ _ _ _ Hacc Hd) as Hacc2. clear Hacc Hd.
  do 2 view_step Hacc2 H dual_cfg.
  apply bind_Ok_inv in H. destruct H as (u2 & sc & Hw2 & H).
  apply dual_flwait_frame in Hw2. destruct Hw2 as (rs2 & Hv2 & Hp2).
  pose proof (view_trans _ _ _ _ _ _ Hacc2 Hv2) as Hacc3. clear Hacc2 Hv2.
  view_last Hacc3 H dual_cfg.
  exists rs1, rs2. split; [|split; assumption].
  unfold page_frame, page_payload, page_data.
  repeat rewrite <- app_assoc in Hacc3. cbn [app] in Hacc3.
  repeat rewrite <- app_assoc. cbn [app map].
  rewrite app_nil_r in Hacc3. exact Hacc3.
Qed.

(** What the page program frames of a history carry. *)
Lemma dual_flpage_program_payload addr ln buf (s : TB) u s' :
  Dualflexpress.flpage_program TESTB_tick fuel cfg_write_port cfg_read_port
    addr ln buf s = Ok u s' ->
  exists t, view cfg_view t s s' /\
            pp_closed t [page_payload Dualflexpress.CFG_USERMODE addr 0 ln buf].
Proof.
  intros H. apply dual_flpage_program_trace in H.
  destruct H as (rs1 & rs2 & Hv & _). eexists. split; [exact Hv|].
  apply (pp_closed_app _ _ [] [_]); [apply pp_closed_wait; discriminate|].
  apply (pp_closed_app _ _ [_] []); [|apply pp_closed_wait; discriminate].
  apply pp_closed_page. right. reflexivity.
Qed.

Lemma pp_closed_take_offline : pp_closed take_offline_trace [].
Proof. reflexivity. Qed.

Lemma pp_closed_place_online : pp_closed place_online_trace [].
Proof. reflexivity. Qed.

(** [flprogram], when no sum overflows an [int]: the page program frames
    of its history are those of the chunks that tile the request, each
    with the bytes of the buffer that belong to it. *)
Lemma dual_flprogram_payloads addr ln buf (s : TB) u s' :
  0 <= addr -> 1 <= ln -> addr + ln <= 2147483392 ->
  Dualflexpress.flprogram TESTB_tick fuel cfg_write_port cfg_read_port
    addr ln buf s = Ok u s' ->
  exists calls t,
    view cfg_view t s s' /\ tiles addr calls (addr + ln) /\
    Z.of_nat (List.length calls) = (addr + ln - 1) / 256 - addr / 256 + 1 /\
    pp_closed t
      (map (fun c => page_payload Dualflexpress.CFG_USERMODE (fst c)
                       (Z.to_nat (fst c - addr)) (snd c) buf) calls).
Proof.
  intros Ha Hl Hb H. unfold Dualflexpress.flprogram in H.
  apply bind_Ok_inv in H. destruct H as (u9 & s9 & Hoff & H).
  apply dual_take_offline_trace in Hoff.
  apply bind_Ok_inv in H. destruct H as (u0 & s1 & Hp & H).
  apply (view_emit cfg_view) in Hp. cbn [cfg_view is_cfg] in Hp.
  pose proof (view_trans _ _ _ _ _ _ Hoff Hp) as Hstart.
  rewrite app_nil_r in Hstart. clear Hoff Hp.
  apply bind_Ok_inv in H. destruct H as (st & s2 & Hloop & H).
  apply bind_Ok_inv in H. destruct H as (u8 & s8 & Hw & H).
  apply dual_flwait_frame in Hw. destruct Hw as (rsw & Hw & _).
  apply dual_place_online_trace in H.
  pose proof (view_trans _ _ _ _ _ _ Hw H) as Hend. clear Hw H.
  rewrite (swrap32_small (addr + ln)) in Hloop by lia.
  apply (while_Ok_inv (fun start s0 =>
           exists calls t, view cfg_view t s s0 /\
             pages_so_far addr ln start calls /\
             pp_closed t
               (map (fun c => page_payload Dualflexpress.CFG_USERMODE (fst c)
                                (Z.to_nat (fst c - addr)) (snd c) buf) calls)))
    in Hloop.
  - destruct Hloop as (start & (calls & t & Hv & Hpg & Hc) & Hcond).
    injection Hcond as Hlt Hst. apply Z.ltb_ge in Hlt.
    destruct (pages_so_far_end addr ln start calls Ha Hl Hlt Hpg) as [Ht Hn].
    eexists calls, _.
    split; [exact (view_trans _ _ _ _ _ _ Hv Hend)|]. split; [exact Ht|].
    split; [exact Hn|].
    rewrite <- (app_nil_r (map _ calls)).
    apply pp_closed_app; [exact Hc|].
    apply (pp_closed_app _ _ [] []);
      [apply pp_closed_wait; discriminate | apply pp_closed_place_online].
  - intros start sa start' nxt sb (calls & t & Hv & Hpg & Hc) Hcond Hbody.
    injection Hcond as Hlt Hst. subst start'. apply Z.ltb_lt in Hlt.
    apply bind_Ok_inv in Hbody. destruct Hbody as (u1 & sc & Hpp & Hr).
    inversion Hr; subst nxt sc. clear Hr.
    apply dual_flpage_program_payload in Hpp. destruct Hpp as (t1 & Hv1 & Hc1).
    assert (Hle : addr <= start) by (destruct Hpg as (_ & _ & Hle & _); exact Hle).
    destruct (dual_chunk_len addr ln start Ha Hl Hb (conj Hle Hlt)) as [Ecl Enx].
    rewrite Ecl in Hc1. rewrite Enx.
    exists (calls ++ [(start,
              if 256 * ((addr + ln - 1) / 256) =? 256 * (start / 256)
              then addr + ln - start
              else 256 * ((start + 256) / 256) - start)]), (t ++ t1).
    split; [exact (view_trans _ _ _ _ _ _ Hv Hv1)|].
    split; [apply pages_so_far_step; assumption|].
    rewrite map_app. apply pp_closed_app; [exact Hc|].
    cbn [map fst snd]. rewrite <- page_payload_skipn. exact Hc1.
  - exists [], take_offline_trace. split; [exact Hstart|].
    split; [apply pages_so_far_start; assumption | reflexivity].
Qed.

(** A request of no byte, or less: no page is programmed; the flash is
    taken off line, waited for and placed on line again. *)
Lemma dual_flprogram_nothing addr ln buf (s : TB) u s' :
  ln <= 0 -> -2147483648 <= addr + ln -> addr <= 2147483647 ->
  Dualflexpress.flprogram TESTB_tick fuel cfg_write_port cfg_read_port
    addr ln buf s = Ok u s' ->
  view page_view [] s s' /\
  exists rs,
    view cfg_view
      (take_offline_trace ++ wait_frame Dualflexpress.CFG_USERMODE rs ++
       place_online_trace) s s' /\
    polled rs.
Proof.
  intros Hl Hlo Hhi H. unfold Dualflexpress.flprogram in H.
  apply bind_Ok_inv in H. destruct H as (u9 & s9 & Hoff & H).
  apply bind_Ok_inv in H. destruct H as (u0 & s1 & Hp & H).
  apply bind_Ok_inv in H. destruct H as (st & s2 & Hloop & H).
  apply bind_Ok_inv in H. destruct H as (u8 & s8 & Hw & H).
  rewrite (swrap32_small (addr + ln)) in Hloop by lia.
  assert (E : s2 = s1).
  { destruct fuel; cbn [while_] in Hloop;
      (destruct (addr <? addr + ln) eqn:El;
        [apply Z.ltb_lt in El; lia | inversion Hloop; reflexivity]). }
  subst s2. split.
  - apply dual_take_offline_unseen in Hoff.
    apply (view_emit page_view) in Hp. apply dual_flwait_unseen in Hw.
    apply dual_place_online_unseen in H.
    exact (dual_unseen_trans _ _ _ _
             (dual_unseen_trans _ _ _ _
                (dual_unseen_trans _ _ _ _ Hoff Hp) Hw) H).
  - apply dual_take_offline_trace in Hoff.
    apply (view_emit cfg_view) in Hp. apply dual_flwait_frame in Hw.
    destruct Hw as (rs & Hv & Hpl). apply dual_place_online_trace in H.
    exists rs. split; [|exact Hpl].
    pose proof (view_trans _ _ _ _ _ _
                  (view_trans _ _ _ _ _ _
                     (view_trans _ _ _ _ _ _ Hoff Hp) Hv) H) as Hall.
    cbn [cfg_view is_cfg] in Hall. rewrite app_nil_r, <- app_assoc in Hall.
    exact Hall.
Qed.

(** *** A device that is never busy *)

Section DualflexpressReady.

Hypothesis cfg_write_port_returns :
  forall v, total (cfg_write_port v) (fun _ => True).
Hypothesis cfg_read_port_ready :
  total cfg_read_port (fun r => Z.land r 1 = 0).
Hypothesis tick_returns : total (tick TESTB_tick) (fun _ => True).

Lemma dual_cfg_write_total v : total (cfg_write v) (fun _ => True).
Proof.
  unfold Dualflexpress.cfg_write.
  eapply total_bind; [apply total_emit | intros _ _; apply cfg_write_port_returns].
Qed.

Lemma dual_cfg_read_total : total cfg_read (fun r => Z.land r 1 = 0).
Proof.
  unfold Dualflexpress.cfg_read.
  eapply total_bind; [apply cfg_read_port_ready | intros r Hr].
  eapply total_bind; [apply total_emit | intros _ _].
  apply total_ret. exact Hr.
Qed.

Lemma dual_flwait_total :
  total (Dualflexpress.flwait fuel cfg_write_port cfg_read_port) (fun _ => True).
Proof.
  unfold Dualflexpress.flwait, printf.
  eapply total_bind; [apply total_emit | intros _ _].
  eapply total_bind; [apply dual_cfg_write_total | intros _ _].
  eapply total_bind with (Q := fun _ => True).
  - unfold do_while.
    eapply total_bind with (Q := fun r => Z.land r 1 = 0).
    + eapply total_bind; [apply dual_cfg_write_total | intros _ _].
      apply dual_cfg_read_total.
    + intros r Hr s. exists r, s. split; [|exact I].
      destruct fuel; simpl; rewrite Hr; reflexivity.
  - intros _ _.
    eapply total_bind; [apply dual_cfg_write_total | intros _ _].
    apply total_emit.
Qed.

Lemma dual_take_offline_total :
  total (Dualflexpress.take_offline cfg_write_port) (fun _ => True).
Proof.
  unfold Dualflexpress.take_offline.
  repeat first
    [ apply dual_cfg_write_total
    | eapply total_bind; [apply dual_cfg_write_total | intros _ _] ].
Qed.

Lemma dual_place_online_total :
  total (Dualflexpress.place_online cfg_write_port) (fun _ => True).
Proof.
  unfold Dualflexpress.place_online.
  repeat first
    [ apply dual_cfg_write_total
    | eapply total_bind; [apply dual_cfg_write_total | intros _ _] ].
Qed.

Lemma dual_flpage_program_total addr ln buf :
  total (Dualflexpress.flpage_program TESTB_tick fuel cfg_write_port
           cfg_read_port addr ln buf) (fun _ => True).
Proof.
  unfold Dualflexpress.flpage_program, printf.
  repeat first
    [ apply tick_returns
    | eapply total_bind;
        [ first [ apply dual_flwait_total | apply total_emit | apply tick_returns
                | apply dual_cfg_write_total
                | apply total_for; intros; apply dual_cfg_write_total ]
        | intros _ _ ] ].
Qed.

(** With fuel for one turn per page, [flprogram] returns. *)
Lemma dual_flprogram_total addr ln buf :
  0 <= addr -> 1 <= ln -> addr + ln <= 2147483392 ->
  ((addr + ln - 1) / 256 - addr / 256 + 1 <= Z.of_nat fuel) ->
  total (Dualflexpress.flprogram TESTB_tick fuel cfg_write_port cfg_read_port
           addr ln buf) (fun _ => True).
Proof.
  intros Ha Hl Hb Hfuel. unfold Dualflexpress.flprogram, printf.
  eapply total_bind; [apply dual_take_offline_total | intros _ _].
  eapply total_bind; [apply total_emit | intros _ _].
  eapply total_bind with (Q := fun _ => True);
    [|intros _ _; eapply total_bind;
        [apply dual_flwait_total | intros _ _; apply dual_place_online_total]].
  intros s. rewrite (swrap32_small (addr + ln)) by lia.
  destruct (while_terminates
    (fun start (_ : TB) =>
       addr <= start /\ (start = addr \/ start mod 256 = 0) /\
       start <= 256 * ((addr + ln - 1) / 256 + 1))
    (fun start _ => Z.to_nat ((addr + ln - 1) / 256 + 1 - start / 256))
    (fun start (_ : TB) => (start <? addr + ln, start))
    (fun start =>
       bind (Dualflexpress.flpage_program TESTB_tick fuel cfg_write_port
               cfg_read_port start (Dualflexpress.chunk_len addr ln start)
               (skipn (Z.to_nat (start - addr)) buf))
            (fun _ => ret (Dualflexpress.PAGEOF (swrap32 (start + Dualflexpress.PGLENB)))))
    ) with (n := fuel) (l := addr) (s := s) as (l' & s' & E).
  - intros start s0 start' (Hle & Hal & Hub) Hcond.
    injection Hcond as Hc Hst. subst start'. apply Z.ltb_lt in Hc.
    destruct (dual_flpage_program_total start (Dualflexpress.chunk_len addr ln start)
                (skipn (Z.to_nat (start - addr)) buf) s0) as (u & s1 & E & _).
    destruct (dual_chunk_len addr ln start Ha Hl Hb (conj Hle Hc)) as [_ Enx].
    destruct (chunk_step addr ln start Ha Hl Hb (conj Hle Hc))
      as (_ & _ & _ & Hnx & Hmod & Hnub & Hsn).
    eexists. exists s1. split.
    + unfold bind. rewrite E. reflexivity.
    + rewrite Enx. split; [split; [lia | split; [right; exact Hmod | exact Hnub]]|].
      rewrite Hnx.
      assert (start / 256 <= (addr + ln - 1) / 256)
        by (Z.div_mod_to_equations; lia).
      lia.
  - split; [lia | split; [left; reflexivity | Z.div_mod_to_equations; lia]].
  - lia.
  - exists l', s'. split; [exact E | exact I].
Qed.

End DualflexpressReady.

End DualflexpressFacts.

(** ** The flash commands, for both sequencers *)

Section SequencerTheorems.

Context {Env : Type}.
Variable TESTB_tick : Env -> WbIn -> Env * WbOut.
Variable fuel : nat.
Variable cfg_write_port : Z -> @M Env unit.
Variable cfg_read_port : @M Env Z.
Notation TB := (@TB Env).

(** Whatever [cfg_write] and [cfg_read] do on the bus, it is not a call of
    one of them and not the line of [flpage_program]. *)
Hypothesis cfg_write_port_quiet :
  forall v, returns (extends port_event) (cfg_write_port v).
Hypothesis cfg_read_port_quiet :
  returns (extends port_event) cfg_read_port.

(** C9.  [flreadid], in either bench, writes the READ-ID opcode, then four
    times a dummy word followed by a read, then the de-select, and returns
    the low bytes of the four words read packed into 32 bits, the first
    read in the top byte.  It returns whenever the port does. *)
Theorem flreadid_frame :
  (forall (s : TB) r s',
     Spixpress.flreadid cfg_write_port cfg_read_port s = Ok r s' ->
     exists v0 v1 v2 v3,
       view cfg_view
         [EvCfgWrite Spixpress.F_READID;
          EvCfgWrite 0; EvCfgRead v0; EvCfgWrite 0; EvCfgRead v1;
          EvCfgWrite 0; EvCfgRead v2; EvCfgWrite 0; EvCfgRead v3;
          EvCfgWrite Spixpress.F_END] s s' /\
       r = id_word v0 v1 v2 v3 /\ 0 <= r < 4294967296) /\
  (forall (s : TB) r s',
     Dualflexpress.flreadid cfg_write_port cfg_read_port s = Ok r s' ->
     exists v0 v1 v2 v3,
       view cfg_view
         [EvCfgWrite Dualflexpress.F_READID;
          EvCfgWrite Dualflexpress.CFG_USERMODE; EvCfgRead v0;
          EvCfgWrite Dualflexpress.CFG_USERMODE; EvCfgRead v1;
          EvCfgWrite Dualflexpress.CFG_USERMODE; EvCfgRead v2;
          EvCfgWrite Dualflexpress.CFG_USERMODE; EvCfgRead v3;
          EvCfgWrite Dualflexpress.F_END] s s' /\
       r = id_word v0 v1 v2 v3 /\ 0 <= r < 4294967296) /\
  ((forall v, total (cfg_write_port v) (fun _ => True)) ->
   total cfg_read_port (fun _ => True) ->
   total (Spixpress.flreadid cfg_write_port cfg_read_port) (fun _ => True) /\
   total (Dualflexpress.flreadid cfg_write_port cfg_read_port) (fun _ => True)).
Proof.
  split; [|split].
  - intros s r s' H.
    destruct (spi_flreadid_trace _ _ cfg_write_port_quiet cfg_read_port_quiet
                _ _ _ H) as (v0 & v1 & v2 & v3 & Hv & Hr).
    exists v0, v1, v2, v3. split; [exact Hv|]. split; [exact Hr|].
    rewrite Hr. apply id_word_range.
  - intros s r s' H.
    destruct (dual_flreadid_trace _ _ cfg_write_port_quiet cfg_read_port_quiet
                _ _ _ H) as (v0 & v1 & v2 & v3 & Hv & Hr).
    exists v0, v1, v2, v3. split; [exact Hv|]. split; [exact Hr|].
    rewrite Hr. apply id_word_range.
  - intros Hw Hr.
    assert (Hcw : forall v, total (Spixpress.cfg_write cfg_write_port v)
                              (fun _ => True)).
    { intros v. unfold Spixpress.cfg_write.
      eapply total_bind; [apply total_emit | intros _ _; apply Hw]. }
    assert (Hcr : total (Spixpress.cfg_read cfg_read_port) (fun _ => True)).
    { unfold Spixpress.cfg_read.
      eapply total_bind; [apply Hr | intros r _].
      eapply total_bind; [apply total_emit | intros _ _].
      apply total_ret. exact I. }
    split.
    + unfold Spixpress.flreadid.
      repeat first
        [ apply total_ret; exact I
        | eapply total_bind; [first [apply Hcw | apply Hcr] | intros ? _; cbv zeta] ].
    + unfold Dualflexpress.flreadid.
      repeat first
        [ apply total_ret; exact I
        | eapply total_bind; [first [apply Hcw | apply Hcr] | intros ? _; cbv zeta] ].
Qed.

(** C6, as each bench has it.  [flerase] of the dual I/O bench issues the
    frame of [take_offline], write enable between two de-selects, the
    sector erase opcode, the three address bytes most significant first
    (each in a user mode word), a de-select, the status opcode and polls
    for as long as the busy bit is read set, a de-select, and the frame of
    [place_online].  [flerase] of the single SPI bench, which has neither
    [take_offline] nor [place_online], issues the same without the two
    frames, the address bytes as they are. *)
Theorem flerase_frames :
  (forall sectoraddr (s : TB) u s',
     Dualflexpress.flerase fuel cfg_write_port cfg_read_port sectoraddr s
       = Ok u s' ->
     exists rs r,
       view cfg_view
         (take_offline_trace ++
          [EvCfgWrite Dualflexpress.F_END; EvCfgWrite Dualflexpress.F_WREN;
           EvCfgWrite Dualflexpress.F_END;
           EvCfgWrite Dualflexpress.F_SE;
           EvCfgWrite (Z.lor Dualflexpress.CFG_USERMODE
                         (Z.land (Z.shiftr sectoraddr 16) 255));
           EvCfgWrite (Z.lor Dualflexpress.CFG_USERMODE
                         (Z.land (Z.shiftr sectoraddr 8) 255));
           EvCfgWrite (Z.lor Dualflexpress.CFG_USERMODE
                         (Z.land sectoraddr 255));
           EvCfgWrite Dualflexpress.F_END] ++
          (EvCfgWrite Dualflexpress.F_RDSR ::
           poll_trace Dualflexpress.CFG_USERMODE (rs ++ [r]) ++
           [EvCfgWrite Dualflexpress.F_END]) ++
          place_online_trace) s s' /\
       Forall busy rs /\ Z.land r 1 = 0) /\
  (forall sectoraddr (s : TB) u s',
     Spixpress.flerase fuel cfg_write_port cfg_read_port sectoraddr s
       = Ok u s' ->
     exists rs r,
       view cfg_view
         ([EvCfgWrite Spixpress.F_END; EvCfgWrite Spixpress.F_WREN;
           EvCfgWrite Spixpress.F_END;
           EvCfgWrite Spixpress.F_SE;
           EvCfgWrite (Z.land (Z.shiftr sectoraddr 16) 255);
           EvCfgWrite (Z.land (Z.shiftr sectoraddr 8) 255);
           EvCfgWrite (Z.land sectoraddr 255);
           EvCfgWrite Spixpress.F_END] ++
          EvCfgWrite Spixpress.F_RDSR :: poll_trace 0 (rs ++ [r]) ++
          [EvCfgWrite Spixpress.F_END]) s s' /\
       Forall busy rs /\ Z.land r 1 = 0).
Proof.
  split.
  - intros sectoraddr s u s' H.
    exact (dual_flerase_trace fuel _ _ cfg_write_port_quiet
             cfg_read_port_quiet sectoraddr s u s' H).
  - intros sectoraddr s u s' H.
    exact (spi_flerase_trace fuel _ _ cfg_write_port_quiet
             cfg_read_port_quiet sectoraddr s u s' H).
Qed.

(** C4, with the range in which no [int] overflows.  For a request of
    [ln >= 1] bytes at [addr >= 0] that ends at most at 2^31 - 256,
    [flprogram], in either bench, when it returns has called
    [flpage_program] once per page the request touches, K+1 times for K
    page boundaries inside it: the chunks lie end to end from [addr] to
    [addr+ln], in ascending order, none crossing a page; a request within
    one page, also one that ends on the last byte of the page, is one
    call with the request as it is.  On a port that returns and never
    reads busy, and with the fuel for K+1 turns, it does return. *)
Theorem flprogram_page_calls addr ln buf :
  0 <= addr -> 1 <= ln -> addr + ln <= 2147483392 ->
  (forall (s : TB) u s',
     Spixpress.flprogram TESTB_tick fuel cfg_write_port cfg_read_port
       addr ln buf s = Ok u s' ->
     exists calls,
       view page_view calls s s' /\ tiles addr calls (addr + ln) /\
       Z.of_nat (List.length calls) = (addr + ln - 1) / 256 - addr / 256 + 1 /\
       ((addr + ln - 1) / 256 = addr / 256 -> calls = [(addr, ln)])) /\
  (forall (s : TB) u s',
     Dualflexpress.flprogram TESTB_tick fuel cfg_write_port cfg_read_port
       addr ln buf s = Ok u s' ->
     exists calls,
       view page_view calls s s' /\ tiles addr calls (addr + ln) /\
       Z.of_nat (List.length calls) = (addr + ln - 1) / 256 - addr / 256 + 1 /\
       ((addr + ln - 1) / 256 = addr / 256 -> calls = [(addr, ln)])) /\
  ((forall v, total (cfg_write_port v) (fun _ => True)) ->
   total cfg_read_port (fun r => Z.land r 1 = 0) ->
   total (tick TESTB_tick) (fun _ => True) ->
   (addr + ln - 1) / 256 - addr / 256 + 1 <= Z.of_nat fuel ->
   total (Spixpress.flprogram TESTB_tick fuel cfg_write_port cfg_read_port
            addr ln buf) (fun _ => True) /\
   total (Dualflexpress.flprogram TESTB_tick fuel cfg_write_port cfg_read_port
            addr ln buf) (fun _ => True)).
Proof.
  intros Ha Hl Hb.
  assert (Hone : forall calls,
    tiles addr calls (addr + ln) ->
    Z.of_nat (List.length calls) = (addr + ln - 1) / 256 - addr / 256 + 1 ->
    (addr + ln - 1) / 256 = addr / 256 -> calls = [(addr, ln)]).
  { intros calls Ht Hn Hp. rewrite Hp in Hn.
    destruct calls as [|[st l] [|c rest]]; simpl in Hn; try lia.
    destruct (tiles_single _ _ _ _ _ Ht eq_refl) as [E1 E2].
    subst st. f_equal. f_equal. lia. }
  split; [|split].
  - intros s u s' H.
    destruct (spi_flprogram_pages TESTB_tick fuel _ _ cfg_write_port_quiet
                cfg_read_port_quiet addr ln buf s u s' Ha Hl Hb H)
      as (calls & Hv & Ht & Hn).
    exists calls. repeat split; try assumption. apply Hone; assumption.
  - intros s u s' H.
    destruct (dual_flprogram_pages TESTB_tick fuel _ _ cfg_write_port_quiet
                cfg_read_port_quiet addr ln buf s u s' Ha Hl Hb H)
      as (calls & Hv & Ht & Hn).
    exists calls. repeat split; try assumption. apply Hone; assumption.
  - intros Hw Hr Ht Hf. split.
    + apply spi_flprogram_total; assumption.
    + apply dual_flprogram_total; assumption.
Qed.

End SequencerTheorems.

(** ** The control port primitives as configuration port *)

Section CtrlPorts.

Context {Env : Type}.
Variable TESTB_tick : Env -> WbIn -> Env * WbOut.
Variable fuel : nat.

Ltac port_atoms :=
  first
    [ intros s0 u0 s1 Ht; apply tick_Ok in Ht; destruct Ht as [Es _];
      subst s1; eapply extends_one; [apply TESTB_step_events | exact I]
    | intros s0 u0 s1 Hu; inversion Hu; apply extends_same; reflexivity
    | intros s0 u0 s1 Hu; inversion Hu;
      eapply extends_one; [reflexivity | simpl; discriminate] ].

Lemma ctrl_write_port_quiet v :
  returns (extends port_event) (ctrl_write_port TESTB_tick fuel v).
Proof.
  unfold ctrl_write_port, wb_ctrl_write, write_handshake, write_release,
    wait_stall_verbose, wait_ack, drain_stall, set_cyc, set_data_stb,
    set_ctrl_stb, set_we, set_addr, set_data, printf.
  returns_steps (@extends_refl Env port_event) (@extends_trans Env port_event)
    ltac:(port_atoms).
Qed.

Lemma ctrl_read_port_quiet :
  returns (extends port_event) (ctrl_read_port TESTB_tick fuel).
Proof.
  unfold ctrl_read_port, wb_ctrl_read, read_handshake, read_release,
    wait_stall, wait_ack, drain_stall, set_cyc, set_data_stb,
    set_ctrl_stb, set_we, set_addr, set_data, printf.
  returns_steps (@extends_refl Env port_event) (@extends_trans Env port_event)
    ltac:(port_atoms).
Qed.

Ltac private_atoms :=
  first [ apply tick_keeps_sub_bomb
        | intros ? ? H; inversion H; reflexivity ].

Lemma ctrl_write_port_private v :
  respects (keeps sub_m_bomb) (ctrl_write_port TESTB_tick fuel v).
Proof.
  unfold ctrl_write_port, wb_ctrl_write, write_handshake, write_release,
    wait_stall_verbose, wait_ack, drain_stall, set_cyc, set_data_stb,
    set_ctrl_stb, set_we, set_addr, set_data, printf.
  respects_steps (@keeps_refl Env _ sub_m_bomb) (@keeps_trans Env _ sub_m_bomb)
    ltac:(private_atoms).
Qed.

Lemma ctrl_read_port_private :
  respects (keeps sub_m_bomb) (ctrl_read_port TESTB_tick fuel).
Proof.
  unfold ctrl_read_port, wb_ctrl_read, read_handshake, read_release,
    wait_stall, wait_ack, drain_stall, set_cyc, set_data_stb,
    set_ctrl_stb, set_we, set_addr, set_data, printf.
  respects_steps (@keeps_refl Env _ sub_m_bomb) (@keeps_trans Env _ sub_m_bomb)
    ltac:(private_atoms).
Qed.

End CtrlPorts.

(** ** The ways out of a scenario driver *)

(** The line printed last in a history (newest event first). *)
Fixpoint last_line (evs : list Event) : option string :=
  match evs with
  | [] => None
  | EvPrintf fmt _ :: _ => Some fmt
  | _ :: rest => last_line rest
  end.

(** The exit of a failed test: [EXIT_FAILURE], right after the line
    TEST FAILED. *)
Definition failure_exit {Env} (code : Z) (s : @TB Env) : Prop :=
  code = 1 /\ last_line (events s) = Some "TEST FAILED".

(** The exit after the last test: status 0, right after the line
    SUCCESS!!, which is all that was added to the state [s1] the tests
    returned with. *)
Definition success_exit {Env} (s1 : @TB Env) (code : Z) (s : @TB Env) : Prop :=
  code = 0 /\ printf "SUCCESS!!" [] s1 = Ok tt s /\
  last_line (events s) = Some "SUCCESS!!".

(** The exit contract of a driver [main] whose tests are [tests], from the
    state [s]: [main] does not return; if the tests return, [main] leaves
    by the exit after the last test; and if [main] leaves through [exit]
    at all, it is either that exit, the tests having returned, or the
    exit of a failed test, taken inside the tests. *)
Definition exit_contract {Env} (tests main : @M Env unit) (s : @TB Env)
    : Prop :=
  (forall u s', main s <> Ok u s') /\
  (forall s1, tests s = Ok tt s1 ->
     exists s', main s = Exited 0 s' /\ success_exit s1 0 s') /\
  (forall c s', main s = Exited c s' ->
     (exists s1, tests s = Ok tt s1 /\ success_exit s1 c s') \/
     (tests s = Exited c s' /\ failure_exit c s')).

Section Exits.

Context {Env : Type}.
Notation TB := (@TB Env).
Notation M := (@M Env).

(** [exits Q m]: whenever [m] ends in [exit], [Q] holds of the status and
    the state. *)
Definition exits (Q : Z -> TB -> Prop) {A} (m : M A) : Prop :=
  forall s c s', m s = Exited c s' -> Q c s'.

(** [no_exit m]: [m] never calls [exit]. *)
Definition no_exit {A} (m : M A) : Prop :=
  forall s c s', m s <> Exited c s'.

Lemma no_exit_exits Q {A} (m : M A) : no_exit m -> exits Q m.
Proof. intros H s c s' E. destruct (H s c s' E). Qed.

Variable Q : Z -> TB -> Prop.

Lemma exits_bind {A B} (m : M A) (k : A -> M B) :
  exits Q m -> (forall a, exits Q (k a)) -> exits Q (bind m k).
Proof.
  intros Hm Hk s c s' H. unfold bind in H.
  destruct (m s) as [a s1|s1|c1 s1|] eqn:E; try discriminate.
  - exact (Hk a s1 c s' H).
  - inversion H; subst. exact (Hm s c s' E).
Qed.

Lemma exits_if {A} (b : bool) (m1 m2 : M A) :
  exits Q m1 -> exits Q m2 -> exits Q (if b then m1 else m2).
Proof. destruct b; auto. Qed.

Lemma exits_while {L} n (cond : L -> TB -> bool * L) (body : L -> M L) :
  (forall l, exits Q (body l)) -> forall l, exits Q (while_ n cond body l).
Proof.
  intros Hb. induction n as [|n IH]; intros l s c s'; simpl;
    destruct (cond l s) as [b l1]; destruct b; try discriminate.
  destruct (body l1 s) as [l2 s2|s2|c2 s2|] eqn:E; try discriminate.
  - apply IH.
  - intros H. inversion H; subst. exact (Hb l1 s c s' E).
Qed.

Lemma exits_do_while {L} n (body : L -> M L) (cond : L -> TB -> bool * L) :
  (forall l, exits Q (body l)) -> forall l, exits Q (do_while n body cond l).
Proof.
  intros Hb l. unfold do_while. apply exits_bind; [apply Hb|].
  intros l1. apply exits_while. exact Hb.
Qed.

Lemma exits_for {L} n (body : Z -> L -> M L) :
  (forall i l, exits Q (body i l)) -> forall i l, exits Q (for_ n body i l).
Proof.
  intros Hb. induction n as [|n IH]; intros i l; simpl.
  - intros s c s' H. discriminate.
  - apply exits_bind; [apply Hb | intros l1; apply IH].
Qed.

Lemma exits_for_by {L} n step (body : Z -> L -> M L) :
  (forall i l, exits Q (body i l)) ->
  forall i l, exits Q (for_by n step body i l).
Proof.
  intros Hb. induction n as [|n IH]; intros i l; simpl.
  - intros s c s' H. discriminate.
  - apply exits_bind; [apply Hb | intros l1; apply IH].
Qed.

Lemma exits_ret {A} (a : A) : exits Q (ret a).
Proof. intros s c s' H. discriminate. Qed.

Lemma exits_gets {A} (f : TB -> A) : exits Q (gets f).
Proof. intros s c s' H. discriminate. Qed.

Lemma exits_assert b : exits Q (assert b).
Proof. intros s c s' H. unfold assert in H. destruct b; discriminate. Qed.

Lemma exits_emit e : exits Q (emit e).
Proof. intros s c s' H. discriminate. Qed.

Lemma exits_upd_in f : exits Q (upd_in f).
Proof. intros s c s' H. discriminate. Qed.

Lemma exits_upd_env f : exits Q (upd_env f).
Proof. intros s c s' H. discriminate. Qed.

Lemma exits_set_bomb b : exits Q (set_bomb b).
Proof. intros s c s' H. discriminate. Qed.

Lemma exits_set_ack_expected b : exits Q (set_ack_expected b).
Proof. intros s c s' H. discriminate. Qed.

Lemma exits_capture l : exits Q (capture l).
Proof.
  intros s c s' H. destruct (capture_Ok l s) as [l' E]. rewrite E in H.
  discriminate.
Qed.

Lemma exits_tick TESTB_tick : exits Q (tick TESTB_tick).
Proof.
  intros s c s' H. unfold tick, assert in H.
  destruct (_ || _); discriminate.
Qed.

End Exits.

(** One step on the head of the term of a goal [exits Q m], chosen by the
    shape of [m]; [atom] is tried on what has no rule here. *)
Ltac exits_step atom :=
  lazymatch goal with
  | |- exits _ (bind _ _) => first [ atom | apply exits_bind; [ | intro ] ]
  | |- exits _ (if _ then _ else _) => apply exits_if
  | |- exits _ (ret _) => apply exits_ret
  | |- exits _ (gets _) => apply exits_gets
  | |- exits _ (assert _) => apply exits_assert
  | |- exits _ (emit _) => apply exits_emit
  | |- exits _ (printf _ _) => apply exits_emit
  | |- exits _ (upd_in _) => apply exits_upd_in
  | |- exits _ (upd_env _) => apply exits_upd_env
  | |- exits _ (set_bomb _) => apply exits_set_bomb
  | |- exits _ (set_ack_expected _) => apply exits_set_ack_expected
  | |- exits _ (capture _) => apply exits_capture
  | |- exits _ (tick _) => apply exits_tick
  | |- exits _ (while_ _ _ _ _) => apply exits_while; intro
  | |- exits _ (do_while _ _ _ _) => apply exits_do_while; intro
  | |- exits _ (for_ _ _ _ _) => apply exits_for; intros ? ?
  | |- exits _ (for_by _ _ _ _ _) => apply exits_for_by; intros ? ?
  | |- _ => atom
  end.

Ltac exits_steps atom := repeat exits_step atom.

Section ExitContract.

Context {Env : Type}.
Variable TESTB_tick : Env -> WbIn -> Env * WbOut.
Variable fuel : nat.
Notation TB := (@TB Env).

Lemma exits_failure_tail {A} :
  exits failure_exit
    (bind (printf (Env:=Env) "TEST FAILED" []) (fun _ => exit (A:=A) 1)).
Proof.
  intros s c s' H. inversion H; subst. split; reflexivity.
Qed.

(** A driver made of tests that leave by the exit of a failed test only,
    followed by the line SUCCESS!! and [exit(0)], keeps the contract. *)
Lemma exit_contract_intro (tests : @M Env unit) :
  exits failure_exit tests ->
  forall s,
    exit_contract tests
      (bind tests (fun _ => bind (printf "SUCCESS!!" [])
                                 (fun _ => exit (A:=unit) 0))) s.
Proof.
  intros Ht s. unfold exit_contract, bind.
  destruct (tests s) as [[] s1|s1|c1 s1|] eqn:E.
  - split; [discriminate|]. split.
    + intros s2 H. injection H as <-. eexists. split; [reflexivity|].
      repeat split.
    + intros c s' H. simpl in H. injection H as <- <-. left.
      exists s1. repeat split.
  - split; [discriminate|]. split; discriminate.
  - split; [discriminate|]. split; [discriminate|].
    intros c s' H. injection H as <- <-. right. split; [reflexivity|].
    exact (Ht s c1 s1 E).
  - split; [discriminate|]. split; discriminate.
Qed.

Lemma qspi_exits_test_failure {A} :
  exits failure_exit (Qspiflash.test_failure TESTB_tick (A:=A)).
Proof.
  unfold Qspiflash.test_failure, Qspiflash.EXIT_FAILURE.
  apply exits_bind; [apply exits_emit | intro].
  apply exits_bind; [apply exits_for; intros; apply exits_tick | intro].
  apply exits_failure_tail.
Qed.

Lemma spi_exits_test_failure {A} :
  exits failure_exit (Spixpress.test_failure TESTB_tick (A:=A)).
Proof.
  unfold Spixpress.test_failure, Spixpress.EXIT_FAILURE.
  apply exits_bind; [apply exits_emit | intro].
  apply exits_bind; [apply exits_for; intros; apply exits_tick | intro].
  apply exits_failure_tail.
Qed.

Lemma dual_exits_test_failure {A} :
  exits failure_exit (Dualflexpress.test_failure TESTB_tick (A:=A)).
Proof.
  unfold Dualflexpress.test_failure, Dualflexpress.EXIT_FAILURE.
  apply exits_bind; [apply exits_emit | intro].
  apply exits_bind; [apply exits_for; intros; apply exits_tick | intro].
  apply exits_failure_tail.
Qed.

(** No bus primitive calls [exit]. *)
Lemma exits_wb_read Q a : exits Q (wb_read TESTB_tick fuel a).
Proof.
  unfold wb_read, read_handshake, read_release, wait_stall, wait_ack,
    drain_stall, set_cyc, set_data_stb, set_ctrl_stb, set_we, set_addr,
    printf.
  exits_steps ltac:(fail).
Qed.

Lemma exits_wb_ctrl_read Q a : exits Q (wb_ctrl_read TESTB_tick fuel a).
Proof.
  unfold wb_ctrl_read, read_handshake, read_release, wait_stall, wait_ack,
    drain_stall, set_cyc, set_data_stb, set_ctrl_stb, set_we, set_addr,
    printf.
  exits_steps ltac:(fail).
Qed.

Lemma exits_wb_read_burst Q a len buf inc :
  exits Q (wb_read_burst TESTB_tick fuel a len buf inc).
Proof.
  unfold wb_read_burst, rd_idle_wait, rd_transfer, rd_post_body, wait_stall,
    set_cyc, set_data_stb, set_ctrl_stb, set_we, set_addr, printf.
  cbv zeta. exits_steps ltac:(fail).
Qed.

Lemma exits_wb_write Q a v : exits Q (wb_write TESTB_tick fuel a v).
Proof.
  unfold wb_write, write_handshake, write_release, wait_stall_verbose,
    wait_ack, drain_stall, set_cyc, set_data_stb, set_ctrl_stb, set_we,
    set_addr, set_data, printf.
  exits_steps ltac:(fail).
Qed.

Lemma exits_wb_ctrl_write Q a v : exits Q (wb_ctrl_write TESTB_tick fuel a v).
Proof.
  unfold wb_ctrl_write, write_handshake, write_release, wait_stall_verbose,
    wait_ack, drain_stall, set_cyc, set_data_stb, set_ctrl_stb, set_we,
    set_addr, set_data, printf.
  exits_steps ltac:(fail).
Qed.

Lemma exits_wb_write_burst Q a ln buf inc :
  exits Q (wb_write_burst TESTB_tick fuel a ln buf inc).
Proof.
  unfold wb_write_burst, wr_post, wr_post_body, wr_drain, count_ack,
    drain_stall, set_cyc, set_data_stb, set_ctrl_stb, set_we, set_addr,
    set_data, printf.
  exits_steps ltac:(fail).
Qed.

End ExitContract.

(** ** The scenario driver of qspiflash_tb.cpp *)

Section QspiflashMain.

Context {Env : Type}.
Variable TESTB_tick : Env -> WbIn -> Env * WbOut.
Variable fuel : nat.
Variable flash_word : Env -> Z -> Z.
Variable flash_set : Z -> Z -> Env -> Env.
Variable flash_load : Env -> Env.
Variable fread_words : list Z.
Notation TB := (@TB Env).

Notation scenario :=
  (Qspiflash.scenario TESTB_tick fuel flash_word flash_set flash_load
                      fread_words).
Notation main :=
  (Qspiflash.main TESTB_tick fuel flash_word flash_set flash_load fread_words).

Ltac qspi_atoms :=
  idtac;
  lazymatch goal with
  | |- exits _ (Qspiflash.test_failure _) => apply qspi_exits_test_failure
  | |- exits _ (wb_read _ _ _) => apply exits_wb_read
  | |- exits _ (wb_ctrl_read _ _ _) => apply exits_wb_ctrl_read
  | |- exits _ (wb_read_burst _ _ _ _ _ _) => apply exits_wb_read_burst
  | |- exits _ (wb_write _ _ _ _) => apply exits_wb_write
  | |- exits _ (wb_ctrl_write _ _ _ _) => apply exits_wb_ctrl_write
  | |- exits _ (wb_write_burst _ _ _ _ _ _) => apply exits_wb_write_burst
  end.

Lemma qspi_scenario_exits rdbuf0 : exits failure_exit (scenario rdbuf0).
Proof.
  unfold Qspiflash.scenario, Qspiflash.read_tests, Qspiflash.single_reads,
    Qspiflash.vector_reads, Qspiflash.erase_test,
    Qspiflash.single_write_test, Qspiflash.sector_write_test,
    Qspiflash.wait_erase, Qspiflash.flash_at.
  cbv zeta.
  exits_steps ltac:(qspi_atoms).
Qed.

Lemma qspi_main_contract rdbuf0 (s : TB) :
  exit_contract (scenario rdbuf0) (main rdbuf0) s.
Proof.
  apply exit_contract_intro. apply qspi_scenario_exits.
Qed.

End QspiflashMain.

(** ** The scenario driver of spixpress_tb.cpp *)

Section SpixpressMain.

Context {Env : Type}.
Variable TESTB_tick : Env -> WbIn -> Env * WbOut.
Variable fuel : nat.
Variable cfg_write_port : Z -> @M Env unit.
Variable cfg_read_port : @M Env Z.
Variable flash_word : Env -> Z -> Z.
Variable flash_set : Z -> Z -> Env -> Env.
Variable flash_load : Env -> Env.
Variable DEVID : Z.
Variable byteswap : Z -> Z.
Variable byteswapbuf : Z -> list Z -> list Z.
Variable fread_words : list Z.
Notation TB := (@TB Env).

(** The configuration port is a bus access: it does not end the process. *)
Hypothesis cfg_write_port_no_exit : forall v, no_exit (cfg_write_port v).
Hypothesis cfg_read_port_no_exit : no_exit cfg_read_port.

Notation scenario :=
  (Spixpress.scenario TESTB_tick fuel cfg_write_port cfg_read_port flash_word
     flash_set flash_load DEVID byteswap byteswapbuf fread_words).
Notation main :=
  (Spixpress.main TESTB_tick fuel cfg_write_port cfg_read_port flash_word
     flash_set flash_load DEVID byteswap byteswapbuf fread_words).

Ltac spi_atoms :=
  idtac;
  lazymatch goal with
  | |- exits _ (Spixpress.test_failure _) => apply spi_exits_test_failure
  | |- exits _ (cfg_write_port _) =>
      apply no_exit_exits; apply cfg_write_port_no_exit
  | |- exits _ cfg_read_port =>
      apply no_exit_exits; apply cfg_read_port_no_exit
  | |- exits _ (wb_read _ _ _) => apply exits_wb_read
  | |- exits _ (wb_read_burst _ _ _ _ _ _) => apply exits_wb_read_burst
  end.

Lemma spi_exits_flwait Q :
  exits Q (Spixpress.flwait fuel cfg_write_port cfg_read_port).
Proof.
  unfold Spixpress.flwait, Spixpress.cfg_write, Spixpress.cfg_read.
  exits_steps ltac:(spi_atoms).
Qed.

Lemma spi_exits_flpage_program Q addr ln buf :
  exits Q (Spixpress.flpage_program TESTB_tick fuel cfg_write_port
                                    cfg_read_port addr ln buf).
Proof.
  unfold Spixpress.flpage_program, Spixpress.cfg_write.
  exits_steps ltac:(first [ apply spi_exits_flwait | spi_atoms ]).
Qed.

Lemma spi_exits_flprogram Q addr ln buf :
  exits Q (Spixpress.flprogram TESTB_tick fuel cfg_write_port cfg_read_port
                               addr ln buf).
Proof.
  unfold Spixpress.flprogram.
  exits_steps
    ltac:(first [ apply spi_exits_flwait | apply spi_exits_flpage_program ]).
Qed.

Lemma spi_exits_flerase Q a :
  exits Q (Spixpress.flerase fuel cfg_write_port cfg_read_port a).
Proof.
  unfold Spixpress.flerase, Spixpress.cfg_write.
  exits_steps ltac:(first [ apply spi_exits_flwait | spi_atoms ]).
Qed.

Lemma spi_exits_flstatus Q :
  exits Q (Spixpress.flstatus cfg_write_port cfg_read_port).
Proof.
  unfold Spixpress.flstatus, Spixpress.cfg_write, Spixpress.cfg_read.
  exits_steps ltac:(spi_atoms).
Qed.

Lemma spi_exits_flreadid Q :
  exits Q (Spixpress.flreadid cfg_write_port cfg_read_port).
Proof.
  unfold Spixpress.flreadid, Spixpress.cfg_write, Spixpress.cfg_read.
  cbv zeta.
  exits_steps ltac:(spi_atoms).
Qed.

Ltac spi_main_atoms :=
  idtac;
  lazymatch goal with
  | |- exits _ (Spixpress.flstatus _ _) => apply spi_exits_flstatus
  | |- exits _ (Spixpress.flreadid _ _) => apply spi_exits_flreadid
  | |- exits _ (Spixpress.flerase _ _ _ _) => apply spi_exits_flerase
  | |- exits _ (Spixpress.flprogram _ _ _ _ _ _ _) => apply spi_exits_flprogram
  | |- _ => spi_atoms
  end.

Lemma spi_scenario_exits rdbuf0 buf4 :
  exits failure_exit (scenario rdbuf0 buf4).
Proof.
  unfold Spixpress.scenario, Spixpress.single_read_test,
    Spixpress.vector_read_test, Spixpress.register_test,
    Spixpress.erase_test, Spixpress.single_write_test,
    Spixpress.sector_write_test, Spixpress.flash_at.
  cbv zeta.
  exits_steps ltac:(spi_main_atoms).
Qed.

Lemma spi_main_contract rdbuf0 buf4 (s : TB) :
  exit_contract (scenario rdbuf0 buf4) (main rdbuf0 buf4) s.
Proof.
  apply exit_contract_intro. apply spi_scenario_exits.
Qed.

End SpixpressMain.

(** ** The scenario driver of dualflexpress_tb.cpp *)

Section DualflexpressMain.

Context {Env : Type}.
Variable TESTB_tick : Env -> WbIn -> Env * WbOut.
Variable fuel : nat.
Variable cfg_write_port : Z -> @M Env unit.
Variable cfg_read_port : @M Env Z.
Variable flash_word : Env -> Z -> Z.
Variable flash_set : Z -> Z -> Env -> Env.
Variable flash_load : Env -> Env.
Variable DEVID : Z.
Variable byteswap : Z -> Z.
Variable byteswapbuf : Z -> list Z -> list Z.
Variable fread_words : list Z.
Notation TB := (@TB Env).

(** The configuration port is a bus access: it does not end the process. *)
Hypothesis cfg_write_port_no_exit : forall v, no_exit (cfg_write_port v).
Hypothesis cfg_read_port_no_exit : no_exit cfg_read_port.

Notation scenario :=
  (Dualflexpress.scenario TESTB_tick fuel cfg_write_port cfg_read_port flash_word
     flash_set flash_load DEVID byteswap byteswapbuf fread_words).
Notation main :=
  (Dualflexpress.main TESTB_tick fuel cfg_write_port cfg_read_port flash_word
     flash_set flash_load DEVID byteswap byteswapbuf fread_words).

Ltac dual_atoms :=
  idtac;
  lazymatch goal with
  | |- exits _ (Dualflexpress.test_failure _) => apply dual_exits_test_failure
  | |- exits _ (cfg_write_port _) =>
      apply no_exit_exits; apply cfg_write_port_no_exit
  | |- exits _ cfg_read_port =>
      apply no_exit_exits; apply cfg_read_port_no_exit
  | |- exits _ (wb_read _ _ _) => apply exits_wb_read
  | |- exits _ (wb_read_burst _ _ _ _ _ _) => apply exits_wb_read_burst
  end.

Lemma dual_exits_flwait Q :
  exits Q (Dualflexpress.flwait fuel cfg_write_port cfg_read_port).
Proof.
  unfold Dualflexpress.flwait, Dualflexpress.cfg_write, Dualflexpress.cfg_read.
  exits_steps ltac:(dual_atoms).
Qed.

Lemma dual_exits_flpage_program Q addr ln buf :
  exits Q (Dualflexpress.flpage_program TESTB_tick fuel cfg_write_port
                                    cfg_read_port addr ln buf).
Proof.
  unfold Dualflexpress.flpage_program, Dualflexpress.cfg_write.
  exits_steps ltac:(first [ apply dual_exits_flwait | dual_atoms ]).
Qed.

Lemma dual_exits_flprogram Q addr ln buf :
  exits Q (Dualflexpress.flprogram TESTB_tick fuel cfg_write_port cfg_read_port
                               addr ln buf).
Proof.
  unfold Dualflexpress.flprogram, Dualflexpress.take_offline,
    Dualflexpress.place_online, Dualflexpress.cfg_write.
  exits_steps
    ltac:(first [ apply dual_exits_flwait | apply dual_exits_flpage_program
                | dual_atoms ]).
Qed.

Lemma dual_exits_flerase Q a :
  exits Q (Dualflexpress.flerase fuel cfg_write_port cfg_read_port a).
Proof.
  unfold Dualflexpress.flerase, Dualflexpress.take_offline,
    Dualflexpress.place_online, Dualflexpress.cfg_write.
  exits_steps ltac:(first [ apply dual_exits_flwait | dual_atoms ]).
Qed.

Lemma dual_exits_flstatus Q :
  exits Q (Dualflexpress.flstatus cfg_write_port cfg_read_port).
Proof.
  unfold Dualflexpress.flstatus, Dualflexpress.cfg_write, Dualflexpress.cfg_read.
  exits_steps ltac:(dual_atoms).
Qed.

Lemma dual_exits_flreadid Q :
  exits Q (Dualflexpress.flreadid cfg_write_port cfg_read_port).
Proof.
  unfold Dualflexpress.flreadid, Dualflexpress.cfg_write, Dualflexpress.cfg_read.
  cbv zeta.
  exits_steps ltac:(dual_atoms).
Qed.

Ltac dual_main_atoms :=
  idtac;
  lazymatch goal with
  | |- exits _ (Dualflexpress.flstatus _ _) => apply dual_exits_flstatus
  | |- exits _ (Dualflexpress.flreadid _ _) => apply dual_exits_flreadid
  | |- exits _ (Dualflexpress.flerase _ _ _ _) => apply dual_exits_flerase
  | |- exits _ (Dualflexpress.flprogram _ _ _ _ _ _ _) => apply dual_exits_flprogram
  | |- _ => dual_atoms
  end.

Lemma dual_scenario_exits rdbuf0 buf4 :
  exits failure_exit (scenario rdbuf0 buf4).
Proof.
  unfold Dualflexpress.scenario, Dualflexpress.single_read_test,
    Dualflexpress.vector_read_test, Dualflexpress.register_test,
    Dualflexpress.erase_test, Dualflexpress.single_write_test,
    Dualflexpress.sector_write_test, Dualflexpress.flash_at,
    Dualflexpress.take_offline, Dualflexpress.cfg_write, drain_stall.
  cbv zeta.
  exits_steps ltac:(dual_main_atoms).
Qed.

Lemma dual_main_contract rdbuf0 buf4 (s : TB) :
  exit_contract (scenario rdbuf0 buf4) (main rdbuf0 buf4) s.
Proof.
  apply exit_contract_intro. apply dual_scenario_exits.
Qed.

End DualflexpressMain.

(** ** The exit contract of the three scenario drivers *)

Section DriverExit.

Context {Env : Type}.
Variable TESTB_tick : Env -> WbIn -> Env * WbOut.
Variable fuel : nat.
Variable cfg_write_port : Z -> @M Env unit.
Variable cfg_read_port : @M Env Z.
Variable flash_word : Env -> Z -> Z.
Variable flash_set : Z -> Z -> Env -> Env.
Variable flash_load : Env -> Env.
Variable DEVID : Z.
Variable byteswap : Z -> Z.
Variable byteswapbuf : Z -> list Z -> list Z.
Variable fread_words : list Z.
Notation TB := (@TB Env).

(** The configuration port is a bus access: it does not end the process. *)
Hypothesis cfg_write_port_no_exit : forall v, no_exit (cfg_write_port v).
Hypothesis cfg_read_port_no_exit : no_exit cfg_read_port.

Notation qspi_scenario :=
  (Qspiflash.scenario TESTB_tick fuel flash_word flash_set flash_load
                      fread_words).
Notation qspi_main :=
  (Qspiflash.main TESTB_tick fuel flash_word flash_set flash_load fread_words).
Notation spi_scenario :=
  (Spixpress.scenario TESTB_tick fuel cfg_write_port cfg_read_port flash_word
     flash_set flash_load DEVID byteswap byteswapbuf fread_words).
Notation spi_main :=
  (Spixpress.main TESTB_tick fuel cfg_write_port cfg_read_port flash_word
     flash_set flash_load DEVID byteswap byteswapbuf fread_words).
Notation dual_scenario :=
  (Dualflexpress.scenario TESTB_tick fuel cfg_write_port cfg_read_port
     flash_word flash_set flash_load DEVID byteswap byteswapbuf fread_words).
Notation dual_main :=
  (Dualflexpress.main TESTB_tick fuel cfg_write_port cfg_read_port flash_word
     flash_set flash_load DEVID byteswap byteswapbuf fread_words).


End DriverExit.

Section PortsNeverExit.

Context {Env : Type}.
Variable TESTB_tick : Env -> WbIn -> Env * WbOut.
Variable fuel : nat.

Lemma exits_False_no_exit {A} (m : @M Env A) :
  exits (fun _ _ => False) m -> no_exit m.
Proof. intros H s c s' E. exact (H s c s' E). Qed.

Lemma ctrl_write_port_no_exit v : no_exit (ctrl_write_port TESTB_tick fuel v).
Proof. apply exits_False_no_exit. apply exits_wb_ctrl_write. Qed.

Lemma ctrl_read_port_no_exit : no_exit (ctrl_read_port TESTB_tick fuel).
Proof. apply exits_False_no_exit. apply exits_wb_ctrl_read. Qed.

End PortsNeverExit.



(** ** The theorems at work on concrete benches *)

Section TestPorts.

Context {Env : Type}.

Lemma null_write_port_quiet v :
  returns (extends port_event) (null_write_port (Env:=Env) v).
Proof. intros s a s' H. inversion H; subst. apply extends_refl. Qed.

Lemma null_read_port_quiet r :
  returns (extends port_event) (null_read_port (Env:=Env) r).
Proof. intros s a s' H. inversion H; subst. apply extends_refl. Qed.

End TestPorts.

Lemma fifo_read_port_quiet : returns (extends port_event) fifo_read_port.
Proof.
  intros s a s' H. inversion H; subst. apply extends_same. reflexivity.
Qed.

(** C3 at work: a sector erase of the single SPI bench through the control
    port of the header, on a bench whose subclass flag happened to be set
    when it was built, leaves [bombed()] as it was. *)
Lemma subclass_bombed_is_blind_witness :
  exists s',
    state_of
      (Spixpress.run_flash (echo_slave 1) 4096
         (ctrl_write_port (echo_slave 1) 4096)
         (ctrl_read_port (echo_slave 1) 4096)
         (Spixpress.FlErase 65536)
         (WBFLASH_TB_new None idle_out false 0 0 true)) = Some s' /\
    bombed s' = true.
Proof.
  eexists. split.
  - vm_compute. reflexivity.
  - refine (proj1 (proj2 (proj2
      (subclass_bombed_is_blind (echo_slave 1) 4096
         (ctrl_write_port (echo_slave 1) 4096)
         (ctrl_read_port (echo_slave 1) 4096)
         (ctrl_write_port_private _ _) (ctrl_read_port_private _ _))))
      (Spixpress.FlErase 65536)
      (WBFLASH_TB_new None idle_out false 0 0 true) _ _).
    vm_compute. reflexivity.
Defined.

(** C7 at work: a device that acknowledges at once with 7 and then stalls
    for two clocks. *)
Lemma wb_read_release_sequence_witness :
  exists r s',
    wb_read scripted 4096 40
      (bench_on [mkWbOut false true 7; mkWbOut true false 0;
                 mkWbOut true false 0]) = Ok r s' /\
    r = 7 /\ ticks_in (events s') = 4 /\
    stall s' = false /\ ack s' = false /\ cyc s' = false.
Proof.
  eexists. eexists. split.
  - vm_compute. reflexivity.
  - split; [reflexivity|]. split; [reflexivity|].
    refine (match wb_read_release_sequence scripted 4096 40
                    (bench_on [mkWbOut false true 7; mkWbOut true false 0;
                               mkWbOut true false 0]) 7 _ _ with
            | ex_intro _ e (ex_intro _ s1 (ex_intro _ drained (ex_intro _ rel
                (ex_intro _ msgs (conj _ (conj _ (conj _ (conj _ (conj _
                  (conj _ (conj _ H))))))))))) => H
            end).
    vm_compute. reflexivity.
Defined.

(** C9 at work: the identification bytes ef, 40, 18 and 01, the second
    read with a bit set above the low byte. *)
Lemma flreadid_frame_witness :
  exists s',
    Spixpress.flreadid (@null_write_port (list Z)) fifo_read_port
      (bench_on [0xef; 0x140; 0x18; 0x01]) = Ok 0xef401801 s' /\
    exists v0 v1 v2 v3,
      view cfg_view
        [EvCfgWrite Spixpress.F_READID;
         EvCfgWrite 0; EvCfgRead v0; EvCfgWrite 0; EvCfgRead v1;
         EvCfgWrite 0; EvCfgRead v2; EvCfgWrite 0; EvCfgRead v3;
         EvCfgWrite Spixpress.F_END]
        (bench_on [0xef; 0x140; 0x18; 0x01]) s' /\
      0xef401801 = id_word v0 v1 v2 v3 /\ 0 <= 0xef401801 < 4294967296.
Proof.
  eexists. split.
  - vm_compute. reflexivity.
  - refine (proj1 (flreadid_frame (@null_write_port (list Z)) fifo_read_port
                     null_write_port_quiet fifo_read_port_quiet)
                  (bench_on [0xef; 0x140; 0x18; 0x01]) 0xef401801 _ _).
    vm_compute. reflexivity.
Defined.

(** C6 at work: an erase of the sector at 0x123456 on the dual I/O bench,
    the status read busy twice. *)
Lemma flerase_frames_witness :
  exists s',
    Dualflexpress.flerase 16 (@null_write_port (list Z)) fifo_read_port
      0x123456 (bench_on [3; 1; 0x1c]) = Ok tt s' /\
    exists rs r,
      view cfg_view
        (take_offline_trace ++
         [EvCfgWrite Dualflexpress.F_END; EvCfgWrite Dualflexpress.F_WREN;
          EvCfgWrite Dualflexpress.F_END; EvCfgWrite Dualflexpress.F_SE;
          EvCfgWrite (Z.lor Dualflexpress.CFG_USERMODE
                            (Z.land (Z.shiftr 0x123456 16) 0x0ff));
          EvCfgWrite (Z.lor Dualflexpress.CFG_USERMODE
                            (Z.land (Z.shiftr 0x123456 8) 0x0ff));
          EvCfgWrite (Z.lor Dualflexpress.CFG_USERMODE
                            (Z.land 0x123456 0x0ff));
          EvCfgWrite Dualflexpress.F_END] ++
         (EvCfgWrite Dualflexpress.F_RDSR ::
          poll_trace Dualflexpress.CFG_USERMODE (rs ++ [r]) ++
          [EvCfgWrite Dualflexpress.F_END]) ++
         place_online_trace)
        (bench_on [3; 1; 0x1c]) s' /\
      Forall busy rs /\ Z.land r 1 = 0.
Proof.
  eexists. split.
  - vm_compute. reflexivity.
  - refine (proj1 (flerase_frames 16 (@null_write_port (list Z))
                     fifo_read_port null_write_port_quiet
                     fifo_read_port_quiet)
                  0x123456 (bench_on [3; 1; 0x1c]) tt _ _).
    vm_compute. reflexivity.
Defined.

(** C6, against the claim: the sector erase of the single SPI bench,
    through the control port of the header.  The frame starts with the
    de-select before the write enable and ends with the de-select after the
    one status poll, twelve accesses in all: no reset opcode of
    [take_offline] before, nothing of [place_online] after. *)
Lemma spixpress_flerase_stays_online :
  exists s',
    Spixpress.flerase 4096
      (ctrl_write_port (echo_slave 1) 4096) (ctrl_read_port (echo_slave 1) 4096)
      0x10000 (bench_on None) = Ok tt s' /\
    flat_map cfg_view (rev (events s')) =
      [EvCfgWrite Spixpress.F_END; EvCfgWrite Spixpress.F_WREN;
       EvCfgWrite Spixpress.F_END; EvCfgWrite Spixpress.F_SE;
       EvCfgWrite 1; EvCfgWrite 0; EvCfgWrite 0;
       EvCfgWrite Spixpress.F_END;
       EvCfgWrite Spixpress.F_RDSR; EvCfgWrite 0; EvCfgRead 0;
       EvCfgWrite Spixpress.F_END] /\
    ~ In (EvCfgWrite Spixpress.F_RESET) (flat_map cfg_view (rev (events s'))) /\
    List.length (flat_map cfg_view (rev (events s'))) = 12%nat /\
    (12 < List.length take_offline_trace + 12
          + List.length place_online_trace)%nat.
Proof.
  eexists. split; [vm_compute; reflexivity|].
  split; [vm_compute; reflexivity|].
  split; [vm_compute; intuition discriminate|].
  split; [vm_compute; reflexivity | vm_compute; lia].
Qed.

(** C4 at work: six bytes from 250 end on the last byte of page 0 and make
    one call; ten bytes from 250 cross into page 1 and make two. *)
Lemma flprogram_page_calls_witness :
  (exists s',
     Spixpress.flprogram quiet_dut 16 null_write_port (null_read_port 0)
       250 6 [1; 2; 3; 4; 5; 6] (bench_on tt) = Ok tt s' /\
     view page_view [(250, 6)] (bench_on tt) s') /\
  (exists s' calls,
     Dualflexpress.flprogram quiet_dut 16 null_write_port (null_read_port 0)
       250 10 [1; 2; 3; 4; 5; 6; 7; 8; 9; 10] (bench_on tt) = Ok tt s' /\
     view page_view calls (bench_on tt) s' /\
     tiles 250 calls (250 + 10) /\
     Z.of_nat (List.length calls) = 2).
Proof.
  split.
  - eexists. split; [vm_compute; reflexivity|].
    refine (match proj1 (flprogram_page_calls quiet_dut 16
                           null_write_port (null_read_port 0)
                           null_write_port_quiet (null_read_port_quiet 0)
                           250 6 [1; 2; 3; 4; 5; 6] _ _ _)
                        (bench_on tt) tt _ _ with
            | ex_intro _ calls (conj Hv (conj _ (conj _ Hone))) =>
                eq_ind calls (fun c => view page_view c (bench_on tt) _)
                       Hv [(250, 6)] (Hone _)
            end); try lia; vm_compute; reflexivity.
  - eexists.
    refine (match proj1 (proj2 (flprogram_page_calls quiet_dut 16
                           null_write_port (null_read_port 0)
                           null_write_port_quiet (null_read_port_quiet 0)
                           250 10 [1; 2; 3; 4; 5; 6; 7; 8; 9; 10] _ _ _))
                        (bench_on tt) tt _ _ with
            | ex_intro _ calls (conj Hv (conj Ht (conj Hn _))) =>
                ex_intro _ calls (conj _ (conj Hv (conj Ht Hn)))
            end); try lia; vm_compute; reflexivity.
Defined.

(** C4, against the claim: one byte at the last address an [int] holds.
    The range spans no page boundary, so one call is claimed; [addr + ln]
    wraps around to the least [int], the loop is not entered, and
    [flprogram] returns from its final wait without a call of
    [flpage_program], in either bench. *)
Lemma flprogram_top_byte_not_programmed :
  (0 <= 2147483647 /\ 1 <= 1 /\
   (2147483647 + 1 - 1) / 256 - 2147483647 / 256 + 1 = 1) /\
  (exists s',
     Spixpress.flprogram quiet_dut 16 null_write_port (null_read_port 0)
       2147483647 1 [85] (bench_on tt) = Ok tt s' /\
     view page_view [] (bench_on tt) s' /\
     flat_map page_view (rev (events s')) = []) /\
  (exists s',
     Dualflexpress.flprogram quiet_dut 16 null_write_port (null_read_port 0)
       2147483647 1 [85] (bench_on tt) = Ok tt s' /\
     view page_view [] (bench_on tt) s' /\
     flat_map page_view (rev (events s')) = []).
Proof.
  split; [repeat split; try lia; reflexivity|].
  split.
  - eexists. split; [vm_compute; reflexivity|].
    split; [|vm_compute; reflexivity].
    eexists. split; [symmetry; apply app_nil_r | vm_compute; reflexivity].
  - eexists. split; [vm_compute; reflexivity|].
    split; [|vm_compute; reflexivity].
    eexists. split; [symmetry; apply app_nil_r | vm_compute; reflexivity].
Qed.

(** * More of the bus transactor and of the sequencer *)

(** [open_run F H] unfolds the program [F] at the head of the run in
    [H], leaving the rest of the run as it stands. *)
Tactic Notation "open_run" reference(F) hyp(H) :=
  lazymatch type of H with
  | state_of (?m ?s) = ?r =>
      let m' := eval unfold F in m in
      let E := fresh "E" in
      assert (E : m = m') by reflexivity; rewrite E in H; clear E
  | ?m ?s = ?r =>
      let m' := eval unfold F in m in
      let E := fresh "E" in
      assert (E : m = m') by reflexivity; rewrite E in H; clear E
  end.

(** ** The bus between transfers *)

(** The bus between two calls. *)
Definition bus_idle {Env} (s : @TB Env) : Prop :=
  cyc s = false /\ i_wb_ctrl_stb (m_in s) = false /\ ack s = false.

Definition bus_quiet {Env} (s : @TB Env) : Prop :=
  bus_idle s /\ i_wb_data_stb (m_in s) = false /\ stall s = false.

Section BusIdle.

Context {Env : Type}.
Variable TESTB_tick : Env -> WbIn -> Env * WbOut.
Variable fuel : nat.
Notation TB := (@TB Env).

Lemma tick_released (s : TB) u s' :
  cyc s = false -> tick TESTB_tick s = Ok u s' ->
  m_in s' = m_in s /\ ack s' = false.
Proof.
  intros Hc H. apply tick_Ok in H. destruct H as [E Ha].
  assert (Hin : m_in s' = m_in s) by (subst s'; apply TESTB_step_in).
  split; [exact Hin|]. destruct (ack s') eqn:Ea; [|reflexivity].
  specialize (Ha eq_refl). unfold cyc in *. congruence.
Qed.

Lemma drain_stall_idle (s s' : TB) :
  cyc s = false -> ack s = false ->
  drain_stall TESTB_tick fuel s = Ok tt s' ->
  m_in s' = m_in s /\ ack s' = false /\ stall s' = false.
Proof.
  intros Hc Ha H. unfold drain_stall in H.
  apply (while_Ok_inv (fun _ s0 => m_in s0 = m_in s /\ ack s0 = false)) in H.
  - destruct H as (l0 & (Hin & Hack) & Hcond). injection Hcond as Hst _.
    repeat split; assumption.
  - intros l s0 l1 l2 s1 (Hin & Hack) _ Hb.
    apply bind_Ok_inv in Hb. destruct Hb as (u & s2 & Ht & Hr).
    inversion Hr; subst s2 l2.
    apply tick_released in Ht; [|unfold cyc in *; congruence].
    destruct Ht as [Hin1 Ha1]. split; [congruence | exact Ha1].
  - split; [reflexivity | exact Ha].
Qed.

(** The clock after the release and its assertion. *)
Lemma release_clock {A} (k : unit -> @M Env A) (s : TB) a s' :
  cyc s = false ->
  bind (tick TESTB_tick) (fun _ =>
    bind (gets ack) (fun acked => bind (assert (negb acked)) k)) s = Ok a s' ->
  exists s2, m_in s2 = m_in s /\ ack s2 = false /\ k tt s2 = Ok a s'.
Proof.
  intros Hc H. apply bind_Ok_inv in H. destruct H as (u & s2 & Ht & H).
  apply tick_released in Ht; [|exact Hc]. destruct Ht as [Hin Ha].
  msimpl_in H. unfold ack in *. rewrite Ha in H. msimpl_in H.
  exists s2. repeat split; assumption.
Qed.

Lemma read_release_quiet e (s1 : TB) r s' :
  read_release TESTB_tick fuel e s1 = Ok r s' -> bus_quiet s'.
Proof.
  intros H. open_run read_release H. msimpl_in H.
  assert (Hx : exists sx,
    cyc sx = false /\ i_wb_data_stb (m_in sx) = false /\
    i_wb_ctrl_stb (m_in sx) = false /\
    bind (tick TESTB_tick) (fun _ =>
      bind (gets ack) (fun acked => bind (assert (negb acked)) (fun _ =>
        bind (drain_stall TESTB_tick fuel) (fun _ =>
          ret (o_wb_data (m_out s1)))))) sx = Ok r s').
  { destruct (BOMBCOUNT <=? e); msimpl_in H.
    - eexists. repeat split; [| | |exact H]; reflexivity.
    - destruct (ack _); msimpl_in H;
        (eexists; repeat split; [| | |exact H]; reflexivity). }
  clear H. destruct Hx as (sx & Hc & Hd & Hk & H).
  apply release_clock in H; [|exact Hc].
  destruct H as (s2 & Hin & Ha & H).
  apply bind_Ok_inv in H. destruct H as ([] & s3 & Hdr & H).
  inversion H; subst s3. clear H.
  apply drain_stall_idle in Hdr;
    [|unfold cyc in *; congruence | exact Ha].
  destruct Hdr as (Hin3 & Ha3 & Hs3).
  unfold bus_quiet, bus_idle, cyc in *. rewrite Hin3, Hin.
  repeat split; assumption.
Qed.

Lemma write_release_quiet line e (s1 : TB) u s' :
  write_release TESTB_tick fuel line e s1 = Ok u s' -> bus_quiet s'.
Proof.
  intros H. open_run write_release H. msimpl_in H.
  assert (Hx : exists sx,
    cyc sx = false /\ i_wb_data_stb (m_in sx) = false /\
    i_wb_ctrl_stb (m_in sx) = false /\
    bind (tick TESTB_tick) (fun _ =>
      bind (gets ack) (fun acked => bind (assert (negb acked)) (fun _ =>
        drain_stall TESTB_tick fuel))) sx = Ok u s').
  { destruct (BOMBCOUNT <=? e); msimpl_in H;
      (eexists; repeat split; [| | |exact H]; reflexivity). }
  clear H. destruct Hx as (sx & Hc & Hd & Hk & H).
  apply release_clock in H; [|exact Hc].
  destruct H as (s2 & Hin & Ha & H). destruct u.
  apply drain_stall_idle in H;
    [|unfold cyc in *; congruence | exact Ha].
  destruct H as (Hin3 & Ha3 & Hs3).
  unfold bus_quiet, bus_idle, cyc in *. rewrite Hin3, Hin.
  repeat split; assumption.
Qed.


Lemma wait_stall_idle e0 (s : TB) e s' :
  cyc s = false ->
  wait_stall TESTB_tick fuel e0 s = Ok e s' ->
  m_in s' = m_in s /\ (e0 + 1 < e -> ack s' = false).
Proof.
  intros Hc H. unfold wait_stall in H.
  apply (while_Ok_inv (fun l s0 =>
           m_in s0 = m_in s /\ e0 <= l /\ (e0 < l -> ack s0 = false))) in H.
  - destruct H as (l0 & (Hin & Hle & Hack) & Hcond). injection Hcond as _ He.
    split; [exact Hin|]. intros Hlt. apply Hack. lia.
  - intros l s0 l1 l2 s1 (Hin & Hle & Hack) Hcond Hb.
    injection Hcond as _ Hl1.
    apply bind_Ok_inv in Hb. destruct Hb as (u & s2 & Ht & Hr).
    inversion Hr; subst s2 l2.
    apply tick_released in Ht; [|unfold cyc in *; congruence].
    destruct Ht as [Hin1 Ha1].
    split; [congruence|]. split; [lia|]. intros _. exact Ha1.
  - split; [reflexivity|]. split; lia.
Qed.

Lemma rd_transfer_strobes_low a len inc buf (s : TB) l s' :
  rd_transfer TESTB_tick fuel a len inc buf s = Ok l s' ->
  i_wb_data_stb (m_in s') = false /\ i_wb_ctrl_stb (m_in s') = false.
Proof.
  intros H. open_run rd_transfer H. cbv zeta in H. msimpl_in H.
  apply bind_Ok_inv in H. destruct H as (l1 & s1 & _ & H). msimpl_in H.
  assert (Hk : returns (keeps m_in)
            (while_ fuel (rd_collect_cond len (swrap32 (BOMBCOUNT * len)))
               (fun l0 => bind (tick TESTB_tick) (fun _ => capture l0)) l1)).
  { returns_steps (@keeps_refl Env _ m_in) (@keeps_trans Env _ m_in)
      ltac:(first [ apply tick_keeps_in
                  | apply (returns_capture _ (@keeps_refl Env _ m_in)) ]). }
  apply Hk in H. unfold keeps in H. rewrite H. split; reflexivity.
Qed.

Lemma wb_read_burst_idle a len buf inc (s : TB) buf' s' :
  wb_read_burst TESTB_tick fuel a len buf inc s = Ok buf' s' ->
  bus_idle s' /\
  exists e s0,
    rd_idle_wait TESTB_tick fuel a len s = Ok e s0 /\
    i_wb_data_stb (m_in s') = (BOMBCOUNT <=? e).
Proof.
  intros H. open_run wb_read_burst H. cbv zeta in H.
  apply bind_Ok_inv in H. destruct H as (e & s0 & Hw & H).
  assert (Hidle : cyc s0 = false /\ i_wb_ctrl_stb (m_in s0) = false /\
                  i_wb_data_stb (m_in s0) = true /\
                  (1 < e -> ack s0 = false)).
  { pose proof Hw as Hw'. open_run rd_idle_wait Hw'. msimpl_in Hw'.
    apply wait_stall_idle in Hw'; [|reflexivity].
    destruct Hw' as [Hin Ha]. unfold cyc. rewrite Hin.
    repeat split. exact Ha. }
  destruct Hidle as (Hc0 & Hk0 & Hd0 & Ha0).
  destruct (BOMBCOUNT <=? e) eqn:Ee.
  - msimpl_in H. inversion H; subst buf' s'. clear H.
    split; [|exists e, s0; split; [exact Hw | rewrite Ee; exact Hd0]].
    apply Z.leb_le in Ee. unfold BOMBCOUNT in Ee.
    unfold bus_idle, cyc, ack in *. simpl.
    repeat split; try assumption. apply Ha0. lia.
  - apply bind_Ok_inv in H. destruct H as (l & s2 & Ht & H).
    apply rd_transfer_strobes_low in Ht. destruct Ht as [Hd2 Hk2].
    msimpl_in H.
    assert (Hx : exists sx,
      cyc sx = false /\ i_wb_data_stb (m_in sx) = false /\
      i_wb_ctrl_stb (m_in sx) = false /\
      bind (tick TESTB_tick) (fun _ =>
        bind (gets ack) (fun acked => bind (assert (negb acked)) (fun _ =>
          ret (rd_buf l)))) sx = Ok buf' s').
    { destruct (swrap32 (BOMBCOUNT * len) <=? rd_errcount l); msimpl_in H.
      - eexists. repeat split; [| | |exact H]; simpl; try reflexivity;
          assumption.
      - destruct (ack _); msimpl_in H;
          (eexists; repeat split; [| | |exact H]; simpl; try reflexivity;
           assumption). }
    clear H. destruct Hx as (sx & Hc & Hd & Hk & H).
    apply release_clock in H; [|exact Hc].
    destruct H as (s3 & Hin & Ha & H). inversion H; subst s3.
    split; [|exists e, s0; split; [exact Hw|]; rewrite Ee, Hin; exact Hd].
    unfold bus_idle, cyc in *. rewrite Hin. repeat split; assumption.
Qed.

Lemma wb_write_burst_quiet a ln buf inc (s : TB) u s' :
  wb_write_burst TESTB_tick fuel a ln buf inc s = Ok u s' -> bus_quiet s'.
Proof.
  intros H. open_run wb_write_burst H.
  apply bind_Ok_inv in H. destruct H as (n & s1 & _ & H).
  apply bind_Ok_inv in H. destruct H as (l & s2 & _ & H).
  msimpl_in H.
  assert (Hx : exists sx,
    cyc sx = false /\ i_wb_data_stb (m_in sx) = false /\
    i_wb_ctrl_stb (m_in sx) = false /\
    bind (tick TESTB_tick) (fun _ =>
      bind (gets ack) (fun acked => bind (assert (negb acked)) (fun _ =>
        drain_stall TESTB_tick fuel))) sx = Ok u s').
  { destruct (BOMBCOUNT <=? fst l); msimpl_in H;
      (eexists; repeat split; [| | |exact H]; reflexivity). }
  clear H. destruct Hx as (sx & Hc & Hd & Hk & H).
  apply release_clock in H; [|exact Hc].
  destruct H as (s3 & Hin & Ha & H). destruct u.
  apply drain_stall_idle in H;
    [|unfold cyc in *; congruence | exact Ha].
  destruct H as (Hin3 & Ha3 & Hs3).
  unfold bus_quiet, bus_idle, cyc in *. rewrite Hin3, Hin.
  repeat split; assumption.
Qed.

(** X1.  The bus after a transfer.  Every single word transfer and every
    burst write that returns leaves cycle, both strobes, acknowledge and
    stall low.  A burst read that returns leaves cycle, the control
    strobe and acknowledge low; it does not wait for the stall to go,
    and it leaves the data strobe up exactly when it gave up in the wait
    that precedes the transfer. *)
Theorem bus_idle_on_return :
  (forall a (s : TB) r s',
     wb_read TESTB_tick fuel a s = Ok r s' -> bus_quiet s') /\
  (forall a (s : TB) r s',
     wb_ctrl_read TESTB_tick fuel a s = Ok r s' -> bus_quiet s') /\
  (forall a v (s : TB) u s',
     wb_write TESTB_tick fuel a v s = Ok u s' -> bus_quiet s') /\
  (forall a v (s : TB) u s',
     wb_ctrl_write TESTB_tick fuel a v s = Ok u s' -> bus_quiet s') /\
  (forall a ln buf inc (s : TB) u s',
     wb_write_burst TESTB_tick fuel a ln buf inc s = Ok u s' ->
     bus_quiet s') /\
  (forall a len buf inc (s : TB) buf' s',
     wb_read_burst TESTB_tick fuel a len buf inc s = Ok buf' s' ->
     bus_idle s' /\
     exists e s0,
       rd_idle_wait TESTB_tick fuel a len s = Ok e s0 /\
       i_wb_data_stb (m_in s') = (BOMBCOUNT <=? e)).
Proof.
  split; [|split; [|split; [|split; [|split]]]].
  - intros a s r s' H. open_run wb_read H.
    apply bind_Ok_inv in H. destruct H as (e & s1 & _ & H).
    eapply read_release_quiet. exact H.
  - intros a s r s' H. open_run wb_ctrl_read H.
    apply bind_Ok_inv in H. destruct H as (e & s1 & _ & H).
    eapply read_release_quiet. exact H.
  - intros a v s u s' H. open_run wb_write H.
    apply bind_Ok_inv in H. destruct H as (e & s1 & _ & H).
    apply bind_Ok_inv in H. destruct H as (u1 & s2 & Hr & H).
    apply write_release_quiet in Hr. msimpl_in H.
    destruct (stall s2); msimpl_in H; inversion H; subst. exact Hr.
  - intros a v s u s' H. open_run wb_ctrl_write H.
    apply bind_Ok_inv in H. destruct H as (e & s1 & _ & H).
    eapply write_release_quiet. exact H.
  - intros a ln buf inc s u s' H. eapply wb_write_burst_quiet. exact H.
  - intros a len buf inc s buf' s' H. eapply wb_read_burst_idle. exact H.
Qed.

End BusIdle.

(** ** What a single word read returns *)

(** A clock of a read cycle at byte address [a]. *)
Definition read_cycle_clock (a : Z) (i : WbIn) : Prop :=
  i_wb_cyc i = true /\ i_wb_we i = false /\ i_wb_addr i = Z.shiftr a 2.

(** An event that is not a clock with cycle high. *)
Definition off_cycle (e : Event) : Prop :=
  match e with EvTick i _ => i_wb_cyc i = false | _ => True end.

Section ReadData.

Context {Env : Type}.
Variable TESTB_tick : Env -> WbIn -> Env * WbOut.
Variable fuel : nat.
Notation TB := (@TB Env).

Definition grows (s s' : TB) : Prop := extends (fun _ => True) s s'.

Lemma tick_grows : returns grows (tick TESTB_tick).
Proof.
  intros s u s' H. apply tick_Ok in H. destruct H as [E _]. subst s'.
  eapply extends_one; [apply TESTB_step_events | exact I].
Qed.

Lemma wait_stall_grows e0 :
  returns (fun s s' => grows s s' /\ m_in s' = m_in s)
          (wait_stall TESTB_tick fuel e0).
Proof.
  unfold wait_stall.
  assert (Hr : forall s : TB, grows s s /\ m_in s = m_in s)
    by (intros; split; [apply extends_refl | reflexivity]).
  assert (Ht : forall s1 s2 s3 : TB,
            grows s1 s2 /\ m_in s2 = m_in s1 ->
            grows s2 s3 /\ m_in s3 = m_in s2 ->
            grows s1 s3 /\ m_in s3 = m_in s1).
  { intros s1 s2 s3 [G1 E1] [G2 E2]. split; [|congruence].
    eapply extends_trans; eassumption. }
  returns_steps Hr Ht
    ltac:(intros s0 u s1 Hx; split;
          [apply tick_grows in Hx; exact Hx
          | apply tick_keeps_in in Hx; exact Hx]).
Qed.

(** The request phase of a single word read ends on a clock of the read
    cycle, whose answer is what the bench sees at the release. *)
Lemma read_handshake_last_clock d c a (s : TB) e s1 :
  read_handshake TESTB_tick fuel d c a s = Ok e s1 ->
  exists i mid,
    events s1 = EvTick i (m_out s1) :: mid ++ events s /\
    read_cycle_clock a i.
Proof.
  unfold read_handshake. intros H. msimpl_in H.
  set (s0 := mkTB _ _ _ _ _ _ _) in H.
  assert (Hs0 : read_cycle_clock a (m_in s0)) by (repeat split).
  assert (He0 : events s0 = events s) by reflexivity.
  assert (Hx : exists sx mid0,
    events sx = mid0 ++ events s /\ read_cycle_clock a (m_in sx) /\
    exists e0,
    bind (tick TESTB_tick) (fun _ =>
      bind (set_data_stb false) (fun _ =>
        bind (set_ctrl_stb false) (fun _ =>
          wait_ack TESTB_tick fuel e0))) sx = Ok e s1).
  { destruct (stall s0).
    - apply bind_Ok_inv in H. destruct H as (e1 & sx & Hw & H).
      apply wait_stall_grows in Hw. destruct Hw as [(new & En & _) Hin].
      exists sx, new. split; [rewrite En, He0; reflexivity|].
      split; [rewrite Hin; exact Hs0|]. exists e1. exact H.
    - msimpl_in H. exists s0, []. split; [exact He0|].
      split; [exact Hs0|]. exists 0. exact H. }
  clear H. destruct Hx as (sx & mid0 & Hex & Hix & e0 & H).
  apply bind_Ok_inv in H. destruct H as (u & s2 & Ht & H).
  apply tick_Ok in Ht. destruct Ht as [Es2 _].
  assert (Hev2 : events s2 = EvTick (m_in sx) (m_out s2) :: mid0 ++ events s)
    by (rewrite Es2 at 1; rewrite TESTB_step_events, Hex, <- Es2; reflexivity).
  assert (Hin2 : m_in s2 = m_in sx) by (rewrite Es2; apply TESTB_step_in).
  msimpl_in H. set (s3 := mkTB _ _ _ _ _ _ _) in H.
  unfold wait_ack in H.
  apply (while_Ok_inv (fun _ st =>
           read_cycle_clock a (m_in st) /\
           exists i mid, events st = EvTick i (m_out st) :: mid ++ events s /\
                         read_cycle_clock a i)) in H.
  - destruct H as (l0 & (_ & i & mid & He & Hi) & _).
    exists i, mid. split; assumption.
  - intros l st l1 l2 st' (Hi & i & mid & He & Hic) _ Hb.
    apply bind_Ok_inv in Hb. destruct Hb as (u' & st2 & Ht & Hr).
    inversion Hr; subst st2 l2. clear Hr.
    apply tick_Ok in Ht. destruct Ht as [Est _].
    split; [rewrite Est, TESTB_step_in; exact Hi|].
    exists (m_in st), (EvTick i (m_out st) :: mid).
    split; [|exact Hi].
    rewrite Est at 1. rewrite TESTB_step_events, He, <- Est. reflexivity.
  - split.
    + subst s3. simpl. rewrite Hin2. destruct Hix as (H1 & H2 & H3).
      repeat split; simpl; assumption.
    + exists (m_in sx), mid0. split; [|exact Hix].
      subst s3. simpl. exact Hev2.
Qed.

Lemma read_acknowledged d c a (s : TB) r s' :
  bind (read_handshake TESTB_tick fuel d c a)
       (read_release TESTB_tick fuel) s = Ok r s' ->
  m_bomb s' = false ->
  exists newer i o older,
    events s' = newer ++ EvTick i o :: older ++ events s /\
    read_cycle_clock a i /\
    o_wb_ack o = true /\ o_wb_data o = r /\
    Forall off_cycle newer.
Proof.
  intros H Hb. apply bind_Ok_inv in H. destruct H as (e & s1 & Hh & Hr).
  destruct (read_handshake_exit _ _ _ _ _ _ _ _ Hh) as [Hb1 Ha].
  pose proof (read_release_bomb _ _ _ _ _ _ Ha Hr) as Hbomb.
  rewrite Hb in Hbomb. symmetry in Hbomb. apply orb_false_iff in Hbomb.
  destruct Hbomb as [_ Hlt]. apply Z.leb_gt in Hlt. specialize (Ha Hlt).
  destruct (read_handshake_last_clock _ _ _ _ _ _ Hh)
    as (i & mid & He1 & Hi).
  apply read_release_sequence in Hr.
  destruct Hr as (Er & drained & rel & msgs & He & Hm & Hrel & Hdr & _).
  exists (drained ++ rel :: msgs), i, (m_out s1), mid.
  split; [rewrite He, He1, <- app_assoc; reflexivity|].
  split; [exact Hi|]. split; [exact Ha|]. split; [symmetry; exact Er|].
  apply Forall_app. split.
  - eapply Forall_impl; [|exact Hdr]. intros [] Hx; simpl in *; tauto.
  - constructor.
    + destruct rel; simpl in *; tauto.
    + eapply Forall_impl; [|exact Hm]. intros [] Hx; simpl in *; tauto.
Qed.

(** X2.  A single word read that returns with the fault flag clear returns
    what the device put on the data lines on the last clock of the cycle,
    a clock on which it acknowledged, at the word address asked for. *)
Theorem read_returns_acknowledged_data a (s : TB) r s' :
  (wb_read TESTB_tick fuel a s = Ok r s' \/
   wb_ctrl_read TESTB_tick fuel a s = Ok r s') ->
  m_bomb s' = false ->
  exists newer i o older,
    events s' = newer ++ EvTick i o :: older ++ events s /\
    read_cycle_clock a i /\
    o_wb_ack o = true /\ o_wb_data o = r /\
    Forall off_cycle newer.
Proof.
  intros [H|H] Hb; eapply read_acknowledged; eassumption.
Qed.

End ReadData.

(** ** The direction of a transfer *)

(** A recorded clock that, if cycle is high on it, has write enable at
    [w]; any other event. *)
Definition we_clock (w : bool) (e : Event) : Prop :=
  match e with
  | EvTick i _ => i_wb_cyc i = true -> i_wb_we i = w
  | _ => True
  end.

(** Runs the head of the term under [state_of] in [H]. *)
Ltac run_prefix H :=
  let r := fresh "r" in
  let E := fresh "E" in
  lazymatch type of H with
  | state_of ?t = _ =>
      remember t as r eqn:E; symmetry in E; msimpl_in E;
      rewrite <- E in H; clear E r
  end.

Section Direction.

Context {Env : Type}.
Variable TESTB_tick : Env -> WbIn -> Env * WbOut.
Variable fuel : nat.
Notation TB := (@TB Env).

(** Write enable stands at [w] whenever cycle is high. *)
Definition we_is (w : bool) (s : TB) : Prop :=
  i_wb_cyc (m_in s) = true -> i_wb_we (m_in s) = w.

(** From a state with write enable at [w], only clocks of that direction
    are added, and write enable stays. *)
Definition directed (w : bool) (s s' : TB) : Prop :=
  we_is w s -> extends (we_clock w) s s' /\ we_is w s'.

Lemma directed_refl w s : directed w s s.
Proof. intros H. split; [apply extends_refl | exact H]. Qed.

Lemma directed_trans w s1 s2 s3 :
  directed w s1 s2 -> directed w s2 s3 -> directed w s1 s3.
Proof.
  intros H1 H2 Hi. destruct (H1 Hi) as [E1 I2]. destruct (H2 I2) as [E2 I3].
  split; [eapply extends_trans; eassumption | exact I3].
Qed.

Lemma directed_tick w : respects (directed w) (tick TESTB_tick).
Proof.
  intros s s' H Hi. apply tick_state in H. subst s'. split.
  - eapply extends_one; [apply TESTB_step_events | exact Hi].
  - unfold we_is. rewrite TESTB_step_in. exact Hi.
Qed.

Lemma directed_emit w e :
  we_clock w e -> respects (directed w) (emit (Env:=Env) e).
Proof.
  intros He s s' H Hi. inversion H; subst. split.
  - eapply extends_one; [reflexivity | exact He].
  - exact Hi.
Qed.

(** An assignment to the request signals that leaves cycle and write
    enable alone, or lowers cycle. *)
Lemma directed_upd_in w f :
  (forall i, i_wb_cyc (f i) = false \/
             (i_wb_cyc (f i) = i_wb_cyc i /\ i_wb_we (f i) = i_wb_we i)) ->
  respects (directed w) (upd_in (Env:=Env) f).
Proof.
  intros Hf s s' H Hi. inversion H; subst. split.
  - apply extends_same. reflexivity.
  - unfold we_is in *. simpl. destruct (Hf (m_in s)) as [E|[E1 E2]].
    + rewrite E. discriminate.
    + rewrite E1, E2. exact Hi.
Qed.

Lemma directed_state w (f : TB -> TB) :
  (forall s, m_in (f s) = m_in s /\ events (f s) = events s) ->
  respects (directed w) (fun s => Ok tt (f s)).
Proof.
  intros Hf s s' H Hi. inversion H; subst. destruct (Hf s) as [E1 E2]. split.
  - apply extends_same. exact E2.
  - unfold we_is. rewrite E1. exact Hi.
Qed.

Lemma directed_capture w l : respects (directed w) (capture l).
Proof.
  intros s s' H. unfold capture in H.
  destruct (ack s); inversion H; subst; apply directed_refl.
Qed.

Ltac directed_atoms w :=
  first
    [ apply directed_tick
    | apply directed_capture
    | apply directed_emit; exact I
    | apply directed_upd_in; intros [] ; simpl; tauto
    | apply directed_state; intros; split; reflexivity ].

Ltac directed_steps w :=
  unfold wait_stall, wait_stall_verbose, wait_ack, drain_stall, read_release,
    write_release, rd_post_body, wr_post_body, wr_drain, count_ack, printf,
    set_cyc, set_data_stb, set_ctrl_stb, set_we, set_addr, set_data,
    set_bomb, set_ack_expected;
  respects_steps (directed_refl w) (directed_trans w) ltac:(directed_atoms w).

(** The run that [H] ends, whose head has been run up to the first clock,
    adds clocks of direction [w] only. *)
Ltac directed_rest w H :=
  lazymatch type of H with
  | state_of (?m ?s0) = Some ?s' =>
      let Hres := fresh "Hres" in
      assert (Hres : respects (directed w) m) by (directed_steps w);
      apply Hres in H
  end.

Lemma wb_read_directed d c a (s s' : TB) :
  state_of (bind (read_handshake TESTB_tick fuel d c a)
                 (read_release TESTB_tick fuel) s) = Some s' ->
  extends (we_clock false) s s'.
Proof.
  intros H. open_run read_handshake H. run_prefix H.
  directed_rest false H.
  destruct H as [He _]; [intros _; reflexivity|].
  destruct He as (new & En & Hn). exists new. split; assumption.
Qed.

Lemma wb_write_directed {A} d c a v (k : Z -> @M Env A) (s s' : TB) :
  (forall e, respects (directed true) (k e)) ->
  state_of (bind (write_handshake TESTB_tick fuel d c a v) k s) = Some s' ->
  extends (we_clock true) s s'.
Proof.
  intros Hk H. open_run write_handshake H. run_prefix H.
  lazymatch type of H with
  | state_of (?m ?s0) = Some ?s' =>
      assert (Hres : respects (directed true) m)
  end.
  { directed_steps true. apply Hk. }
  apply Hres in H. destruct H as [He _]; [intros _; reflexivity|].
  destruct He as (new & En & Hn). exists (new ++ [EvPrintf "WB-WRITEM(%08x) <= %08x" [a; v]]).
  split; [rewrite En, <- app_assoc; reflexivity|].
  apply Forall_app. split; [exact Hn | repeat constructor].
Qed.


Lemma extends_push (P : Event -> Prop) e (s0 s s' : TB) :
  events s0 = e :: events s -> P e -> extends P s0 s' -> extends P s s'.
Proof.
  intros E0 He (new & En & Hn). exists (new ++ [e]).
  split; [rewrite En, E0, <- app_assoc; reflexivity|].
  apply Forall_app. split; [exact Hn | repeat constructor; exact He].
Qed.

Lemma wb_write_burst_directed a ln buf inc (s s' : TB) :
  state_of (wb_write_burst TESTB_tick fuel a ln buf inc s) = Some s' ->
  extends (we_clock true) s s'.
Proof.
  intros H. open_run wb_write_burst H. open_run wr_post H. run_prefix H.
  directed_rest true H.
  destruct H as [He _]; [intros _; reflexivity|].
  eapply extends_push; [| |exact He]; [reflexivity | exact I].
Qed.

Lemma wb_read_burst_directed a len buf inc (s s' : TB) :
  state_of (wb_read_burst TESTB_tick fuel a len buf inc s) = Some s' ->
  extends (we_clock false) s s'.
Proof.
  intros H. open_run wb_read_burst H. open_run rd_idle_wait H. cbv zeta in H.
  run_prefix H.
  set (s0 := mkTB _ _ _ _ _ _ _) in H.
  apply (extends_push _ (EvPrintf "WB-READM(%08x, %d)" [a; len]) s0);
    [reflexivity | exact I |].
  assert (Hi0 : we_is false s0) by (intros Hc; discriminate Hc).
  assert (Hw : respects (directed false) (wait_stall TESTB_tick fuel 0))
    by (directed_steps false).
  apply bind_state_inv in H. destruct H as [(e & s1 & Ew & H) | (_ & H)].
  - assert (H01 : extends (we_clock false) s0 s1)
      by (apply Hw; [rewrite Ew; reflexivity | exact Hi0]).
    eapply extends_trans; [exact H01|]. clear H01 Hw Ew Hi0.
    destruct (BOMBCOUNT <=? e).
    + run_prefix H. inversion H; subst s'.
      eapply extends_one; [reflexivity | exact I].
    + open_run rd_transfer H. cbv zeta in H. run_prefix H.
      directed_rest false H.
      destruct H as [He _]; [intros _; reflexivity|].
      destruct He as (new & En & Hn). exists new. split; assumption.
  - apply Hw; assumption.
Qed.


End Direction.

(** ** The port of a transfer *)

(** A recorded clock on which the strobe [g] is low; any other event. *)
Definition strobe_low (g : WbIn -> bool) (e : Event) : Prop :=
  match e with
  | EvTick i _ => g i = false
  | _ => True
  end.

Section PortSeparation.

Context {Env : Type}.
Variable TESTB_tick : Env -> WbIn -> Env * WbOut.
Variable fuel : nat.
Notation TB := (@TB Env).

(** From a state with the strobe [g] low, only clocks with [g] low are
    added, and [g] stays low. *)
Definition unstrobed (g : WbIn -> bool) (s s' : TB) : Prop :=
  g (m_in s) = false -> extends (strobe_low g) s s' /\ g (m_in s') = false.

Lemma unstrobed_refl g s : unstrobed g s s.
Proof. intros H. split; [apply extends_refl | exact H]. Qed.

Lemma unstrobed_trans g s1 s2 s3 :
  unstrobed g s1 s2 -> unstrobed g s2 s3 -> unstrobed g s1 s3.
Proof.
  intros H1 H2 Hi. destruct (H1 Hi) as [E1 I2]. destruct (H2 I2) as [E2 I3].
  split; [eapply extends_trans; eassumption | exact I3].
Qed.

Lemma unstrobed_tick g : respects (unstrobed g) (tick TESTB_tick).
Proof.
  intros s s' H Hi. apply tick_state in H. subst s'. split.
  - eapply extends_one; [apply TESTB_step_events | exact Hi].
  - rewrite TESTB_step_in. exact Hi.
Qed.

Lemma unstrobed_emit g e :
  strobe_low g e -> respects (unstrobed g) (emit (Env:=Env) e).
Proof.
  intros He s s' H Hi. inversion H; subst. split.
  - eapply extends_one; [reflexivity | exact He].
  - exact Hi.
Qed.

(** An assignment to the request signals that does not raise [g]. *)
Lemma unstrobed_upd_in g f :
  (forall i, g i = false -> g (f i) = false) ->
  respects (unstrobed g) (upd_in (Env:=Env) f).
Proof.
  intros Hf s s' H Hi. inversion H; subst. split.
  - apply extends_same. reflexivity.
  - apply Hf. exact Hi.
Qed.

Lemma unstrobed_state g (f : TB -> TB) :
  (forall s, m_in (f s) = m_in s /\ events (f s) = events s) ->
  respects (unstrobed g) (fun s => Ok tt (f s)).
Proof.
  intros Hf s s' H Hi. inversion H; subst. destruct (Hf s) as [E1 E2]. split.
  - apply extends_same. exact E2.
  - rewrite E1. exact Hi.
Qed.

Lemma unstrobed_capture g l : respects (unstrobed g) (capture l).
Proof.
  intros s s' H. unfold capture in H.
  destruct (ack s); inversion H; subst; apply unstrobed_refl.
Qed.

Ltac unstrobed_atoms :=
  first
    [ apply unstrobed_tick
    | apply unstrobed_capture
    | apply unstrobed_emit; exact I
    | apply unstrobed_upd_in; intros [] ; simpl; intros Hi;
        first [exact Hi | reflexivity]
    | apply unstrobed_state; intros; split; reflexivity ].

Ltac unstrobed_steps g :=
  unfold wait_stall, wait_stall_verbose, wait_ack, drain_stall, read_release,
    write_release, rd_transfer, rd_post_body, wr_post_body, wr_drain,
    count_ack, printf, set_cyc, set_data_stb, set_ctrl_stb, set_we, set_addr,
    set_data, set_bomb, set_ack_expected;
  cbv zeta;
  respects_steps (unstrobed_refl g) (unstrobed_trans g) unstrobed_atoms.

(** The run that [H] ends, whose head has been run up to the first
    clock, adds clocks with [g] low only. *)
Ltac unstrobed_rest g H :=
  lazymatch type of H with
  | state_of (?m ?s0) = Some ?s' =>
      let Hres := fresh "Hres" in
      assert (Hres : respects (unstrobed g) m) by (unstrobed_steps g);
      apply Hres in H;
      destruct H as [H _]; [reflexivity|]
  end.

Lemma single_read_unstrobed a (s s' : TB) :
  (state_of (wb_read TESTB_tick fuel a s) = Some s' ->
   extends (strobe_low i_wb_ctrl_stb) s s') /\
  (state_of (wb_ctrl_read TESTB_tick fuel a s) = Some s' ->
   extends (strobe_low i_wb_data_stb) s s').
Proof.
  split; intros H.
  - open_run wb_read H. open_run read_handshake H. run_prefix H.
    unstrobed_rest i_wb_ctrl_stb H. exact H.
  - open_run wb_ctrl_read H. open_run read_handshake H. run_prefix H.
    unstrobed_rest i_wb_data_stb H. exact H.
Qed.

Lemma single_write_unstrobed a v (s s' : TB) :
  (state_of (wb_write TESTB_tick fuel a v s) = Some s' ->
   extends (strobe_low i_wb_ctrl_stb) s s') /\
  (state_of (wb_ctrl_write TESTB_tick fuel a v s) = Some s' ->
   extends (strobe_low i_wb_data_stb) s s').
Proof.
  split; intros H.
  - open_run wb_write H. open_run write_handshake H. run_prefix H.
    unstrobed_rest i_wb_ctrl_stb H.
    eapply extends_push; [| |exact H]; [reflexivity | exact I].
  - open_run wb_ctrl_write H. open_run write_handshake H. run_prefix H.
    unstrobed_rest i_wb_data_stb H.
    eapply extends_push; [| |exact H]; [reflexivity | exact I].
Qed.

Lemma burst_unstrobed a n buf inc (s s' : TB) :
  (state_of (wb_read_burst TESTB_tick fuel a n buf inc s) = Some s' ->
   extends (strobe_low i_wb_ctrl_stb) s s') /\
  (state_of (wb_write_burst TESTB_tick fuel a n buf inc s) = Some s' ->
   extends (strobe_low i_wb_ctrl_stb) s s').
Proof.
  split; intros H.
  - open_run wb_read_burst H. open_run rd_idle_wait H. cbv zeta in H.
    run_prefix H. unstrobed_rest i_wb_ctrl_stb H.
    eapply extends_push; [| |exact H]; [reflexivity | exact I].
  - open_run wb_write_burst H. open_run wr_post H. run_prefix H.
    unstrobed_rest i_wb_ctrl_stb H.
    eapply extends_push; [| |exact H]; [reflexivity | exact I].
Qed.

(** The end of a single word write, from the moment the strobes are
    dropped: nothing more is strobed on the data port. *)
Lemma write_close_unstrobed e :
  respects (unstrobed i_wb_data_stb)
    (bind (wait_ack TESTB_tick fuel e)
          (fun e1 => bind (tick TESTB_tick) (fun _ => ret e1))).
Proof. unstrobed_steps i_wb_data_stb. Qed.

Lemma write_release_unstrobed line e :
  respects (unstrobed i_wb_data_stb) (write_release TESTB_tick fuel line e).
Proof. unstrobed_steps i_wb_data_stb. Qed.

(** X4.  Each transfer keeps to its port.  Whichever way it ends, a
    transfer on the data port (single word or burst, read or write) has
    the control strobe low on every clock, and a transfer on the control
    port has the data strobe low on every clock. *)
Theorem transfers_keep_to_their_port :
  (forall a (s s' : TB),
     state_of (wb_read TESTB_tick fuel a s) = Some s' ->
     extends (strobe_low i_wb_ctrl_stb) s s') /\
  (forall a v (s s' : TB),
     state_of (wb_write TESTB_tick fuel a v s) = Some s' ->
     extends (strobe_low i_wb_ctrl_stb) s s') /\
  (forall a len buf inc (s s' : TB),
     state_of (wb_read_burst TESTB_tick fuel a len buf inc s) = Some s' ->
     extends (strobe_low i_wb_ctrl_stb) s s') /\
  (forall a ln buf inc (s s' : TB),
     state_of (wb_write_burst TESTB_tick fuel a ln buf inc s) = Some s' ->
     extends (strobe_low i_wb_ctrl_stb) s s') /\
  (forall a (s s' : TB),
     state_of (wb_ctrl_read TESTB_tick fuel a s) = Some s' ->
     extends (strobe_low i_wb_data_stb) s s') /\
  (forall a v (s s' : TB),
     state_of (wb_ctrl_write TESTB_tick fuel a v s) = Some s' ->
     extends (strobe_low i_wb_data_stb) s s').
Proof.
  split; [|split; [|split; [|split; [|split]]]].
  - intros a s s'. exact (proj1 (single_read_unstrobed a s s')).
  - intros a v s s'. exact (proj1 (single_write_unstrobed a v s s')).
  - intros a len buf inc s s'. exact (proj1 (burst_unstrobed a len buf inc s s')).
  - intros a ln buf inc s s'. exact (proj2 (burst_unstrobed a ln buf inc s s')).
  - intros a s s'. exact (proj2 (single_read_unstrobed a s s')).
  - intros a v s s'. exact (proj2 (single_write_unstrobed a v s s')).
Qed.

End PortSeparation.

(** ** The requests a device takes *)

(** What the device shows after a history (oldest event first), having
    shown [before] at its start. *)
Fixpoint out_after (before : WbOut) (history : list Event) : WbOut :=
  match history with
  | [] => before
  | e :: rest =>
      out_after (match e with EvTick _ o => o | _ => before end) rest
  end.

Lemma requests_taken_app before h1 h2 :
  requests_taken before (h1 ++ h2) =
  requests_taken before h1 + requests_taken (out_after before h1) h2.
Proof.
  revert before. induction h1 as [|e h1 IH]; intros before; simpl.
  - reflexivity.
  - rewrite IH. lia.
Qed.

Lemma out_after_app before h1 h2 :
  out_after before (h1 ++ h2) = out_after (out_after before h1) h2.
Proof.
  revert before. induction h1 as [|e h1 IH]; intros before; simpl;
    [reflexivity | apply IH].
Qed.

Section TakenOnce.

Context {Env : Type}.
Variable TESTB_tick : Env -> WbIn -> Env * WbOut.
Variable fuel : nat.
Notation TB := (@TB Env).

(** From [s] to [s'] the device took [k] requests. *)
Definition took (k : Z) (s s' : TB) : Prop :=
  exists new,
    events s' = new ++ events s /\
    requests_taken (m_out s) (rev new) = k /\
    out_after (m_out s) (rev new) = m_out s'.

Lemma took_refl s : took 0 s s.
Proof. exists []. repeat split. Qed.

Lemma took_trans k1 k2 s1 s2 s3 :
  took k1 s1 s2 -> took k2 s2 s3 -> took (k1 + k2) s1 s3.
Proof.
  intros (n1 & E1 & T1 & O1) (n2 & E2 & T2 & O2). exists (n2 ++ n1).
  split; [rewrite E2, E1; apply app_assoc|].
  rewrite rev_app_distr, requests_taken_app, out_after_app, T1, O1.
  split; [lia | exact O2].
Qed.

Lemma took_tick (s : TB) u s' :
  tick TESTB_tick s = Ok u s' ->
  m_in s' = m_in s /\
  took (if i_wb_cyc (m_in s) && i_wb_data_stb (m_in s) && negb (stall s)
        then 1 else 0) s s'.
Proof.
  intros H. apply tick_Ok in H. destruct H as [Es _]. subst s'.
  split; [apply TESTB_step_in|].
  exists [EvTick (m_in s) (m_out (TESTB_step TESTB_tick s))].
  split; [apply TESTB_step_events|]. simpl. unfold stall.
  split; [lia | reflexivity].
Qed.

Lemma took_line fmt args (s : TB) :
  took 0 s (mkTB (m_in s) (m_out s) (m_env s) (m_bomb s) (m_ack_expected s)
                 (sub_m_bomb s) (EvPrintf fmt args :: events s)).
Proof. exists [EvPrintf fmt args]. repeat split. Qed.

(** With the data strobe low nothing is taken. *)
Definition idle_port (s s' : TB) : Prop :=
  i_wb_data_stb (m_in s) = false ->
  took 0 s s' /\ i_wb_data_stb (m_in s') = false.

Lemma idle_port_refl s : idle_port s s.
Proof. intros H. split; [apply took_refl | exact H]. Qed.

Lemma idle_port_trans s1 s2 s3 :
  idle_port s1 s2 -> idle_port s2 s3 -> idle_port s1 s3.
Proof.
  intros H1 H2 Hi. destruct (H1 Hi) as [T1 I2]. destruct (H2 I2) as [T2 I3].
  split; [exact (took_trans _ _ _ _ _ T1 T2) | exact I3].
Qed.

Lemma idle_port_tick : returns idle_port (tick TESTB_tick).
Proof.
  intros s u s' H Hi. apply took_tick in H. destruct H as [Ein Ht].
  rewrite Hi, andb_false_r in Ht. split; [exact Ht | congruence].
Qed.

Lemma idle_port_wait_ack e : returns idle_port (wait_ack TESTB_tick fuel e).
Proof.
  unfold wait_ack.
  returns_steps idle_port_refl idle_port_trans ltac:(apply idle_port_tick).
Qed.

Lemma idle_port_upd_in f :
  (forall i, i_wb_data_stb i = false -> i_wb_data_stb (f i) = false) ->
  returns idle_port (upd_in f).
Proof.
  intros Hf s u s' H Hi. inversion H; subst. cbn [m_in]. split.
  - exists []. repeat split.
  - apply Hf. exact Hi.
Qed.

Lemma idle_port_printf fmt args : returns idle_port (printf fmt args).
Proof.
  intros s u s' H Hi. inversion H; subst. split; [apply took_line | exact Hi].
Qed.

Lemma idle_port_set_bomb b : returns idle_port (set_bomb b).
Proof.
  intros s u s' H Hi. inversion H; subst. split; [|exact Hi].
  exists []. repeat split.
Qed.

Lemma idle_port_set_ack_expected b : returns idle_port (set_ack_expected b).
Proof.
  intros s u s' H Hi. inversion H; subst. split; [|exact Hi].
  exists []. repeat split.
Qed.

Ltac idle_atoms :=
  first [ apply idle_port_tick
        | apply idle_port_upd_in; intros ? Hi; first [exact Hi | reflexivity]
        | apply idle_port_printf
        | apply idle_port_set_bomb
        | apply idle_port_set_ack_expected ].

Lemma idle_port_read_release e :
  returns idle_port (read_release TESTB_tick fuel e).
Proof.
  unfold read_release, drain_stall, set_cyc, set_data_stb, set_ctrl_stb.
  returns_steps idle_port_refl idle_port_trans idle_atoms.
Qed.

Lemma idle_port_write_release line e :
  returns idle_port (write_release TESTB_tick fuel line e).
Proof.
  unfold write_release, drain_stall, set_cyc, set_data_stb, set_ctrl_stb.
  returns_steps idle_port_refl idle_port_trans idle_atoms.
Qed.

(** The wait on stall: no clock of it is taken, and when it ends inside
    its budget the stall has gone. *)
Lemma wait_stall_not_taken (s : TB) e s' :
  wait_stall TESTB_tick fuel 0 s = Ok e s' ->
  took 0 s s' /\ m_in s' = m_in s /\ 0 < e /\
  (e <= BOMBCOUNT -> stall s' = false).
Proof.
  intros H. unfold wait_stall in H.
  apply (while_Ok_inv (fun e0 st => took 0 s st /\ m_in st = m_in s /\ 0 <= e0))
    in H.
  - destruct H as (e0 & (Ht & Hin & He) & Hc). injection Hc as Hc Ee.
    subst e. repeat split; try assumption; try lia.
    intros Hle. apply andb_false_iff in Hc. destruct Hc as [Hc|Hc];
      [apply Z.ltb_ge in Hc; lia | exact Hc].
  - intros e0 st e1 e2 st' (Ht & Hin & He) Hc Hb.
    injection Hc as Hc Ee. subst e1.
    apply andb_true_iff in Hc. destruct Hc as [_ Hst].
    apply bind_Ok_inv in Hb. destruct Hb as (u & st1 & Htk & Hb).
    inversion Hb; subst e2 st1. clear Hb.
    apply took_tick in Htk. destruct Htk as [Ein Htk].
    rewrite Hst, andb_false_r in Htk.
    split; [exact (took_trans _ _ _ _ _ Ht Htk)|]. split; [congruence | lia].
  - split; [apply took_refl|]. split; [reflexivity | lia].
Qed.

Lemma wait_stall_verbose_not_taken (s : TB) e s' :
  wait_stall_verbose TESTB_tick fuel 0 s = Ok e s' ->
  took 0 s s' /\ m_in s' = m_in s /\ 0 < e /\
  (e <= BOMBCOUNT -> stall s' = false).
Proof.
  intros H. unfold wait_stall_verbose in H.
  apply (while_Ok_inv (fun e0 st => took 0 s st /\ m_in st = m_in s /\ 0 <= e0))
    in H.
  - destruct H as (e0 & (Ht & Hin & He) & Hc). injection Hc as Hc Ee.
    subst e. repeat split; try assumption; try lia.
    intros Hle. apply andb_false_iff in Hc. destruct Hc as [Hc|Hc];
      [apply Z.ltb_ge in Hc; lia | exact Hc].
  - intros e0 st e1 e2 st' (Ht & Hin & He) Hc Hb.
    injection Hc as Hc Ee. subst e1.
    apply andb_true_iff in Hc. destruct Hc as [_ Hst].
    msimpl_in Hb. set (st0 := mkTB _ _ _ _ _ _ _) in Hb.
    assert (Hl : took 0 st st0) by apply took_line.
    apply bind_Ok_inv in Hb. destruct Hb as (u & st1 & Htk & Hb).
    inversion Hb; subst e2 st1. clear Hb.
    apply took_tick in Htk. destruct Htk as [Ein Htk].
    unfold stall in Htk, Hst. cbn [m_in m_out st0] in Htk, Ein.
    rewrite Hst, andb_false_r in Htk.
    split.
    + exact (took_trans _ _ _ _ _ Ht (took_trans _ _ _ _ _ Hl Htk)).
    + split; [congruence | lia].
  - split; [apply took_refl|]. split; [reflexivity | lia].
Qed.

Lemma wait_ack_counts e0 (s : TB) e s' :
  wait_ack TESTB_tick fuel e0 s = Ok e s' -> e0 < e.
Proof.
  intros H. unfold wait_ack in H.
  apply (while_Ok_inv (fun e1 _ => e0 <= e1)) in H.
  - destruct H as (e1 & He & Hc). injection Hc as _ Ee. lia.
  - intros e1 st e2 e3 st' He Hc Hb. injection Hc as _ Ee.
    apply bind_Ok_inv in Hb. destruct Hb as (u & st1 & _ & Hb).
    inversion Hb. lia.
  - lia.
Qed.

(** The request phase: with the data strobe up, the request is taken on
    the one clock that finds the stall gone; a wait on stall that uses up
    its budget leaves the counter above it. *)
Lemma request_phase {A} (wait : Z -> M Z) (k : Z -> M A) (s0 : TB) r s' :
  wait = wait_stall TESTB_tick fuel \/ wait = wait_stall_verbose TESTB_tick fuel ->
  i_wb_cyc (m_in s0) = true -> i_wb_data_stb (m_in s0) = true ->
  bind (if stall s0 then wait 0 else ret 0)
       (fun e => bind (tick TESTB_tick) (fun _ => k e)) s0 = Ok r s' ->
  exists e s2 n,
    k e s2 = Ok r s' /\
    took n s0 s2 /\ m_in s2 = m_in s0 /\ m_bomb s2 = m_bomb s0 /\
    0 <= n <= 1 /\ 0 <= e /\ (e <= BOMBCOUNT -> n = 1).
Proof.
  intros Hw Hc Hd H.
  apply bind_Ok_inv in H. destruct H as (e & s1 & H1 & H).
  apply bind_Ok_inv in H. destruct H as (u & s2 & Ht & H).
  pose proof (tick_keeps_bomb _ _ _ _ Ht) as Hb2.
  apply took_tick in Ht. destruct Ht as [Ein Ht].
  assert (Hs : took 0 s0 s1 /\ m_in s1 = m_in s0 /\ m_bomb s1 = m_bomb s0 /\
               0 <= e /\ (e <= BOMBCOUNT -> stall s1 = false)).
  { destruct (stall s0) eqn:Es.
    - destruct Hw as [Hw|Hw]; subst wait.
      + pose proof (wait_stall_keeps_bomb _ _ _ _ _ _ H1) as Hb.
        apply wait_stall_not_taken in H1.
        destruct H1 as (T & I & P & Q); repeat split; try assumption; lia.
      + assert (Hb : m_bomb s1 = m_bomb s0).
        { revert H1. unfold wait_stall_verbose.
          apply (returns_while _ (keeps_refl m_bomb) (keeps_trans m_bomb)).
          intros l.
          returns_steps (@keeps_refl Env _ m_bomb) (@keeps_trans Env _ m_bomb)
            ltac:(first [ apply tick_keeps_bomb
                        | intros ? ? ? Hx; inversion Hx; reflexivity ]). }
        apply wait_stall_verbose_not_taken in H1.
        destruct H1 as (T & I & P & Q); repeat split; try assumption; lia.
    - inversion H1; subst e s1. repeat split; try lia.
      + apply took_refl.
      + intros _. exact Es. }
  destruct Hs as (T & I & B & P & Q).
  rewrite I, Hc, Hd in Ht. cbn [andb] in Ht.
  exists e, s2, (0 + (if negb (stall s1) then 1 else 0)).
  split; [exact H|].
  split; [exact (took_trans _ _ _ _ _ T Ht)|].
  split; [congruence|]. split; [unfold keeps in Hb2; congruence|].
  split; [destruct (stall s1); simpl; lia|].
  split; [exact P|]. intros Hle. rewrite (Q Hle). reflexivity.
Qed.

(** X5.  A single word transfer is taken once.  During a single word read
    or write on the data port that returns, the device takes at most one
    request; it takes exactly one when the fault flag is clear at the
    return. *)
Theorem single_transfer_taken_once a v (s : TB) s' :
  (exists r, wb_read TESTB_tick fuel a s = Ok r s') \/
  wb_write TESTB_tick fuel a v s = Ok tt s' ->
  exists new,
    events s' = new ++ events s /\
    0 <= requests_taken (m_out s) (rev new) <= 1 /\
    (m_bomb s' = false -> requests_taken (m_out s) (rev new) = 1).
Proof.
  intros [[r H]|H].
  - open_run wb_read H.
    apply bind_Ok_inv in H. destruct H as (ec & s4 & Ha & H).
    open_run read_handshake Ha.
    msimpl_in Ha. set (s0 := mkTB _ _ _ _ _ _ _) in Ha.
    assert (T0 : took 0 s s0) by (exists []; repeat split).
    apply request_phase in Ha; [|left; reflexivity|reflexivity|reflexivity].
    destruct Ha as (e & s2 & n & Ha & T & I & B & Hn & He & Hone).
    msimpl_in Ha. set (s3 := mkTB _ _ _ _ _ _ _) in Ha.
    assert (T3 : took 0 s2 s3) by (exists []; repeat split).
    pose proof (wait_ack_counts _ _ _ _ Ha) as Hcnt.
    pose proof (wait_ack_exit _ _ _ _ _ _ Ha) as [Hb4 Hack].
    pose proof (read_release_bomb _ _ _ _ _ _ Hack H) as Hb.
    apply idle_port_wait_ack in Ha. destruct (Ha eq_refl) as [T4 I4].
    apply idle_port_read_release in H. destruct (H I4) as [T5 _].
    pose proof (took_trans _ _ _ _ _ T0
                 (took_trans _ _ _ _ _ T
                   (took_trans _ _ _ _ _ T3
                     (took_trans _ _ _ _ _ T4 T5)))) as (new & E & Hk & _).
    exists new. split; [exact E|]. rewrite Hk. split; [lia|].
    intros Hf. rewrite Hf in Hb. symmetry in Hb.
    apply orb_false_iff in Hb. destruct Hb as [_ Hb].
    apply Z.leb_gt in Hb. lia.
  - open_run wb_write H.
    apply bind_Ok_inv in H. destruct H as (ec' & s5 & Hh & H).
    open_run write_handshake Hh.
    msimpl_in Hh. set (s0 := mkTB _ _ _ _ _ _ _) in Hh.
    assert (T0 : took 0 s s0) by (eexists [_]; repeat split).
    apply request_phase in Hh; [|right; reflexivity|reflexivity|reflexivity].
    destruct Hh as (e & s2 & n & Hh & T & I & B & Hn & He & Hone).
    msimpl_in Hh. set (s3 := mkTB _ _ _ _ _ _ _) in Hh.
    assert (T3 : took 0 s2 s3) by (exists []; repeat split).
    apply bind_Ok_inv in Hh. destruct Hh as (ec & s4 & Ha & Hh).
    pose proof (wait_ack_counts _ _ _ _ Ha) as Hcnt.
    pose proof (wait_ack_exit _ _ _ _ _ _ Ha) as [Hb4 _].
    apply idle_port_wait_ack in Ha. destruct (Ha eq_refl) as [T4 I4].
    apply bind_Ok_inv in Hh. destruct Hh as (u & s5' & Ht & Hh).
    inversion Hh; subst ec' s5'. clear Hh.
    pose proof (tick_keeps_bomb _ _ _ _ Ht) as Hb5.
    apply idle_port_tick in Ht. destruct (Ht I4) as [T5 I5].
    apply bind_Ok_inv in H. destruct H as (u1 & s6 & Hr & H).
    pose proof (write_release_bomb _ _ _ _ _ _ _ Hr) as Hb.
    apply idle_port_write_release in Hr. destruct (Hr I5) as [T6 _].
    assert (Es : s6 = s').
    { unfold bind, gets, assert in H. destruct (negb (stall s6));
        inversion H; reflexivity. }
    subst s6. clear H.
    pose proof (took_trans _ _ _ _ _ T0
                 (took_trans _ _ _ _ _ T
                   (took_trans _ _ _ _ _ T3
                     (took_trans _ _ _ _ _ T4
                       (took_trans _ _ _ _ _ T5 T6))))) as (new & E & Hk & _).
    exists new. split; [exact E|]. rewrite Hk. split; [lia|].
    intros Hf. rewrite Hf in Hb. symmetry in Hb.
    apply orb_false_iff in Hb. destruct Hb as [_ Hb].
    apply Z.leb_gt in Hb. lia.
Qed.

End TakenOnce.

(** ** A device that never lets go *)

(** A device that stalls on every clock and never acknowledges. *)
Definition stuck_dut (env : unit) (i : WbIn) : unit * WbOut :=
  (tt, mkWbOut true false 0).

Section Hang.

Context {Env : Type}.
Variable TESTB_tick : Env -> WbIn -> Env * WbOut.
Variable fuel : nat.
Notation TB := (@TB Env).
Notation M := (@M Env).

(** The device stalls on every clock and never acknowledges. *)
Hypothesis always_stalls :
  forall e i, o_wb_stall (snd (TESTB_tick e i)) = true /\
              o_wb_ack (snd (TESTB_tick e i)) = false.

(** [m] neither fails an assertion nor leaves the process: it returns or
    is still running when the fuel is gone. *)
Definition lands {A} (m : M A) : Prop :=
  forall s, m s = OutOfFuel \/ exists a s', m s = Ok a s'.

Lemma lands_bind {A B} (m : M A) (k : A -> M B) :
  lands m -> (forall a, lands (k a)) -> lands (bind m k).
Proof.
  intros Hm Hk s. unfold bind. destruct (Hm s) as [E|(a & s1 & E)]; rewrite E.
  - left. reflexivity.
  - apply Hk.
Qed.

Lemma lands_Ok {A} (m : M A) :
  (forall s, exists a s', m s = Ok a s') -> lands m.
Proof. intros H s. right. apply H. Qed.

Lemma lands_if {A} (b : bool) (m1 m2 : M A) :
  lands m1 -> lands m2 -> lands (if b then m1 else m2).
Proof. destruct b; auto. Qed.

Lemma lands_while {L} n (cond : L -> TB -> bool * L) (body : L -> M L) :
  (forall l, lands (body l)) -> forall l, lands (while_ n cond body l).
Proof.
  intros Hb. induction n as [|n IH]; intros l s; simpl;
    destruct (cond l s) as [c l1]; destruct c;
    try (left; reflexivity); try (right; eexists; eexists; reflexivity).
  destruct (Hb l1 s) as [E|(l2 & s2 & E)]; rewrite E.
  - left. reflexivity.
  - apply IH.
Qed.

Lemma lands_for {L} n (body : Z -> L -> M L) :
  (forall i l, lands (body i l)) -> forall i l, lands (for_ n body i l).
Proof.
  intros Hb. induction n as [|n IH]; intros i l; simpl.
  - apply lands_Ok. intros s. eexists. eexists. reflexivity.
  - apply lands_bind; [apply Hb | intros; apply IH].
Qed.

Lemma tick_stuck (s : TB) :
  tick TESTB_tick s = Ok tt (TESTB_step TESTB_tick s) /\
  stall (TESTB_step TESTB_tick s) = true /\
  ack (TESTB_step TESTB_tick s) = false.
Proof.
  unfold tick, TESTB_step, stall, ack, assert.
  destruct (always_stalls (m_env s) (m_in s)) as [Hs Ha].
  destruct (TESTB_tick (m_env s) (m_in s)) as [e' o]. simpl in *.
  rewrite Ha, Hs, orb_true_r. repeat split.
Qed.

Lemma lands_tick : lands (tick TESTB_tick).
Proof.
  intros s. right. exists tt, (TESTB_step TESTB_tick s). apply tick_stuck.
Qed.

Ltac lands_steps :=
  repeat first
    [ apply lands_bind; [ | intro ]
    | apply lands_if
    | apply lands_while; intro
    | apply lands_for; intros ? ?
    | apply lands_tick
    | apply lands_Ok; intros ?; eexists; eexists; reflexivity ].

Lemma lands_read_handshake d c a :
  lands (read_handshake TESTB_tick fuel d c a).
Proof.
  unfold read_handshake, wait_stall, wait_ack, set_cyc, set_data_stb,
    set_ctrl_stb, set_we, set_addr.
  lands_steps.
Qed.

Lemma lands_write_handshake d c a v :
  lands (write_handshake TESTB_tick fuel d c a v).
Proof.
  unfold write_handshake, wait_stall_verbose, wait_ack, set_cyc,
    set_data_stb, set_ctrl_stb, set_we, set_addr, set_data, printf.
  lands_steps.
Qed.

Lemma lands_wr_post a ln buf inc :
  lands (wr_post TESTB_tick fuel a ln buf inc).
Proof.
  unfold wr_post, wr_post_body, count_ack, set_cyc, set_data_stb,
    set_ctrl_stb, set_we, set_addr, set_data, printf.
  lands_steps.
Qed.

Lemma lands_wr_drain ln n : lands (wr_drain TESTB_tick fuel ln n).
Proof.
  unfold wr_drain, set_data_stb, set_ctrl_stb. lands_steps.
Qed.

(** The wait for the stall to go has no budget. *)
Lemma drain_stall_hangs (s : TB) :
  stall s = true -> drain_stall TESTB_tick fuel s = OutOfFuel.
Proof.
  unfold drain_stall. generalize fuel. intros n. revert s.
  induction n as [|n IH]; intros s Hs; simpl; rewrite Hs; [reflexivity|].
  unfold bind at 1. destruct (tick_stuck s) as (Et & Hs1 & _).
  rewrite Et. simpl. apply IH. exact Hs1.
Qed.

Lemma release_clock_hangs {A} (rest : M A) (s : TB) :
  (forall s1, stall s1 = true -> rest s1 = OutOfFuel) ->
  bind (tick TESTB_tick) (fun _ =>
    bind (gets ack) (fun acked => bind (assert (negb acked))
      (fun _ => rest))) s = OutOfFuel.
Proof.
  intros Hrest. destruct (tick_stuck s) as (Et & Hs1 & Ha1).
  unfold bind at 1. rewrite Et. unfold bind, gets. rewrite Ha1. simpl.
  apply Hrest. exact Hs1.
Qed.

Lemma read_release_hangs e (s : TB) :
  read_release TESTB_tick fuel e s = OutOfFuel.
Proof.
  remember (read_release TESTB_tick fuel e s) as r eqn:E. symmetry in E.
  open_run read_release E. msimpl_in E.
  assert (Hh : forall sx : TB,
    bind (tick TESTB_tick) (fun _ =>
      bind (gets ack) (fun acked => bind (assert (negb acked)) (fun _ =>
        bind (drain_stall TESTB_tick fuel) (fun _ =>
          ret (o_wb_data (m_out s)))))) sx = OutOfFuel).
  { intros sx. apply release_clock_hangs. intros s1 Hs1.
    unfold bind. rewrite (drain_stall_hangs s1 Hs1). reflexivity. }
  destruct (BOMBCOUNT <=? e); msimpl_in E.
  - rewrite Hh in E. congruence.
  - destruct (ack _); msimpl_in E; rewrite Hh in E; congruence.
Qed.

Lemma write_release_hangs line e (s : TB) :
  write_release TESTB_tick fuel line e s = OutOfFuel.
Proof.
  remember (write_release TESTB_tick fuel line e s) as r eqn:E.
  symmetry in E. open_run write_release E. msimpl_in E.
  assert (Hh : forall sx : TB,
    bind (tick TESTB_tick) (fun _ =>
      bind (gets ack) (fun acked => bind (assert (negb acked)) (fun _ =>
        drain_stall TESTB_tick fuel))) sx = OutOfFuel).
  { intros sx. apply release_clock_hangs. apply drain_stall_hangs. }
  destruct (BOMBCOUNT <=? e); msimpl_in E; rewrite Hh in E; congruence.
Qed.

Lemma bind_hangs {A B} (m : M A) (k : A -> M B) (s : TB) :
  lands m -> (forall a s1, k a s1 = OutOfFuel) -> bind m k s = OutOfFuel.
Proof.
  intros Hm Hk. unfold bind. destruct (Hm s) as [E|(a & s1 & E)]; rewrite E.
  - reflexivity.
  - apply Hk.
Qed.

(** X6.  The budget does not bound the call.  On a device that keeps stall
    high and never acknowledges, no single word transfer and no burst
    write ever returns, whatever the fuel: each gets through its budgeted
    waits and then ticks for ever in the loop that waits for the stall to
    go. *)
Theorem transfers_hang_on_stall :
  (forall a (s : TB), wb_read TESTB_tick fuel a s = OutOfFuel) /\
  (forall a (s : TB), wb_ctrl_read TESTB_tick fuel a s = OutOfFuel) /\
  (forall a v (s : TB), wb_write TESTB_tick fuel a v s = OutOfFuel) /\
  (forall a v (s : TB), wb_ctrl_write TESTB_tick fuel a v s = OutOfFuel) /\
  (forall a ln buf inc (s : TB),
     wb_write_burst TESTB_tick fuel a ln buf inc s = OutOfFuel).
Proof.
  split; [|split; [|split; [|split]]].
  - intros a s. unfold wb_read.
    apply bind_hangs; [apply lands_read_handshake|].
    intros e s1. apply read_release_hangs.
  - intros a s. unfold wb_ctrl_read.
    apply bind_hangs; [apply lands_read_handshake|].
    intros e s1. apply read_release_hangs.
  - intros a v s. unfold wb_write.
    apply bind_hangs; [apply lands_write_handshake|].
    intros e s1. unfold bind. rewrite write_release_hangs. reflexivity.
  - intros a v s. unfold wb_ctrl_write.
    apply bind_hangs; [apply lands_write_handshake|].
    intros e s1. apply write_release_hangs.
  - intros a ln buf inc s. unfold wb_write_burst.
    apply bind_hangs; [apply lands_wr_post|]. intros n s1.
    apply bind_hangs; [apply lands_wr_drain|]. intros l s2.
    remember (bind (set_cyc false) _ s2) as r eqn:E. symmetry in E.
    msimpl_in E.
    assert (Hh : forall sx : TB,
      bind (tick TESTB_tick) (fun _ =>
        bind (gets ack) (fun acked => bind (assert (negb acked)) (fun _ =>
          drain_stall TESTB_tick fuel))) sx = OutOfFuel).
    { intros sx. apply release_clock_hangs. apply drain_stall_hangs. }
    destruct (BOMBCOUNT <=? fst l); msimpl_in E; rewrite Hh in E; congruence.
Qed.

End Hang.

(** ** The budget of the burst read *)

Lemma ticks_in_tick i o evs : ticks_in (EvTick i o :: evs) = ticks_in evs + 1.
Proof. unfold ticks_in. simpl. lia. Qed.

Lemma ticks_in_printf fmt args evs :
  ticks_in (EvPrintf fmt args :: evs) = ticks_in evs.
Proof. reflexivity. Qed.

Section BurstReadBudget.

Context {Env : Type}.
Variable TESTB_tick : Env -> WbIn -> Env * WbOut.
Variable fuel : nat.
Notation TB := (@TB Env).
Notation M := (@M Env).

Definition clocks (s : TB) : Z := ticks_in (events s).

Lemma tick_clocks (s : TB) u s' :
  tick TESTB_tick s = Ok u s' -> clocks s' = clocks s + 1.
Proof.
  intros H. apply tick_Ok in H. destruct H as [E _]. subst s'.
  unfold clocks. rewrite TESTB_step_events. apply ticks_in_tick.
Qed.

Lemma capture_clocks l (s : TB) l' s' :
  capture l s = Ok l' s' ->
  s' = s /\ rd_errcount l' = rd_errcount l /\ rd_cnt l' = rd_cnt l.
Proof.
  unfold capture. destruct (ack s); intros H; inversion H; subst;
    repeat split.
Qed.

(** The wait on stall: one clock per turn, [BOMBCOUNT] turns at most. *)
Lemma wait_stall_clocks (s : TB) e s' :
  wait_stall TESTB_tick fuel 0 s = Ok e s' ->
  clocks s' = clocks s + (e - 1) /\ 1 <= e <= BOMBCOUNT + 1.
Proof.
  intros H. unfold wait_stall in H.
  apply (while_Ok_inv (fun l s0 =>
           clocks s0 = clocks s + l /\ 0 <= l <= BOMBCOUNT)) in H.
  - destruct H as (l0 & (Hc & Hl) & Hcond). injection Hcond as _ He.
    subst e. split; lia.
  - intros l s0 l1 l2 s1 (Hc & Hl) Hcond Hb.
    injection Hcond as Hlt Hl1.
    apply andb_true_iff in Hlt. destruct Hlt as [Hlt _].
    apply Z.ltb_lt in Hlt.
    apply bind_Ok_inv in Hb. destruct Hb as (u & s2 & Ht & Hr).
    inversion Hr; subst s2 l2. apply tick_clocks in Ht. split; lia.
  - unfold BOMBCOUNT. split; lia.
Qed.

(** The transfer proper: one clock, and then one clock at most for each
    count of [errcount] below the budget. *)
Lemma rd_transfer_clocks a len inc buf (s : TB) l s' :
  0 <= swrap32 (BOMBCOUNT * len) ->
  rd_transfer TESTB_tick fuel a len inc buf s = Ok l s' ->
  clocks s' <= clocks s + 1 + swrap32 (BOMBCOUNT * len).
Proof.
  intros HT H. open_run rd_transfer H. cbv zeta in H. msimpl_in H.
  set (T := swrap32 (BOMBCOUNT * len)) in *.
  set (s0 := mkTB _ _ _ _ _ _ _) in H.
  assert (Hc0 : clocks s0 = clocks s) by reflexivity.
  set (I := fun (l0 : RdLocals) (st : TB) =>
              clocks st <= clocks s + 1 + rd_errcount l0 /\
              clocks st <= clocks s + 1 + T).
  apply bind_Ok_inv in H. destruct H as (l1 & s1 & Hp & H).
  assert (Hbody : forall l0 (st : TB) l2 st',
            rd_post_body TESTB_tick inc l0 st = Ok l2 st' ->
            clocks st' = clocks st + 1 /\ rd_errcount l2 = rd_errcount l0).
  { intros l0 st l2 st' Hb. open_run rd_post_body Hb. msimpl_in Hb.
    apply bind_Ok_inv in Hb. destruct Hb as (u & st2 & Ht & Hb).
    apply tick_clocks in Ht. msimpl_in Hb.
    apply capture_clocks in Hb. destruct Hb as (Es & He & _).
    subst st'. simpl in He. split; [exact Ht | exact He]. }
  assert (H1 : I l1 s1).
  { unfold do_while in Hp.
    apply bind_Ok_inv in Hp. destruct Hp as (l0 & st0 & Hb & Hp).
    apply Hbody in Hb. destruct Hb as [Hc He]. simpl in He.
    apply (while_Ok_inv I) in Hp.
    - destruct Hp as (lx & (Ha & Hb') & Hcond).
      unfold rd_post_cond in Hcond.
      destruct (rd_cnt lx <? len);
        [injection Hcond as _ El | injection Hcond as El]; subst l1;
        unfold I; simpl; split; lia.
    - intros lx st lx1 lx2 st' (Ha & Hb') Hcond Hbd.
      unfold rd_post_cond in Hcond.
      destruct (rd_cnt lx <? len); [|discriminate].
      injection Hcond as Hlt El. apply Z.ltb_lt in Hlt. subst lx1.
      apply Hbody in Hbd. destruct Hbd as [Hc' He']. simpl in He'.
      unfold I. split; lia.
    - unfold I. rewrite He, Hc, Hc0. split; lia. }
  clear Hp. msimpl_in H.
  apply (while_Ok_inv I) in H.
  - destruct H as (lx & (_ & Hb') & _). exact Hb'.
  - intros lx st lx1 lx2 st' (Ha & Hb') Hcond Hbd.
    unfold rd_collect_cond in Hcond.
    destruct (rd_rdidx lx <? len); [|discriminate].
    injection Hcond as Hlt El. apply Z.ltb_lt in Hlt. subst lx1.
    apply bind_Ok_inv in Hbd. destruct Hbd as (u & st2 & Ht & Hcap).
    apply tick_clocks in Ht. apply capture_clocks in Hcap.
    destruct Hcap as (Es & He & _). subst st'. simpl in He.
    unfold I. split; lia.
  - exact H1.
Qed.

Lemma wb_read_burst_clocks a len buf inc (s : TB) buf' s' :
  0 <= len -> BOMBCOUNT * len <= INT_MAX ->
  wb_read_burst TESTB_tick fuel a len buf inc s = Ok buf' s' ->
  clocks s' <= clocks s + BOMBCOUNT * (len + 1) + 2.
Proof.
  intros Hl Hmax H. open_run wb_read_burst H. cbv zeta in H.
  assert (HT : swrap32 (BOMBCOUNT * len) = BOMBCOUNT * len).
  { apply swrap32_small. unfold INT_MAX, BOMBCOUNT in *. lia. }
  apply bind_Ok_inv in H. destruct H as (e & s0 & Hw & H).
  assert (Hc0 : clocks s0 <= clocks s + BOMBCOUNT).
  { open_run rd_idle_wait Hw. msimpl_in Hw.
    apply wait_stall_clocks in Hw. destruct Hw as [Hc He].
    unfold clocks in *. cbn [events] in Hc. rewrite ticks_in_printf in Hc.
    lia. }
  destruct (BOMBCOUNT <=? e).
  - msimpl_in H. inversion H; subst s'. unfold clocks in *.
    cbn [events]. rewrite ticks_in_printf. unfold BOMBCOUNT in *. lia.
  - apply bind_Ok_inv in H. destruct H as (l & s2 & Ht & H).
    apply rd_transfer_clocks in Ht; [|rewrite HT; unfold BOMBCOUNT; lia].
    rewrite HT in Ht. msimpl_in H.
    assert (Hx : exists sx,
      clocks sx = clocks s2 /\
      bind (tick TESTB_tick) (fun _ =>
        bind (gets ack) (fun acked => bind (assert (negb acked)) (fun _ =>
          ret (rd_buf l)))) sx = Ok buf' s').
    { destruct (swrap32 (BOMBCOUNT * len) <=? rd_errcount l); msimpl_in H.
      - eexists. split; [|exact H]. reflexivity.
      - destruct (ack _); msimpl_in H;
          (eexists; split; [|exact H]; reflexivity). }
    clear H. destruct Hx as (sx & Hcx & H).
    apply bind_Ok_inv in H. destruct H as (u & s3 & Htk & H).
    apply tick_clocks in Htk. msimpl_in H.
    destruct (ack s3); msimpl_in H; inversion H; subst s'.
    unfold BOMBCOUNT in *. lia.
Qed.


(** With fuel for its measure, a loop whose turns end does not run out of
    fuel. *)
Lemma while_enough {L} (mu : L -> nat)
    (cond : L -> TB -> bool * L) (body : L -> M L) :
  (forall l s l1, cond l s = (true, l1) ->
     (0 < mu l)%nat /\
     match body l1 s with
     | Ok l2 _ => (mu l2 < mu l)%nat
     | OutOfFuel => False
     | _ => True
     end) ->
  forall n l s, (mu l <= n)%nat -> while_ n cond body l s <> OutOfFuel.
Proof.
  intros Hstep. induction n as [|n IH]; intros l s Hmu; simpl;
    destruct (cond l s) as [c l1] eqn:Ec; destruct c; try discriminate.
  - destruct (Hstep l s l1 Ec) as [Hpos _]. lia.
  - destruct (Hstep l s l1 Ec) as [Hpos Hb].
    destruct (body l1 s) as [l2 s2|s2|c s2|]; try discriminate.
    + apply IH. lia.
    + contradiction.
Qed.

Lemma bind_ends {A B} (m : M A) (k : A -> M B) (s : TB) :
  m s <> OutOfFuel ->
  (forall a s1, m s = Ok a s1 -> k a s1 <> OutOfFuel) ->
  bind m k s <> OutOfFuel.
Proof.
  intros Hm Hk. unfold bind. destruct (m s) as [a s1|s1|c s1|] eqn:E;
    try discriminate.
  - apply Hk. reflexivity.
  - contradiction.
Qed.

Lemma tick_ends (s : TB) : tick TESTB_tick s <> OutOfFuel.
Proof. unfold tick, assert. destruct (_ || _); discriminate. Qed.

Lemma wait_stall_ends (s : TB) :
  (Z.to_nat BOMBCOUNT <= fuel)%nat ->
  wait_stall TESTB_tick fuel 0 s <> OutOfFuel.
Proof.
  intros Hf. unfold wait_stall.
  apply (while_enough (fun l => Z.to_nat (BOMBCOUNT - l))).
  - intros l st l1 Hcond. injection Hcond as Hlt Hl1.
    apply andb_true_iff in Hlt. destruct Hlt as [Hlt _].
    apply Z.ltb_lt in Hlt. split; [lia|].
    unfold bind. destruct (tick TESTB_tick st) as [u s2|s2|c s2|] eqn:Et;
      try exact I.
    + cbv beta iota delta [ret]. lia.
    + apply tick_ends in Et. exact Et.
  - rewrite Z.sub_0_r. exact Hf.
Qed.

Lemma rd_post_body_ends inc l (s : TB) :
  match rd_post_body TESTB_tick inc l s with
  | Ok l2 _ => rd_errcount l2 = rd_errcount l
  | OutOfFuel => False
  | _ => True
  end.
Proof.
  unfold rd_post_body. unfold bind at 1. unfold gets.
  unfold bind at 1. destruct (tick TESTB_tick s) as [u s2|s2|c s2|] eqn:Et;
    try exact I.
  - unfold bind, upd_in, capture. destruct (ack _); reflexivity.
  - apply tick_ends in Et. exact Et.
Qed.

Lemma rd_post_errcount inc len T l (s : TB) l1 s1 :
  do_while fuel (rd_post_body TESTB_tick inc) (rd_post_cond len T) l s
    = Ok l1 s1 ->
  rd_errcount l <= rd_errcount l1.
Proof.
  intros H. unfold do_while in H.
  apply bind_Ok_inv in H. destruct H as (l0 & s0 & Hb & H).
  pose proof (rd_post_body_ends inc l s) as Hb0. rewrite Hb in Hb0.
  apply (while_Ok_inv (fun lx _ => rd_errcount l <= rd_errcount lx)) in H.
  - destruct H as (lx & Hx & Hcond). unfold rd_post_cond in Hcond.
    destruct (rd_cnt lx <? len);
      [injection Hcond as _ El | injection Hcond as El]; subst l1;
      simpl; lia.
  - intros lx st lx1 lx2 st' Hx Hcond Hbd. unfold rd_post_cond in Hcond.
    destruct (rd_cnt lx <? len); [|discriminate].
    injection Hcond as _ El. subst lx1.
    pose proof (rd_post_body_ends inc
                  (mkRd (rd_errcount lx + 1) (rd_cnt lx) (rd_rdidx lx)
                        (rd_buf lx)) st) as Hb1.
    rewrite Hbd in Hb1. cbn [rd_errcount] in Hb1. lia.
  - lia.
Qed.

Lemma rd_transfer_ends a len inc buf (s : TB) :
  (Z.to_nat (swrap32 (BOMBCOUNT * len)) <= fuel)%nat ->
  rd_transfer TESTB_tick fuel a len inc buf s <> OutOfFuel.
Proof.
  intros Hf. unfold rd_transfer. cbv zeta.
  set (T := swrap32 (BOMBCOUNT * len)) in *.
  remember (bind (set_cyc true) _ s) as r eqn:E. symmetry in E.
  msimpl_in E. subst r.
  set (mu := fun l : RdLocals => Z.to_nat (T - rd_errcount l)).
  apply bind_ends.
  - unfold do_while. apply bind_ends.
    + pose proof (rd_post_body_ends inc (mkRd 0 0 0 buf)
                    (mkTB (mkWbIn true true false false (Z.shiftr a 2)
                             (i_wb_data (m_in s)))
                          (m_out s) (m_env s) (m_bomb s) (m_ack_expected s)
                          (sub_m_bomb s) (events s))) as Hb.
      intros Eo. rewrite Eo in Hb. exact Hb.
    + intros l0 s0 Hb0.
      pose proof (rd_post_body_ends inc (mkRd 0 0 0 buf)
                    (mkTB (mkWbIn true true false false (Z.shiftr a 2)
                             (i_wb_data (m_in s)))
                          (m_out s) (m_env s) (m_bomb s) (m_ack_expected s)
                          (sub_m_bomb s) (events s))) as Hb.
      rewrite Hb0 in Hb. simpl in Hb.
      apply (while_enough mu).
      * intros l st l1 Hcond. unfold rd_post_cond in Hcond.
        destruct (rd_cnt l <? len); [|discriminate].
        injection Hcond as Hlt El. apply Z.ltb_lt in Hlt. subst l1.
        split; [unfold mu; lia|].
        pose proof (rd_post_body_ends inc
                      (mkRd (rd_errcount l + 1) (rd_cnt l) (rd_rdidx l)
                            (rd_buf l)) st) as Hb1.
        clear Hb0. revert Hb1.
        destruct (rd_post_body _ _ _ _) as [l2 s2|s2|c s2|]; intros Hb1;
          try exact I.
        -- cbn [rd_errcount] in Hb1. unfold mu. rewrite Hb1. lia.
        -- exact Hb1.
      * unfold mu. rewrite Hb. lia.
  - intros l1 s1 Hpost. apply rd_post_errcount in Hpost.
    cbn [rd_errcount] in Hpost.
    remember (bind (set_data_stb false) _ s1) as r eqn:E. symmetry in E.
    msimpl_in E. subst r.
    destruct (le_lt_dec (mu l1) fuel) as [Hle|Hgt].
    + apply (while_enough mu); [|exact Hle].
      intros l st lx Hcond. unfold rd_collect_cond in Hcond.
      destruct (rd_rdidx l <? len); [|discriminate].
      injection Hcond as Hlt El. apply Z.ltb_lt in Hlt. subst lx.
      split; [unfold mu; lia|].
      unfold bind. destruct (tick TESTB_tick st) as [u s2|s2|c s2|] eqn:Et;
        try exact I.
      * unfold capture. destruct (ack s2); unfold mu; simpl; lia.
      * apply tick_ends in Et. exact Et.
    + exfalso. unfold mu in Hgt. lia.
Qed.

Lemma wb_read_burst_ends a len buf inc (s : TB) :
  (Z.to_nat BOMBCOUNT <= fuel)%nat ->
  (Z.to_nat (swrap32 (BOMBCOUNT * len)) <= fuel)%nat ->
  wb_read_burst TESTB_tick fuel a len buf inc s <> OutOfFuel.
Proof.
  intros Hf1 Hf2. unfold wb_read_burst, rd_idle_wait. cbv zeta.
  remember (bind (bind (printf _ _) _) _ s) as r eqn:E. symmetry in E.
  msimpl_in E. subst r.
  apply bind_ends; [apply wait_stall_ends; exact Hf1|].
  intros e s0 _. destruct (BOMBCOUNT <=? e); [discriminate|].
  apply bind_ends; [apply rd_transfer_ends; exact Hf2|].
  intros l s2 _.
  remember (bind (set_cyc false) _ s2) as r eqn:E. symmetry in E.
  msimpl_in E.
  assert (Hx : forall sx : TB,
    bind (tick TESTB_tick) (fun _ =>
      bind (gets ack) (fun acked => bind (assert (negb acked)) (fun _ =>
        ret (rd_buf l)))) sx <> OutOfFuel).
  { intros sx. apply bind_ends; [apply tick_ends|].
    intros u s3 _. unfold bind, gets, assert.
    destruct (negb (ack s3)); discriminate. }
  destruct (swrap32 (BOMBCOUNT * len) <=? rd_errcount l); msimpl_in E.
  - rewrite <- E. apply Hx.
  - destruct (ack _); msimpl_in E; rewrite <- E; apply Hx.
Qed.

(** X7.  A burst read comes to an end.  On any device and from any state,
    a burst read of [len >= 0] words with fuel for its budget returns or
    fails an assertion, and when it returns it has spent at most
    [BOMBCOUNT*(len+1) + 2] clocks. *)
Theorem burst_read_ends_in_budget a len buf inc (s : TB) :
  0 <= len -> BOMBCOUNT * len <= INT_MAX ->
  BOMBCOUNT * (len + 1) <= Z.of_nat fuel ->
  wb_read_burst TESTB_tick fuel a len buf inc s <> OutOfFuel /\
  (forall buf' s',
     wb_read_burst TESTB_tick fuel a len buf inc s = Ok buf' s' ->
     ticks_in (events s') <=
     ticks_in (events s) + BOMBCOUNT * (len + 1) + 2).
Proof.
  intros Hl Hmax Hf. split.
  - assert (HT : swrap32 (BOMBCOUNT * len) = BOMBCOUNT * len).
    { apply swrap32_small. unfold INT_MAX, BOMBCOUNT in *. lia. }
    apply wb_read_burst_ends; [|rewrite HT]; unfold BOMBCOUNT in *; lia.
  - intros buf' s' H.
    exact (wb_read_burst_clocks a len buf inc s buf' s' Hl Hmax H).
Qed.


Lemma rd_transfer_errcount a len inc buf (s : TB) l s' :
  rd_transfer TESTB_tick fuel a len inc buf s = Ok l s' ->
  0 <= rd_errcount l.
Proof.
  intros H. open_run rd_transfer H. cbv zeta in H. msimpl_in H.
  apply bind_Ok_inv in H. destruct H as (l1 & s1 & Hp & H).
  apply rd_post_errcount in Hp. cbn [rd_errcount] in Hp. msimpl_in H.
  apply (while_Ok_inv (fun lx _ => 0 <= rd_errcount lx)) in H.
  - destruct H as (lx & Hx & Hcond). unfold rd_collect_cond in Hcond.
    destruct (rd_rdidx lx <? len);
      [injection Hcond as _ El | injection Hcond as El]; subst l;
      simpl; lia.
  - intros lx st lx1 lx2 st' Hx Hcond Hbd. unfold rd_collect_cond in Hcond.
    destruct (rd_rdidx lx <? len); [|discriminate].
    injection Hcond as _ El. subst lx1.
    apply bind_Ok_inv in Hbd. destruct Hbd as (u & st2 & _ & Hcap).
    apply capture_clocks in Hcap. destruct Hcap as (_ & He & _).
    cbn [rd_errcount] in He. lia.
  - exact Hp.
Qed.

(** X8.  A burst read of no words times out.  Asked for zero words, or
    for a negative number of them (down to -2^20, where [BOMBCOUNT*len]
    still is an [int]), a burst read that returns has set the fault flag:
    its budget of [BOMBCOUNT*len] clocks is used up before the first
    clock. *)
Theorem burst_read_of_nothing_bombs a len buf inc (s : TB) buf' s' :
  -1048576 <= len <= 0 ->
  wb_read_burst TESTB_tick fuel a len buf inc s = Ok buf' s' ->
  m_bomb s' = true.
Proof.
  intros Hl H. apply wb_read_burst_bomb in H.
  destruct H as (e & s0 & _ & Hc).
  destruct (BOMBCOUNT <=? e); [exact Hc|].
  destruct Hc as (l & s2 & Ht & Hb). rewrite Hb.
  apply rd_transfer_errcount in Ht.
  assert (HT : swrap32 (BOMBCOUNT * len) = BOMBCOUNT * len).
  { apply swrap32_small. unfold BOMBCOUNT. lia. }
  rewrite HT.
  assert (Hle : (BOMBCOUNT * len <=? rd_errcount l) = true).
  { apply Z.leb_le. unfold BOMBCOUNT. lia. }
  rewrite Hle, orb_true_r. reflexivity.
Qed.

End BurstReadBudget.

(** ** The buffer of the burst read *)

(** The word a clock delivers: the data lines, if acknowledge is up. *)
Definition acked_word (e : Event) : list Z :=
  match e with
  | EvTick _ o => if o_wb_ack o then [o_wb_data o] else []
  | _ => []
  end.

(** The words delivered during a history (oldest event first). *)
Definition acked_words (history : list Event) : list Z :=
  flat_map acked_word history.

Lemma acked_words_cons e new :
  acked_words (rev (e :: new)) = acked_words (rev new) ++ acked_word e.
Proof.
  unfold acked_words. simpl. rewrite flat_map_app. simpl.
  rewrite app_nil_r. reflexivity.
Qed.

Lemma store_behind (ws : list Z) v rest :
  firstn (List.length ws) (ws ++ rest) ++
  v :: skipn (S (List.length ws)) (ws ++ rest) = ws ++ v :: skipn 1 rest.
Proof.
  induction ws as [|w ws IH]; [reflexivity|].
  cbn [List.length firstn skipn app]. f_equal. exact IH.
Qed.

Lemma buf_store_next ws v buf :
  buf_store (Z.of_nat (List.length ws)) v
            (ws ++ skipn (List.length ws) buf) =
  (ws ++ [v]) ++ skipn (List.length (ws ++ [v])) buf.
Proof.
  unfold buf_store. rewrite Nat2Z.id, store_behind, skipn_skipn.
  rewrite <- app_assoc, length_app, Nat.add_comm. reflexivity.
Qed.

Section BurstReadFifo.

Context {Env : Type}.
Variable TESTB_tick : Env -> WbIn -> Env * WbOut.
Variable fuel : nat.
Notation TB := (@TB Env).

(** What the history since [s] has delivered is in the buffer, from
    index 0 on, and the next word goes behind it. *)
Definition filled (s : TB) (buf : list Z) (l : RdLocals) (st : TB) : Prop :=
  exists new,
    events st = new ++ events s /\
    rd_buf l = acked_words (rev new) ++
               skipn (List.length (acked_words (rev new))) buf /\
    rd_rdidx l = Z.of_nat (List.length (acked_words (rev new))).

Lemma filled_locals s buf l l' st :
  rd_buf l' = rd_buf l -> rd_rdidx l' = rd_rdidx l ->
  filled s buf l st -> filled s buf l' st.
Proof.
  intros Eb Ei (new & En & Hb & Hi). exists new.
  rewrite Eb, Ei. repeat split; assumption.
Qed.

(** A clock followed by the capture of what it delivered; [mid] stands
    for the assignments to the request signals in between. *)
Lemma tick_capture_filled s buf l (st : TB) (mid : @M Env unit) l' st' :
  (forall s0 u s1, mid s0 = Ok u s1 ->
     events s1 = events s0 /\ m_out s1 = m_out s0) ->
  filled s buf l st ->
  bind (tick TESTB_tick) (fun _ => bind mid (fun _ => capture l)) st
    = Ok l' st' ->
  filled s buf l' st' /\ rd_errcount l' = rd_errcount l /\
  rd_cnt l' = rd_cnt l.
Proof.
  intros Hmid (new & En & Hb & Hi) H.
  apply bind_Ok_inv in H. destruct H as (u & s1 & Ht & H).
  apply tick_Ok in Ht. destruct Ht as [Es1 _].
  apply bind_Ok_inv in H. destruct H as (u' & s2 & Hm & H).
  apply Hmid in Hm. destruct Hm as [Ee Eo].
  assert (Hev : events s2 = EvTick (m_in st) (m_out s2) :: new ++ events s).
  { rewrite Ee, Eo. rewrite Es1 at 1.
    rewrite TESTB_step_events, En, <- Es1. reflexivity. }
  unfold capture, ack in H.
  destruct (o_wb_ack (m_out s2)) eqn:Ea; inversion H; subst l' st';
    clear H; (split; [|split; reflexivity]);
    exists (EvTick (m_in st) (m_out s2) :: new);
    cbn [rd_buf rd_rdidx];
    (split; [exact Hev|]);
    rewrite acked_words_cons; cbn [acked_word]; rewrite Ea.
  - rewrite Hi, Hb. split; [apply buf_store_next|].
    rewrite length_app. simpl. lia.
  - rewrite app_nil_r. split; assumption.
Qed.

(** A clock with cycle low, or one after which acknowledge is found low,
    delivers nothing. *)
Lemma tick_nothing (st : TB) u st' :
  tick TESTB_tick st = Ok u st' ->
  cyc st = false \/ ack st' = false ->
  exists e, events st' = e :: events st /\ acked_word e = [].
Proof.
  intros H Hor. apply tick_Ok in H. destruct H as [Es Hack].
  exists (EvTick (m_in st) (m_out st')). split.
  - rewrite Es at 1. rewrite TESTB_step_events, <- Es. reflexivity.
  - simpl. destruct (o_wb_ack (m_out st')) eqn:Ea; [|reflexivity].
    exfalso. unfold ack, cyc in *. specialize (Hack Ea).
    rewrite Es, TESTB_step_in in Hack. destruct Hor; congruence.
Qed.

(** Nothing delivered since [s]. *)
Definition silent (s st : TB) : Prop :=
  exists new, events st = new ++ events s /\ acked_words (rev new) = [].

Lemma silent_one s st e :
  events st = e :: events s -> acked_word e = [] -> silent s st.
Proof.
  intros E He. exists [e]. split; [exact E|].
  unfold acked_words. simpl. rewrite He. reflexivity.
Qed.

Lemma silent_step s st st' e :
  silent s st -> events st' = e :: events st -> acked_word e = [] ->
  silent s st'.
Proof.
  intros (new & En & Hn) E He. exists (e :: new). split.
  - rewrite E, En. reflexivity.
  - rewrite acked_words_cons, Hn, He. reflexivity.
Qed.

Lemma wait_stall_silent (s : TB) e0 e s' :
  cyc s = false ->
  wait_stall TESTB_tick fuel e0 s = Ok e s' ->
  cyc s' = false /\ silent s s'.
Proof.
  intros Hc H. unfold wait_stall in H.
  apply (while_Ok_inv (fun _ st => cyc st = false /\ silent s st)) in H.
  - destruct H as (l0 & Hx & _). exact Hx.
  - intros l st l1 l2 st' (Hcs & Hs) _ Hb.
    apply bind_Ok_inv in Hb. destruct Hb as (u & st2 & Ht & Hr).
    inversion Hr; subst st2 l2. clear Hr.
    pose proof (tick_keeps_in TESTB_tick _ _ _ Ht) as Hin.
    apply tick_nothing in Ht; [|left; exact Hcs].
    destruct Ht as (ev & Ee & Ha). split.
    + unfold cyc, keeps in *. rewrite Hin. exact Hcs.
    + eapply silent_step; eassumption.
  - split; [exact Hc|]. exists []. split; reflexivity.
Qed.

Lemma filled_start (s : TB) buf st :
  silent s st -> filled s buf (mkRd 0 0 0 buf) st.
Proof.
  intros (new & En & Hn). exists new. rewrite Hn. simpl.
  repeat split. exact En.
Qed.

Lemma rd_transfer_filled s0 a len inc buf (s : TB) l s' :
  silent s0 s ->
  rd_transfer TESTB_tick fuel a len inc buf s = Ok l s' ->
  filled s0 buf l s'.
Proof.
  intros Hs H. open_run rd_transfer H. cbv zeta in H. msimpl_in H.
  set (st0 := mkTB _ _ _ _ _ _ _) in H.
  assert (H0 : filled s0 buf (mkRd 0 0 0 buf) st0).
  { apply filled_start. destruct Hs as (new & En & Hn).
    exists new. split; assumption. }
  assert (Hmid : forall f (x : TB) u y,
            upd_in f x = Ok u y -> events y = events x /\ m_out y = m_out x).
  { intros f x u y Hx. inversion Hx. split; reflexivity. }
  assert (Hbody : forall l0 (st : TB) l2 st',
            filled s0 buf l0 st ->
            rd_post_body TESTB_tick inc l0 st = Ok l2 st' ->
            filled s0 buf l2 st').
  { intros l0 st l2 st' Hf Hb. open_run rd_post_body Hb. msimpl_in Hb.
    eapply tick_capture_filled in Hb; [apply Hb | apply Hmid |].
    eapply filled_locals; [| |exact Hf]; reflexivity. }
  apply bind_Ok_inv in H. destruct H as (l1 & s1 & Hp & H).
  assert (H1 : filled s0 buf l1 s1).
  { unfold do_while in Hp.
    apply bind_Ok_inv in Hp. destruct Hp as (lb & sb & Hb & Hp).
    apply (Hbody _ _ _ _ H0) in Hb.
    apply (while_Ok_inv (fun lx st => filled s0 buf lx st)) in Hp.
    - destruct Hp as (lx & Hx & Hcond). unfold rd_post_cond in Hcond.
      destruct (rd_cnt lx <? len);
        [injection Hcond as _ El | injection Hcond as El]; subst l1;
        [eapply filled_locals; [| |exact Hx]; reflexivity | exact Hx].
    - intros lx st lx1 lx2 st' Hx Hcond Hbd. unfold rd_post_cond in Hcond.
      destruct (rd_cnt lx <? len); [|discriminate].
      injection Hcond as _ El. subst lx1.
      eapply Hbody; [|exact Hbd].
      eapply filled_locals; [| |exact Hx]; reflexivity.
    - exact Hb. }
  clear Hp. msimpl_in H.
  apply (while_Ok_inv (fun lx st => filled s0 buf lx st)) in H.
  - destruct H as (lx & Hx & Hcond). unfold rd_collect_cond in Hcond.
    destruct (rd_rdidx lx <? len);
      [injection Hcond as _ El | injection Hcond as El]; subst l;
      [eapply filled_locals; [| |exact Hx]; reflexivity | exact Hx].
  - intros lx st lx1 lx2 st' Hx Hcond Hbd. unfold rd_collect_cond in Hcond.
    destruct (rd_rdidx lx <? len); [|discriminate].
    injection Hcond as _ El. subst lx1.
    change (bind (tick TESTB_tick) (fun _ =>
              bind (ret tt) (fun _ =>
                capture (mkRd (rd_errcount lx + 1) (rd_cnt lx) (rd_rdidx lx)
                              (rd_buf lx)))) st = Ok lx2 st') in Hbd.
    eapply tick_capture_filled in Hbd; [apply Hbd | |].
    + intros x u y Hx'. inversion Hx'. split; reflexivity.
    + eapply filled_locals; [| |exact Hx]; reflexivity.
  - destruct H1 as (new & En & Hb & Hi). exists new.
    repeat split; assumption.
Qed.


End BurstReadFifo.

(** ** What the burst write presents *)

(** What a clock presents to the device as a write on the data port:
    address and data, if cycle, data strobe and write enable are up. *)
Definition write_presented (e : Event) : list (Z * Z) :=
  match e with
  | EvTick i _ =>
      if i_wb_cyc i && i_wb_data_stb i && i_wb_we i
      then [(i_wb_addr i, i_wb_data i)] else []
  | _ => []
  end.

(** The writes presented during a history (oldest event first), clock by
    clock. *)
Definition writes_presented (history : list Event) : list (Z * Z) :=
  flat_map write_presented history.

(** Word [k] of a burst write at byte address [a]: its word address and
    its data. *)
Definition posted_word (a inc : Z) (buf : list Z) (k : nat) : Z * Z :=
  (wrap32 (Z.shiftr a 2 + Z.of_nat k * inc), nth k buf 0).

(** Words [k], [k+1], ... each presented on as many clocks as [reps]
    says. *)
Fixpoint posted_run (a inc : Z) (buf : list Z) (k : nat) (reps : list nat)
    : list (Z * Z) :=
  match reps with
  | [] => []
  | r :: rest =>
      repeat (posted_word a inc buf k) r ++ posted_run a inc buf (S k) rest
  end.

Lemma writes_presented_app h1 h2 :
  writes_presented (h1 ++ h2) = writes_presented h1 ++ writes_presented h2.
Proof. apply flat_map_app. Qed.

Lemma wrap32_add_l x y : wrap32 (wrap32 x + y) = wrap32 (x + y).
Proof. unfold wrap32. apply Z.add_mod_idemp_l. lia. Qed.

Lemma repeat_snoc {A} (x : A) n : repeat x n ++ [x] = repeat x (S n).
Proof. induction n as [|n IH]; simpl; [reflexivity | f_equal; exact IH]. Qed.

Section BurstWritePosting.

Context {Env : Type}.
Variable TESTB_tick : Env -> WbIn -> Env * WbOut.
Variable fuel : nat.
Notation TB := (@TB Env).

(** The request signals of a burst write in flight. *)
Definition posting (A d : Z) (i : WbIn) : Prop :=
  i_wb_cyc i = true /\ i_wb_data_stb i = true /\ i_wb_we i = true /\
  i_wb_addr i = A /\ i_wb_data i = d.

Lemma posting_presented A d i o :
  posting A d i -> write_presented (EvTick i o) = [(A, d)].
Proof.
  intros (H1 & H2 & H3 & H4 & H5). simpl. rewrite H1, H2, H3, H4, H5.
  reflexivity.
Qed.

Lemma tick_posting A d (st : TB) u st' :
  posting A d (m_in st) -> tick TESTB_tick st = Ok u st' ->
  m_in st' = m_in st /\
  exists e, events st' = e :: events st /\ write_presented e = [(A, d)].
Proof.
  intros Hp H. apply tick_Ok in H. destruct H as [Es _].
  split; [rewrite Es; apply TESTB_step_in|].
  exists (EvTick (m_in st) (m_out st')). split.
  - rewrite Es at 1. rewrite TESTB_step_events, <- Es. reflexivity.
  - apply posting_presented. exact Hp.
Qed.

(** One word of the burst: presented on every clock of the wait on stall
    and on the clock that follows, after which the address moves on. *)
Lemma wr_post_body_presented buf inc k nacks A (s : TB) d0 n s' :
  posting A d0 (m_in s) ->
  wr_post_body TESTB_tick fuel buf inc (Z.of_nat k) nacks s = Ok n s' ->
  exists new r,
    events s' = new ++ events s /\
    (1 <= r <= Z.to_nat BOMBCOUNT + 1)%nat /\
    writes_presented (rev new) = repeat (A, nth k buf 0) r /\
    posting (wrap32 (A + inc)) (nth k buf 0) (m_in s').
Proof.
  intros (H1 & H2 & H3 & H4 & _) H. open_run wr_post_body H.
  rewrite Nat2Z.id in H. msimpl_in H.
  set (d := nth k buf 0) in *.
  set (s0 := mkTB _ _ _ _ _ _ _) in H.
  assert (Hp0 : posting A d (m_in s0)) by (repeat split; assumption).
  apply bind_Ok_inv in H. destruct H as (l1 & s1 & Hw & H).
  apply (while_Ok_inv (fun (l : Z * Z) st =>
           m_in st = m_in s0 /\ 0 <= fst l <= BOMBCOUNT /\
           exists new, events st = new ++ events s /\
             writes_presented (rev new) = repeat (A, d) (Z.to_nat (fst l))))
    in Hw.
  - destruct Hw as (l0 & (Hin & Hl & new & En & Hn) & _).
    apply bind_Ok_inv in H. destruct H as (u & s2 & Ht & H).
    apply (tick_posting A d) in Ht; [|rewrite Hin; exact Hp0].
    destruct Ht as (Hin2 & e & Ee & He).
    unfold count_ack in H. msimpl_in H. inversion H; subst n s'. clear H.
    exists (e :: new), (S (Z.to_nat (fst l0))).
    cbn [events m_in]. split; [rewrite Ee, En; reflexivity|].
    split; [unfold BOMBCOUNT in *; lia|]. split.
    + cbn [rev]. rewrite writes_presented_app, Hn.
      unfold writes_presented at 1. cbn [flat_map]. rewrite He, app_nil_r.
      apply repeat_snoc.
    + rewrite Hin2, Hin. unfold posting. cbn.
      repeat split; try assumption. rewrite H4. reflexivity.
  - intros l st lx l2 st' (Hin & Hl & new & En & Hn) Hcond Hb.
    injection Hcond as Hlt El. apply andb_true_iff in Hlt.
    destruct Hlt as [Hlt _]. apply Z.ltb_lt in Hlt. subst lx.
    cbn [fst snd] in Hb.
    apply bind_Ok_inv in Hb. destruct Hb as (u & st2 & Ht & Hb).
    apply (tick_posting A d) in Ht; [|rewrite Hin; exact Hp0].
    destruct Ht as (Hin2 & e & Ee & He).
    unfold count_ack in Hb. msimpl_in Hb. inversion Hb; subst l2 st'.
    clear Hb. cbn [fst].
    split; [congruence|]. split; [lia|].
    exists (e :: new). split; [rewrite Ee, En; reflexivity|].
    cbn [rev]. rewrite writes_presented_app, Hn.
    unfold writes_presented at 1. cbn [flat_map]. rewrite He, app_nil_r.
    rewrite repeat_snoc. f_equal. lia.
  - split; [reflexivity|]. split; [unfold BOMBCOUNT; simpl; lia|].
    exists []. split; reflexivity.
Qed.

Lemma for_posted a inc buf :
  forall n k nacks (s : TB) d0 n' s',
    posting (wrap32 (Z.shiftr a 2 + Z.of_nat k * inc)) d0 (m_in s) ->
    for_ n (wr_post_body TESTB_tick fuel buf inc) (Z.of_nat k) nacks s
      = Ok n' s' ->
    exists new reps,
      events s' = new ++ events s /\
      List.length reps = n /\
      Forall (fun r => (1 <= r <= Z.to_nat BOMBCOUNT + 1)%nat) reps /\
      writes_presented (rev new) = posted_run a inc buf k reps /\
      posting (wrap32 (Z.shiftr a 2 + Z.of_nat (k + n) * inc))
              (match n with O => d0 | S m => nth (k + m) buf 0 end)
              (m_in s').
Proof.
  induction n as [|n IH]; intros k nacks s d0 n' s' Hp H.
  - inversion H; subst. exists [], []. repeat split; try constructor;
      try apply Hp.
    rewrite Nat.add_0_r. apply Hp.
  - cbn [for_] in H. apply bind_Ok_inv in H.
    destruct H as (n1 & s1 & Hb & H).
    eapply wr_post_body_presented in Hb; [|exact Hp].
    destruct Hb as (new1 & r & E1 & Hr & Hw1 & Hp1).
    rewrite wrap32_add_l in Hp1.
    replace (Z.of_nat k + 1) with (Z.of_nat (S k)) in H by lia.
    eapply IH in H.
    2:{ replace (Z.shiftr a 2 + Z.of_nat (S k) * inc)
          with (Z.shiftr a 2 + Z.of_nat k * inc + inc) by lia.
        exact Hp1. }
    destruct H as (new2 & reps & E2 & Hlen & Hf & Hw2 & Ha).
    exists (new2 ++ new1), (r :: reps).
    split; [rewrite E2, E1, app_assoc; reflexivity|].
    split; [simpl; lia|]. split; [constructor; assumption|]. split.
    + rewrite rev_app_distr, writes_presented_app, Hw1, Hw2. reflexivity.
    + replace (k + S n)%nat with (S k + n)%nat by lia.
      destruct n as [|m].
      * replace (k + 0)%nat with k by lia.
        replace (S k + 0)%nat with (S k) in * by lia. exact Ha.
      * replace (k + S m)%nat with (S k + m)%nat by lia. exact Ha.
Qed.

(** Cycle is low, and stays low on every clock that is added. *)
Definition off_bus (s s' : TB) : Prop :=
  i_wb_cyc (m_in s) = false ->
  extends off_cycle s s' /\ i_wb_cyc (m_in s') = false.

Lemma off_bus_refl s : off_bus s s.
Proof. intros H. split; [apply extends_refl | exact H]. Qed.

Lemma off_bus_trans s1 s2 s3 : off_bus s1 s2 -> off_bus s2 s3 -> off_bus s1 s3.
Proof.
  intros H1 H2 Hi. destruct (H1 Hi) as [E1 I2]. destruct (H2 I2) as [E2 I3].
  split; [eapply extends_trans; eassumption | exact I3].
Qed.

Lemma off_bus_tick : returns off_bus (tick TESTB_tick).
Proof.
  intros s u s' H Hi. apply tick_Ok in H. destruct H as [Es _]. subst s'.
  split.
  - eapply extends_one; [apply TESTB_step_events | exact Hi].
  - rewrite TESTB_step_in. exact Hi.
Qed.

Lemma off_bus_tail :
  returns off_bus
    (bind (tick TESTB_tick) (fun _ =>
       bind (gets ack) (fun acked => bind (assert (negb acked)) (fun _ =>
         drain_stall TESTB_tick fuel)))).
Proof.
  unfold drain_stall.
  returns_steps off_bus_refl off_bus_trans ltac:(apply off_bus_tick).
Qed.

Lemma off_cycle_presents_nothing e : off_cycle e -> write_presented e = [].
Proof.
  destruct e as [i o| | |]; simpl; intros H; try reflexivity.
  rewrite H. reflexivity.
Qed.

Lemma writes_presented_quiet new :
  Forall off_cycle new -> writes_presented (rev new) = [].
Proof.
  intros H. unfold writes_presented. apply Forall_rev in H.
  induction H as [|e l He _ IH]; simpl; [reflexivity|].
  rewrite (off_cycle_presents_nothing e He), IH. reflexivity.
Qed.

(** The wait for the missing acknowledgements presents, on each of its
    clocks, the write it finds on the request signals. *)
Lemma wr_drain_presented ln nacks A d (s1 : TB) l s2 :
  posting A d (m_in s1) ->
  wr_drain TESTB_tick fuel ln nacks s1 = Ok l s2 ->
  exists new,
    events s2 = new ++ events s1 /\
    writes_presented (rev new) = repeat (A, d) (List.length new).
Proof.
  intros (H1 & H2 & H3 & H4 & H5) H. open_run wr_drain H. msimpl_in H.
  set (s0 := mkTB _ _ _ _ _ _ _) in H.
  assert (Hp0 : posting A d (m_in s0)) by (repeat split; assumption).
  apply (while_Ok_inv (fun (_ : Z * Z) st =>
           m_in st = m_in s0 /\
           exists new, events st = new ++ events s1 /\
             writes_presented (rev new) = repeat (A, d) (List.length new)))
    in H.
  - destruct H as (l0 & (_ & Hx) & _). exact Hx.
  - intros l0 st lx l2 st' (Hin & new & En & Hn) _ Hb.
    apply bind_Ok_inv in Hb. destruct Hb as (u & st2 & Ht & Hb).
    apply (tick_posting A d) in Ht; [|rewrite Hin; exact Hp0].
    destruct Ht as (Hin2 & e & Ee & He).
    msimpl_in Hb. inversion Hb; subst st2. clear Hb.
    split; [congruence|].
    exists (e :: new). split; [rewrite Ee, En; reflexivity|].
    cbn [rev List.length]. rewrite writes_presented_app, Hn.
    unfold writes_presented at 1. cbn [flat_map]. rewrite He, app_nil_r.
    apply repeat_snoc.
  - split; [reflexivity|]. exists []. split; reflexivity.
Qed.

(** X10.  What a burst write presents.  A burst write of [ln >= 1] words
    that returns has presented its words in order, word [k] with the data
    [buf[k]] at the word address [(a>>2) + k*inc], each on one clock and
    on one more for every clock the device stalled, and after them, on
    every clock of its wait for acknowledgements, the last word again at
    the address behind the burst; and nothing else. *)
Theorem burst_write_presents a ln buf inc (s : TB) u s' :
  0 <= a < 4294967296 -> 1 <= ln ->
  wb_write_burst TESTB_tick fuel a ln buf inc s = Ok u s' ->
  exists new reps m,
    events s' = new ++ events s /\
    List.length reps = Z.to_nat ln /\
    Forall (fun r => (1 <= r <= Z.to_nat BOMBCOUNT + 1)%nat) reps /\
    writes_presented (rev new) =
      posted_run a inc buf 0 reps ++
      repeat (wrap32 (Z.shiftr a 2 + ln * inc),
              nth (Z.to_nat ln - 1) buf 0) m.
Proof.
  intros Ha Hl H. open_run wb_write_burst H.
  apply bind_Ok_inv in H. destruct H as (n & s1 & Hp & H).
  apply bind_Ok_inv in H. destruct H as (l & s2 & Hd & H).
  open_run wr_post Hp. msimpl_in Hp.
  set (s0 := mkTB _ _ _ _ _ _ _) in Hp.
  assert (Hw : wrap32 (Z.shiftr a 2 + Z.of_nat 0 * inc) = Z.shiftr a 2).
  { rewrite Z.add_0_r. unfold wrap32. apply Z.mod_small.
    rewrite Z.shiftr_div_pow2 by lia. change (2 ^ 2) with 4.
    split; [apply Z.div_pos; lia|].
    apply Z.div_lt_upper_bound; lia. }
  change 0 with (Z.of_nat 0) in Hp at 1.
  eapply (for_posted a inc buf) in Hp.
  2:{ rewrite Hw. repeat split. }
  destruct Hp as (new1 & reps & E1 & Hlen & Hf & Hw1 & Hp1).
  subst s0. cbn [events] in E1.
  destruct (Z.to_nat ln) as [|k] eqn:Ek; [lia|].
  replace (Z.of_nat (0 + S k)) with ln in Hp1 by lia.
  cbn [Nat.add] in Hp1.
  eapply wr_drain_presented in Hd; [|exact Hp1].
  destruct Hd as (new2 & E2 & Hw2).
  msimpl_in H.
  assert (Hx : exists sx,
    (events sx = events s2 \/ exists e, events sx = e :: events s2 /\
                                        off_cycle e) /\
    i_wb_cyc (m_in sx) = false /\
    bind (tick TESTB_tick) (fun _ =>
      bind (gets ack) (fun acked => bind (assert (negb acked)) (fun _ =>
        drain_stall TESTB_tick fuel))) sx = Ok u s').
  { destruct (BOMBCOUNT <=? fst l); msimpl_in H.
    - refine (ex_intro _ _ (conj _ (conj _ H))); [|reflexivity].
      right. eexists. split; [reflexivity | exact I].
    - refine (ex_intro _ _ (conj _ (conj _ H))); [|reflexivity].
      left. reflexivity. }
  clear H. destruct Hx as (sx & Hex & Hc & H).
  apply off_bus_tail in H. destruct (H Hc) as [(new3 & E3 & Hq) _].
  assert (Hmid : exists newx, events sx = newx ++ events s2 /\
                              Forall off_cycle newx).
  { destruct Hex as [E|(e & E & He)].
    - exists []. split; [exact E | constructor].
    - exists [e]. split; [exact E | repeat constructor; exact He]. }
  destruct Hmid as (newx & Ex & Hqx).
  exists (new3 ++ newx ++ new2 ++ new1 ++
            [EvPrintf "WB-WRITEM(%08x, %d, ...)" [a; ln]]),
         reps, (List.length new2).
  split; [rewrite E3, Ex, E2, E1, <- !app_assoc; reflexivity|].
  split; [exact Hlen|]. split; [exact Hf|].
  rewrite !rev_app_distr, !writes_presented_app, Hw1, Hw2.
  cbn [rev app]. unfold writes_presented at 1. cbn [flat_map write_presented app].
  rewrite (writes_presented_quiet _ Hq), (writes_presented_quiet _ Hqx).
  rewrite !app_nil_r. f_equal. f_equal. f_equal. f_equal. lia.
Qed.


(** A burst write of no words posts nothing and waits for nothing. *)
Lemma wr_post_nothing a buf inc (s : TB) n s1 :
  wr_post TESTB_tick fuel a 0 buf inc s = Ok n s1 ->
  n = 0 /\ m_bomb s1 = m_bomb s /\
  events s1 = EvPrintf "WB-WRITEM(%08x, %d, ...)" [a; 0] :: events s.
Proof.
  intros H. open_run wr_post H. cbn [Z.to_nat for_] in H. msimpl_in H.
  inversion H; subst n s1. repeat split.
Qed.

Lemma wr_drain_nothing (s1 : TB) l s2 :
  wr_drain TESTB_tick fuel 0 0 s1 = Ok l s2 ->
  l = (0, 0) /\ m_bomb s2 = m_bomb s1 /\ events s2 = events s1.
Proof.
  intros H. open_run wr_drain H. msimpl_in H.
  destruct fuel; cbn [while_ snd] in H;
    change (0 <? 0) with false in H; cbv iota in H;
    inversion H; subst; repeat split.
Qed.

Lemma wr_release_in_time {A} (k : M A) (s2 : TB) r s' :
  bind (set_cyc false) (fun _ => bind (set_data_stb false) (fun _ =>
    bind (set_ctrl_stb false) (fun _ => bind (set_ack_expected false) (fun _ =>
      bind (if BOMBCOUNT <=? 0
            then bind (printf
                         "WB/PW-BOMB: NO RESPONSE AFTER %d CLOCKS (LINE=%d)"
                         [0; 371])
                      (fun _ => set_bomb true)
            else ret tt) (fun _ => k))))) s2 = Ok r s' ->
  exists s0,
    m_bomb s0 = m_bomb s2 /\ events s0 = events s2 /\
    i_wb_cyc (m_in s0) = false /\ k s0 = Ok r s'.
Proof.
  intros H. msimpl_in H. change (BOMBCOUNT <=? 0) with false in H.
  msimpl_in H.
  refine (ex_intro _ _ (conj _ (conj _ (conj _ H)))); reflexivity.
Qed.

(** X11.  A burst write of no words.  Asked for zero words, a burst write
    that returns has left the fault flag as it was and has at no clock
    raised cycle: where the burst read of no words times out, the burst
    write of no words does nothing on the bus. *)
Theorem burst_write_of_nothing a buf inc (s : TB) u s' :
  wb_write_burst TESTB_tick fuel a 0 buf inc s = Ok u s' ->
  m_bomb s' = m_bomb s /\
  exists new, events s' = new ++ events s /\ Forall off_cycle new.
Proof.
  intros H. open_run wb_write_burst H.
  apply bind_Ok_inv in H. destruct H as (n & s1 & Hp & H).
  apply wr_post_nothing in Hp. destruct Hp as (En & Hb1 & He1). subst n.
  apply bind_Ok_inv in H. destruct H as (l & s2 & Hd & H).
  apply wr_drain_nothing in Hd. destruct Hd as (El & Hb2 & He2). subst l.
  cbn [fst] in H. apply wr_release_in_time in H.
  destruct H as (s0 & Hb0 & He0 & Hc0 & H). split.
  - apply bind_Ok_inv in H. destruct H as (u1 & s3 & Ht & H).
    apply tick_keeps_bomb in Ht. apply tail_keeps_bomb in H.
    unfold keeps in *. congruence.
  - apply off_bus_tail in H. destruct (H Hc0) as [(new & En & Hn) _].
    exists (new ++ [EvPrintf "WB-WRITEM(%08x, %d, ...)" [a; 0]]).
    split; [rewrite En, He0, He2, He1, <- app_assoc; reflexivity|].
    apply Forall_app. split; [exact Hn | repeat constructor].
Qed.

(** The wait on stall of a single word write: every clock of it presents
    the word. *)
Lemma wait_stall_verbose_presented A d (s0 : TB) e s1 :
  posting A d (m_in s0) ->
  wait_stall_verbose TESTB_tick fuel 0 s0 = Ok e s1 ->
  m_in s1 = m_in s0 /\
  exists new r,
    events s1 = new ++ events s0 /\ (r <= Z.to_nat BOMBCOUNT)%nat /\
    writes_presented (rev new) = repeat (A, d) r.
Proof.
  intros Hp0 H. unfold wait_stall_verbose in H.
  apply (while_Ok_inv (fun e0 st =>
           m_in st = m_in s0 /\ 0 <= e0 <= BOMBCOUNT /\
           exists new, events st = new ++ events s0 /\
             writes_presented (rev new) = repeat (A, d) (Z.to_nat e0)))
    in H.
  - destruct H as (e0 & (Hin & He & new & En & Hn) & _).
    split; [exact Hin|]. exists new, (Z.to_nat e0).
    split; [exact En|]. split; [lia | exact Hn].
  - intros e0 st e1 e2 st' (Hin & He & new & En & Hn) Hc Hb.
    injection Hc as Hc Ee. subst e1.
    apply andb_true_iff in Hc. destruct Hc as [Hlt _]. apply Z.ltb_lt in Hlt.
    msimpl_in Hb. set (st0 := mkTB _ _ _ _ _ _ _) in Hb.
    apply bind_Ok_inv in Hb. destruct Hb as (u & st1 & Ht & Hb).
    inversion Hb; subst e2 st1. clear Hb.
    apply (tick_posting A d) in Ht; [|cbn [m_in st0]; rewrite Hin; exact Hp0].
    destruct Ht as (Hin2 & ev & Ee & Hev). cbn [m_in events st0] in Hin2, Ee.
    split; [congruence|]. split; [lia|].
    exists (ev :: EvPrintf "Stalled, so waiting, errcount=%d" [e0 + 1] :: new).
    split; [rewrite Ee, En; reflexivity|].
    cbn [rev]. rewrite !writes_presented_app, Hn.
    unfold writes_presented. cbn [flat_map write_presented app].
    rewrite Hev, !app_nil_r.
    replace (Z.to_nat (e0 + 1)) with (S (Z.to_nat e0)) by lia.
    apply repeat_snoc.
  - split; [reflexivity|]. split; [unfold BOMBCOUNT; lia|].
    exists []. split; reflexivity.
Qed.

Lemma strobe_low_presents_nothing new :
  Forall (strobe_low i_wb_data_stb) new -> writes_presented (rev new) = [].
Proof.
  intros H. unfold writes_presented. apply Forall_rev in H.
  induction H as [|e l He _ IH]; simpl; [reflexivity|].
  rewrite IH, app_nil_r. destruct e as [i o| | |]; try reflexivity.
  simpl in *. rewrite He, andb_false_r. reflexivity.
Qed.

(** X12.  What a single word write presents.  A [wb_write(a, v)] that
    returns has presented to the device (cycle, data strobe and write
    enable high) the data [v] at the word address [a>>2], on one clock
    and on one more for every clock it waited on stall, at most
    [BOMBCOUNT+1] in all, and nothing else. *)
Theorem single_write_presents a v (s : TB) u s' :
  wb_write TESTB_tick fuel a v s = Ok u s' ->
  exists new r,
    events s' = new ++ events s /\
    (1 <= r <= Z.to_nat BOMBCOUNT + 1)%nat /\
    writes_presented (rev new) = repeat (Z.shiftr a 2, v) r.
Proof.
  intros H. open_run wb_write H.
  apply bind_Ok_inv in H. destruct H as (ec & s5 & Hh & H).
  open_run write_handshake Hh. msimpl_in Hh.
  set (s0 := mkTB _ _ _ _ _ _ _) in Hh.
  assert (Hp0 : posting (Z.shiftr a 2) v (m_in s0)) by (repeat split).
  apply bind_Ok_inv in Hh. destruct Hh as (e & s1 & Hw & Hh).
  assert (Hs1 : m_in s1 = m_in s0 /\
          exists new1 r1, events s1 = new1 ++ events s0 /\
            (r1 <= Z.to_nat BOMBCOUNT)%nat /\
            writes_presented (rev new1) = repeat (Z.shiftr a 2, v) r1).
  { destruct (stall s0).
    - eapply wait_stall_verbose_presented; eassumption.
    - inversion Hw; subst e s1. split; [reflexivity|].
      exists [], 0%nat. repeat split. lia. }
  clear Hw. destruct Hs1 as (Hin1 & new1 & r1 & E1 & Hr1 & Hw1).
  apply bind_Ok_inv in Hh. destruct Hh as (u1 & s2 & Ht & Hh).
  apply (tick_posting (Z.shiftr a 2) v) in Ht; [|rewrite Hin1; exact Hp0].
  destruct Ht as (Hin2 & ev & E2 & Hev).
  msimpl_in Hh. set (s3 := mkTB _ _ _ _ _ _ _) in Hh.
  assert (Hc : state_of
            (bind (wait_ack TESTB_tick fuel e)
               (fun e1 => bind (tick TESTB_tick) (fun _ => ret e1)) s3)
          = Some s5) by (rewrite Hh; reflexivity).
  apply write_close_unstrobed in Hc. destruct (Hc eq_refl) as [(new3 & E3 & H3) I5].
  apply bind_Ok_inv in H. destruct H as (u2 & s6 & Hr & H).
  assert (E6 : s6 = s').
  { unfold bind, gets, assert in H. destruct (negb (stall s6));
      inversion H; reflexivity. }
  subst s6. clear H.
  assert (Hrel : state_of (write_release TESTB_tick fuel 313 ec s5) = Some s')
    by (rewrite Hr; reflexivity).
  apply write_release_unstrobed in Hrel.
  destruct (Hrel I5) as [(new4 & E4 & H4) _].
  exists (new4 ++ new3 ++ ev :: new1 ++
          [EvPrintf "WB-WRITEM(%08x) <= %08x" [a; v]]), (S r1).
  split.
  - rewrite E4, E3. cbn [events s3]. rewrite E2, E1. cbn [events s0].
    rewrite <- !app_assoc. cbn [app]. rewrite <- app_assoc. reflexivity.
  - split; [lia|].
    rewrite !rev_app_distr. cbn [rev]. rewrite !rev_app_distr.
    rewrite !writes_presented_app.
    rewrite (strobe_low_presents_nothing _ H4),
            (strobe_low_presents_nothing _ H3), Hw1.
    cbn [rev app]. unfold writes_presented at 1 2.
    cbn [flat_map write_presented app]. rewrite Hev.
    cbn [app]. rewrite !app_nil_r. apply repeat_snoc.
Qed.

End BurstWritePosting.

(** ** The page program on the configuration port *)

Section SequencerFrames.

Context {Env : Type}.
Variable TESTB_tick : Env -> WbIn -> Env * WbOut.
Variable fuel : nat.
Variable cfg_write_port : Z -> @M Env unit.
Variable cfg_read_port : @M Env Z.
Notation TB := (@TB Env).

(** The port makes no call of its own on the sequencer: what it leaves
    in the history are clocks and lines. *)
Hypothesis cfg_write_port_quiet :
  forall v, returns (extends port_event) (cfg_write_port v).
Hypothesis cfg_read_port_quiet :
  returns (extends port_event) cfg_read_port.

(** X13.  The frame of [flpage_program].  In both benches a page program
    that returns has made on the configuration port, in order: a wait
    for the device (status opcode, polls while busy, de-select); the
    de-select, the write enable opcode, the de-select; the page program
    opcode, the three bytes of the address, most significant first, and
    the low bytes of [buf[0]] ... [buf[ln-1]] in order; the de-select; and
    a second wait.  The dual I/O bench sends address and data in user
    mode words, the single SPI bench as they are. *)
Theorem flpage_program_frame addr ln buf :
  (forall (s : TB) u s',
     Spixpress.flpage_program TESTB_tick fuel cfg_write_port cfg_read_port
       addr ln buf s = Ok u s' ->
     exists rs1 rs2,
       view cfg_view
         (wait_frame 0 rs1 ++ page_frame 0 addr 0 ln buf ++ wait_frame 0 rs2)
         s s' /\
       polled rs1 /\ polled rs2) /\
  (forall (s : TB) u s',
     Dualflexpress.flpage_program TESTB_tick fuel cfg_write_port cfg_read_port
       addr ln buf s = Ok u s' ->
     exists rs1 rs2,
       view cfg_view
         (wait_frame Dualflexpress.CFG_USERMODE rs1 ++
          page_frame Dualflexpress.CFG_USERMODE addr 0 ln buf ++
          wait_frame Dualflexpress.CFG_USERMODE rs2)
         s s' /\
       polled rs1 /\ polled rs2).
Proof.
  split; intros s u s' H.
  - exact (spi_flpage_program_trace TESTB_tick fuel _ _ cfg_write_port_quiet
             cfg_read_port_quiet addr ln buf s u s' H).
  - exact (dual_flpage_program_trace TESTB_tick fuel _ _ cfg_write_port_quiet
             cfg_read_port_quiet addr ln buf s u s' H).
Qed.

Lemma payload_data mode addr buf calls :
  flat_map (skipn 3)
    (map (fun c => page_payload mode (fst c) (Z.to_nat (fst c - addr))
                                (snd c) buf) calls) =
  flat_map (fun c => page_data mode (Z.to_nat (fst c - addr)) (snd c) buf)
           calls.
Proof.
  induction calls as [|c calls IH]; cbn [map flat_map];
    [reflexivity|].
  rewrite IH. reflexivity.
Qed.

(** X14.  [flprogram] programs the buffer.  For a request of [ln >= 1]
    bytes at [addr >= 0] that ends at most at 2^31 - 256, a [flprogram]
    that returns has sent, in either bench, one page program frame for
    each of the chunks that tile the request page by page; the frame of a
    chunk carries the three bytes of the chunk's own start address and
    then the low bytes of the buffer from index [start - addr] on, as many
    as the chunk is long.  Taken together the data of the frames are the
    low bytes of [buf[0]] ... [buf[ln-1]], each once and in order. *)
Theorem flprogram_programs_buffer addr ln buf :
  0 <= addr -> 1 <= ln -> addr + ln <= 2147483392 ->
  (forall (s : TB) u s',
     Spixpress.flprogram TESTB_tick fuel cfg_write_port cfg_read_port
       addr ln buf s = Ok u s' ->
     exists calls t,
       view cfg_view t s s' /\ tiles addr calls (addr + ln) /\
       pp_payloads t =
         map (fun c => page_payload 0 (fst c) (Z.to_nat (fst c - addr))
                                    (snd c) buf) calls /\
       flat_map (skipn 3) (pp_payloads t) = page_data 0 0 ln buf) /\
  (forall (s : TB) u s',
     Dualflexpress.flprogram TESTB_tick fuel cfg_write_port cfg_read_port
       addr ln buf s = Ok u s' ->
     exists calls t,
       view cfg_view t s s' /\ tiles addr calls (addr + ln) /\
       pp_payloads t =
         map (fun c => page_payload Dualflexpress.CFG_USERMODE (fst c)
                         (Z.to_nat (fst c - addr)) (snd c) buf) calls /\
       flat_map (skipn 3) (pp_payloads t) =
         page_data Dualflexpress.CFG_USERMODE 0 ln buf).
Proof.
  intros Ha Hl Hb.
  assert (Hall : forall mode calls t,
    tiles addr calls (addr + ln) ->
    pp_closed t
      (map (fun c => page_payload mode (fst c) (Z.to_nat (fst c - addr))
                                  (snd c) buf) calls) ->
    pp_payloads t =
      map (fun c => page_payload mode (fst c) (Z.to_nat (fst c - addr))
                                 (snd c) buf) calls /\
    flat_map (skipn 3) (pp_payloads t) = page_data mode 0 ln buf).
  { intros mode calls t Ht Hc. unfold pp_payloads. rewrite Hc. cbn [fst].
    split; [reflexivity|].
    rewrite payload_data.
    rewrite (tiles_data mode addr buf calls addr (addr + ln) Ht) by lia.
    unfold page_data. rewrite Z.sub_diag.
    replace (addr + ln - addr) with ln by lia. reflexivity. }
  split; intros s u s' H.
  - destruct (spi_flprogram_payloads TESTB_tick fuel _ _ cfg_write_port_quiet
                cfg_read_port_quiet addr ln buf s u s' Ha Hl Hb H)
      as (calls & t & Hv & Ht & _ & Hc).
    exists calls, t. split; [exact Hv|]. split; [exact Ht|].
    apply Hall; assumption.
  - destruct (dual_flprogram_payloads TESTB_tick fuel _ _ cfg_write_port_quiet
                cfg_read_port_quiet addr ln buf s u s' Ha Hl Hb H)
      as (calls & t & Hv & Ht & _ & Hc).
    exists calls, t. split; [exact Hv|]. split; [exact Ht|].
    apply Hall; assumption.
Qed.

(** X15.  [flprogram] of nothing.  Asked to program no byte, or a
    negative number of bytes, [flprogram] never calls [flpage_program]:
    the single SPI bench only waits for the device, the dual I/O bench
    takes the flash off line, waits and places it on line again. *)
Theorem flprogram_of_nothing addr ln buf :
  ln <= 0 -> -2147483648 <= addr + ln -> addr <= 2147483647 ->
  (forall (s : TB) u s',
     Spixpress.flprogram TESTB_tick fuel cfg_write_port cfg_read_port
       addr ln buf s = Ok u s' ->
     view page_view [] s s' /\
     exists rs, view cfg_view (wait_frame 0 rs) s s' /\ polled rs) /\
  (forall (s : TB) u s',
     Dualflexpress.flprogram TESTB_tick fuel cfg_write_port cfg_read_port
       addr ln buf s = Ok u s' ->
     view page_view [] s s' /\
     exists rs,
       view cfg_view
         (take_offline_trace ++ wait_frame Dualflexpress.CFG_USERMODE rs ++
          place_online_trace) s s' /\
       polled rs).
Proof.
  intros Hl Hlo Hhi. split; intros s u s' H.
  - exact (spi_flprogram_nothing TESTB_tick fuel _ _ cfg_write_port_quiet
             cfg_read_port_quiet addr ln buf s u s' Hl Hlo Hhi H).
  - exact (dual_flprogram_nothing TESTB_tick fuel _ _ cfg_write_port_quiet
             cfg_read_port_quiet addr ln buf s u s' Hl Hlo Hhi H).
Qed.

(** A loop whose condition holds after every turn uses up any fuel. *)
Lemma while_spins {L} (I : L -> Prop) (cond : L -> TB -> bool * L)
    (body : L -> @M Env L) :
  (forall l s, I l -> fst (cond l s) = true) ->
  (forall l, total (body l) I) ->
  forall n l s, I l -> while_ n cond body l s = OutOfFuel.
Proof.
  intros Hc Hb. induction n as [|n IH]; intros l s Hl; cbn [while_];
    pose proof (Hc l s Hl) as E; destruct (cond l s) as [c l1];
    cbn [fst] in E; subst c.
  - reflexivity.
  - destruct (Hb l1 s) as (l2 & s2 & Eb & Hl2). rewrite Eb.
    apply IH. exact Hl2.
Qed.

Lemma bind_total_spins {A B} (m : @M Env A) (k : A -> @M Env B) Q s :
  total m Q -> (forall a s1, Q a -> k a s1 = OutOfFuel) ->
  bind m k s = OutOfFuel.
Proof. 
  intros Hm Hk. unfold bind. destruct (Hm s) as (a & s1 & E & Ha).
  rewrite E. apply Hk. exact Ha.
Qed.

(** X16.  [flwait] has no time-out.  In both benches a [flwait] that
    returns has written the status opcode, then polled with a dummy write
    and a read for as long as the busy bit was read set, once more for the
    first read with the bit clear, and then de-selected.  On a port that
    returns from every access and reads the busy bit set every time,
    [flwait] never returns, however many turns it is given. *)
Theorem flwait_polls_until_ready :
  (forall (s : TB) u s',
     Spixpress.flwait fuel cfg_write_port cfg_read_port s = Ok u s' ->
     exists rs, view cfg_view (wait_frame 0 rs) s s' /\ polled rs) /\
  (forall (s : TB) u s',
     Dualflexpress.flwait fuel cfg_write_port cfg_read_port s = Ok u s' ->
     exists rs,
       view cfg_view (wait_frame Dualflexpress.CFG_USERMODE rs) s s' /\
       polled rs) /\
  ((forall v, total (cfg_write_port v) (fun _ => True)) ->
   total cfg_read_port busy ->
   forall s : TB,
     Spixpress.flwait fuel cfg_write_port cfg_read_port s = OutOfFuel /\
     Dualflexpress.flwait fuel cfg_write_port cfg_read_port s = OutOfFuel).
Proof.
  split; [|split].
  - intros s u s' H.
    exact (spi_flwait_frame fuel _ _ cfg_write_port_quiet cfg_read_port_quiet
             s u s' H).
  - intros s u s' H.
    exact (dual_flwait_frame fuel _ _ cfg_write_port_quiet cfg_read_port_quiet
             s u s' H).
  - intros Hw Hr s.
    assert (Hcw : forall v,
      total (bind (emit (EvCfgWrite v)) (fun _ => cfg_write_port v))
            (fun _ => True)).
    { intros v. eapply total_bind; [apply total_emit | intros _ _; apply Hw]. }
    assert (Hcr : total (bind cfg_read_port (fun r =>
                    bind (emit (EvCfgRead r)) (fun _ => ret r))) busy).
    { eapply total_bind; [exact Hr|]. intros r Hb.
      eapply total_bind; [apply total_emit|]. intros _ _.
      apply total_ret. exact Hb. }
    assert (Hspin : forall dummy r0 (s1 : TB),
      do_while fuel
        (fun _ : Z => bind (bind (emit (EvCfgWrite dummy))
                                 (fun _ => cfg_write_port dummy))
                           (fun _ => bind cfg_read_port (fun r =>
                              bind (emit (EvCfgRead r)) (fun _ => ret r))))
        (fun r (_ : TB) => (negb (Z.land r 1 =? 0), r)) r0 s1 = OutOfFuel).
    { intros dummy r0 s1. unfold do_while.
      assert (Hbody : forall l : Z,
        total (bind (bind (emit (EvCfgWrite dummy))
                          (fun _ => cfg_write_port dummy))
                    (fun _ => bind cfg_read_port (fun r =>
                       bind (emit (EvCfgRead r)) (fun _ => ret r)))) busy).
      { intros _. eapply total_bind; [apply Hcw | intros _ _; exact Hcr]. }
      eapply bind_total_spins; [apply (Hbody r0)|]. intros r s2 Hb.
      apply (while_spins busy); [| |exact Hb].
      - intros l _ Hl. cbn [fst]. apply negb_true_iff, Z.eqb_neq. exact Hl.
      - intros l. apply (Hbody l). }
    split.
    + unfold Spixpress.flwait, Spixpress.cfg_write, Spixpress.cfg_read, printf.
      eapply bind_total_spins; [apply total_emit|]. intros _ s1 _.
      eapply bind_total_spins; [apply Hcw|]. intros _ s2 _.
      unfold bind at 1. rewrite Hspin. reflexivity.
    + unfold Dualflexpress.flwait, Dualflexpress.cfg_write,
        Dualflexpress.cfg_read, printf.
      eapply bind_total_spins; [apply total_emit|]. intros _ s1 _.
      eapply bind_total_spins; [apply Hcw|]. intros _ s2 _.
      unfold bind at 1. rewrite Hspin. reflexivity.
Qed.

End SequencerFrames.

(** ** The single word write of the drivers *)

Section WriteTest.

Context {Env : Type}.
Variable TESTB_tick : Env -> WbIn -> Env * WbOut.
Variable fuel : nat.
Variable cfg_write_port : Z -> @M Env unit.
Variable cfg_read_port : @M Env Z.
Notation TB := (@TB Env).

Hypothesis cfg_write_port_quiet :
  forall v, returns (extends port_event) (cfg_write_port v).
Hypothesis cfg_read_port_quiet :
  returns (extends port_event) cfg_read_port.

(** A single word read makes no call on the sequencer. *)
Lemma wb_read_quiet a :
  returns (extends port_event) (wb_read TESTB_tick fuel a).
Proof.
  unfold wb_read, read_handshake, read_release, wait_stall, wait_ack,
    drain_stall, set_cyc, set_data_stb, set_ctrl_stb, set_we, set_addr,
    set_data, printf.
  returns_steps (@extends_refl Env port_event) (@extends_trans Env port_event)
    ltac:(first
      [ intros s0 u0 s1 Ht; apply tick_Ok in Ht; destruct Ht as [Es _];
        subst s1; eapply extends_one; [apply TESTB_step_events | exact I]
      | intros s0 u0 s1 Hu; inversion Hu; apply extends_same; reflexivity
      | intros s0 u0 s1 Hu; inversion Hu;
        eapply extends_one; [reflexivity | simpl; discriminate] ]).
Qed.

(** The label [test_failure] is left through [exit] only. *)
Lemma spi_test_failure_leaves {A} (s : TB) (a : A) s' :
  Spixpress.test_failure TESTB_tick s <> Ok a s'.
Proof.
  unfold Spixpress.test_failure. intros H.
  apply bind_Ok_inv in H. destruct H as (u1 & s1 & _ & H).
  apply bind_Ok_inv in H. destruct H as (u2 & s2 & _ & H).
  apply bind_Ok_inv in H. destruct H as (u3 & s3 & _ & H).
  discriminate H.
Qed.

Lemma dual_test_failure_leaves {A} (s : TB) (a : A) s' :
  Dualflexpress.test_failure TESTB_tick s <> Ok a s'.
Proof.
  unfold Dualflexpress.test_failure. intros H.
  apply bind_Ok_inv in H. destruct H as (u1 & s1 & _ & H).
  apply bind_Ok_inv in H. destruct H as (u2 & s2 & _ & H).
  apply bind_Ok_inv in H. destruct H as (u3 & s3 & _ & H).
  discriminate H.
Qed.

(** A request inside one page is one frame. *)
Lemma one_page_payload mode addr ln buf calls t :
  tiles addr calls (addr + ln) ->
  Z.of_nat (List.length calls) = (addr + ln - 1) / 256 - addr / 256 + 1 ->
  (addr + ln - 1) / 256 = addr / 256 ->
  pp_closed t
    (map (fun c => page_payload mode (fst c) (Z.to_nat (fst c - addr))
                                (snd c) buf) calls) ->
  pp_payloads t = [page_payload mode addr 0 ln buf].
Proof.
  intros Ht Hn Hp Hc. rewrite Hp in Hn.
  destruct calls as [|[st l] [|c rest]]; cbn [List.length] in Hn; try lia.
  destruct (tiles_single _ _ _ _ _ Ht eq_refl) as [E1 E2]. subst st.
  unfold pp_payloads. rewrite Hc. cbn [fst snd map].
  rewrite Z.sub_diag. replace l with ln by lia. reflexivity.
Qed.

(** X17.  The single word write of the scenario drivers.  When the single
    write test of spixpress_tb.cpp or of dualflexpress_tb.cpp returns, the
    configuration port has seen exactly one page program frame: the
    address bytes 01 00 00 of the first byte of sector one and the four
    data bytes 12 34 56 78 (in user mode words on the dual I/O bench);
    the fifth byte of the buffer, which the driver leaves unassigned, is
    not sent.  The test returns only after a read of that address that
    delivered 0x12345678. *)
Theorem single_write_test_frame buf4 :
  (forall (s : TB) u s',
     Spixpress.single_write_test TESTB_tick fuel cfg_write_port cfg_read_port
       buf4 s = Ok u s' ->
     exists t s1,
       view cfg_view t s s' /\
       pp_payloads t = [[1; 0; 0; 0x12; 0x34; 0x56; 0x78]] /\
       wb_read TESTB_tick fuel Spixpress.SECTORSZB s1 = Ok 0x12345678 s') /\
  (forall (s : TB) u s',
     Dualflexpress.single_write_test TESTB_tick fuel cfg_write_port
       cfg_read_port buf4 s = Ok u s' ->
     exists t s1,
       view cfg_view t s s' /\
       pp_payloads t =
         [[0x1001; 0x1000; 0x1000; 0x1012; 0x1034; 0x1056; 0x1078]] /\
       wb_read TESTB_tick fuel Dualflexpress.SECTORSZB s1 = Ok 0x12345678 s').
Proof.
  split; intros s u s' H.
  - unfold Spixpress.single_write_test in H.
    apply bind_Ok_inv in H. destruct H as (u0 & s0 & Hp & H).
    apply (view_emit cfg_view) in Hp. cbn [cfg_view is_cfg] in Hp.
    apply bind_Ok_inv in H. destruct H as (u1 & s1 & Hf & H).
    apply (spi_flprogram_payloads TESTB_tick fuel _ _ cfg_write_port_quiet
             cfg_read_port_quiet) in Hf; [|vm_compute; discriminate..].
    destruct Hf as (calls & t & Hv & Ht & Hn & Hc).
    apply bind_Ok_inv in H. destruct H as (rdv & s2 & Hr & H).
    destruct (rdv =? 305419896) eqn:Er; cbn [negb] in H.
    + apply Z.eqb_eq in Er. subst rdv. inversion H; subst s2. clear H.
      exists t, s1. split; [|split; [|exact Hr]].
      * apply wb_read_quiet in Hr.
        apply (view_extends cfg_view _ _ _ port_event_cfg_view) in Hr.
        pose proof (view_trans _ _ _ _ _ _ (view_trans _ _ _ _ _ _ Hp Hv) Hr)
          as Hall.
        rewrite app_nil_r in Hall. exact Hall.
      * rewrite (one_page_payload _ _ _ _ _ _ Ht Hn eq_refl Hc). reflexivity.
    + apply bind_Ok_inv in H. destruct H as (r' & s3 & _ & H).
      apply bind_Ok_inv in H. destruct H as (u3 & s4 & _ & H).
      exfalso. exact (spi_test_failure_leaves _ _ _ H).
  - unfold Dualflexpress.single_write_test in H.
    apply bind_Ok_inv in H. destruct H as (u0 & s0 & Hp & H).
    apply (view_emit cfg_view) in Hp. cbn [cfg_view is_cfg] in Hp.
    apply bind_Ok_inv in H. destruct H as (u1 & s1 & Hf & H).
    apply (dual_flprogram_payloads TESTB_tick fuel _ _ cfg_write_port_quiet
             cfg_read_port_quiet) in Hf; [|vm_compute; discriminate..].
    destruct Hf as (calls & t & Hv & Ht & Hn & Hc).
    apply bind_Ok_inv in H. destruct H as (rdv & s2 & Hr & H).
    destruct (rdv =? 305419896) eqn:Er; cbn [negb] in H.
    + apply Z.eqb_eq in Er. subst rdv. inversion H; subst s2. clear H.
      exists t, s1. split; [|split; [|exact Hr]].
      * apply wb_read_quiet in Hr.
        apply (view_extends cfg_view _ _ _ port_event_cfg_view) in Hr.
        pose proof (view_trans _ _ _ _ _ _ (view_trans _ _ _ _ _ _ Hp Hv) Hr)
          as Hall.
        rewrite app_nil_r in Hall. exact Hall.
      * rewrite (one_page_payload _ _ _ _ _ _ Ht Hn eq_refl Hc). reflexivity.
    + apply bind_Ok_inv in H. destruct H as (r' & s3 & _ & H).
      apply bind_Ok_inv in H. destruct H as (u3 & s4 & _ & H).
      exfalso. exact (dual_test_failure_leaves _ _ _ H).
Qed.

End WriteTest.

(** ** These at work on concrete benches *)

(** X2 at work: the echo device acknowledges the read of byte address 40
    with the word address, 10. *)
Lemma read_returns_acknowledged_data_witness :
  exists s',
    wb_read (echo_slave 1) 4096 40 (bench_on None) = Ok 10 s' /\
    m_bomb s' = false /\
    exists newer i o older,
      events s' = newer ++ EvTick i o :: older ++
                  events (bench_on (Env:=option (nat * Z)) None) /\
      read_cycle_clock 40 i /\
      o_wb_ack o = true /\ o_wb_data o = 10 /\
      Forall off_cycle newer.
Proof.
  eexists. split; [vm_compute; reflexivity|].
  split; [vm_compute; reflexivity|].
  refine (read_returns_acknowledged_data (echo_slave 1) 4096 40
            (bench_on None) 10 _ (or_introl _) _); vm_compute; reflexivity.
Defined.

(** X5 at work: a write of 7 to byte address 40 of the echo device. *)
Lemma single_transfer_taken_once_witness :
  exists s',
    wb_write (echo_slave 1) 4096 40 7 (bench_on None) = Ok tt s' /\
    exists new,
      events s' = new ++ events (bench_on (Env:=option (nat * Z)) None) /\
      0 <= requests_taken idle_out (rev new) <= 1 /\
      (m_bomb s' = false -> requests_taken idle_out (rev new) = 1).
Proof.
  eexists. split; [vm_compute; reflexivity|].
  refine (single_transfer_taken_once (echo_slave 1) 4096 40 7
            (bench_on None) _ (or_intror _)).
  vm_compute. reflexivity.
Defined.

(** X6 at work: the device that only stalls. *)
Lemma transfers_hang_on_stall_witness :
  wb_read stuck_dut 64 0 (bench_on tt) = OutOfFuel /\
  wb_write_burst stuck_dut 64 0 1 [5] 1 (bench_on tt) = OutOfFuel.
Proof.
  pose proof (transfers_hang_on_stall stuck_dut 64
                (fun e i => conj eq_refl eq_refl)) as (H1 & _ & _ & _ & H5).
  split; [apply H1 | apply H5].
Defined.

(** X7 at work: one word from the pipelined device, with the fuel of two
    budgets. *)
Lemma burst_read_ends_in_budget_witness :
  exists buf' s',
    wb_read_burst pipe_slave 4096 0 1 [9] 1 (bench_on [None; None])
      = Ok buf' s' /\
    wb_read_burst pipe_slave 4096 0 1 [9] 1 (bench_on [None; None])
      <> OutOfFuel /\
    ticks_in (events s') <=
      ticks_in (events (bench_on (Env:=list (option Z)) [None; None]))
      + BOMBCOUNT * (1 + 1) + 2.
Proof.
  eexists. eexists. split; [vm_compute; reflexivity|].
  refine (match burst_read_ends_in_budget pipe_slave 4096 0 1 [9] 1
                  (bench_on [None; None]) _ _ _ with
          | conj Hn Hb => conj Hn (Hb _ _ _)
          end); try (vm_compute; discriminate).
  vm_compute. reflexivity.
Defined.

(** X8 at work: a burst read of no word, from a device that is silent. *)
Lemma burst_read_of_nothing_bombs_witness :
  exists s',
    wb_read_burst quiet_dut 16 0 0 [] 1 (bench_on tt) = Ok [] s' /\
    m_bomb s' = true.
Proof.
  eexists. split; [vm_compute; reflexivity|].
  refine (burst_read_of_nothing_bombs quiet_dut 16 0 0 [] 1 (bench_on tt)
            [] _ _ _); [lia | vm_compute; reflexivity].
Defined.


(** X10 at work: two words to a device that stalls the second for a clock
    and is late with its second acknowledgement. *)
Lemma burst_write_presents_witness :
  exists s',
    wb_write_burst scripted 4096 8 2 [5; 6] 1
      (bench_on [mkWbOut true false 0; mkWbOut false false 0;
                 mkWbOut false true 0; mkWbOut false false 0;
                 mkWbOut false true 0]) = Ok tt s' /\
    writes_presented (rev (events s')) =
      [(2, 5); (3, 6); (3, 6); (4, 6); (4, 6)] /\
    exists new reps m,
      events s' = new ++ [] /\
      List.length reps = Z.to_nat 2 /\
      Forall (fun r => (1 <= r <= Z.to_nat BOMBCOUNT + 1)%nat) reps /\
      writes_presented (rev new) =
        posted_run 8 1 [5; 6] 0 reps ++
        repeat (wrap32 (Z.shiftr 8 2 + 2 * 1), nth (Z.to_nat 2 - 1) [5; 6] 0) m.
Proof.
  eexists. split; [vm_compute; reflexivity|].
  split; [vm_compute; reflexivity|].
  refine (burst_write_presents scripted 4096 8 2 [5; 6] 1
            (bench_on [mkWbOut true false 0; mkWbOut false false 0;
                       mkWbOut false true 0; mkWbOut false false 0;
                       mkWbOut false true 0]) tt _ _ _ _);
    [lia | lia | vm_compute; reflexivity].
Defined.

(** X11 at work: a burst write of no word to a device that is silent. *)
Lemma burst_write_of_nothing_witness :
  exists s',
    wb_write_burst quiet_dut 16 64 0 [] 1 (bench_on tt) = Ok tt s' /\
    ticks_in (events s') = 1 /\
    m_bomb s' = m_bomb (bench_on tt) /\
    exists new,
      events s' = new ++ events (bench_on tt) /\ Forall off_cycle new.
Proof.
  eexists. split; [vm_compute; reflexivity|].
  split; [vm_compute; reflexivity|].
  refine (burst_write_of_nothing quiet_dut 16 64 [] 1 (bench_on tt) tt _ _).
  vm_compute. reflexivity.
Defined.

(** X12 at work: a write of 7 to byte address 40 of a device that stalls
    it for two clocks. *)
Lemma single_write_presents_witness :
  exists s',
    wb_write scripted 4096 40 7
      (bench_stalled [mkWbOut true false 0; mkWbOut false false 0;
                      mkWbOut false false 0; mkWbOut false true 0])
      = Ok tt s' /\
    writes_presented (rev (events s')) = [(10, 7); (10, 7); (10, 7)] /\
    exists new r,
      events s' = new ++ [] /\
      (1 <= r <= Z.to_nat BOMBCOUNT + 1)%nat /\
      writes_presented (rev new) = repeat (Z.shiftr 40 2, 7) r.
Proof.
  eexists. split; [vm_compute; reflexivity|].
  split; [vm_compute; reflexivity|].
  refine (single_write_presents scripted 4096 40 7
            (bench_stalled [mkWbOut true false 0; mkWbOut false false 0;
                            mkWbOut false false 0; mkWbOut false true 0])
            tt _ _).
  vm_compute. reflexivity.
Defined.

(** X13 at work: two bytes for address 0x123456, the second with a bit
    set above the low byte. *)
Lemma flpage_program_frame_witness :
  exists s',
    Spixpress.flpage_program quiet_dut 16 null_write_port (null_read_port 0)
      0x123456 2 [0xab; 0x1cd] (bench_on tt) = Ok tt s' /\
    page_frame 0 0x123456 0 2 [0xab; 0x1cd] =
      [EvCfgWrite 0x1100; EvCfgWrite 0x1006; EvCfgWrite 0x1100;
       EvCfgWrite 0x1002; EvCfgWrite 0x12; EvCfgWrite 0x34; EvCfgWrite 0x56;
       EvCfgWrite 0xab; EvCfgWrite 0xcd; EvCfgWrite 0x1100] /\
    exists rs1 rs2,
      view cfg_view
        (wait_frame 0 rs1 ++ page_frame 0 0x123456 0 2 [0xab; 0x1cd] ++
         wait_frame 0 rs2) (bench_on tt) s' /\
      polled rs1 /\ polled rs2.
Proof.
  eexists. split; [vm_compute; reflexivity|].
  split; [vm_compute; reflexivity|].
  refine (proj1 (flpage_program_frame quiet_dut 16
                   null_write_port (null_read_port 0)
                   null_write_port_quiet (null_read_port_quiet 0)
                   0x123456 2 [0xab; 0x1cd])
                (bench_on tt) tt _ _).
  vm_compute. reflexivity.
Defined.

(** X14 at work: four bytes from 254, two at the end of page 0 and two at
    the start of page 1, on the dual I/O bench. *)
Lemma flprogram_programs_buffer_witness :
  exists s',
    Dualflexpress.flprogram quiet_dut 16 null_write_port (null_read_port 0)
      254 4 [0x11; 0x122; 0x33; 0x44] (bench_on tt) = Ok tt s' /\
    pp_payloads (flat_map cfg_view (rev (events s'))) =
      [[0x1000; 0x1000; 0x10fe; 0x1011; 0x1022];
       [0x1000; 0x1001; 0x1000; 0x1033; 0x1044]] /\
    exists calls t,
      view cfg_view t (bench_on tt) s' /\ tiles 254 calls (254 + 4) /\
      pp_payloads t =
        map (fun c => page_payload Dualflexpress.CFG_USERMODE (fst c)
                        (Z.to_nat (fst c - 254)) (snd c)
                        [0x11; 0x122; 0x33; 0x44]) calls /\
      flat_map (skipn 3) (pp_payloads t) =
        page_data Dualflexpress.CFG_USERMODE 0 4 [0x11; 0x122; 0x33; 0x44].
Proof.
  eexists. split; [vm_compute; reflexivity|].
  split; [vm_compute; reflexivity|].
  refine (proj2 (flprogram_programs_buffer quiet_dut 16
                   null_write_port (null_read_port 0)
                   null_write_port_quiet (null_read_port_quiet 0)
                   254 4 [0x11; 0x122; 0x33; 0x44] _ _ _)
                (bench_on tt) tt _ _); try lia.
  vm_compute. reflexivity.
Defined.

(** X15 at work: a request of no byte at address 100, on the single SPI
    bench. *)
Lemma flprogram_of_nothing_witness :
  exists s',
    Spixpress.flprogram quiet_dut 16 null_write_port (null_read_port 0)
      100 0 [] (bench_on tt) = Ok tt s' /\
    view page_view [] (bench_on tt) s' /\
    exists rs, view cfg_view (wait_frame 0 rs) (bench_on tt) s' /\ polled rs.
Proof.
  eexists. split; [vm_compute; reflexivity|].
  refine (proj1 (flprogram_of_nothing quiet_dut 16
                   null_write_port (null_read_port 0)
                   null_write_port_quiet (null_read_port_quiet 0)
                   100 0 [] _ _ _)
                (bench_on tt) tt _ _); try lia.
  vm_compute. reflexivity.
Defined.

(** X16 at work: a port that reads the busy bit set every time. *)
Lemma flwait_polls_until_ready_witness :
  Spixpress.flwait 64 null_write_port (null_read_port 1) (bench_on tt)
    = OutOfFuel /\
  Dualflexpress.flwait 64 null_write_port (null_read_port 1) (bench_on tt)
    = OutOfFuel.
Proof.
  refine (proj2 (proj2 (flwait_polls_until_ready 64
                          null_write_port (null_read_port 1)
                          null_write_port_quiet (null_read_port_quiet 1)))
                _ _ (bench_on tt)).
  - intros v s. exists tt, s. split; [reflexivity | exact I].
  - intros s. exists 1, s. split; [reflexivity | discriminate].
Defined.

(** X17 at work: the single SPI driver on a device that answers the read
    with the word written; the fifth byte of the buffer is 0x99. *)
Lemma single_write_test_frame_witness :
  exists s',
    Spixpress.single_write_test scripted 64 null_write_port (null_read_port 0)
      0x99
      (bench_on [idle_out; idle_out; idle_out; idle_out;
                 mkWbOut false true 0x12345678]) = Ok tt s' /\
    exists t s1,
      view cfg_view t
        (bench_on [idle_out; idle_out; idle_out; idle_out;
                   mkWbOut false true 0x12345678]) s' /\
      pp_payloads t = [[1; 0; 0; 0x12; 0x34; 0x56; 0x78]] /\
      wb_read scripted 64 Spixpress.SECTORSZB s1 = Ok 0x12345678 s'.
Proof.
  eexists. split; [vm_compute; reflexivity|].
  refine (proj1 (single_write_test_frame scripted 64
                   null_write_port (null_read_port 0)
                   null_write_port_quiet (null_read_port_quiet 0) 0x99)
                (bench_on [idle_out; idle_out; idle_out; idle_out;
                           mkWbOut false true 0x12345678]) tt _ _).
  vm_compute. reflexivity.
Defined.
